(* ===== verification/_CoqProject ===== *)
-Q . S2P
Prelude.v
JsString.v
JsNumber.v
Random.v
JsValue.v
Json.v
JsonFuel.v
Base64.v
Storage.v
Badges.v
Profile.v
Favorites.v
Survey.v
SurveyView.v
SurveyPage.v
Auth.v
History.v
Session.v
Dashboard.v
ProfileView.v
Api.v
Forum.v
HelpBot.v
Compare.v
Feedback.v
DetailModal.v
AuthForm.v
AuthClean.v
DashboardView.v
AppShell.v
