(* ===== verification/Prelude.v ===== *)
(** * Careersync: a verification development of the client-side engine

    The repository (src/src/*.jsx, src/src/api.js) is a React single-page
    application.  All of its persistent state lives in the browser's
    [localStorage], a map from string keys to string values, and every
    structured record is written with [JSON.stringify] and read back with
    [JSON.parse].  The derived state the user sees (badges, favourites,
    survey history, the session lifecycle, the survey wizard) is a set of
    pure functions and event handlers over that store.  This development
    is a shallow embedding of that engine: every handler is a Rocq
    function from the handler's inputs (the store, the form state, the
    outcome of the network call) to its outputs, with JavaScript
    exceptions as values of the [throws] type defined below.

    ** Files, in dependency order

    - [Prelude] (this file): the exception monad [throws] with its
      notation [x <- c ;; k] in [js_scope], the hint databases [csync] and [csync_simpl], the
      development's tactics and the generic lemmas on lists, strings and
      options that the components share.
    - [JsString]: the [String.prototype] methods the code calls
      ([trim], [split] on a one-character separator, [Array.prototype.join],
      [filter(Boolean)] on strings), with the split/join round trip.
    - [JsNumber]: JavaScript numbers restricted to finite decimals, their
      [Number.prototype.toString] rendering, the abstract relation [>=]
      with NaN, and [parseInt(s, 10)].
    - [Random]: [getRandomInt] of src/src/Auth.jsx over the doubles
      [Math.random] may return ([m * 2^-e], [m < 2^53]), with the
      binary64 product rounded to nearest-even at 53 bits and
      [Math.floor]; every draw is within the range, and every value of a
      small range is drawn.
    - [JsValue]: JavaScript values ([jsval]), property access with
      optional chaining and its [TypeError] on [null]/[undefined],
      strict equality, truthiness, [String(v)] and the array methods
      the code calls on parsed values ([filter], [some], [map], [push])
      with the [TypeError] they raise on non-arrays.
    - [Json]: [JSON.stringify] and [JSON.parse] on [jsval], and the round
      trip [JSON.parse (JSON.stringify v) = jnorm v], with the normal form a
      well-formed fixed point.
    - [JsonFuel]: the fuel of [JSON.parse] never changes its outcome.
    - [Storage]: [localStorage] as a [gmap string string], its
      [getItem]/[setItem]/[removeItem], and the idiom
      [JSON.parse(localStorage.getItem(k) || d)] used by every reader.
    - [Badges]: [getEarnedBadges] of src/src/BadgeDisplay.jsx.
    - [Profile]: [initialProfile], [handleChange], [handleSave] and
      [handleAvatarChange] of src/src/Profile.jsx, over one shared
      ["profile"] slot and a per-user ["avatar_" + userId] slot.
    - [Favorites]: [handleFavorite] and the favourite loader of
      src/src/Dashboard.jsx, refined against an abstract set of
      (user, career) pairs.
    - [Survey]: [validate], [currentStep], the payload normalisation and
      [handleSubmit] of src/src/SurveyForm.jsx, with [predictCareer] of
      api.js as a parameter.
    - [SurveyView]: the render of src/src/SurveyForm.jsx: the progress
      bar, the stepper, the inputs, the education options, the error.
    - [SurveyPage]: the survey form as the browser runs it: the [async]
      [handleSubmit] split at its [await], with the requests out and the
      form each was built from.
    - [Auth]: the captcha and [handleSubmit] of src/src/Auth.jsx, with the
      server calls [login]/[signup] as parameters and the doubles of
      [Math.random] as inputs, and [handleSubmit] of the captcha-free
      src/src/Auth_clean.jsx, which Auth.jsx refines.
    - [History]: the loader and the row rendering of src/src/SurveyHistory.jsx.
    - [Base64]: the browser's [atob] (forgiving decode) and [btoa], with
      their round trip.
    - [Session]: the token decoding and the page / timer state machine of
      src/src/App.jsx: a state [app] (the React state plus the pending
      timers, a clock and the number of survey requests out), an event
      type (login, logout, a survey submit, the answer or failure of a
      request out, the navigation clicks, the dark-mode toggle, a timer
      firing, time passing), [step] and its reachability relation.
    - [Dashboard]: the export text of [handleCopy]/[handleDownload], the
      roadmap checklist [handleCheck], the shown score and the avatar
      initial of src/src/Dashboard.jsx.
    - [ProfileView]: the render of src/src/Profile.jsx, with its early
      return for a missing user.
    - [Api]: the five request wrappers of src/src/api.js as the requests
      they hand to axios, the base URL, the urlencoded serialisation of
      the login form with the parser a server applies to it, and the
      class [Api.Server] through which a caller sees the server.
    - [Forum]: the mount effect, [handlePost] and the render of
      src/src/Forum.jsx, with a typing judgement on its state ([prim_ty],
      [post_ty], [forum_ty]) and its progress and preservation.
    - [HelpBot]: src/src/FloatingHelpButton.jsx as a step relation over
      its state, a clock and the queue of 600 ms reply timers.
    - [Compare]: [handleSelect], the table and the render of
      src/src/CareerCompare.jsx, with the relation [same_titles] and
      [Proper] instances for the table and the page.
    - [Feedback]: [handleSubmit] of src/src/FeedbackForm.jsx against
      [Api.Server], and the form as a step relation with its [await].
    - [AuthForm]: the page of src/src/Auth.jsx as the browser runs it: a
      step relation over the form and the request in flight (the values
      the [async] handler closed over), with the inputs' value
      sanitisation, the inputs each mode renders, the [required]
      captcha, the constraint validation the browser runs before
      [onSubmit] (the step of a number input, a valid e-mail address)
      and the disabled submit button, and the page's render
      ([AuthForm.view]).
    - [AuthClean]: the page of src/src/Auth_clean.jsx, built the same
      way, its render, and the simulation of this page by the page of
      Auth.jsx once its captcha is out of the way.
    - [DashboardView]: the state, mount effect and render of
      src/src/Dashboard.jsx around the handlers of [Dashboard] and
      [Favorites].
    - [AppShell]: App.jsx composed with the children it mounts: App's
      state machine [Session], the mounted Auth page [AuthForm] and the
      survey page (the handlers of [SurveyPage]), mounted and unmounted
      as the page changes, the requests they sent, which outlive them
      and carry the token and user id of the render that sent them, and
      the one [localStorage] all of them write.
    - [DetailModal]: src/src/CareerDetailModal.jsx with JavaScript's
      prototype lookup on its [details] object, and the [showDetail]
      state of the dashboard that opens it.

    App.jsx mounts the help button and the dashboard opens the modal;
    the forum, the comparison page and the feedback form are imported
    nowhere (App.jsx comments them out), and are modelled as written.

    The components meet in the store: the survey appends to
    ["surveyHistory"], which the history page and the badges read; the
    dashboard writes ["favorites"], which the badges read; signup writes
    ["profile"], which the profile page reads; App.jsx writes ["token"].
    [Storage] states the store's laws as a class [WebStorageLaws], and the
    components' theorems are proved against that class.

    ** Theorem groups

    - Survey and history: a valid submission appends exactly one record,
      carrying the user, the normalised form and the server's careers, and
      the history page then shows it as the last row of that user; an
      unreadable history is replaced, and server errors show the
      server's message.  [validate] agrees with [currentStep].
    - Badges: each badge is earned exactly at its threshold; malformed
      stored data removes badges but never throws.
    - Favourites: toggling twice restores the user's favourites, other
      users' entries are untouched, and the list has no duplicates.
    - Session: every reachable state keeps the stored token equal to the
      held one, with exactly one session timer pending, due within 30
      minutes, while a token is held, and none otherwise; a login is logged
      out, with the expiry notice, exactly 30 minutes later unless
      the user logs out first; the user id is the [sub] of the token's
      payload.  An answer that arrives less than 1200 ms before the
      expiry is shown on the dashboard after it, to the logged-out user.
    - Auth: a wrong captcha blocks the login and draws a new one; past the
      captcha the handler is the one of Auth_clean.jsx; a signup stores
      the profile the profile page shows.  On the page no second request
      can be sent while one is out, and edits made meanwhile do not reach the
      stored profile.  Every captcha a reachable page holds has operands
      from 1 to 10, so a login is sent only for an answer from 2 to 20.
    - Composition: every run of the composed page is a run of App's
      state machine, so the session theorems hold of the whole
      application; App counts exactly the survey requests out and the
      children are mounted exactly on their pages; an answer goes to
      whoever holds the page when it arrives: the history files it under
      the user who sent it, while the current session's dashboard,
      another user's or a logged-out one, shows its result.
    - Overlapping requests: the survey's and the feedback's buttons stay
      enabled while their request is out; two clicks on a valid survey
      send it twice and leave two history records of one survey, which
      the dashboard then counts as two, and text typed while a
      suggestion is sent is erased.
    - Termination: [JSON.parse] accepts a text exactly when the
      recursive-descent parser does with some fuel, so the fuel the model
      gives it never cuts a parse short.
    - Typing: a typing judgement on the forum's state ([Forum.forum_ty]:
      posts are objects whose author, date and text are primitive
      values) with progress (a typed forum renders without an
      exception) and preservation (posting never throws and yields a
      typed forum).
    - Refinement between pages: every step of the Auth.jsx page other
      than the captcha's own and a rejected login is the corresponding
      step of the Auth_clean.jsx page, with the same store and token;
      both render the same form.
    - Renders: the survey's progress bar is [20 * (currentStep + 1)] per
      cent and empty exactly when the form is complete; the comparison
      page depends only on how often each career was clicked, and its
      highlighted buttons are its table; editing a new profile and
      coming back shows the edit.
    - Composition: on a readable store the dashboard's survey count, the
      badge engine's and the history view's agree; any unreadable
      favourites slot crashes the dashboard and costs every badge, while
      the history view still shows every survey.
    - Bounds: the session timer is always due within the next 30 minutes
      while a token is held, every pending chat reply within 600 ms, and
      the survey's progress bar stays within 0 and 100 per cent.
    - Profile and dashboard: the shown profile always belongs to the
      user, a save is read back, and the export follows the specified
      format.
    - API client: a login's credentials reach the server intact, whatever
      characters they hold; the prediction request carries exactly the
      survey's payload with the session's bearer token.
    - Help chat: in every reachable state the bot's replies answer the
      user's messages in order, with the others pending; 600 ms of quiet
      answer them all.
    - Forum, comparison, feedback, modal: a post is stored newest first
      and read back; the comparison table depends only on how often each
      career was clicked; a failed feedback is silent; a career named
      like an [Object.prototype] member shows blank details.
    - Findings, as examples: the exported score ignores [match_score], a
      numeric [sub] breaks the avatar of the dashboard and of the profile
      page, a stored profile field holding an object crashes the profile
      page, URL-safe tokens are rejected, the captcha accepts an integer
      in exponent notation such as [7e3] for 7, a second user sees a
      blank profile, the submit button's label follows the mode, not the
      request in flight, and a survey sent by one user whose answer
      arrives after another user signed in shows its careers on the
      second user's dashboard ([AppShell.answer_reaches_current_user]).

    ** Bounds and fuel

    [JSON.parse] is a fuelled recursive-descent parser; [parse] gives it
    [length s + 1].  A parse that consumes [k] characters needs at most
    [k] units (one per value, one more per element or member), so every
    fuel above the input length gives the same outcome
    ([JsonFuel.parse_fuel_stable]) and [parse] accepts exactly what the
    parser accepts with some fuel ([JsonFuel.parse_accepts_iff]): the
    bound is not an assumption of the results.  Times
    are integers ([Z]) of milliseconds: the session timer is
    [30 * 60 * 1000] and the loading timer [1200], as in App.jsx, and
    the help chat's reply timer [600], as in FloatingHelpButton.jsx.  Numbers
    are finite decimals ([Dec m s], the value m / 10^s), which covers every number the code
    reads or prints; the one floating-point computation whose rounding
    matters, [Math.random() * (max - min + 1)], is modelled bit-exactly
    in [Random] (binary64, 53-bit significand, ties to even).

    ** What is not modelled

    Styling (CSS classes, inline styles, animations) and the DOM: a
    render is modelled as the values it shows (texts, inputs and their
    values, labels, what is highlighted or disabled), computed as React
    computes them.  The browser event loop beyond the order of the calls
    inside one handler, the timers of App.jsx and the interleaving of the
    page's events and answers in [AppShell], and the
    remote API, whose replies are inputs of the handlers or the
    [Api.Server] class; axios itself is modelled only by the URL it
    builds and the body text it sends.  The
    clipboard, [Blob] downloads, [FileReader] and the
    2-second message resets are outside the model.  JavaScript strings
    are modelled as Rocq strings of 8-bit characters.  In the composed
    page, an [access_token] that is not a string (App keeps the token as
    a string) stops the run, and Dashboard, Profile, the forum and the
    help button are composed with App through the shared store only,
    each verified as its own component.  [Session.step] takes a [Login]
    whatever the page: App only receives one from a mounted Auth page or
    a request it sent, which [AppShell] models.  Two JavaScript
    exceptions are left out: [Array(n)] for a negative or fractional
    roadmap length ([RangeError]; [Dashboard.initial_checked] gives no
    boxes) and a number input holding a number too large for a double,
    which the model takes as valid. *)

From stdpp Require Export base list gmap strings.
From Stdlib Require Export Ascii ZArith Lia.

(** stdpp makes [String.append] opaque to [simpl]; the proofs here want
    it to compute on constructors. *)
#[global] Arguments String.append : simpl nomatch.

Declare Scope js_scope.
Delimit Scope js_scope with js.

(** ** The exception monad

    A JavaScript computation either returns a value or throws.  The
    thrown value's type is a parameter; [JsValue] fixes it. *)

Inductive throws (E A : Type) : Type :=
| Ok (a : A)
| Throw (e : E).
Arguments Ok {E A} a.
Arguments Throw {E A} e.

(** [x <- c ;; k]: run [c]; if it throws, propagate the exception,
    otherwise continue with its value. *)
Notation "x <- c ;; k" :=
  (match c with Ok x => k | Throw e => Throw e end)
  (at level 60, c at next level, right associativity) : js_scope.
Local Open Scope js_scope.

(** [try { c } catch (e) { h(e) }] *)
Definition try_catch {E A} (c : throws E A) (h : E -> A) : A :=
  match c with Ok a => a | Throw e => h e end.

Create HintDb csync discriminated.
Create Rewrite HintDb csync_simpl.

Section ThrowsLemmas.
Context {E A B : Type}.

Lemma bind_Ok_inv (c : throws E A) (f : A -> throws E B) (b : B) :
  (x <- c ;; f x) = Ok b -> exists a, c = Ok a /\ f a = Ok b.
Proof. destruct c; simpl; [eauto | discriminate]. Qed.

Lemma try_catch_Ok (a : A) (h : E -> A) : try_catch (Ok a) h = a.
Proof. reflexivity. Qed.

Lemma try_catch_Throw (e : E) (h : E -> A) : try_catch (Throw e) h = h e.
Proof. reflexivity. Qed.
End ThrowsLemmas.

#[export] Hint Rewrite @try_catch_Ok @try_catch_Throw : csync_simpl.

(** ** Tactics *)

(** Case on the innermost [match] or [if] of the goal, keeping its equation. *)
Ltac case_goal :=
  match goal with
  | |- context [match ?x with _ => _ end] =>
      let E := fresh "E" in destruct x eqn:E
  end.

Ltac simpl_js := repeat (autorewrite with csync_simpl in *; simpl in *).

(** ** Generic lemmas on lists *)

Section ListLemmas.
Context {A : Type}.

Lemma length_filter_app (p : A -> bool) (l1 l2 : list A) :
  length (List.filter p (l1 ++ l2)) =
    length (List.filter p l1) + length (List.filter p l2).
Proof. by rewrite List.filter_app, length_app. Qed.

Lemma filter_snoc_true (p : A -> bool) (l : list A) (x : A) :
  p x = true -> List.filter p (l ++ [x]) = List.filter p l ++ [x].
Proof. intros Hx. rewrite List.filter_app. simpl. by rewrite Hx. Qed.

Lemma filter_snoc_false (p : A -> bool) (l : list A) (x : A) :
  p x = false -> List.filter p (l ++ [x]) = List.filter p l.
Proof. intros Hx. rewrite List.filter_app. simpl. rewrite Hx. apply app_nil_r. Qed.

Lemma filter_nil_iff (p : A -> bool) (l : list A) :
  List.filter p l = [] <-> Forall (fun x => p x = false) l.
Proof.
  induction l as [|x l IH]; simpl; [split; auto|].
  destruct (p x) eqn:Hx; split; intros H.
  - discriminate.
  - inv H. congruence.
  - constructor; [done | by apply IH].
  - inv H. by apply IH.
Qed.

Lemma existsb_filter_nonempty (p : A -> bool) (l : list A) :
  existsb p l = negb (Nat.eqb (length (List.filter p l)) 0).
Proof. induction l as [|x l IH]; simpl; [done|]. by destruct (p x). Qed.

Lemma Forall_list_filter (P : A -> Prop) (f : A -> bool) (l : list A) :
  Forall P l -> Forall P (List.filter f l).
Proof. induction 1 as [|x l Hx _ IH]; simpl; [constructor|]. destruct (f x); auto. Qed.

(** Induction by groups of three elements, for the codecs that consume
    three bytes at a time. *)
Lemma list_ind3 (P : list A -> Prop) :
  P [] -> (forall x, P [x]) -> (forall x y, P [x; y]) ->
  (forall x y z r, P r -> P (x :: y :: z :: r)) -> forall l, P l.
Proof.
  intros H0 H1 H2 H3. fix IH 1.
  intros [|x [|y [|z r]]]; [apply H0 | apply H1 | apply H2 | apply H3, IH].
Qed.
End ListLemmas.

#[export] Hint Rewrite @length_filter_app : csync_simpl.

(** ** Generic lemmas on strings *)

Lemma string_app_nil_r (s : string) : s +:+ EmptyString = s.
Proof. induction s as [|c s IH]; simpl; [done|]. by rewrite IH. Qed.

Lemma string_app_assoc (s t u : string) : s +:+ (t +:+ u) = (s +:+ t) +:+ u.
Proof. induction s as [|c s IH]; simpl; [done|]. by rewrite IH. Qed.

Lemma string_length_app (s t : string) :
  String.length (s +:+ t) = String.length s + String.length t.
Proof. induction s as [|c s IH]; simpl; [done|]. by rewrite IH. Qed.

#[export] Hint Rewrite string_app_nil_r string_length_app : csync_simpl.
