(* ===== verification/JsString.v ===== *)
(** * JavaScript string operations used by the survey and export code

    [String.prototype.trim], [String.prototype.split] with a one-character
    separator, [Array.prototype.join] on arrays of strings, string
    truthiness and the [.filter(Boolean)] idiom, over 8-bit strings.
    The main facts: the split/join round trip in both directions,
    idempotence of [trim], and the shape of the normalised lists that
    [SurveyForm.jsx] sends (trimmed, non-empty, separator-free). *)

From S2P Require Import Prelude.

Module JsString.

(** ECMAScript WhiteSpace and LineTerminator code points below 256:
    TAB, LF, VT, FF, CR, SPACE and NO-BREAK SPACE. *)
Definition is_ws (c : ascii) : bool :=
  match c with
  | "009" | "010" | "011" | "012" | "013" | " " | "160" => true
  | _ => false
  end%char.

Definition is_empty (s : string) : bool :=
  match s with EmptyString => true | _ => false end.

(** A string is truthy iff it is not empty. *)
Definition truthy (s : string) : bool := negb (is_empty s).

Fixpoint trim_start (s : string) : string :=
  match s with
  | EmptyString => EmptyString
  | String c s' => if is_ws c then trim_start s' else s
  end.

Fixpoint trim_end (s : string) : string :=
  match s with
  | EmptyString => EmptyString
  | String c s' =>
      let r := trim_end s' in
      if is_ws c && is_empty r then EmptyString else String c r
  end.

(** [s.trim()] *)
Definition trim (s : string) : string := trim_end (trim_start s).

(** [c] occurs in [s] *)
Fixpoint has_char (c : ascii) (s : string) : bool :=
  match s with
  | EmptyString => false
  | String d s' => Ascii.eqb d c || has_char c s'
  end.

(** [s.split(sep)] for a one-character separator: the empty string
    splits to the one-piece list of the empty string, and consecutive separators give empty pieces. *)
Fixpoint split (sep : ascii) (s : string) : list string :=
  match s with
  | EmptyString => [EmptyString]
  | String c s' =>
      let rest := split sep s' in
      if Ascii.eqb c sep then EmptyString :: rest
      else match rest with
           | r :: rs => String c r :: rs
           | [] => [String c EmptyString]
           end
  end.

(** [l.join(sep)] on an array of strings. *)
Fixpoint join (sep : string) (l : list string) : string :=
  match l with
  | [] => EmptyString
  | [x] => x
  | x :: l' => x +:+ sep +:+ join sep l'
  end.

(** [s.split(sep).map(s => s.trim()).filter(Boolean)] *)
Definition split_trim_filter (sep : ascii) (s : string) : list string :=
  List.filter truthy (List.map trim (split sep s)).

(** ** Lemmas *)

Lemma append_String (c : ascii) (s t : string) :
  String c s +:+ t = String c (s +:+ t).
Proof. reflexivity. Qed.

Lemma append_Empty (t : string) : EmptyString +:+ t = t.
Proof. reflexivity. Qed.

#[export] Hint Rewrite append_String append_Empty : csync_simpl.

Lemma split_not_nil sep s : split sep s <> [].
Proof.
  induction s as [|c s IH]; simpl; [done|].
  destruct (Ascii.eqb c sep); [done|]. by destruct (split sep s).
Qed.

(** Joining the pieces with the separator gives the string back. *)
Lemma join_split (sep : ascii) (s : string) :
  join (String sep EmptyString) (split sep s) = s.
Proof.
  induction s as [|c s IH]; simpl; [done|].
  destruct (Ascii.eqb_spec c sep) as [->|Hne].
  - destruct (split sep s) as [|r rs] eqn:E; [by apply split_not_nil in E|].
    simpl. rewrite <- IH. reflexivity.
  - destruct (split sep s) as [|r [|r' rs]] eqn:E;
      [by apply split_not_nil in E | simpl in *; by subst |].
    simpl in *. rewrite <- IH. reflexivity.
Qed.

Lemma split_no_sep (sep : ascii) (s : string) :
  Forall (fun p => has_char sep p = false) (split sep s).
Proof.
  induction s as [|c s IH]; simpl; [by repeat constructor|].
  destruct (Ascii.eqb_spec c sep) as [->|Hne]; [by constructor|].
  destruct (split sep s) as [|r rs] eqn:E; [by apply split_not_nil in E|].
  inv IH. constructor; [|done]. simpl.
  by rewrite (proj2 (Ascii.eqb_neq c sep) Hne).
Qed.

Lemma split_app_sep (sep : ascii) (x t : string) :
  has_char sep x = false ->
  split sep (x +:+ String sep t) = x :: split sep t.
Proof.
  induction x as [|c x IH]; simpl; intros Hx.
  - by rewrite Ascii.eqb_refl.
  - apply orb_false_iff in Hx as [Hc Hx]. rewrite Hc, IH by done. done.
Qed.

Lemma split_no_sep_single (sep : ascii) (x : string) :
  has_char sep x = false -> split sep x = [x].
Proof.
  induction x as [|c x IH]; simpl; intros Hx; [done|].
  apply orb_false_iff in Hx as [Hc Hx]. by rewrite Hc, IH.
Qed.

(** Splitting a join of separator-free pieces gives the pieces back. *)
Lemma split_join (sep : ascii) (l : list string) :
  l <> [] -> Forall (fun p => has_char sep p = false) l ->
  split sep (join (String sep EmptyString) l) = l.
Proof.
  induction l as [|x [|y l] IH]; intros Hne Hl; [done| |].
  - inv Hl. simpl. by apply split_no_sep_single.
  - inv Hl. change (join _ (x :: y :: l))
      with (x +:+ String sep EmptyString +:+ join (String sep EmptyString) (y :: l)).
    replace (x +:+ String sep EmptyString +:+ join (String sep EmptyString) (y :: l))
      with (x +:+ String sep (join (String sep EmptyString) (y :: l))) by done.
    rewrite split_app_sep by done. f_equal. by apply IH.
Qed.

Lemma trim_start_fix (s : string) :
  (forall c s', s = String c s' -> is_ws c = false) -> trim_start s = s.
Proof. destruct s as [|c s]; simpl; [done|]. intros H. by rewrite (H c s). Qed.

Lemma trim_end_idem (s : string) : trim_end (trim_end s) = trim_end s.
Proof.
  induction s as [|c s IH]; simpl; [done|].
  destruct (is_ws c && is_empty (trim_end s)) eqn:E; simpl; [done|].
  by rewrite IH, E.
Qed.

Lemma trim_end_head (c : ascii) (s : string) :
  is_ws c = false -> exists r, trim_end (String c s) = String c r.
Proof. intros Hc. simpl. rewrite Hc. simpl. eauto. Qed.

Lemma trim_start_head (s : string) :
  forall c s', trim_start s = String c s' -> is_ws c = false.
Proof.
  induction s as [|d s IH]; simpl; intros c s' H; [done|].
  destruct (is_ws d) eqn:E; [by eapply IH|]. by inv H.
Qed.

(** [s.trim().trim() === s.trim()] *)
Lemma trim_idem (s : string) : trim (trim s) = trim s.
Proof.
  unfold trim. rewrite (trim_start_fix (trim_end (trim_start s))); [apply trim_end_idem|].
  intros c s' H. destruct (trim_start s) as [|d t] eqn:E; [by inv H|].
  pose proof (trim_start_head s d t E) as Hd.
  destruct (trim_end_head d t Hd) as [r Hr]. rewrite Hr in H. by inv H.
Qed.

Lemma has_char_trim_end (sep : ascii) (s : string) :
  has_char sep s = false -> has_char sep (trim_end s) = false.
Proof.
  induction s as [|c s IH]; simpl; [done|]. intros H.
  apply orb_false_iff in H as [Hc Hs].
  destruct (is_ws c && is_empty (trim_end s)); simpl; [done|]. by rewrite Hc, IH.
Qed.

Lemma has_char_trim (sep : ascii) (s : string) :
  has_char sep s = false -> has_char sep (trim s) = false.
Proof.
  intros H. unfold trim. apply has_char_trim_end.
  induction s as [|c s IH]; simpl in *; [done|].
  apply orb_false_iff in H as [Hc Hs]. destruct (is_ws c); simpl; [auto|]. by rewrite Hc.
Qed.

(** Every entry of a normalised list is non-empty, already trimmed and
    free of the separator. *)
Lemma split_trim_filter_shape (sep : ascii) (s : string) :
  Forall (fun p => truthy p = true /\ trim p = p /\ has_char sep p = false)
         (split_trim_filter sep s).
Proof.
  unfold split_trim_filter. pose proof (split_no_sep sep s) as Hs.
  induction (split sep s) as [|x l IH]; simpl; [done|]. inv Hs.
  destruct (truthy (trim x)) eqn:Ht; [|by apply IH].
  constructor; [|by apply IH]. split_and!; [done | apply trim_idem | by apply has_char_trim].
Qed.

End JsString.
