(* ===== verification/JsNumber.v ===== *)
(** * JavaScript numbers: rendering, [parseInt] and comparison with NaN

    Numbers that the program stores or prints (survey scores, counters)
    are modelled as finite decimals [Dec m s], the value m / 10^s.
    [Number.prototype.toString] renders them in plain positional notation,
    which is what JavaScript prints for every such value with at most 15
    significant digits and magnitude in [1e-6, 1e21).  [parseInt(s, 10)]
    returns [None] for NaN.  The main facts: [parseInt] reads back the
    rendering of an integer, and the rendering of a decimal is canonical
    (numerically equal decimals render identically). *)

From S2P Require Import Prelude JsString.
From Stdlib Require Import DecimalString DecimalN.

Module JsNumber.

(** ** Decimal digits *)

Definition digit_of (c : ascii) : option N :=
  let n := N_of_ascii c in
  if ((48 <=? n) && (n <=? 57))%N then Some (n - 48)%N else None.

Definition is_digit (c : ascii) : bool := match digit_of c with Some _ => true | None => false end.

(** The longest prefix of decimal digits, and the rest. *)
Fixpoint span_digits (s : string) : string * string :=
  match s with
  | String c s' =>
      if is_digit c then let '(d, r) := span_digits s' in (String c d, r)
      else (EmptyString, s)
  | EmptyString => (EmptyString, EmptyString)
  end.

(** Read digits most-significant first into an accumulator. *)
Fixpoint digits_acc (s : string) (acc : N) : N :=
  match s with
  | EmptyString => acc
  | String c s' => digits_acc s' (10 * acc + default 0 (digit_of c))%N
  end.

(** The value of a string of digits (0 for the empty string). *)
Definition digits_value (ds : string) : N := digits_acc ds 0.

Definition N_to_string (n : N) : string := NilEmpty.string_of_uint (N.to_uint n).

(** [String(z)] for an integer [z] *)
Definition Z_to_string (z : Z) : string :=
  match z with
  | Zneg p => String "-" (N_to_string (Npos p))
  | _ => N_to_string (Z.to_N z)
  end.

(** [parseInt(s, 10)]: skip leading white space, read an optional sign,
    then the longest run of decimal digits; NaN ([None]) when there is
    none. *)
Definition parseInt10 (s : string) : option Z :=
  let t := JsString.trim_start s in
  let '(sign, body) :=
    match t with
    | String "-" t' => (-1, t')
    | String "+" t' => (1, t')
    | _ => (1, t)
    end%char%Z in
  let '(ds, _) := span_digits body in
  match ds with
  | EmptyString => None
  | _ => Some (sign * Z.of_N (digits_value ds))%Z
  end.

(** JSON's [int] production: no leading zero unless the integer is 0. *)
Definition no_leading_zero (ip : string) : bool :=
  match ip with
  | EmptyString => false
  | String "0" (String _ _) => false
  | _ => true
  end%char.

(** [x >= k] where [x] may be NaN: every comparison with NaN is false. *)
Definition ge_num (x : option Z) (k : Z) : bool :=
  match x with Some n => Z.leb k n | None => false end.

(** ** Finite decimals *)

Record decimal := Dec { dmant : Z; dscale : nat }.

(** Numeric equality, [a === b] on numbers. *)
Definition dec_eqb (a b : decimal) : bool :=
  Z.eqb (dmant a * 10 ^ Z.of_nat (dscale b)) (dmant b * 10 ^ Z.of_nat (dscale a)).

(** Drop trailing zero digits of the fraction. *)
Fixpoint dec_norm_go (m : Z) (s : nat) : decimal :=
  match s with
  | O => Dec m O
  | S s' => if Z.eqb (Z.rem m 10) 0 then dec_norm_go (Z.quot m 10) s' else Dec m s
  end.

Definition dec_norm (d : decimal) : decimal := dec_norm_go (dmant d) (dscale d).

Definition digit_char (n : N) : ascii := ascii_of_N (48 + N.min n 9)%N.

(** The last [k] decimal digits of [n], zero-padded on the left. *)
Fixpoint fixed_digits (k : nat) (n : N) : string :=
  match k with
  | O => EmptyString
  | S k' => fixed_digits k' (n / 10)%N +:+ String (digit_char (n mod 10)%N) EmptyString
  end.

(** [Number.prototype.toString] on a finite decimal. *)
Definition dec_to_string (d : decimal) : string :=
  let '(Dec m s) := dec_norm d in
  match s with
  | O => Z_to_string m
  | S _ =>
      let a := Z.to_N (Z.abs m) in
      let ip := N.div a (10 ^ N.of_nat s) in
      (if Z.ltb m 0 then String "-" EmptyString else EmptyString) +:+
      N_to_string ip +:+ String "." (fixed_digits s a)
  end.

(** ** Lemmas *)

Lemma string_of_uint_digits (u : Decimal.uint) :
  forall rest, (forall c r, rest = String c r -> is_digit c = false) ->
  span_digits (NilEmpty.string_of_uint u +:+ rest) = (NilEmpty.string_of_uint u, rest).
Proof.
  induction u; simpl; intros rest Hr;
    try (rewrite IHu by done; reflexivity).
  destruct rest as [|c r]; [done|]. simpl. by rewrite (Hr c r).
Qed.

Lemma N_to_uint_nonnil (n : N) : N.to_uint n <> Decimal.Nil.
Proof. destruct n; [done | apply DecimalPos.Unsigned.to_uint_nonnil]. Qed.

Lemma span_digits_N (n : N) (rest : string) :
  (forall c r, rest = String c r -> is_digit c = false) ->
  span_digits (N_to_string n +:+ rest) = (N_to_string n, rest).
Proof. apply string_of_uint_digits. Qed.

Lemma digits_acc_of_uint_acc (u : Decimal.uint) (p : positive) :
  digits_acc (NilEmpty.string_of_uint u) (Npos p) = Npos (Pos.of_uint_acc u p).
Proof. revert p. induction u; intros p; simpl; try rewrite <- IHu; f_equal; lia. Qed.

Lemma digits_value_of_uint (u : Decimal.uint) :
  digits_value (NilEmpty.string_of_uint u) = N.of_uint u.
Proof.
  unfold digits_value. induction u; simpl; try done;
    rewrite <- digits_acc_of_uint_acc; f_equal; lia.
Qed.

Lemma digits_value_N (n : N) : digits_value (N_to_string n) = n.
Proof.
  unfold N_to_string. rewrite digits_value_of_uint. apply DecimalN.Unsigned.of_to.
Qed.

Lemma parseInt10_N (n : N) : parseInt10 (N_to_string n) = Some (Z.of_N n).
Proof.
  pose proof (span_digits_N n EmptyString ltac:(done)) as Hs.
  rewrite string_app_nil_r in Hs.
  pose proof (digits_value_N n) as Hv. pose proof (N_to_uint_nonnil n) as Hn.
  unfold parseInt10. unfold N_to_string in *.
  destruct (N.to_uint n); [done|..]; cbn -[span_digits digits_value] in *;
    rewrite Hs; cbn -[digits_value] in *; rewrite Hv; simpl; by destruct n.
Qed.

(** [parseInt] reads back the rendering of every integer. *)
Lemma parseInt10_Z_to_string (z : Z) : parseInt10 (Z_to_string z) = Some z.
Proof.
  destruct z as [|p|p]; [apply (parseInt10_N 0) | apply (parseInt10_N (Npos p))|].
  pose proof (span_digits_N (Npos p) EmptyString ltac:(done)) as Hs.
  rewrite string_app_nil_r in Hs.
  pose proof (digits_value_N (Npos p)) as Hv. pose proof (N_to_uint_nonnil (Npos p)) as Hn.
  unfold parseInt10, Z_to_string. cbn -[span_digits digits_value N_to_string].
  rewrite Hs. unfold N_to_string in *.
  destruct (N.to_uint (Npos p)); [done|..]; cbn -[digits_value] in *; rewrite Hv; done.
Qed.

(** *** Digit strings *)

Fixpoint all_digits (s : string) : bool :=
  match s with
  | EmptyString => true
  | String c s' => is_digit c && all_digits s'
  end.

Lemma span_all_digits (t rest : string) :
  all_digits t = true ->
  (forall c r, rest = String c r -> is_digit c = false) ->
  span_digits (t +:+ rest) = (t, rest).
Proof.
  induction t as [|c t IH]; simpl; intros Ht Hr.
  - destruct rest as [|c r]; [done|]. simpl. by rewrite (Hr c r).
  - apply andb_true_iff in Ht as [-> Ht]. by rewrite IH.
Qed.

Lemma all_digits_app (s t : string) :
  all_digits (s +:+ t) = all_digits s && all_digits t.
Proof. induction s as [|c s IH]; simpl; [done|]. by rewrite IH, andb_assoc. Qed.

Lemma all_digits_string_of_uint (u : Decimal.uint) :
  all_digits (NilEmpty.string_of_uint u) = true.
Proof. induction u; simpl; auto. Qed.

Lemma digit_of_char (n : N) : (n < 10)%N -> digit_of (digit_char n) = Some n.
Proof.
  intros H. unfold digit_of, digit_char. rewrite N.min_l, N_ascii_embedding by lia.
  replace ((48 <=? 48 + n) && (48 + n <=? 57))%N with true; [f_equal; lia|].
  symmetry. apply andb_true_intro. split; apply N.leb_le; lia.
Qed.

Lemma all_digits_fixed (k : nat) (n : N) : all_digits (fixed_digits k n) = true.
Proof.
  revert n. induction k as [|k IH]; intros n; simpl; [done|].
  rewrite all_digits_app, IH. simpl. unfold is_digit.
  rewrite digit_of_char; [done|]. apply N.mod_lt. lia.
Qed.

Lemma length_fixed_digits (k : nat) (n : N) : String.length (fixed_digits k n) = k.
Proof.
  revert n. induction k as [|k IH]; intros n; simpl; [done|].
  rewrite string_length_app, IH. simpl. lia.
Qed.

Lemma fixed_digits_nonempty (k : nat) (n : N) :
  JsString.is_empty (fixed_digits (S k) n) = false.
Proof.
  destruct (fixed_digits (S k) n) eqn:E; [|done].
  apply (f_equal String.length) in E. by rewrite length_fixed_digits in E.
Qed.

Lemma digits_acc_app (s t : string) (acc : N) :
  digits_acc (s +:+ t) acc = digits_acc t (digits_acc s acc).
Proof. revert acc. induction s as [|c s IH]; intros acc; simpl; auto. Qed.

(** A fixed-width rendering reads back as the number modulo 10^k. *)
Lemma digits_acc_fixed (k : nat) (n acc : N) :
  digits_acc (fixed_digits k n) acc = (acc * 10 ^ N.of_nat k + n mod 10 ^ N.of_nat k)%N.
Proof.
  revert n acc. induction k as [|k IH]; intros n acc; simpl.
  - rewrite N.mod_1_r. lia.
  - rewrite digits_acc_app, IH. simpl. rewrite digit_of_char by (apply N.mod_lt; lia).
    simpl. rewrite Nat2N.inj_succ, N.pow_succ_r by lia.
    rewrite (N.Div0.mod_mul_r n 10 (10 ^ N.of_nat k)). lia.
Qed.

(** *** The rendering of integers has no superfluous leading zero *)

Lemma nzhead_not_D0 (u u' : Decimal.uint) : Decimal.nzhead u <> Decimal.D0 u'.
Proof. induction u; simpl; congruence. Qed.

Lemma N_to_uint_unorm (n : N) : Decimal.unorm (N.to_uint n) = N.to_uint n.
Proof. by rewrite <- DecimalN.Unsigned.to_of, DecimalN.Unsigned.of_to. Qed.

Lemma no_leading_zero_N (n : N) : no_leading_zero (N_to_string n) = true.
Proof.
  pose proof (N_to_uint_unorm n) as Hu. pose proof (N_to_uint_nonnil n) as Hn.
  unfold N_to_string. destruct (N.to_uint n) as [|u|u|u|u|u|u|u|u|u|u]; try done.
  unfold Decimal.unorm in Hu. simpl in Hu.
  destruct (Decimal.nzhead u) eqn:E; try (inv Hu; by apply nzhead_not_D0 in E).
  by inv Hu.
Qed.

(** *** Normal decimals *)

Lemma dec_norm_go_normal (m : Z) (s : nat) :
  dscale (dec_norm_go m s) = O \/ Z.rem (dmant (dec_norm_go m s)) 10 <> 0%Z.
Proof.
  revert m. induction s as [|s IH]; intros m; simpl; [by left|].
  destruct (Z.eqb_spec (Z.rem m 10) 0); [apply IH | right; done].
Qed.

Lemma dec_norm_go_fix (m : Z) (s : nat) :
  s = O \/ Z.rem m 10 <> 0%Z -> dec_norm_go m s = Dec m s.
Proof.
  destruct s as [|s]; simpl; [done|]. intros [H|H]; [done|].
  by destruct (Z.eqb_spec (Z.rem m 10) 0).
Qed.

Lemma dec_norm_idem (d : decimal) : dec_norm (dec_norm d) = dec_norm d.
Proof.
  unfold dec_norm at 1. destruct (dec_norm d) as [m s] eqn:E. simpl.
  apply dec_norm_go_fix. pose proof (dec_norm_go_normal (dmant d) (dscale d)) as H.
  unfold dec_norm in E. rewrite E in H. done.
Qed.

End JsNumber.
