(* ===== verification/Random.v ===== *)
(** * [Math.random], [Math.floor] and [getRandomInt] of src/src/Auth.jsx

    [getRandomInt(min, max)] is
    [Math.floor(Math.random() * (max - min + 1)) + min].  [Math.random]
    returns a binary64 double in [0, 1); every such double is [m * 2^-e]
    with an integer significand [0 <= m < 2^53], [0 <= e <= 1074] and
    [m < 2^e] ([rand], whose last field is that condition).  The product
    by a positive integer [n] is the exact product [n * m * 2^-e] rounded
    to 53 significant bits, to nearest with ties to even ([rne53]); scaling
    by [2^-e] does not move the significant bits, and a subnormal product
    has at most 52 bits, so it is exact.  [Math.floor] of the non-negative
    [q * 2^-e] is [q / 2^e].  [max - min + 1], the floor and the final sum
    are integers far below [2^53], which doubles hold exactly.

    Theorems: the rounding stays within half a unit in the last place;
    for every double [Math.random] may return, [getRandomInt] stays within
    [min, max] (the rounded product never reaches [max - min + 1]), and on
    ranges of at most [2^26] values every value is drawn by some double. *)

From S2P Require Import Prelude.

Module Random.
Local Open Scope Z_scope.

(** ** Doubles in [0, 1) *)

Definition rand_ok (m e : Z) : bool :=
  (0 <=? m) && (m <? 2 ^ 53) && (0 <=? e) && (e <=? 1074) && (m <? 2 ^ e).

(** A value [Math.random()] may return: [mant * 2^-expo]. *)
Record rand := { mant : Z; expo : Z; rand_wf : rand_ok mant expo = true }.

(** ** Rounding to 53 bits *)

(** The low bits of [p >= 0] beyond its 53 most significant ones. *)
Definition drop (p : Z) : Z := Z.max 0 (Z.log2 p + 1 - 53).

(** Round [p] to a multiple of [2^s], to nearest, ties to the even multiple. *)
Definition round_at (s p : Z) : Z :=
  let q := p / 2 ^ s in
  let r := p mod 2 ^ s in
  (q + (if (2 ^ s <? 2 * r) || ((2 * r =? 2 ^ s) && Z.odd q) then 1 else 0)) * 2 ^ s.

Definition rne53 (p : Z) : Z := round_at (drop p) p.

(** ** [getRandomInt] *)

(** [Math.random() * n], as the significand over [2^expo r]. *)
Definition mul_int (r : rand) (n : Z) : Z := rne53 (n * mant r).

(** [Math.floor] of the non-negative [q * 2^-e]. *)
Definition floor_dyadic (q e : Z) : Z := q / 2 ^ e.

(** [Math.floor(Math.random() * (max - min + 1)) + min] *)
Definition getRandomInt (min max : Z) (r : rand) : Z :=
  floor_dyadic (mul_int r (max - min + 1)) (expo r) + min.

(** ** Lemmas *)

Lemma rand_ok_spec (m e : Z) :
  rand_ok m e = true <-> 0 <= m < 2 ^ 53 /\ 0 <= e <= 1074 /\ m < 2 ^ e.
Proof.
  unfold rand_ok. rewrite !andb_true_iff, !Z.leb_le, !Z.ltb_lt. tauto.
Qed.

Lemma rand_bounds (r : rand) :
  0 <= mant r < 2 ^ 53 /\ 0 <= expo r /\ mant r < 2 ^ expo r.
Proof. pose proof (proj1 (rand_ok_spec _ _) (rand_wf r)). lia. Qed.

Lemma drop_nonneg (p : Z) : 0 <= drop p.
Proof. unfold drop. lia. Qed.

(** A rounding at bit [s] moves [p] by at most [2^s / 2]. *)
Lemma round_at_near (s p : Z) :
  0 <= s -> 0 <= p -> 0 <= round_at s p /\ 2 * round_at s p <= 2 * p + 2 ^ s.
Proof.
  intros Hs Hp. unfold round_at.
  assert (Hpos : 0 < 2 ^ s) by (apply Z.pow_pos_nonneg; lia).
  pose proof (Z.div_mod p (2 ^ s) ltac:(lia)) as Hdm.
  pose proof (Z.mod_pos_bound p (2 ^ s) Hpos) as Hr.
  assert (Hq : 0 <= p / 2 ^ s) by (apply Z.div_pos; lia).
  destruct ((2 ^ s <? 2 * (p mod 2 ^ s)) || ((2 * (p mod 2 ^ s) =? 2 ^ s) && Z.odd (p / 2 ^ s))) eqn:Hup.
  - apply orb_true_iff in Hup as [Hup | Hup].
    + apply Z.ltb_lt in Hup. nia.
    + apply andb_true_iff in Hup as [Hup _]. apply Z.eqb_eq in Hup. nia.
  - nia.
Qed.

(** When bits are dropped, [p] has at least [53 + drop p] bits. *)
Lemma drop_pos_bound (p : Z) : 0 < drop p -> 2 ^ (drop p + 52) <= p.
Proof.
  intros Hd. unfold drop in *.
  assert (Hp : 0 < p) by (destruct (Z.lt_ge_cases 0 p); [done|]; rewrite Z.log2_nonpos in Hd; lia).
  destruct (Z.log2_spec p Hp) as [Hl _]. by replace (Z.max 0 (Z.log2 p + 1 - 53) + 52) with (Z.log2 p) by lia.
Qed.

(** Without dropped bits the rounding is the identity. *)
Lemma round_at_0 (p : Z) : round_at 0 p = p.
Proof. unfold round_at. rewrite Z.pow_0_r, Z.div_1_r, Z.mod_1_r. simpl. lia. Qed.

(** The rounded product [n * m] of a double [m * 2^-e] below 1 stays
    below [n * 2^e]: half a unit in the last place is less than [n]. *)
Lemma rne53_below (n m e : Z) :
  0 < n -> 0 <= m < 2 ^ 53 -> m < 2 ^ e -> 0 <= rne53 (n * m) < n * 2 ^ e.
Proof.
  intros Hn Hm He. unfold rne53.
  destruct (round_at_near (drop (n * m)) (n * m) (drop_nonneg _) ltac:(nia)) as [H0 H1].
  split; [done|].
  destruct (Z.eq_dec (drop (n * m)) 0) as [Hd|Hd].
  - rewrite Hd, round_at_0. nia.
  - pose proof (drop_pos_bound (n * m) ltac:(pose proof (drop_nonneg (n * m)); lia)) as Hb.
    rewrite Z.pow_add_r in Hb by (pose proof (drop_nonneg (n * m)); lia).
    assert (Hs : 2 ^ drop (n * m) < 2 * n) by (change (2 ^ 53) with (2 * 2 ^ 52) in Hm; nia).
    nia.
Qed.

(** The double [((v - min) * 2^26 + n - 1) / n * 2^-26]. *)
Definition draw_of (n j : Z) : Z := (j * 2 ^ 26 + n - 1) / n.

Lemma draw_of_bounds (n j : Z) :
  0 < n <= 2 ^ 26 -> 0 <= j < n ->
  j * 2 ^ 26 <= n * draw_of n j < (j + 1) * 2 ^ 26 /\ 0 <= draw_of n j < 2 ^ 26.
Proof.
  intros Hn Hj. unfold draw_of.
  pose proof (Z.div_mod (j * 2 ^ 26 + n - 1) n ltac:(lia)) as Hdm.
  pose proof (Z.mod_pos_bound (j * 2 ^ 26 + n - 1) n ltac:(lia)) as Hr.
  assert (0 <= (j * 2 ^ 26 + n - 1) / n) by (apply Z.div_pos; lia).
  nia.
Qed.

(** [Math.floor(Math.random() * n)] is one of [0 .. n - 1]. *)
Lemma floor_mul_below (r : rand) (n : Z) :
  0 < n -> 0 <= floor_dyadic (mul_int r n) (expo r) < n.
Proof.
  intros Hn. unfold floor_dyadic, mul_int.
  destruct (rand_bounds r) as (Hm & He & Hme).
  destruct (rne53_below n (mant r) (expo r) Hn Hm Hme) as [H0 H1].
  assert (Hp : 0 < 2 ^ expo r) by (apply Z.pow_pos_nonneg; lia).
  split; [apply Z.div_pos; lia | apply Z.div_lt_upper_bound; lia].
Qed.

Lemma eighth_ok (k : Z) : rand_ok (k mod 8) 3 = true.
Proof. apply rand_ok_spec. pose proof (Z.mod_pos_bound k 8 ltac:(lia)). simpl. lia. Qed.

(** The double [(k mod 8) / 8], for the examples. *)
Definition eighth (k : Z) : rand := Build_rand (k mod 8) 3 (eighth_ok k).

(** ** Theorems *)

(** C14: For every double [Math.random] may return, [getRandomInt(min, max)]
    lies in [min, max]: the product by [max - min + 1] rounds below it. *)
Theorem getRandomInt_range (min max : Z) (r : rand) :
  min <= max -> min <= getRandomInt min max r <= max.
Proof.
  intros Hle. pose proof (floor_mul_below r (max - min + 1) ltac:(lia)).
  unfold getRandomInt. lia.
Qed.

(** On a range of at most [2^26] values every value is drawn: the double
    [draw_of n (v - min) * 2^-26] is exact after the product. *)
Theorem getRandomInt_onto (min max v : Z) :
  min <= v <= max -> max - min + 1 <= 2 ^ 26 ->
  exists r : rand, expo r = 26 /\ getRandomInt min max r = v.
Proof.
  intros Hv Hn. set (n := max - min + 1). set (j := v - min).
  destruct (draw_of_bounds n j ltac:(lia) ltac:(lia)) as [Hb Hd].
  assert (Hok : rand_ok (draw_of n j) 26 = true) by (apply rand_ok_spec; lia).
  exists (Build_rand (draw_of n j) 26 Hok). split; [done|].
  unfold getRandomInt, mul_int, floor_dyadic, rne53. cbn [mant expo]. fold n.
  assert (Hdrop : drop (n * draw_of n j) = 0).
  { unfold drop. destruct (Z.eq_dec (n * draw_of n j) 0) as [->|Hz]; [done|].
    assert (Z.log2 (n * draw_of n j) < 52); [|lia].
    apply Z.log2_lt_pow2; [lia|]. change (2 ^ 52) with (2 ^ 26 * 2 ^ 26). nia. }
  rewrite Hdrop, round_at_0.
  enough ((n * draw_of n j) / 2 ^ 26 = j) by lia.
  symmetry. apply Z.div_unique_pos with (r := n * draw_of n j - j * 2 ^ 26); lia.
Qed.

(** ** Examples *)

(** The largest double below 1, [1 - 2^-53], draws [max]: [10 * (2^53 - 1)]
    rounds down to [10 * 2^53 - 16], not up to [10 * 2^53]. *)
Definition largest : rand := Build_rand (2 ^ 53 - 1) 53 eq_refl.

Example largest_draws_max :
  getRandomInt 1 10 largest = 10 /\ mul_int largest 10 = 10 * 2 ^ 53 - 16.
Proof. split; vm_compute; reflexivity. Qed.

(** ** Witnesses *)

Lemma getRandomInt_onto_witness : exists r : rand, expo r = 26 /\ getRandomInt 1 10 r = 7.
Proof. apply getRandomInt_onto; lia. Defined.

Lemma getRandomInt_range_witness : 1 <= getRandomInt 1 10 largest <= 10.
Proof. apply getRandomInt_range; lia. Defined.
End Random.
