(* ===== verification/JsValue.v ===== *)
(** * JavaScript values and the operations the program applies to them

    [jsval] is the set of values that [JSON.parse] produces, plus
    [undefined]; [js_exn] the exceptions the modelled code can raise or
    catch: a [TypeError] (property read on [null]/[undefined], calling an
    array method on a non-array), a [SyntaxError] from [JSON.parse], the
    [InvalidCharacterError] of [atob], and
    the rejection of an axios request carrying [err.response?.data].
    Property reads, optional chaining, truthiness, [||], strict equality,
    [String(v)] and the array methods [filter], [some], [map] are defined
    as JavaScript evaluates them.  Objects and arrays compared with [===]
    are always distinct allocations in this program (each comes from its
    own [JSON.parse] or network reply), so [===] on them is [false]. *)

From S2P Require Import Prelude JsString JsNumber.

Module JsValue.
Import JsNumber.
Local Open Scope js_scope.

#[warnings="-register-all"]
Inductive jsval : Type :=
| JUndefined
| JNull
| JBool (b : bool)
| JNum (d : decimal)
| JStr (s : string)
| JArr (l : list jsval)
| JObj (fields : list (string * jsval)).

(** Induction on values, with hypotheses on the elements of arrays and
    the fields of objects. *)
Section JsvalInd.
Variable P : jsval -> Prop.
Hypothesis HUndef : P JUndefined.
Hypothesis HNull : P JNull.
Hypothesis HBool : forall b, P (JBool b).
Hypothesis HNum : forall d, P (JNum d).
Hypothesis HStr : forall s, P (JStr s).
Hypothesis HArr : forall l, Forall P l -> P (JArr l).
Hypothesis HObj : forall fs, Forall (fun kv => P kv.2) fs -> P (JObj fs).

Fixpoint jsval_ind' (v : jsval) : P v :=
  match v with
  | JUndefined => HUndef
  | JNull => HNull
  | JBool b => HBool b
  | JNum d => HNum d
  | JStr s => HStr s
  | JArr l => HArr l
      ((fix go (l : list jsval) : Forall P l :=
          match l with
          | [] => @List.Forall_nil _ _
          | x :: l' => @List.Forall_cons _ P x l' (jsval_ind' x) (go l')
          end) l)
  | JObj fs => HObj fs
      ((fix go (fs : list (string * jsval)) : Forall (fun kv => P kv.2) fs :=
          match fs with
          | [] => @List.Forall_nil _ _
          | kv :: fs' => @List.Forall_cons _ (fun kv => P kv.2) kv fs' (jsval_ind' kv.2) (go fs')
          end) fs)
  end.
End JsvalInd.

Inductive js_exn : Type :=
| TypeError
| SyntaxError
| InvalidCharacterError
| HttpError (data : option jsval).

Abbreviation js := (throws js_exn).

(** ** Property access *)

Fixpoint lookup_field (k : string) (fs : list (string * jsval)) : jsval :=
  match fs with
  | [] => JUndefined
  | (k', v) :: fs' => if String.eqb k k' then v else lookup_field k fs'
  end.

Definition num_of_nat (n : nat) : jsval := JNum (Dec (Z.of_nat n) 0).

(** [v.k] (and [v[k]] for a string key). *)
Definition get (v : jsval) (k : string) : js jsval :=
  match v with
  | JUndefined | JNull => Throw TypeError
  | JObj fs => Ok (lookup_field k fs)
  | JArr l => Ok (if String.eqb k "length" then num_of_nat (length l) else JUndefined)
  | JStr s => Ok (if String.eqb k "length" then num_of_nat (String.length s) else JUndefined)
  | JBool _ | JNum _ => Ok JUndefined
  end.

(** [v?.k] *)
Definition get_opt (v : jsval) (k : string) : jsval :=
  match v with
  | JUndefined | JNull => JUndefined
  | _ => try_catch (get v k) (fun _ => JUndefined)
  end.

(** ** Truthiness, [||], [===], [typeof], [Array.isArray] *)

Definition truthy (v : jsval) : bool :=
  match v with
  | JUndefined | JNull => false
  | JBool b => b
  | JNum d => negb (Z.eqb (dmant d) 0)
  | JStr s => JsString.truthy s
  | JArr _ | JObj _ => true
  end.

(** [a || b] *)
Definition or_else (a b : jsval) : jsval := if truthy a then a else b.

(** [a === b] *)
Definition strict_eqb (a b : jsval) : bool :=
  match a, b with
  | JUndefined, JUndefined | JNull, JNull => true
  | JBool x, JBool y => Bool.eqb x y
  | JNum x, JNum y => dec_eqb x y
  | JStr x, JStr y => String.eqb x y
  | _, _ => false
  end.

Definition is_string (v : jsval) : bool :=
  match v with JStr _ => true | _ => false end.

Definition is_array (v : jsval) : bool :=
  match v with JArr _ => true | _ => false end.

(** ** [String(v)] *)

Fixpoint to_string (v : jsval) : string :=
  match v with
  | JUndefined => "undefined"
  | JNull => "null"
  | JBool true => "true"
  | JBool false => "false"
  | JNum d => dec_to_string d
  | JStr s => s
  | JArr l =>
      JsString.join ","
        (map (fun x => match x with JUndefined | JNull => EmptyString | _ => to_string x end) l)
  | JObj _ => "[object Object]"
  end.

(** ** Array methods on a value that should be an array *)

Fixpoint filterM {A} (p : A -> js bool) (l : list A) : js (list A) :=
  match l with
  | [] => Ok []
  | x :: l' => b <- p x ;; r <- filterM p l' ;; Ok (if b then x :: r else r)
  end.

Fixpoint someM {A} (p : A -> js bool) (l : list A) : js bool :=
  match l with
  | [] => Ok false
  | x :: l' => b <- p x ;; if b then Ok true else someM p l'
  end.

Fixpoint mapM {A B} (f : A -> js B) (l : list A) : js (list B) :=
  match l with
  | [] => Ok []
  | x :: l' => y <- f x ;; r <- mapM f l' ;; Ok (y :: r)
  end.

(** The elements of an array, or the [TypeError] that calling an array
    method on any other value raises. *)
Definition as_array (v : jsval) : js (list jsval) :=
  match v with JArr l => Ok l | _ => Throw TypeError end.

(** [v.filter(p)], [v.some(p)], [v.map(f)] *)
Definition arr_filter (v : jsval) (p : jsval -> js bool) : js (list jsval) :=
  l <- as_array v ;; filterM p l.
Definition arr_some (v : jsval) (p : jsval -> js bool) : js bool :=
  l <- as_array v ;; someM p l.
Definition arr_map (v : jsval) (f : jsval -> js jsval) : js (list jsval) :=
  l <- as_array v ;; mapM f l.

(** [arr.join(sep)]: [null] and [undefined] elements print as nothing. *)
Definition join_values (sep : string) (l : list jsval) : string :=
  JsString.join sep (map (fun x => match x with JUndefined | JNull => EmptyString | _ => to_string x end) l).

(** [v?.[0]], and [v[0]] on a readable value. *)
Definition index0 (v : jsval) : jsval :=
  match v with
  | JArr (x :: _) => x
  | JStr (String c _) => JStr (String c EmptyString)
  | JObj fs => lookup_field "0" fs
  | _ => JUndefined
  end.

(** The callback [x => x.k === s] used by every per-user filter. *)
Definition field_is (k s : string) (x : jsval) : js bool :=
  y <- get x k ;; Ok (strict_eqb y (JStr s)).

(** ** Lemmas *)

(** A list whose elements are all objects never makes a field read throw. *)
Definition is_object (v : jsval) : bool :=
  match v with JObj _ => true | _ => false end.

Lemma get_object (fs : list (string * jsval)) (k : string) :
  get (JObj fs) k = Ok (lookup_field k fs).
Proof. reflexivity. Qed.

Lemma strict_eqb_str (v : jsval) (s : string) :
  strict_eqb v (JStr s) = true <-> v = JStr s.
Proof.
  destruct v; simpl; split; try done.
  - by intros ->%String.eqb_eq.
  - intros [= ->]. apply String.eqb_refl.
Qed.

Lemma filterM_pure {A} (p : A -> bool) (l : list A) :
  filterM (fun x => Ok (p x)) l = Ok (List.filter p l).
Proof. induction l as [|x l IH]; simpl; [done|]. rewrite IH. by destruct (p x). Qed.

Lemma someM_pure {A} (p : A -> bool) (l : list A) :
  someM (fun x => Ok (p x)) l = Ok (existsb p l).
Proof. induction l as [|x l IH]; simpl; [done|]. by destruct (p x). Qed.

(** Values whose properties can be read without a [TypeError]. *)
Definition readable (v : jsval) : bool :=
  match v with JUndefined | JNull => false | _ => true end.

(** The pure predicate [field_is] computes on a readable value. *)
Definition field_is_b (k s : string) (x : jsval) : bool :=
  match x with
  | JObj fs => strict_eqb (lookup_field k fs) (JStr s)
  | _ => false
  end.

Lemma field_is_readable (k s : string) (x : jsval) :
  k <> "length" -> readable x = true -> field_is k s x = Ok (field_is_b k s x).
Proof.
  intros Hk Hx. unfold field_is, get.
  destruct x; try done; simpl; destruct (String.eqb_spec k "length"); done.
Qed.

Lemma field_is_null (k s : string) : field_is k s JNull = Throw TypeError.
Proof. reflexivity. Qed.

Lemma filterM_ext {A} (p : A -> js bool) (q : A -> bool) (l : list A) :
  (forall x, x ∈ l -> p x = Ok (q x)) -> filterM p l = Ok (List.filter q l).
Proof.
  induction l as [|x l IH]; simpl; intros H; [done|].
  rewrite (H x ltac:(set_solver)), IH by set_solver. by destruct (q x).
Qed.

Lemma someM_ext {A} (p : A -> js bool) (q : A -> bool) (l : list A) :
  (forall x, x ∈ l -> p x = Ok (q x)) -> someM p l = Ok (existsb q l).
Proof.
  induction l as [|x l IH]; simpl; intros H; [done|].
  rewrite (H x ltac:(set_solver)). destruct (q x); [done|]. apply IH. set_solver.
Qed.

(** [v.filter(x => x.k === s)] on an array of readable values. *)
Lemma arr_filter_readable (k s : string) (hs : list jsval) :
  k <> "length" -> Forall (fun h => readable h = true) hs ->
  arr_filter (JArr hs) (field_is k s) = Ok (List.filter (field_is_b k s) hs).
Proof.
  intros Hk Hs. apply filterM_ext. intros x Hx. apply field_is_readable; [done|].
  rewrite Forall_forall in Hs. by apply Hs.
Qed.

Lemma arr_filter_not_array (v : jsval) (p : jsval -> js bool) :
  is_array v = false -> arr_filter v p = Throw TypeError.
Proof. by destruct v. Qed.

(** A property read throws nothing but a [TypeError]. *)
Lemma get_throw (v : jsval) (k : string) (e : js_exn) : get v k = Throw e -> e = TypeError.
Proof. destruct v; simpl; congruence. Qed.

Lemma as_array_throw (v : jsval) (e : js_exn) : as_array v = Throw e -> e = TypeError.
Proof. destruct v; simpl; congruence. Qed.

(** On a readable value, [v.k] and [v?.k] agree. *)
Lemma get_readable (v : jsval) (k : string) : readable v = true -> get v k = Ok (get_opt v k).
Proof. destruct v; done. Qed.

Lemma mapM_ext {A B} (f : A -> js B) (g : A -> B) (l : list A) :
  (forall x, x ∈ l -> f x = Ok (g x)) -> mapM f l = Ok (map g l).
Proof.
  induction l as [|x l IH]; simpl; intros Hf; [done|].
  rewrite (Hf x ltac:(set_solver)), IH by set_solver. done.
Qed.

Lemma join_values_strings (sep : string) (xs : list string) :
  join_values sep (map JStr xs) = JsString.join sep xs.
Proof.
  unfold join_values. f_equal. rewrite map_map.
  induction xs as [|x xs IH]; [done|]. cbn [map]. f_equal; auto.
Qed.

(** One failing element makes [filterM] fail. *)
Lemma filterM_throw {A} (p : A -> js bool) (l : list A) (x : A) (e : js_exn) :
  x ∈ l -> p x = Throw e -> exists e', filterM p l = Throw e'.
Proof.
  intros Hx Hp. induction l as [|y l IH]; simpl; [set_solver|].
  destruct (p y) as [b|e'] eqn:Hy; [|by eexists].
  apply elem_of_cons in Hx as [->|Hx]; [congruence|].
  destruct (IH Hx) as [e' ->]. by eexists.
Qed.

(** One failing element makes [mapM] fail. *)
Lemma mapM_throw {A B} (f : A -> js B) (l : list A) (x : A) (e : js_exn) :
  x ∈ l -> f x = Throw e -> exists e', mapM f l = Throw e'.
Proof.
  intros Hx Hf. induction l as [|y l IH]; simpl; [set_solver|].
  destruct (f y) as [b|e'] eqn:Hy; [|by eexists].
  apply elem_of_cons in Hx as [->|Hx]; [congruence|].
  destruct (IH Hx) as [e' ->]. by eexists.
Qed.

(** When each element either succeeds or throws [e], [mapM] succeeds or
    throws [e]. *)
Lemma mapM_ok_or {A B} (f : A -> js B) (l : list A) (e : js_exn) :
  (forall x, x ∈ l -> (exists y, f x = Ok y) \/ f x = Throw e) ->
  (exists ys, mapM f l = Ok ys) \/ mapM f l = Throw e.
Proof.
  induction l as [|x l IH]; simpl; intros Hf; [by left; eexists|].
  destruct (Hf x ltac:(set_solver)) as [[y ->] | ->]; [|by right].
  destruct IH as [[ys ->] | ->]; [set_solver | by left; eexists | by right].
Qed.

(** ... and one that throws [e] makes it throw [e]. *)
Lemma mapM_throw_only {A B} (f : A -> js B) (l : list A) (x : A) (e : js_exn) :
  (forall x, x ∈ l -> (exists y, f x = Ok y) \/ f x = Throw e) ->
  x ∈ l -> f x = Throw e -> mapM f l = Throw e.
Proof.
  intros Hf Hx Hx'. destruct (mapM_ok_or f l e Hf) as [[ys Hys] | ?]; [|done].
  exfalso. revert ys Hys. induction l as [|y l IH]; simpl; intros ys Hys; [set_solver|].
  apply elem_of_cons in Hx as [->|Hx]; [by rewrite Hx' in Hys|].
  destruct (f y); [|done]. destruct (mapM f l) as [ys'|] eqn:E; [|done].
  apply (IH ltac:(set_solver) Hx ys' eq_refl).
Qed.

#[export] Hint Rewrite get_object @filterM_pure @someM_pure : csync_simpl.

End JsValue.
