(* ===== verification/Json.v ===== *)
(** * [JSON.stringify] and [JSON.parse]

    Every record the program persists goes through [JSON.stringify] on the
    way into [localStorage] and [JSON.parse] on the way out.  [stringify]
    follows ECMA-262's SerializeJSONProperty without a replacer or
    indentation: [undefined] at the top yields no string, [undefined]
    array elements print as [null], object fields whose value is
    [undefined] are omitted.  [parse] is a recursive-descent parser of
    RFC 8259 JSON with fuel: the input length plus one, which never cuts a
    parse short ([JsonFuel.parse_accepts_iff]); a later duplicate key
    overwrites the earlier value in place, as in JavaScript.  Strings are
    8-bit, so a [\uXXXX] escape above 0xFF is rejected.

    The main theorem is the round trip [parse (stringify v) = Ok (jnorm v)]
    for every value whose objects have distinct keys, where [jnorm] is
    the normal form described above. *)

From S2P Require Import Prelude JsString JsNumber JsValue.

Module Json.
Import JsNumber JsValue.
Local Open Scope js_scope.

(** ** Serialisation *)

Definition hex_digit (n : nat) : ascii :=
  match n with
  | 0 => "0" | 1 => "1" | 2 => "2" | 3 => "3" | 4 => "4" | 5 => "5" | 6 => "6"
  | 7 => "7" | 8 => "8" | 9 => "9" | 10 => "a" | 11 => "b" | 12 => "c"
  | 13 => "d" | 14 => "e" | _ => "f"
  end%char.

(** QuoteJSONString, one code unit. *)
Definition quote_char (c : ascii) : string :=
  match c with
  | "034" => String "\" (String "034" EmptyString)
  | "\" => String "\" (String "\" EmptyString)
  | "008" => String "\" (String "b" EmptyString)
  | "009" => String "\" (String "t" EmptyString)
  | "010" => String "\" (String "n" EmptyString)
  | "012" => String "\" (String "f" EmptyString)
  | "013" => String "\" (String "r" EmptyString)
  | _ =>
      let n := nat_of_ascii c in
      if Nat.ltb n 32 then
        String "\" (String "u" (String "0" (String "0"
          (String (hex_digit (n / 16)) (String (hex_digit (n mod 16)) EmptyString)))))
      else String c EmptyString
  end%char.

Fixpoint quote_chars (s : string) : string :=
  match s with
  | EmptyString => EmptyString
  | String c s' => quote_char c +:+ quote_chars s'
  end.

Definition quote (s : string) : string :=
  String "034" (quote_chars s +:+ String "034" EmptyString)%char.

(** SerializeJSONProperty: [None] when the value is [undefined]. *)
Fixpoint stringify (v : jsval) : option string :=
  match v with
  | JUndefined => None
  | JNull => Some "null"
  | JBool true => Some "true"
  | JBool false => Some "false"
  | JNum d => Some (dec_to_string d)
  | JStr s => Some (quote s)
  | JArr l =>
      Some (String "["%char (JsString.join ","
              (map (fun x => match stringify x with Some t => t | None => "null" end) l)
            +:+ "]"))
  | JObj fs =>
      Some (String "{"%char (JsString.join ","
              (flat_map (fun kv => match stringify kv.2 with
                                   | Some t => [quote kv.1 +:+ String ":"%char t]
                                   | None => []
                                   end) fs)
            +:+ "}"))
  end.

(** What a [stringify]/[parse] cycle makes of a value. *)
Fixpoint jnorm (v : jsval) : jsval :=
  match v with
  | JNum d => JNum (dec_norm d)
  | JArr l => JArr (map (fun x => match x with JUndefined => JNull | _ => jnorm x end) l)
  | JObj fs =>
      JObj (flat_map (fun kv => match kv.2 with
                                | JUndefined => []
                                | _ => [(kv.1, jnorm kv.2)]
                                end) fs)
  | _ => v
  end.

(** Objects have pairwise distinct keys, at every depth. *)
Fixpoint keys_nodup (ks : list string) : bool :=
  match ks with
  | [] => true
  | k :: ks' => negb (existsb (String.eqb k) ks') && keys_nodup ks'
  end.

Fixpoint wf (v : jsval) : bool :=
  match v with
  | JArr l => forallb wf l
  | JObj fs => keys_nodup (map fst fs) && forallb (fun kv => wf kv.2) fs
  | _ => true
  end.

(** ** Parsing *)

Definition is_json_ws (c : ascii) : bool :=
  match c with " " | "009" | "010" | "013" => true | _ => false end%char.

Fixpoint skip_ws (s : string) : string :=
  match s with
  | String c s' => if is_json_ws c then skip_ws s' else s
  | EmptyString => EmptyString
  end.

Definition hex_value (c : ascii) : option nat :=
  match digit_of c with
  | Some d => Some (N.to_nat d)
  | None =>
      match c with
      | "a" | "A" => Some 10 | "b" | "B" => Some 11 | "c" | "C" => Some 12
      | "d" | "D" => Some 13 | "e" | "E" => Some 14 | "f" | "F" => Some 15
      | _ => None
      end%char
  end.

(** The code unit of a [\uXXXX] escape, when it fits in 8 bits. *)
Definition hex4 (a b c d : ascii) : option ascii :=
  match hex_value a, hex_value b, hex_value c, hex_value d with
  | Some x, Some y, Some z, Some w =>
      let n := ((x * 16 + y) * 16 + z) * 16 + w in
      if Nat.ltb n 256 then Some (ascii_of_nat n) else None
  | _, _, _, _ => None
  end.

(** The body of a string literal after its opening quote: the decoded
    characters and the input after the closing quote. *)
Fixpoint parse_chars (s : string) : option (string * string) :=
  match s with
  | EmptyString => None
  | String "034" r => Some (EmptyString, r)
  | String "\" (String e r) =>
      let k c r' := (fun p => (String c p.1, p.2)) <$> parse_chars r' in
      match e with
      | "034" => k "034" r
      | "\" => k "\" r
      | "/" => k "/" r
      | "b" => k "008" r
      | "f" => k "012" r
      | "n" => k "010" r
      | "r" => k "013" r
      | "t" => k "009" r
      | "u" =>
          match r with
          | String a (String b (String c (String d r'))) =>
              match hex4 a b c d with Some x => k x r' | None => None end
          | _ => None
          end
      | _ => None
      end
  | String "\" EmptyString => None
  | String c r =>
      if Nat.ltb (nat_of_ascii c) 32 then None
      else (fun p => (String c p.1, p.2)) <$> parse_chars r
  end%char.

(** An optional minus sign. *)
Definition sign_split (s : string) : bool * string :=
  match s with
  | String c r => if Ascii.eqb c "-" then (true, r) else (false, s)
  | EmptyString => (false, s)
  end%char.

(** An optional fraction [. digits]. *)
Definition parse_frac (s : string) : option (string * string) :=
  match s with
  | String "." r =>
      let '(fd, s') := span_digits r in
      if JsString.is_empty fd then None else Some (fd, s')
  | _ => Some (EmptyString, s)
  end%char.

(** An optional exponent [(e|E) (+|-)? digits]. *)
Definition parse_exp (s : string) : option (Z * string) :=
  match s with
  | String e r =>
      if orb (Ascii.eqb e "e") (Ascii.eqb e "E") then
        let '(eneg, r1) :=
          match r with
          | String "-" r' => (true, r') | String "+" r' => (false, r') | _ => (false, r)
          end%char in
        let '(ed, s') := span_digits r1 in
        if JsString.is_empty ed then None
        else Some ((if eneg then Z.opp else id) (Z.of_N (digits_value ed)), s')
      else Some (0%Z, s)
  | EmptyString => Some (0%Z, s)
  end%char.

(** A JSON number: [-? int frac? exp?], as a normalised decimal. *)
Definition parse_number (s : string) : option (decimal * string) :=
  let '(neg, s1) := sign_split s in
  let '(ip, s2) := span_digits s1 in
  if negb (no_leading_zero ip) then None else
  match parse_frac s2 with
  | None => None
  | Some (fd, s3) =>
      match parse_exp s3 with
      | None => None
      | Some (e, s4) =>
          let mag := Z.of_N (digits_value ip * 10 ^ N.of_nat (String.length fd) + digits_value fd) in
          let m := if neg then Z.opp mag else mag in
          let sc := (Z.of_nat (String.length fd) - e)%Z in
          let d := if Z.leb 0 sc then Dec m (Z.to_nat sc) else Dec (m * 10 ^ (- sc)) 0 in
          Some (dec_norm d, s4)
      end
  end.

(** Later duplicate keys overwrite in place. *)
Fixpoint obj_set (k : string) (v : jsval) (fs : list (string * jsval)) :
    list (string * jsval) :=
  match fs with
  | [] => [(k, v)]
  | (k', v') :: fs' => if String.eqb k k' then (k, v) :: fs' else (k', v') :: obj_set k v fs'
  end.

Fixpoint parse_value (fuel : nat) (s : string) : option (jsval * string) :=
  match fuel with
  | O => None
  | S f =>
      match skip_ws s with
      | EmptyString => None
      | String c r =>
          if Ascii.eqb c "n" then
            match r with String "u" (String "l" (String "l" r')) => Some (JNull, r') | _ => None end
          else if Ascii.eqb c "t" then
            match r with String "r" (String "u" (String "e" r')) => Some (JBool true, r') | _ => None end
          else if Ascii.eqb c "f" then
            match r with
            | String "a" (String "l" (String "s" (String "e" r'))) => Some (JBool false, r')
            | _ => None
            end
          else if Ascii.eqb c "034" then (fun p => (JStr p.1, p.2)) <$> parse_chars r
          else if Ascii.eqb c "[" then
            match skip_ws r with
            | String d r' =>
                if Ascii.eqb d "]" then Some (JArr [], r')
                else (fun p => (JArr p.1, p.2)) <$> parse_elems f r
            | EmptyString => None
            end
          else if Ascii.eqb c "{" then
            match skip_ws r with
            | String d r' =>
                if Ascii.eqb d "}" then Some (JObj [], r')
                else (fun p => (JObj (fold_left (fun acc kv => obj_set kv.1 kv.2 acc) p.1 []), p.2))
                       <$> parse_members f r
            | EmptyString => None
            end
          else (fun p => (JNum p.1, p.2)) <$> parse_number (String c r)
      end
  end%char
with parse_elems (fuel : nat) (s : string) : option (list jsval * string) :=
  match fuel with
  | O => None
  | S f =>
      match parse_value f s with
      | Some (v, r) =>
          match skip_ws r with
          | String "," r' => (fun p => (v :: p.1, p.2)) <$> parse_elems f r'
          | String "]" r' => Some ([v], r')
          | _ => None
          end
      | None => None
      end
  end%char
with parse_members (fuel : nat) (s : string) :
    option (list (string * jsval) * string) :=
  match fuel with
  | O => None
  | S f =>
      match skip_ws s with
      | String "034" r =>
          match parse_chars r with
          | Some (k, r1) =>
              match skip_ws r1 with
              | String ":" r2 =>
                  match parse_value f r2 with
                  | Some (v, r3) =>
                      match skip_ws r3 with
                      | String "," r4 => (fun p => ((k, v) :: p.1, p.2)) <$> parse_members f r4
                      | String "}" r4 => Some ([(k, v)], r4)
                      | _ => None
                      end
                  | None => None
                  end
              | _ => None
              end
          | None => None
          end
      | _ => None
      end
  end%char.

(** [JSON.parse(s)]: a [SyntaxError] unless the whole input is one value. *)
Definition parse (s : string) : js jsval :=
  match parse_value (S (String.length s)) s with
  | Some (v, r) => if JsString.is_empty (skip_ws r) then Ok v else Throw SyntaxError
  | None => Throw SyntaxError
  end.

(** JSON text written with single quotes for readability of the examples:
    each ['] becomes a double quote. *)
Fixpoint json_text (s : string) : string :=
  match s with
  | EmptyString => EmptyString
  | String c r => String (if Ascii.eqb c "'" then "034" else c)%char (json_text r)
  end.

(** ** The round trip *)

(** The characters that can follow a value inside a JSON text. *)
Definition delim (rest : string) : bool :=
  match rest with
  | EmptyString => true
  | String c _ => match c with "," | "]" | "}" => true | _ => false end
  end%char.

Lemma delim_cases (rest : string) :
  delim rest = true ->
  rest = EmptyString \/ exists r, rest = String "," r \/ rest = String "]" r \/ rest = String "}" r.
Proof.
  destruct rest as [|c r]; [by left|]. right. exists r.
  destruct c as [[] [] [] [] [] [] [] []]; simpl; try done; auto.
Qed.

Lemma is_digit_not_minus (c : ascii) : is_digit c = true -> Ascii.eqb c "-" = false.
Proof. destruct c as [[] [] [] [] [] [] [] []]; done. Qed.

Lemma N_to_string_head (n : N) :
  exists c r, N_to_string n = String c r /\ is_digit c = true.
Proof.
  pose proof (all_digits_string_of_uint (N.to_uint n)) as H.
  pose proof (N_to_uint_nonnil n) as Hn. unfold N_to_string in *.
  destruct (N.to_uint n); try done; simpl in *; eexists _, _; split; done.
Qed.

Lemma parse_quote_char (c : ascii) (rest : string) :
  parse_chars (quote_char c +:+ rest) = (fun p => (String c p.1, p.2)) <$> parse_chars rest.
Proof. destruct c as [[] [] [] [] [] [] [] []]; reflexivity. Qed.

(** Escaped characters decode to the original string. *)
Lemma parse_chars_quote (s rest : string) :
  parse_chars (quote_chars s +:+ String "034" rest) = Some (s, rest).
Proof.
  induction s as [|c s IH]; simpl; [done|].
  by rewrite <- string_app_assoc, parse_quote_char, IH.
Qed.

Lemma sign_split_N (n : N) (X : string) :
  sign_split (N_to_string n +:+ X) = (false, N_to_string n +:+ X).
Proof.
  destruct (N_to_string_head n) as (c & r & -> & Hc). simpl.
  by rewrite is_digit_not_minus.
Qed.

Lemma delim_not_digit (rest : string) :
  delim rest = true -> forall c r, rest = String c r -> is_digit c = false.
Proof.
  intros H c r ->. apply delim_cases in H as [H|(r' & [H|[H|H]])]; by inv H.
Qed.

Lemma parse_frac_delim (rest : string) :
  delim rest = true -> parse_frac rest = Some (EmptyString, rest).
Proof. intros H. apply delim_cases in H as [ -> | (r & [ -> | [ -> | -> ] ]) ]; done. Qed.

Lemma parse_exp_delim (rest : string) :
  delim rest = true -> parse_exp rest = Some (0%Z, rest).
Proof. intros H. apply delim_cases in H as [ -> | (r & [ -> | [ -> | -> ] ]) ]; done. Qed.

Lemma parse_number_body (neg : bool) (ip : N) (fd rest : string) :
  all_digits fd = true -> delim rest = true ->
  parse_number ((if neg then String "-" EmptyString else EmptyString) +:+ N_to_string ip +:+
                (if JsString.is_empty fd then EmptyString else String "." fd) +:+ rest) =
  Some (dec_norm
          (Dec ((if neg then Z.opp else id)
                  (Z.of_N (ip * 10 ^ N.of_nat (String.length fd) + digits_value fd)))
               (String.length fd)), rest).
Proof.
  intros Hfd Hrest. unfold parse_number.
  replace (sign_split _) with
    (neg, N_to_string ip +:+ (if JsString.is_empty fd then EmptyString else String "." fd) +:+ rest)
    by (destruct neg; [done | symmetry; apply sign_split_N]).
  rewrite span_all_digits; [|apply all_digits_string_of_uint|].
  2:{ destruct (JsString.is_empty fd); [|by intros ? ? [= <- _]].
      apply delim_not_digit, Hrest. }
  rewrite no_leading_zero_N, digits_value_N. simpl.
  destruct (JsString.is_empty fd) eqn:He.
  - destruct fd; [|done]. rewrite parse_frac_delim, parse_exp_delim by done. simpl.
    rewrite N.add_0_r. by destruct neg.
  - simpl. rewrite span_all_digits by eauto using delim_not_digit.
    rewrite He, parse_exp_delim by done. simpl.
    rewrite Z.sub_0_r. destruct (Z.leb_spec 0 (Z.of_nat (String.length fd))); [|lia].
    rewrite Nat2Z.id. by destruct neg.
Qed.

(** JSON numbers read back the rendering of every decimal, normalised. *)
Lemma parse_number_dec (d : decimal) (rest : string) :
  delim rest = true -> parse_number (dec_to_string d +:+ rest) = Some (dec_norm d, rest).
Proof.
  intros Hr. pose proof (dec_norm_go_normal (dmant d) (dscale d)) as Hnorm.
  unfold dec_to_string. fold (dec_norm d) in *.
  destruct (dec_norm d) as [m [|s]] eqn:Hd; simpl in Hnorm.
  - pose proof (parse_number_body (Z.ltb m 0) (Z.to_N (Z.abs m)) EmptyString rest
                  eq_refl Hr) as H.
    simpl in H. rewrite N.mul_1_r, N.add_0_r in H.
    destruct m as [|p|p]; simpl in *; exact H.
  - pose proof (parse_number_body (Z.ltb m 0) (Z.to_N (Z.abs m) / 10 ^ N.of_nat (S s))
                  (fixed_digits (S s) (Z.to_N (Z.abs m))) rest
                  (all_digits_fixed _ _) Hr) as H.
    rewrite length_fixed_digits, fixed_digits_nonempty in H.
    unfold digits_value in H. rewrite digits_acc_fixed, N.mul_0_l, N.add_0_l in H.
    rewrite (N.mul_comm (_ / _)), <- N.div_mod' in H.
    replace ((if Z.ltb m 0 then Z.opp else id) (Z.of_N (Z.to_N (Z.abs m)))) with m in H
      by (destruct (Z.ltb_spec m 0); unfold id; lia).
    change (dec_norm (Dec m (S s))) with (dec_norm_go m (S s)) in H.
    rewrite dec_norm_go_fix in H by (destruct Hnorm; [done | by right]).
    rewrite <- H. f_equal. by rewrite <- !string_app_assoc.
Qed.

(** *** The first character of a rendering *)

(** The characters a JSON text of a value can start with. *)
Definition value_start (c : ascii) : bool :=
  is_digit c || Ascii.eqb c "-" || Ascii.eqb c "n" || Ascii.eqb c "t" || Ascii.eqb c "f" ||
  Ascii.eqb c "034" || Ascii.eqb c "[" || Ascii.eqb c "{".

Lemma value_start_facts (c : ascii) :
  value_start c = true ->
  is_json_ws c = false /\ Ascii.eqb c "]" = false /\ Ascii.eqb c "}" = false.
Proof. destruct c as [[] [] [] [] [] [] [] []]; done. Qed.

Lemma number_start_dispatch (c : ascii) :
  is_digit c || Ascii.eqb c "-" = true ->
  Ascii.eqb c "n" = false /\ Ascii.eqb c "t" = false /\ Ascii.eqb c "f" = false /\
  Ascii.eqb c "034" = false /\ Ascii.eqb c "[" = false /\ Ascii.eqb c "{" = false.
Proof. destruct c as [[] [] [] [] [] [] [] []]; done. Qed.

Lemma dec_to_string_head (d : decimal) :
  exists c r, dec_to_string d = String c r /\ is_digit c || Ascii.eqb c "-" = true.
Proof.
  unfold dec_to_string. destruct (dec_norm d) as [m [|s]].
  - destruct m as [|p|p]; simpl; [by eexists _, _ | | by eexists _, _].
    destruct (N_to_string_head (Npos p)) as (c & r & -> & Hc).
    exists c, r. by rewrite Hc.
  - destruct (Z.ltb m 0); [by eexists _, _|]. rewrite JsString.append_Empty.
    destruct (N_to_string_head (Z.to_N (Z.abs m) / 10 ^ N.of_nat (S s))) as (c & r & -> & Hc).
    eexists c, _. split; [reflexivity|]. by rewrite Hc.
Qed.

Lemma stringify_head (v : jsval) (t : string) :
  stringify v = Some t -> exists c r, t = String c r /\ value_start c = true.
Proof.
  destruct v as [| |[]|d|s|l|fs]; simpl; intros H; inv H; try by eexists _, _.
  destruct (dec_to_string_head d) as (c & r & -> & Hc). exists c, r. split; [done|].
  unfold value_start. apply orb_true_iff in Hc as [ -> | -> ]; by rewrite ?orb_true_r.
Qed.

Lemma skip_ws_start (c : ascii) (r : string) :
  value_start c = true -> skip_ws (String c r) = String c r.
Proof. intros H. simpl. by rewrite (proj1 (value_start_facts c H)). Qed.

(** *** Fuel *)

(** An upper bound of the nesting of calls the parser makes on a value. *)
Fixpoint size (v : jsval) : nat :=
  match v with
  | JArr l => S (sum_list_with (fun x => S (size x)) l)
  | JObj fs =>
      S (sum_list_with (fun kv => match kv.2 with JUndefined => 0 | _ => S (size kv.2) end) fs)
  | _ => 1
  end.

(** The text of an array element and what it parses back to. *)
Definition elem_text (x : jsval) : string :=
  match stringify x with Some t => t | None => "null" end.
Definition elem_norm (x : jsval) : jsval :=
  match x with JUndefined => JNull | _ => jnorm x end.

(** The text of an object member (none for an [undefined] field). *)
Definition member_text (kv : string * jsval) : list string :=
  match stringify kv.2 with Some t => [quote kv.1 +:+ String ":" t] | None => [] end%char.
Definition member_norm (kv : string * jsval) : list (string * jsval) :=
  match kv.2 with JUndefined => [] | _ => [(kv.1, jnorm kv.2)] end.

Lemma stringify_arr (l : list jsval) :
  stringify (JArr l) = Some (String "[" (JsString.join "," (map elem_text l) +:+ "]"))%char.
Proof. reflexivity. Qed.

Lemma stringify_obj (fs : list (string * jsval)) :
  stringify (JObj fs) = Some (String "{" (JsString.join "," (flat_map member_text fs) +:+ "}"))%char.
Proof. reflexivity. Qed.

Lemma jnorm_arr (l : list jsval) : jnorm (JArr l) = JArr (map elem_norm l).
Proof. reflexivity. Qed.

Lemma jnorm_obj (fs : list (string * jsval)) : jnorm (JObj fs) = JObj (flat_map member_norm fs).
Proof. reflexivity. Qed.

Lemma stringify_None (v : jsval) : stringify v = None <-> v = JUndefined.
Proof. destruct v as [| |[]| | | |]; done. Qed.

Lemma elem_text_head (x : jsval) :
  exists c r, elem_text x = String c r /\ value_start c = true.
Proof.
  unfold elem_text. destruct (stringify x) eqn:E; [by eapply stringify_head|].
  by eexists _, _.
Qed.

(** *** Arrays, objects and the parser's loops *)

Lemma skip_ws_value (x : jsval) (rest : string) :
  skip_ws (elem_text x +:+ rest) = elem_text x +:+ rest.
Proof.
  destruct (elem_text_head x) as (c & r & -> & Hc). simpl.
  by rewrite (proj1 (value_start_facts c Hc)).
Qed.

(** What the round trip says of one element. *)
Definition value_ok (x : jsval) : Prop :=
  forall fuel rest, size x < fuel -> delim rest = true ->
  parse_value fuel (elem_text x +:+ rest) = Some (elem_norm x, rest).

Lemma parse_elems_ok (l : list jsval) :
  Forall value_ok l -> l <> [] ->
  forall fuel rest, sum_list_with (fun x => S (size x)) l < fuel -> delim rest = true ->
  parse_elems fuel (JsString.join "," (map elem_text l) +:+ String "]" rest) =
  Some (map elem_norm l, rest).
Proof.
  induction l as [|x l IH]; intros Hok Hne fuel rest Hf Hr; [done|].
  inv Hok. destruct fuel as [|f]; [lia|]. simpl in Hf.
  destruct l as [|y l].
  - simpl. rewrite H1 by (done || lia). reflexivity.
  - change (JsString.join "," (map elem_text (x :: y :: l)))
      with (elem_text x +:+ String "," (JsString.join "," (map elem_text (y :: l))))%char.
    rewrite <- string_app_assoc. simpl. rewrite H1 by (done || lia). simpl.
    rewrite IH by (done || lia). reflexivity.
Qed.

Lemma member_text_nil (kv : string * jsval) :
  member_text kv = [] <-> kv.2 = JUndefined.
Proof.
  unfold member_text. rewrite <- stringify_None. by destruct (stringify kv.2).
Qed.

Lemma flat_map_member_nil (fs : list (string * jsval)) :
  flat_map member_text fs = [] -> flat_map member_norm fs = [].
Proof.
  induction fs as [|[k v] fs IH]; simpl; [done|]. intros H.
  apply app_eq_nil in H as [H1 H2]. apply member_text_nil in H1. simpl in H1. subst.
  by apply IH.
Qed.

Definition msize (fs : list (string * jsval)) : nat :=
  sum_list_with (fun kv => match kv.2 with JUndefined => 0 | _ => S (size kv.2) end) fs.

Lemma parse_member_head (k : string) (t X : string) (f : nat) :
  parse_members (S f) ((quote k +:+ String ":" t) +:+ X)%char =
  match parse_value f (t +:+ X) with
  | Some (v, r3) =>
      match skip_ws r3 with
      | String "," r4 => (fun p => ((k, v) :: p.1, p.2)) <$> parse_members f r4
      | String "}" r4 => Some ([(k, v)], r4)
      | _ => None
      end
  | None => None
  end%char.
Proof.
  unfold quote. simpl. rewrite <- !string_app_assoc. simpl.
  by rewrite parse_chars_quote.
Qed.

Lemma parse_members_ok (fs : list (string * jsval)) :
  Forall (fun kv => value_ok kv.2) fs -> flat_map member_text fs <> [] ->
  forall fuel rest, msize fs < fuel -> delim rest = true ->
  parse_members fuel (JsString.join "," (flat_map member_text fs) +:+ String "}" rest) =
  Some (flat_map member_norm fs, rest).
Proof.
  induction fs as [|[k v] fs IH]; intros Hok Hne fuel rest Hf Hr; [done|].
  inv Hok. unfold msize in Hf. unfold value_ok in H1. simpl in Hf, H1.
  destruct (stringify v) as [t|] eqn:Ht.
  2:{ apply stringify_None in Ht. subst. apply IH; auto. }
  assert (Hv : v <> JUndefined) by (intros ->; discriminate).
  assert (Hx : elem_text v = t /\ elem_norm v = jnorm v)
    by (unfold elem_text, elem_norm; rewrite Ht; by destruct v).
  destruct Hx as [Htext Hnorm]. rewrite Htext, Hnorm in H1.
  replace (flat_map member_text ((k, v) :: fs))
    with ((quote k +:+ String ":" t)%char :: flat_map member_text fs)
    by (unfold member_text; simpl; by rewrite Ht).
  replace (flat_map member_norm ((k, v) :: fs)) with ((k, jnorm v) :: flat_map member_norm fs)
    by (unfold member_norm; simpl; by destruct v).
  assert (Hm : match v with JUndefined => 0 | _ => S (size v) end = S (size v))
    by (destruct v; done).
  rewrite Hm in Hf.
  destruct fuel as [|f]; [lia|].
  destruct (flat_map member_text fs) as [|m ms] eqn:Hfs.
  - cbn [JsString.join]. rewrite parse_member_head, H1 by (done || lia). simpl.
    by rewrite flat_map_member_nil.
  - change (JsString.join "," (_ :: m :: ms))
      with ((quote k +:+ String ":" t) +:+ String "," (JsString.join "," (m :: ms)))%char.
    remember (JsString.join "," (m :: ms)) as J eqn:HJ.
    rewrite <- string_app_assoc, parse_member_head. simpl.
    rewrite H1 by (done || lia). simpl. subst J. rewrite IH; try done. unfold msize. lia.
Qed.

(** *** Keys *)

Lemma keys_nodup_NoDup (ks : list string) : keys_nodup ks = true <-> NoDup ks.
Proof.
  induction ks as [|k ks IH]; simpl; [split; [constructor | done]|].
  rewrite andb_true_iff, NoDup_cons, <- IH, negb_true_iff.
  assert (existsb (String.eqb k) ks = true <-> k ∈ ks) as Hx.
  { rewrite existsb_exists, list_elem_of_In. split.
    - by intros (k' & Hin & ->%String.eqb_eq).
    - intros Hin. exists k. by rewrite String.eqb_refl. }
  destruct (existsb (String.eqb k) ks); naive_solver.
Qed.

Lemma obj_set_fresh (k : string) (v : jsval) (fs : list (string * jsval)) :
  k ∉ map fst fs -> obj_set k v fs = fs ++ [(k, v)].
Proof.
  induction fs as [|[k' v'] fs IH]; simpl; [done|]. intros Hk.
  rewrite not_elem_of_cons in Hk. destruct Hk as [Hne Hk].
  destruct (String.eqb_spec k k'); [done|]. by rewrite IH.
Qed.

(** Rebuilding an object from members with distinct keys keeps them all. *)
Lemma fold_obj_set (l acc : list (string * jsval)) :
  NoDup (map fst (acc ++ l)) ->
  fold_left (fun acc kv => obj_set kv.1 kv.2 acc) l acc = acc ++ l.
Proof.
  revert acc. induction l as [|[k v] l IH]; intros acc Hnd; simpl; [by rewrite app_nil_r|].
  assert (Hk : k ∉ map fst acc).
  { rewrite map_app, NoDup_app in Hnd. destruct Hnd as (_ & Hdisj & _).
    intros Hin. apply (Hdisj k Hin). simpl. set_solver. }
  rewrite obj_set_fresh by done. rewrite IH; by rewrite <- app_assoc.
Qed.

(** *** The round trip *)

Lemma parse_value_arr (f : nat) (X : string) :
  skip_ws X = X -> (exists c r, X = String c r /\ Ascii.eqb c "]" = false) ->
  parse_value (S f) (String "[" X) = (fun p => (JArr p.1, p.2)) <$> parse_elems f X.
Proof. intros Hs (c & r & HX & Hc). simpl. rewrite Hs, HX, Hc. by rewrite <- HX. Qed.

Lemma parse_value_obj (f : nat) (X : string) :
  skip_ws X = X -> (exists c r, X = String c r /\ Ascii.eqb c "}" = false) ->
  parse_value (S f) (String "{" X) =
  (fun p => (JObj (fold_left (fun acc kv => obj_set kv.1 kv.2 acc) p.1 []), p.2))
    <$> parse_members f X.
Proof. intros Hs (c & r & HX & Hc). simpl. rewrite Hs, HX, Hc. by rewrite <- HX. Qed.

Lemma parse_value_num (f : nat) (c : ascii) (r : string) :
  is_digit c || Ascii.eqb c "-" = true ->
  parse_value (S f) (String c r) = (fun p => (JNum p.1, p.2)) <$> parse_number (String c r).
Proof.
  intros Hc. pose proof (number_start_dispatch c Hc) as (H1 & H2 & H3 & H4 & H5 & H6).
  assert (Hv : value_start c = true)
    by (unfold value_start; apply orb_true_iff in Hc as [-> | ->]; by rewrite ?orb_true_r).
  simpl. rewrite (proj1 (value_start_facts c Hv)). by rewrite H1, H2, H3, H4, H5, H6.
Qed.

Lemma member_norm_keys (fs : list (string * jsval)) :
  map fst (flat_map member_norm fs) `sublist_of` map fst fs.
Proof.
  induction fs as [|[k v] fs IH]; simpl; [done|].
  unfold member_norm at 1. simpl. destruct v; simpl; by constructor.
Qed.

Lemma join_head (m : string) (ms : list string) :
  exists Y, JsString.join "," (m :: ms) = m +:+ Y.
Proof. destruct ms; simpl; [exists EmptyString; by rewrite string_app_nil_r | by eexists]. Qed.

Lemma member_head (fs : list (string * jsval)) (m : string) (ms : list string) :
  flat_map member_text fs = m :: ms -> exists X, m = String "034" X.
Proof.
  intros H. assert (Hin : In m (flat_map member_text fs)) by (rewrite H; by left).
  apply in_flat_map in Hin as ([k v] & _ & Hm). unfold member_text in Hm. simpl in Hm.
  destruct (stringify v); simpl in Hm; [destruct Hm as [<- | []]; by eexists | done].
Qed.

(** The induction hypothesis of the round trip, at an element. *)
Definition roundtrip_at (y : jsval) : Prop :=
  wf y = true -> forall t, stringify y = Some t ->
  forall fuel rest, size y < fuel -> delim rest = true ->
  parse_value fuel (t +:+ rest) = Some (jnorm y, rest).

Lemma value_ok_of (y : jsval) : roundtrip_at y -> wf y = true -> value_ok y.
Proof.
  intros IH Hwf fuel rest Hf Hr. unfold elem_text, elem_norm.
  destruct (stringify y) as [ty|] eqn:Hty.
  - rewrite (IH Hwf ty Hty fuel rest Hf Hr). by destruct y.
  - apply stringify_None in Hty. subst. destruct fuel; [lia|]. done.
Qed.

(** An array reads back when its elements do. *)
Lemma roundtrip_arr (l : list jsval) : Forall roundtrip_at l -> roundtrip_at (JArr l).
Proof.
  intros IH Hwf t Ht fuel rest Hf Hr. destruct fuel as [|f]; [simpl in Hf; lia|].
  rewrite stringify_arr in Ht. inv Ht. rewrite jnorm_arr. simpl in Hwf, Hf.
  destruct l as [|x l]; [done|].
  assert (Hok : Forall value_ok (x :: l)).
  { rewrite Forall_forall in IH |- *. intros y Hy. apply value_ok_of; [exact (IH y Hy)|].
    apply forallb_forall with (x := y) in Hwf; [done|by apply list_elem_of_In]. }
  remember (JsString.join "," (map elem_text (x :: l))) as J eqn:HJ.
  replace (String "[" (J +:+ "]") +:+ rest) with (String "[" (J +:+ String "]" rest))
    by (simpl; rewrite <- string_app_assoc; reflexivity).
  rewrite parse_value_arr; subst J.
  + rewrite parse_elems_ok by (done || lia). done.
  + change (JsString.join "," (map elem_text (x :: l)))
      with (JsString.join "," (elem_text x :: map elem_text l)).
    destruct l; [apply skip_ws_value|]. simpl JsString.join.
    rewrite <- string_app_assoc. apply skip_ws_value.
  + destruct (elem_text_head x) as (c & r & Hx & Hc).
    destruct l as [|y l]; simpl; rewrite Hx; simpl; eexists c, _;
      (split; [reflexivity | apply value_start_facts, Hc]).
Qed.

(** An object reads back when its members do. *)
Lemma roundtrip_obj (fs : list (string * jsval)) :
  Forall (fun kv => roundtrip_at kv.2) fs -> roundtrip_at (JObj fs).
Proof.
  intros IH Hwf t Ht fuel rest Hf Hr. destruct fuel as [|f]; [simpl in Hf; lia|].
  rewrite stringify_obj in Ht. inv Ht. rewrite jnorm_obj.
  simpl in Hwf, Hf. apply andb_true_iff in Hwf as [Hkeys Hwf].
  destruct (flat_map member_text fs) as [|m ms] eqn:Hfs.
  + rewrite flat_map_member_nil by done. done.
  + assert (Hok : Forall (fun kv => value_ok kv.2) fs).
    { rewrite Forall_forall in IH |- *. intros [k y] Hy. apply value_ok_of; [exact (IH (k, y) Hy)|].
      apply forallb_forall with (x := (k, y)) in Hwf; [done|by apply list_elem_of_In]. }
    rewrite <- Hfs. remember (JsString.join "," (flat_map member_text fs)) as J eqn:HJ.
    replace (String "{" (J +:+ "}") +:+ rest) with (String "{" (J +:+ String "}" rest))
      by (simpl; rewrite <- string_app_assoc; reflexivity).
    rewrite parse_value_obj; subst J.
    * rewrite parse_members_ok by (try rewrite Hfs; done || (unfold msize; lia)).
      simpl. rewrite fold_obj_set; [done|]. simpl.
      apply keys_nodup_NoDup in Hkeys. eapply sublist_NoDup; [exact Hkeys|].
      apply member_norm_keys.
    * destruct (member_head fs m ms Hfs) as [X HX]. rewrite Hfs.
      destruct (join_head m ms) as [Y ->]. rewrite HX. reflexivity.
    * destruct (member_head fs m ms Hfs) as [X HX]. rewrite Hfs.
      destruct (join_head m ms) as [Y ->]. rewrite HX. by eexists _, _.
Qed.

Lemma parse_value_stringify (v : jsval) :
  wf v = true -> forall t, stringify v = Some t ->
  forall fuel rest, size v < fuel -> delim rest = true ->
  parse_value fuel (t +:+ rest) = Some (jnorm v, rest).
Proof.
  revert v. fold roundtrip_at. induction v as [| |b|d|s|l IH|fs IH] using jsval_ind';
    intros Hwf t Ht fuel rest Hf Hr; destruct fuel as [|f]; try lia.
  - done.
  - by inv Ht.
  - by destruct b; inv Ht.
  - inv Ht. destruct (dec_to_string_head d) as (c & r & Hd & Hc).
    rewrite Hd. change (String c r +:+ rest) with (String c (r +:+ rest)).
    rewrite parse_value_num by done.
    change (String c (r +:+ rest)) with (String c r +:+ rest).
    rewrite <- Hd, parse_number_dec by done. done.
  - inv Ht. unfold quote. simpl. rewrite <- string_app_assoc. simpl.
    by rewrite parse_chars_quote.
  - by apply roundtrip_arr.
  - by apply roundtrip_obj.
Qed.

Lemma join_comma_length (l : list string) :
  sum_list_with (fun s => S (String.length s)) l <= S (String.length (JsString.join "," l)).
Proof.
  induction l as [|x l IH]; [simpl; lia|]. destruct l as [|y l]; [simpl; lia|].
  change (JsString.join "," (x :: y :: l))
    with (x +:+ String "," (JsString.join "," (y :: l)))%char.
  rewrite string_length_app. cbn [String.length sum_list_with] in *. lia.
Qed.

Lemma sum_list_with_flat_map {A B} (f : B -> nat) (g : A -> list B) (l : list A) :
  sum_list_with f (flat_map g l) = sum_list_with (fun x => sum_list_with f (g x)) l.
Proof. induction l as [|x l IH]; simpl; [done|]. by rewrite sum_list_with_app, IH. Qed.

Lemma sum_list_with_map {A B} (f : B -> nat) (g : A -> B) (l : list A) :
  sum_list_with f (map g l) = sum_list_with (fun x => f (g x)) l.
Proof. induction l as [|x l IH]; simpl; [done|]. by rewrite IH. Qed.

Lemma sum_list_with_le {A} (f g : A -> nat) (l : list A) :
  (forall x, x ∈ l -> f x <= g x) -> sum_list_with f l <= sum_list_with g l.
Proof.
  induction l as [|x l IH]; simpl; intros H; [done|].
  assert (f x <= g x) by (apply H; set_solver).
  assert (sum_list_with f l <= sum_list_with g l) by (apply IH; intros y Hy; apply H; set_solver).
  lia.
Qed.

Lemma stringify_nonempty (v : jsval) (t : string) :
  stringify v = Some t -> 1 <= String.length t.
Proof. intros H. destruct (stringify_head v t H) as (c & r & Ht & _). rewrite Ht. simpl. lia. Qed.

(** The fuel the parser needs never exceeds the length of the text. *)
Lemma size_le_length (v : jsval) (t : string) :
  stringify v = Some t -> size v <= String.length t.
Proof.
  revert t. induction v as [| |b|d|s|l IH|fs IH] using jsval_ind'; intros t Ht;
    try (by apply stringify_nonempty in Ht).
  - rewrite stringify_arr in Ht. inv Ht. simpl. rewrite string_length_app. simpl.
    pose proof (join_comma_length (map elem_text l)) as Hj.
    assert (sum_list_with (fun x => S (size x)) l <=
            sum_list_with (fun s => S (String.length s)) (map elem_text l)).
    { rewrite sum_list_with_map. apply sum_list_with_le. intros x Hx.
      rewrite Forall_forall in IH. unfold elem_text.
      destruct (stringify x) eqn:E; [specialize (IH x Hx _ E); lia|].
      apply stringify_None in E. subst. simpl. lia. }
    lia.
  - rewrite stringify_obj in Ht. inv Ht. simpl. rewrite string_length_app. simpl.
    pose proof (join_comma_length (flat_map member_text fs)) as Hj.
    rewrite sum_list_with_flat_map in Hj.
    assert (sum_list_with (fun kv => match kv.2 with JUndefined => 0 | _ => S (size kv.2) end) fs
            <= sum_list_with (fun kv => sum_list_with (fun s => S (String.length s))
                                          (member_text kv)) fs).
    { apply sum_list_with_le. intros [k x] Hx. rewrite Forall_forall in IH.
      unfold member_text. simpl. destruct (stringify x) eqn:E.
      - specialize (IH (k, x) Hx _ E). simpl in IH. unfold quote.
        simpl. rewrite !string_length_app. simpl. destruct x; simpl in *; lia.
      - apply stringify_None in E. by subst. }
    lia.
Qed.

(** [JSON.parse(JSON.stringify(v))] is the normal form of [v], for every
    value whose objects have distinct keys. *)
Theorem parse_stringify (v : jsval) (t : string) :
  wf v = true -> stringify v = Some t -> parse t = Ok (jnorm v).
Proof.
  intros Hwf Ht. unfold parse.
  pose proof (parse_value_stringify v Hwf t Ht (S (String.length t)) EmptyString) as H.
  rewrite string_app_nil_r in H. rewrite H; [done | | done].
  pose proof (size_le_length v t Ht). lia.
Qed.

Lemma lookup_field_norm_absent (k : string) (fs : list (string * jsval)) :
  existsb (String.eqb k) (map fst fs) = false -> lookup_field k (flat_map member_norm fs) = JUndefined.
Proof.
  induction fs as [|[k' v] fs IH]; simpl; [done|]. intros [Hk Hn]%orb_false_iff.
  destruct v; simpl; rewrite ?Hk; by apply IH.
Qed.

(** Normalisation keeps field reads, on objects with distinct keys. *)
Lemma lookup_field_norm (k : string) (fs : list (string * jsval)) :
  keys_nodup (map fst fs) = true ->
  lookup_field k (flat_map member_norm fs) = jnorm (lookup_field k fs).
Proof.
  induction fs as [|[k' v] fs IH]; simpl; [done|].
  intros [Hn Hnd]%andb_prop. cbn [flat_map].
  destruct (String.eqb_spec k k') as [->|Hne].
  - destruct v; simpl; rewrite ?String.eqb_refl; try done.
    apply lookup_field_norm_absent. by apply negb_true_iff in Hn.
  - destruct v; simpl; try (apply String.eqb_neq in Hne; rewrite Hne); by apply IH.
Qed.

Lemma field_is_b_jnorm (k s : string) (x : jsval) :
  wf x = true -> field_is_b k s (jnorm x) = field_is_b k s x.
Proof.
  destruct x as [| | | | | |fs]; try done. intros [Hk _]%andb_prop.
  rewrite jnorm_obj. cbn [field_is_b]. rewrite (lookup_field_norm k fs Hk). by destruct (lookup_field k fs).
Qed.

Lemma readable_elem_norm (x : jsval) : readable x = true -> readable (elem_norm x) = true.
Proof. by destruct x. Qed.

(** The normal form is a fixed point, and well formed. *)
Lemma jnorm_idem (v : jsval) : jnorm (jnorm v) = jnorm v.
Proof.
  induction v as [| | | d | | l IH | fs IH] using jsval_ind'; try done.
  - simpl. by rewrite dec_norm_idem.
  - rewrite !jnorm_arr, map_map. f_equal. apply map_ext_in. intros x Hx%list_elem_of_In.
    apply (proj1 (Forall_forall _ _) IH) in Hx. by destruct x; simpl in *; rewrite ?Hx.
  - rewrite !jnorm_obj. f_equal. induction fs as [|[k x] fs IHfs]; [done|].
    apply Forall_cons in IH as [Hx IH]. simpl in Hx.
    destruct x; simpl in *; rewrite ?flat_map_app, ?IHfs by done; simpl; rewrite ?Hx; done.
Qed.

Lemma wf_jnorm (v : jsval) : wf v = true -> wf (jnorm v) = true.
Proof.
  induction v as [| | | | | l IH | fs IH] using jsval_ind'; try done.
  - rewrite jnorm_arr. simpl. intros Hl. apply forallb_forall. intros y (x & <- & Hx)%in_map_iff.
    assert (Hwx : wf x = true) by (by apply (proj1 (forallb_forall _ _) Hl)).
    assert (IHx : wf x = true -> wf (jnorm x) = true)
      by (apply (proj1 (Forall_forall _ _) IH); by apply list_elem_of_In).
    destruct x; simpl in *; auto.
  - rewrite jnorm_obj. simpl. intros [Hk Hfs]%andb_prop. apply andb_true_intro. split.
    + apply keys_nodup_NoDup. apply keys_nodup_NoDup in Hk.
      eapply sublist_NoDup; [|apply member_norm_keys]. done.
    + apply forallb_forall. intros [k y] (kv & Hkv & Hy)%in_flat_map.
      pose proof (proj1 (forallb_forall _ _) Hfs kv Hkv) as Hw.
      assert (IHkv : wf kv.2 = true -> wf (jnorm kv.2) = true)
        by (apply (proj1 (Forall_forall _ _) IH); by apply list_elem_of_In).
      destruct kv as [k' x]. simpl in *. destruct x; simpl in Hy; try destruct Hy as [[= <- <-]|[]]; auto.
Qed.

(** [JSON.parse] throws nothing but a [SyntaxError]. *)
Lemma parse_throw (t : string) (e : js_exn) : parse t = Throw e -> e = SyntaxError.
Proof. unfold parse. repeat case_match; congruence. Qed.

End Json.
