(* ===== verification/JsonFuel.v ===== *)
(** * The fuel of [JSON.parse] is enough ([Json.parse])

    [Json.parse_value], [parse_elems] and [parse_members] are mutually
    recursive on a fuel argument, which JavaScript's [JSON.parse] does
    not have; [Json.parse] gives them the input length plus one.  This
    file shows that this fuel never changes the outcome.  A value costs
    one unit of fuel, an array or object one more per element or member
    on top of the cost of the element; every unit is matched by at least
    one character consumed, so a parse that reads [k] characters
    succeeds with any fuel above [k] ([fuel_ok_all], by induction on the
    fuel, with the readers' length bounds below).

    Theorems: whatever some fuel parses, the fuel of [parse] parses;
    every fuel above the input length gives the same outcome; and so
    [parse] accepts a text exactly when some fuel does. *)

From S2P Require Import Prelude JsString JsNumber JsValue Json.

Module JsonFuel.
Import Json JsNumber JsValue.
Local Open Scope js_scope.

(** ** Length of the input left by each reader *)

Lemma skip_ws_length (s : string) : String.length (skip_ws s) <= String.length s.
Proof. induction s as [|c s IH]; simpl; [lia|]. destruct (is_json_ws c); simpl; lia. Qed.

Lemma fmap_pair_some {A B C} (g : A -> C) (o : option (A * B)) (x : C) (r : B) :
  (fun p => (g p.1, p.2)) <$> o = Some (x, r) -> exists a, o = Some (a, r) /\ x = g a.
Proof. destruct o as [[a b]|]; simpl; [intros [= <- <-]; by exists a|done]. Qed.

Lemma parse_chars_length (s k r : string) :
  parse_chars s = Some (k, r) -> String.length r < String.length s.
Proof.
  revert k r. induction s as [s IH] using (induction_ltof1 _ String.length); unfold ltof in IH.
  intros k r H. destruct s as [|c t]; [done|].
  destruct c as [[] [] [] [] [] [] [] []]; simpl in H |- *;
  try (injection H as _ <-; lia);
  try (apply fmap_pair_some in H as (a & Ha & _); apply IH in Ha; simpl; lia);
  try done.
  (* the backslash: an escape *)
  destruct t as [|e t]; [done|].
  destruct e as [[] [] [] [] [] [] [] []]; simpl in H |- *; try done;
  try (apply fmap_pair_some in H as (a & Ha & _); apply IH in Ha; simpl; lia).
  (* [\u] and four hex digits *)
  destruct t as [|a [|b [|c [|d t]]]]; try done.
  destruct (hex4 a b c d); [|done].
  apply fmap_pair_some in H as (x & Hx & _). apply IH in Hx; simpl in *; lia.
Qed.

Lemma span_digits_length (s : string) :
  String.length (span_digits s).2 <= String.length s.
Proof.
  induction s as [|c s IH]; simpl; [lia|].
  destruct (is_digit c); [destruct (span_digits s); simpl in *; lia|simpl; lia].
Qed.

Lemma parse_frac_length (s fd r : string) :
  parse_frac s = Some (fd, r) -> String.length r <= String.length s.
Proof.
  intros H. destruct s as [|c t]; [by injection H as _ <-|].
  destruct c as [[] [] [] [] [] [] [] []]; simpl in H; try (injection H as _ <-; simpl; lia).
  pose proof (span_digits_length t). destruct (span_digits t) as [d r'].
  destruct (JsString.is_empty d); [done|]. injection H as _ <-. simpl in *. lia.
Qed.

Lemma parse_exp_length (s r : string) (e : Z) :
  parse_exp s = Some (e, r) -> String.length r <= String.length s.
Proof.
  intros H. destruct s as [|c t]; [by injection H as _ <-|]. unfold parse_exp in H.
  destruct (_ || _); [|injection H as _ <-; simpl; lia].
  assert (Hr1 : forall b r1, (b, r1) = match t with String "-" r' => (true, r') | String "+" r' => (false, r')
                                         | _ => (false, t) end%char -> String.length r1 <= String.length t).
  { intros b r1 E. destruct t as [|c' t']; [by injection E as _ <-|].
    destruct c' as [[] [] [] [] [] [] [] []]; injection E as _ <-; simpl; lia. }
  destruct (match t with String "-" r' => _ | _ => _ end%char) as [b r1] eqn:E.
  specialize (Hr1 b r1 eq_refl). pose proof (span_digits_length r1).
  destruct (span_digits r1) as [d r']. destruct (JsString.is_empty d); [done|].
  injection H as _ <-. simpl in *. lia.
Qed.

Lemma parse_number_length (s r : string) (d : decimal) :
  parse_number s = Some (d, r) -> String.length r <= String.length s.
Proof.
  unfold parse_number. intros H.
  assert (Hs : String.length (sign_split s).2 <= String.length s).
  { destruct s as [|c t]; simpl; [lia|]. destruct (Ascii.eqb c "-"); simpl; lia. }
  destruct (sign_split s) as [neg s1]. pose proof (span_digits_length s1).
  destruct (span_digits s1) as [ip s2]. destruct (negb _); [done|].
  destruct (parse_frac s2) as [[fd s3]|] eqn:Hf; [|done].
  destruct (parse_exp s3) as [[e s4]|] eqn:He; [|done].
  injection H as _ <-. apply parse_frac_length in Hf. apply parse_exp_length in He. simpl in *. lia.
Qed.

(** ** The dispatch on a delimiter, as a disjunction *)

Section Dispatch.
Context {A : Type}.

Lemma quote_some (t : string) (X : string -> option A) (a : A) :
  match t with String "034" r => X r | _ => None end%char = Some a ->
  exists r, t = String "034" r /\ X r = Some a.
Proof. destruct t as [|c r]; [done|]. destruct c as [[] [] [] [] [] [] [] []]; try done; eauto. Qed.

Lemma colon_some (t : string) (X : string -> option A) (a : A) :
  match t with String ":" r => X r | _ => None end%char = Some a ->
  exists r, t = String ":" r /\ X r = Some a.
Proof. destruct t as [|c r]; [done|]. destruct c as [[] [] [] [] [] [] [] []]; try done; eauto. Qed.

Lemma comma_bracket_some (t : string) (X Y : string -> option A) (a : A) :
  match t with String "," r => X r | String "]" r => Y r | _ => None end%char = Some a ->
  exists r, (t = String "," r /\ X r = Some a) \/ (t = String "]" r /\ Y r = Some a).
Proof. destruct t as [|c r]; [done|]. destruct c as [[] [] [] [] [] [] [] []]; try done; eauto. Qed.

Lemma comma_brace_some (t : string) (X Y : string -> option A) (a : A) :
  match t with String "," r => X r | String "}" r => Y r | _ => None end%char = Some a ->
  exists r, (t = String "," r /\ X r = Some a) \/ (t = String "}" r /\ Y r = Some a).
Proof. destruct t as [|c r]; [done|]. destruct c as [[] [] [] [] [] [] [] []]; try done; eauto. Qed.
End Dispatch.

(** Peel one character off a string, splitting on its eight bits. *)
Local Ltac peel t := let c := fresh "c" in
  destruct t as [|c t]; [done|]; destruct c as [[] [] [] [] [] [] [] []]; try done.

Lemma null_length (t r : string) (v : jsval) :
  match t with String "u" (String "l" (String "l" r')) => Some (JNull, r') | _ => None end%char = Some (v, r) ->
  String.length r <= String.length t.
Proof. intros H. do 3 peel t. injection H as _ <-. simpl. lia. Qed.

Lemma true_length (t r : string) (v : jsval) :
  match t with String "r" (String "u" (String "e" r')) => Some (JBool true, r') | _ => None end%char = Some (v, r) ->
  String.length r <= String.length t.
Proof. intros H. do 3 peel t. injection H as _ <-. simpl. lia. Qed.

Lemma false_length (t r : string) (v : jsval) :
  match t with String "a" (String "l" (String "s" (String "e" r'))) => Some (JBool false, r') | _ => None end%char
    = Some (v, r) ->
  String.length r <= String.length t.
Proof. intros H. do 4 peel t. injection H as _ <-. simpl. lia. Qed.

(** ** The fuel *)

(** What the parser promises of a fuel [n]: a parse that succeeds
    consumed no more than its input, and any fuel larger than the
    number of characters it consumed gives the same result. *)
Definition fuel_ok {A} (p : nat -> string -> option (A * string)) (n : nat) : Prop :=
  forall s x r, p n s = Some (x, r) ->
    String.length r <= String.length s /\
    forall m, String.length s - String.length r < m -> p m s = Some (x, r).

Section Step.
Variable f : nat.
Hypotheses (IHv : fuel_ok parse_value f) (IHe : fuel_ok parse_elems f) (IHm : fuel_ok parse_members f).

(** A value: one unit, and the fuel of its elements or members. *)
Lemma fuel_ok_value : fuel_ok parse_value (S f).
Proof.
  intros s x r H. cbn [parse_value] in H.
  pose proof (skip_ws_length s) as Hl.
  destruct (skip_ws s) as [|c t] eqn:Hs; [done|]. simpl in Hl.
  cut (String.length r <= String.length s /\
       forall m, String.length s - String.length r <= m -> parse_value (S m) s = Some (x, r)).
  { intros [Hr Hm]. split; [lia|]. intros [|m] Hlt; [lia|]. apply Hm. lia. }
  cbn [parse_value]. rewrite Hs. simpl in H |- *.
  destruct (Ascii.eqb c "n"); [split; [apply null_length in H; lia|done]|].
  destruct (Ascii.eqb c "t"); [split; [apply true_length in H; lia|done]|].
  destruct (Ascii.eqb c "f"); [split; [apply false_length in H; lia|done]|].
  destruct (Ascii.eqb c "034").
  { split; [|done]. apply fmap_pair_some in H as (a & Ha & _). apply parse_chars_length in Ha. lia. }
  destruct (Ascii.eqb c "[").
  { pose proof (skip_ws_length t) as Ht. destruct (skip_ws t) as [|d t'] eqn:Hst; [done|]. simpl in Ht.
    destruct (Ascii.eqb d "]"); [simpl in H; injection H as <- <-; split; [lia|done]|].
    apply fmap_pair_some in H as (l & Hel & ->). apply IHe in Hel as [Hlen Hm].
    split; [lia|]. intros m Hmm. by rewrite Hm by lia. }
  destruct (Ascii.eqb c "{").
  { pose proof (skip_ws_length t) as Ht. destruct (skip_ws t) as [|d t'] eqn:Hst; [done|]. simpl in Ht.
    destruct (Ascii.eqb d "}"); [simpl in H; injection H as <- <-; split; [lia|done]|].
    destruct (parse_members f t) as [[l r']|] eqn:Hel; simpl in H; [injection H as <- <-|done].
    apply IHm in Hel as [Hlen Hm].
    split; [lia|]. intros m Hmm. by rewrite Hm by lia. }
  split; [|done]. apply fmap_pair_some in H as (a & Ha & _). apply parse_number_length in Ha. simpl in Ha. lia.
Qed.

(** Elements: one unit per element on top of the element's own. *)
Lemma fuel_ok_elems : fuel_ok parse_elems (S f).
Proof.
  intros s x r H. cbn [parse_elems] in H.
  destruct (parse_value f s) as [[v r1]|] eqn:Hv; [|done]. apply IHv in Hv as [Hl1 Hv].
  pose proof (skip_ws_length r1) as Hw.
  apply comma_bracket_some in H as (r' & [[Hs H] | [Hs [= <- <-]]]); rewrite Hs in Hw; simpl in Hw.
  + apply fmap_pair_some in H as (l' & He & ->). apply IHe in He as [Hl2 He].
    split; [lia|]. intros [|m] Hm; [lia|]. cbn [parse_elems].
    rewrite Hv by lia. rewrite Hs. simpl. by rewrite He by lia.
  + split; [lia|]. intros [|m] Hm; [lia|]. cbn [parse_elems]. rewrite Hv by lia. by rewrite Hs.
Qed.

(** Members: one unit per member on top of the value's own. *)
Lemma fuel_ok_members : fuel_ok parse_members (S f).
Proof.
  intros s x r H. cbn [parse_members] in H.
  pose proof (skip_ws_length s) as Hw0.
  apply quote_some in H as (r0 & Hs & H). rewrite Hs in Hw0. simpl in Hw0.
  destruct (parse_chars r0) as [[k r1]|] eqn:Hc; [|done]. pose proof (parse_chars_length _ _ _ Hc) as Hl1.
  pose proof (skip_ws_length r1) as Hw1.
  apply colon_some in H as (r2 & Hs1 & H). rewrite Hs1 in Hw1. simpl in Hw1.
  destruct (parse_value f r2) as [[v r3]|] eqn:Hv; [|done]. apply IHv in Hv as [Hl3 Hv].
  pose proof (skip_ws_length r3) as Hw3.
  apply comma_brace_some in H as (r4 & [[Hs3 H] | [Hs3 [= <- <-]]]); rewrite Hs3 in Hw3; simpl in Hw3.
  + apply fmap_pair_some in H as (l' & Hm' & ->). apply IHm in Hm' as [Hl4 Hm'].
    split; [lia|]. intros [|m] Hm; [lia|]. cbn [parse_members].
    rewrite Hs. simpl. rewrite Hc, Hs1. simpl. rewrite Hv by lia. rewrite Hs3. simpl. by rewrite Hm' by lia.
  + split; [lia|]. intros [|m] Hm; [lia|]. cbn [parse_members].
    rewrite Hs. simpl. rewrite Hc, Hs1. simpl. rewrite Hv by lia. by rewrite Hs3.
Qed.
End Step.

Lemma fuel_ok_all (n : nat) :
  fuel_ok parse_value n /\ fuel_ok parse_elems n /\ fuel_ok parse_members n.
Proof.
  induction n as [|f (IHv & IHe & IHm)]; [split_and!; intros s x r H; done|].
  split_and!; [apply fuel_ok_value | apply fuel_ok_elems | apply fuel_ok_members]; done.
Qed.

(** Whatever some fuel parses, the fuel of [parse] parses. *)
Lemma parse_value_fuel_enough (n : nat) (s : string) (v : jsval) (r : string) :
  parse_value n s = Some (v, r) -> parse_value (S (String.length s)) s = Some (v, r).
Proof. intros H. apply (proj1 (fuel_ok_all n)) in H as [Hl Hm]. apply Hm. lia. Qed.

(** Every fuel above the input length gives the same outcome, success
    or failure. *)
Theorem parse_fuel_stable (s : string) (m : nat) :
  String.length s < m -> parse_value m s = parse_value (S (String.length s)) s.
Proof.
  intros Hm. destruct (parse_value (S (String.length s)) s) as [[v r]|] eqn:H.
  - apply (proj1 (fuel_ok_all _)) in H as [Hl Hf]. apply Hf. lia.
  - destruct (parse_value m s) as [[v r]|] eqn:Hm'; [|done].
    apply parse_value_fuel_enough in Hm'. congruence.
Qed.

(** [JSON.parse] is the fuel-free parser: a text is accepted with the
    value [v] exactly when the recursive-descent parser, given some
    amount of fuel, reads [v] and only whitespace after it.  The fuel of
    [parse] (the input length plus one) never cuts a parse short. *)
Theorem parse_accepts_iff (s : string) (v : jsval) :
  parse s = Ok v <-> exists n r, parse_value n s = Some (v, r) /\ JsString.is_empty (skip_ws r) = true.
Proof.
  unfold parse. split.
  - destruct (parse_value _ s) as [[v' r]|] eqn:H; [|done].
    destruct (JsString.is_empty (skip_ws r)) eqn:He; [|done]. intros [= <-]. eauto.
  - intros (n & r & H & He). apply parse_value_fuel_enough in H. by rewrite H, He.
Qed.

End JsonFuel.
