(* ===== verification/Base64.v ===== *)
(** * Base64: the browser's [atob] and [btoa]

    [App.jsx] reads the user name out of the token with
    [JSON.parse(atob(token.split('.')[1]))].  [atob] is the
    forgiving-base64 decode of the HTML standard: ASCII whitespace is
    removed, one or two trailing [=] are removed when the length is a
    multiple of four, a length of the form [4k+1] or any character outside
    [A-Z a-z 0-9 + /] raises [InvalidCharacterError], and the 6-bit groups
    are packed into bytes, the leftover 2 or 4 bits dropped.  The result is
    a string of code units 0-255, which is what a Rocq [string] holds.
    [btoa] is the encoder with [=] padding.  The main theorem is the round
    trip [atob (btoa s) = Ok s]; the characters of the URL-safe alphabet
    of JSON web tokens ([-] and [_]) are refused. *)

From S2P Require Import Prelude JsValue.

Module Base64.
Import JsValue.
Local Open Scope js_scope.
Local Open Scope Z_scope.

(** ** The alphabet *)

Definition code (c : ascii) : Z := Z.of_N (N_of_ascii c).

(** The 6-bit value of a character of the standard alphabet. *)
Definition b64_index (c : ascii) : option Z :=
  let n := code c in
  if (65 <=? n) && (n <=? 90) then Some (n - 65)
  else if (97 <=? n) && (n <=? 122) then Some (n - 71)
  else if (48 <=? n) && (n <=? 57) then Some (n + 4)
  else if n =? 43 then Some 62
  else if n =? 47 then Some 63
  else None.

(** The character of a 6-bit value. *)
Definition b64_char (k : Z) : ascii :=
  ascii_of_N (Z.to_N (if k <? 26 then k + 65 else if k <? 52 then k + 71
                      else if k <? 62 then k - 4 else if k =? 62 then 43 else 47)).

(** ASCII whitespace: tab, line feed, form feed, carriage return, space. *)
Definition is_ascii_ws (c : ascii) : bool :=
  match c with "009" | "010" | "012" | "013" | " " => true | _ => false end%char.

(** ** Decoding *)

Fixpoint remove_ws (s : list ascii) : list ascii :=
  match s with
  | [] => []
  | c :: s' => if is_ascii_ws c then remove_ws s' else c :: remove_ws s'
  end.

Definition is_pad (c : ascii) : bool := Ascii.eqb c "=".

(** Drop one or two trailing [=]. *)
Definition strip_padding (s : list ascii) : list ascii :=
  match rev s with
  | p1 :: p2 :: r => if is_pad p1 then (if is_pad p2 then rev r else rev (p2 :: r)) else s
  | [p1] => if is_pad p1 then [] else s
  | [] => []
  end.

Fixpoint indices (s : list ascii) : option (list Z) :=
  match s with
  | [] => Some []
  | c :: s' => match b64_index c, indices s' with
               | Some k, Some ks => Some (k :: ks)
               | _, _ => None
               end
  end.

(** Pack 6-bit groups into bytes; a last group of 3 or 2 values drops its
    2 or 4 low bits.  The groups occupy disjoint bits, so the sums are the
    bitwise or of the standard's bit buffer. *)
Fixpoint unpack (ks : list Z) : list Z :=
  match ks with
  | a :: b :: c :: d :: r =>
      let n := Z.shiftl a 18 + Z.shiftl b 12 + Z.shiftl c 6 + d in
      Z.land (Z.shiftr n 16) 255 :: Z.land (Z.shiftr n 8) 255 :: Z.land n 255 :: unpack r
  | [a; b; c] =>
      let n := Z.shiftr (Z.shiftl a 12 + Z.shiftl b 6 + c) 2 in
      [Z.land (Z.shiftr n 8) 255; Z.land n 255]
  | [a; b] => [Z.land (Z.shiftr (Z.shiftl a 6 + b) 4) 255]
  | _ => []
  end.

Definition string_of_bytes (bs : list Z) : string :=
  String.string_of_list_ascii (map (fun b => ascii_of_N (Z.to_N b)) bs).

Definition bytes_of_string (s : string) : list Z := map code (String.list_ascii_of_string s).

Definition atob (s : string) : js string :=
  let d := remove_ws (String.list_ascii_of_string s) in
  let d := if (Z.of_nat (length d) mod 4 =? 0) then strip_padding d else d in
  if Z.of_nat (length d) mod 4 =? 1 then Throw InvalidCharacterError
  else match indices d with
       | Some ks => Ok (string_of_bytes (unpack ks))
       | None => Throw InvalidCharacterError
       end.

(** ** Encoding *)

(** The 6-bit groups of a byte sequence; a last group of one or two bytes
    is padded with zero bits. *)
Fixpoint sextets (bs : list Z) : list Z :=
  match bs with
  | x :: y :: z :: r =>
      let n := Z.shiftl x 16 + Z.shiftl y 8 + z in
      Z.shiftr n 18 :: Z.land (Z.shiftr n 12) 63 :: Z.land (Z.shiftr n 6) 63 :: Z.land n 63 :: sextets r
  | [x; y] =>
      let n := Z.shiftl x 16 + Z.shiftl y 8 in
      [Z.shiftr n 18; Z.land (Z.shiftr n 12) 63; Z.land (Z.shiftr n 6) 63]
  | [x] => let n := Z.shiftl x 16 in [Z.shiftr n 18; Z.land (Z.shiftr n 12) 63]
  | [] => []
  end.

(** The [=] that complete the last group to four characters. *)
Definition padding (n : nat) : list ascii :=
  match (n mod 3)%nat with 1%nat => ["="; "="] | 2%nat => ["="] | _ => [] end%char.

(** [btoa] on a string of code units 0-255 (every Rocq string). *)
Definition btoa (s : string) : string :=
  let bs := bytes_of_string s in
  String.string_of_list_ascii (map b64_char (sextets bs) ++ padding (length bs)).

(** ** Lemmas *)

Definition is_byte (b : Z) : Prop := 0 <= b < 256.
Definition is_sextet (k : Z) : Prop := 0 <= k < 64.

Lemma land_63 (a : Z) : Z.land a 63 = a mod 64.
Proof. apply (Z.land_ones a 6). lia. Qed.

Lemma land_255 (a : Z) : Z.land a 255 = a mod 256.
Proof. apply (Z.land_ones a 8). lia. Qed.

(** Shifts and masks as division and remainder, then linear arithmetic. *)
Ltac bits :=
  rewrite ?Z.shiftl_mul_pow2, ?Z.shiftr_div_pow2 by lia; rewrite ?land_63, ?land_255;
  cbn [Z.pow Z.pow_pos Pos.iter Z.mul];
  Z.to_euclidean_division_equations; lia.

Lemma code_byte (c : ascii) : is_byte (code c).
Proof. unfold is_byte, code. pose proof (N_ascii_bounded c). lia. Qed.

(** Decide a property of all 64 sextets by computing it on each. *)
Lemma sextet_cases (P : Z -> Prop) :
  (forall n : nat, (n < 64)%nat -> P (Z.of_nat n)) -> forall k, is_sextet k -> P k.
Proof.
  intros HP k Hk. destruct (Z_of_nat_complete k) as [n ->]; [apply Hk|].
  apply HP. unfold is_sextet in Hk. lia.
Qed.

Lemma b64_char_facts (k : Z) :
  is_sextet k ->
  b64_index (b64_char k) = Some k /\ is_ascii_ws (b64_char k) = false /\
  is_pad (b64_char k) = false /\ Ascii.eqb (b64_char k) "." = false.
Proof.
  revert k. apply (sextet_cases (fun k => b64_index (b64_char k) = Some k /\
    is_ascii_ws (b64_char k) = false /\ is_pad (b64_char k) = false /\
    Ascii.eqb (b64_char k) "." = false)). intros n Hn.
  do 64 (destruct n as [|n]; [vm_compute; auto|]). lia.
Qed.

Lemma indices_map (ks : list Z) : Forall is_sextet ks -> indices (map b64_char ks) = Some ks.
Proof.
  induction 1 as [|k ks Hk _ IH]; simpl; [done|].
  by rewrite (proj1 (b64_char_facts k Hk)), IH.
Qed.

Lemma remove_ws_id (l : list ascii) : Forall (fun c => is_ascii_ws c = false) l -> remove_ws l = l.
Proof. induction 1 as [|c l Hc _ IH]; simpl; [done|]. by rewrite Hc, IH. Qed.

Lemma strip_padding_app (l : list ascii) (n : nat) :
  Forall (fun c => is_pad c = false) l -> strip_padding (l ++ padding n) = l.
Proof.
  intros Hl. induction l as [|c l' _] using rev_ind.
  - unfold padding. by destruct (n mod 3)%nat as [|[|[|m]]].
  - apply Forall_app in Hl as [_ Hc]. inv Hc.
    unfold strip_padding, padding. rewrite <- app_assoc.
    destruct (n mod 3)%nat as [|[|[|m]]]; rewrite !rev_app_distr; cbn [rev app];
      destruct (rev l') eqn:E; cbn; rewrite ?H1; try done.
    all: rewrite <- (rev_involutive l'), E; reflexivity.
Qed.

Lemma padding_S3 (n : nat) : padding (S (S (S n))) = padding n.
Proof. unfold padding. replace (S (S (S n))) with (n + 1 * 3)%nat by lia. by rewrite Nat.Div0.mod_add. Qed.

(** The 6-bit groups of bytes are sextets that unpack to the bytes; with
    the padding they fill whole groups of four characters, and alone they
    never leave a group of one. *)
Lemma sextets_facts (bs : list Z) :
  Forall is_byte bs ->
  Forall is_sextet (sextets bs) /\ unpack (sextets bs) = bs /\
  (exists q, length (sextets bs) + length (padding (length bs)) = 4 * q)%nat /\
  (exists q, length (sextets bs) = 4 * q \/ length (sextets bs) = 4 * q + 2 \/
             length (sextets bs) = 4 * q + 3)%nat.
Proof.
  induction bs as [|x|x y|x y z r IH] using list_ind3; intros Hb;
    repeat (apply Forall_cons in Hb as [? Hb]); unfold is_byte in *; cbn [sextets].
  - split; [apply List.Forall_nil|]. split; [done|]. split; [by exists 0%nat|]. exists 0%nat; simpl; lia.
  - split_and!; [repeat constructor; unfold is_sextet; bits | cbn; f_equal; bits
                | by exists 1%nat | exists 0%nat; simpl; lia].
  - split_and!; [repeat constructor; unfold is_sextet; bits | cbn; f_equal; [|f_equal]; bits
                | by exists 1%nat | exists 0%nat; simpl; lia].
  - destruct (IH Hb) as (Hs & Hu & [q Hq] & [q' Hq']). cbn [sextets unpack length].
    rewrite padding_S3. split_and!.
    + repeat constructor; try done; unfold is_sextet; bits.
    + rewrite Hu. f_equal; [|f_equal; [|f_equal]]; bits.
    + exists (S q). lia.
    + exists (S q'). lia.
Qed.

Lemma string_of_bytes_of_string (s : string) : string_of_bytes (bytes_of_string s) = s.
Proof.
  unfold string_of_bytes, bytes_of_string. rewrite map_map.
  rewrite (map_ext _ id), map_id; [apply String.string_of_list_ascii_of_string|].
  intros c. unfold code. by rewrite N2Z.id, ascii_N_embedding.
Qed.

Lemma bytes_of_string_bytes (s : string) : Forall is_byte (bytes_of_string s).
Proof. unfold bytes_of_string. apply Forall_map, Forall_forall. intros c _. apply code_byte. Qed.

(** The characters [btoa] writes: the alphabet and [=]. *)
Lemma btoa_chars (s : string) :
  Forall (fun c => is_ascii_ws c = false /\ Ascii.eqb c "." = false)
         (String.list_ascii_of_string (btoa s)).
Proof.
  unfold btoa. rewrite String.list_ascii_of_string_of_list_ascii. apply Forall_app. split.
  - destruct (sextets_facts _ (bytes_of_string_bytes s)) as [Hs _].
    apply Forall_map. eapply Forall_impl; [exact Hs|]. intros k Hk.
    pose proof (b64_char_facts k Hk). naive_solver.
  - unfold padding. destruct (_ mod 3)%nat as [|[|[|]]]; repeat constructor.
Qed.

(** [atob] decodes what [btoa] encodes. *)
Lemma atob_btoa (s : string) : atob (btoa s) = Ok s.
Proof.
  pose proof (bytes_of_string_bytes s) as Hb.
  destruct (sextets_facts _ Hb) as (Hs & Hu & [q Hq] & [q' Hq']).
  unfold atob, btoa. rewrite String.list_ascii_of_string_of_list_ascii.
  rewrite remove_ws_id.
  2:{ pose proof (btoa_chars s) as Hc. unfold btoa in Hc.
      rewrite String.list_ascii_of_string_of_list_ascii in Hc.
      eapply Forall_impl; [exact Hc|]. naive_solver. }
  rewrite length_app, length_map, Hq.
  replace (Z.of_nat (4 * q) mod 4 =? 0) with true
    by (symmetry; apply Z.eqb_eq; Z.to_euclidean_division_equations; lia).
  rewrite strip_padding_app.
  2:{ apply Forall_map. eapply Forall_impl; [exact Hs|]. intros k Hk. apply (b64_char_facts k Hk). }
  rewrite length_map.
  replace (Z.of_nat (length (sextets (bytes_of_string s))) mod 4 =? 1) with false
    by (symmetry; apply Z.eqb_neq; Z.to_euclidean_division_equations; lia).
  by rewrite indices_map, Hu, string_of_bytes_of_string.
Qed.

End Base64.
