(* ===== verification/Storage.v ===== *)
(** * [localStorage] and the JSON read/write idioms built on it

    The browser's [localStorage] is the only persistent state of the
    program.  Components see it through the class [WebStorage]
    ([getItem], [setItem], [removeItem]) and its laws [WebStorageLaws];
    [gmap string string] is the instance.  Every reader in the program
    uses the idiom [JSON.parse(localStorage.getItem(k) || d)], modelled
    by [read_json], and every writer [localStorage.setItem(k,
    JSON.stringify(v))], modelled by [write_json].  The main facts:
    writes to one key leave the others alone, and a written value reads
    back as its JSON normal form. *)

From S2P Require Import Prelude JsString JsNumber JsValue Json.

Module Storage.
Import JsValue Json.
Local Open Scope js_scope.

(** ** The interface *)

Class WebStorage (S : Type) := {
  getItem : string -> S -> option string;
  setItem : string -> string -> S -> S;
  removeItem : string -> S -> S;
}.

Class WebStorageLaws (S : Type) `{WebStorage S} := {
  getItem_setItem_eq k v st : getItem k (setItem k v st) = Some v;
  getItem_setItem_ne k k' v st : k <> k' -> getItem k' (setItem k v st) = getItem k' st;
  getItem_removeItem_eq k st : getItem k (removeItem k st) = None;
  getItem_removeItem_ne k k' st : k <> k' -> getItem k' (removeItem k st) = getItem k' st;
}.

(** ** The browser's store: a finite map *)

#[export] Instance gmap_storage : WebStorage (gmap string string) := {
  getItem k st := st !! k;
  setItem k v st := <[k := v]> st;
  removeItem k st := delete k st;
}.

#[export] Instance gmap_storage_laws : WebStorageLaws (gmap string string).
Proof.
  split; intros; simpl.
  - apply lookup_insert_eq.
  - by apply lookup_insert_ne.
  - apply lookup_delete_eq.
  - by apply lookup_delete_ne.
Qed.

Section Idioms.
Context {S : Type} `{WebStorageLaws S}.

(** [localStorage.getItem(k) || d] *)
Definition get_or (k d : string) (st : S) : string :=
  match getItem k st with
  | Some v => if JsString.truthy v then v else d
  | None => d
  end.

(** [JSON.parse(localStorage.getItem(k) || d)] *)
Definition read_json (k d : string) (st : S) : js jsval := Json.parse (get_or k d st).

(** [localStorage.setItem(k, JSON.stringify(v))]; [setItem] converts an
    [undefined] argument to the string ["undefined"]. *)
Definition write_json (k : string) (v : jsval) (st : S) : S :=
  setItem k (match stringify v with Some t => t | None => "undefined" end) st.

Lemma get_or_setItem_ne (k k' v d : string) (st : S) :
  k <> k' -> get_or k' d (setItem k v st) = get_or k' d st.
Proof. intros Hne. unfold get_or. by rewrite getItem_setItem_ne. Qed.

Lemma get_or_setItem_eq (k v d : string) (st : S) :
  get_or k d (setItem k v st) = if JsString.truthy v then v else d.
Proof. unfold get_or. by rewrite getItem_setItem_eq. Qed.

Lemma get_or_removeItem_eq (k d : string) (st : S) : get_or k d (removeItem k st) = d.
Proof. unfold get_or. by rewrite getItem_removeItem_eq. Qed.

Lemma get_or_removeItem_ne (k k' d : string) (st : S) :
  k <> k' -> get_or k' d (removeItem k st) = get_or k' d st.
Proof. intros Hne. unfold get_or. by rewrite getItem_removeItem_ne. Qed.

Lemma read_json_setItem_ne (k k' v d : string) (st : S) :
  k <> k' -> read_json k' d (setItem k v st) = read_json k' d st.
Proof. intros Hne. unfold read_json. by rewrite get_or_setItem_ne. Qed.

(** A value written with [write_json] reads back as its JSON normal form. *)
Lemma read_write_json (k d : string) (v : jsval) (st : S) :
  wf v = true -> v <> JUndefined -> read_json k d (write_json k v st) = Ok (jnorm v).
Proof.
  intros Hwf Hv. unfold read_json, write_json, get_or. rewrite getItem_setItem_eq.
  destruct (stringify v) as [t|] eqn:Ht; [|by apply stringify_None in Ht].
  pose proof (stringify_nonempty v t Ht) as Hlen.
  destruct t as [|c t]; [simpl in Hlen; lia|]. simpl. unfold parse.
  pose proof (parse_value_stringify v Hwf _ Ht (Datatypes.S (String.length (String c t))) EmptyString) as Hp.
  rewrite string_app_nil_r in Hp. rewrite Hp; [done | | done].
  pose proof (size_le_length v _ Ht). lia.
Qed.

(** An absent key reads as the default text. *)
Lemma read_json_absent (k d : string) (st : S) :
  getItem k st = None -> read_json k d st = Json.parse d.
Proof. intros Hk. unfold read_json, get_or. by rewrite Hk. Qed.
End Idioms.

End Storage.
