(* ===== verification/Badges.v ===== *)
(** * The badge rules engine: [getEarnedBadges] of src/src/BadgeDisplay.jsx

    [getEarnedBadges(userId)] reads five [localStorage] entries inside one
    [try] block and pushes a key onto the array [earned] for every rule
    that holds; the [catch] is empty, so an exception keeps the keys
    pushed so far and skips the rest.  [earned_keys] follows the
    statements of the block in order, [getEarnedBadges] filters the
    catalogue [BADGES] by the result, and [BadgeDisplay] renders nothing
    without a user.  The theorems give each rule's threshold, and show
    which badges a malformed entry makes disappear. *)

From S2P Require Import Prelude JsString JsNumber JsValue Json Storage.

Module Badges.
Import JsNumber JsValue Json Storage.
Local Open Scope js_scope.

Record badge := Badge { key : string; label : string; icon : string; desc : string }.

Definition BADGES : list badge := [
  Badge "first_survey" "First Survey" "🎉" "Completed your first career survey!";
  Badge "five_surveys" "Survey Pro" "🏅" "Completed 5 career surveys.";
  Badge "ten_surveys" "Survey Master" "🥇" "Completed 10 career surveys.";
  Badge "streak_3" "3-Day Streak" "🔥" "Logged in 3 days in a row.";
  Badge "streak_7" "7-Day Streak" "💯" "Logged in 7 days in a row.";
  Badge "level_5" "Level 5" "🚀" "Reached Level 5 engagement.";
  Badge "first_favorite" "First Favorite" "⭐" "Saved your first favorite career.";
  Badge "profile_pic" "Profile Pic" "🖼️" "Uploaded a profile picture."
].

(** [k] is in the array [earned]: [earned.includes(k)] *)
Definition has_key (k : string) (earned : list string) : bool :=
  existsb (String.eqb k) earned.

(** [if (b) earned.push(k)] *)
Definition push_if (b : bool) (k : string) : list string := if b then [k] else [].

(** A storage value is truthy when present and not empty. *)
Definition item_truthy (v : option string) : bool :=
  match v with Some s => JsString.truthy s | None => false end.

(** The number of history records of [userId]:
    [history.filter(h => h.user_id === userId).length] on readable records. *)
Definition survey_count (userId : string) (hs : list jsval) : nat :=
  length (List.filter (field_is_b "user_id" userId) hs).

Section WithStorage.
Context {S : Type} `{WebStorageLaws S}.

(** The [try] block of [getEarnedBadges], statement by statement. *)
Definition earned_keys (userId : string) (st : S) : list string :=
  match read_json "surveyHistory" "[]" st with
  | Throw _ => []
  | Ok history =>
  match read_json "favorites" "[]" st with
  | Throw _ => []
  | Ok favs =>
  let avatar := getItem ("avatar_" +:+ userId) st in
  let loginStreak := parseInt10 (get_or ("loginStreak_" +:+ userId) "0" st) in
  let level := parseInt10 (get_or ("level_" +:+ userId) "1" st) in
  match arr_filter history (field_is "user_id" userId) with
  | Throw _ => []
  | Ok hs =>
      let surveyCount := length hs in
      let before_favs :=
        push_if (Nat.ltb 0 surveyCount) "first_survey" ++
        push_if (Nat.leb 5 surveyCount) "five_surveys" ++
        push_if (Nat.leb 10 surveyCount) "ten_surveys" ++
        push_if (ge_num loginStreak 3) "streak_3" ++
        push_if (ge_num loginStreak 7) "streak_7" ++
        push_if (ge_num level 5) "level_5" in
      match arr_filter favs (field_is "userId" userId) with
      | Throw _ => before_favs
      | Ok fs =>
          before_favs ++
          push_if (Nat.ltb 0 (length fs)) "first_favorite" ++
          push_if (item_truthy avatar) "profile_pic"
      end
  end
  end
  end.

(** [getEarnedBadges(userId)]: the catalogue entries whose key was pushed. *)
Definition getEarnedBadges (userId : string) (st : S) : list badge :=
  List.filter (fun b => has_key (key b) (earned_keys userId st)) BADGES.

(** [BadgeDisplay]: nothing without a user, else the earned badges. *)
Definition BadgeDisplay (userId : string) (st : S) : option (list badge) :=
  if JsString.truthy userId then Some (getEarnedBadges userId st) else None.
End WithStorage.

(** ** Lemmas *)

Lemma has_key_app (k : string) (l1 l2 : list string) :
  has_key k (l1 ++ l2) = has_key k l1 || has_key k l2.
Proof. apply existsb_app. Qed.

Lemma has_key_push_if (k k' : string) (b : bool) :
  has_key k (push_if b k') = b && String.eqb k k'.
Proof. destruct b; simpl; [by rewrite orb_false_r | done]. Qed.

#[export] Hint Rewrite has_key_app has_key_push_if : csync_simpl.

(** Evaluate [has_key] on the concatenation of pushes of [earned_keys]. *)
Ltac eval_keys :=
  autorewrite with csync_simpl; cbn [String.eqb Ascii.eqb Bool.eqb andb orb];
  rewrite ?andb_true_r, ?andb_false_r, ?orb_false_r, ?orb_false_l.

Lemma Z_to_string_truthy (z : Z) : JsString.truthy (Z_to_string z) = true.
Proof.
  destruct z as [|p|p]; [done| |done]. unfold Z_to_string. simpl Z.to_N.
  destruct (N_to_string_head (Npos p)) as (c & r & -> & _). done.
Qed.

Section Theorems.
Context {S : Type} `{WebStorageLaws S}.

(** The keys pushed before the favourites are read, when both JSON
    entries parse and the history is an array of readable records. *)
Lemma earned_keys_prefix (u : string) (st : S) (hs : list jsval) (favs : jsval) :
  read_json "surveyHistory" "[]" st = Ok (JArr hs) ->
  Forall (fun h => readable h = true) hs ->
  read_json "favorites" "[]" st = Ok favs ->
  exists tail, earned_keys u st =
    push_if (Nat.ltb 0 (survey_count u hs)) "first_survey" ++
    push_if (Nat.leb 5 (survey_count u hs)) "five_surveys" ++
    push_if (Nat.leb 10 (survey_count u hs)) "ten_surveys" ++
    push_if (ge_num (parseInt10 (get_or ("loginStreak_" +:+ u) "0" st)) 3) "streak_3" ++
    push_if (ge_num (parseInt10 (get_or ("loginStreak_" +:+ u) "0" st)) 7) "streak_7" ++
    push_if (ge_num (parseInt10 (get_or ("level_" +:+ u) "1" st)) 5) "level_5" ++ tail
    /\ has_key "first_survey" tail = false /\ has_key "five_surveys" tail = false
    /\ has_key "ten_surveys" tail = false /\ has_key "streak_3" tail = false
    /\ has_key "streak_7" tail = false /\ has_key "level_5" tail = false.
Proof.
  intros Hh Hr Hf. unfold earned_keys. rewrite Hh, Hf, arr_filter_readable by done.
  fold (survey_count u hs). cbv zeta.
  destruct (arr_filter favs (field_is "userId" u)).
  - eexists. split; [by rewrite <- !app_assoc|]. eval_keys. by rewrite ?andb_false_r.
  - exists []. rewrite app_nil_r. by split.
Qed.

(** C2: the survey badges are earned exactly at 1, 5 and 10 surveys. *)
Theorem survey_badge_thresholds (u : string) (st : S) (hs : list jsval) (favs : jsval) :
  read_json "surveyHistory" "[]" st = Ok (JArr hs) ->
  Forall (fun h => readable h = true) hs ->
  read_json "favorites" "[]" st = Ok favs ->
  has_key "first_survey" (earned_keys u st) = Nat.ltb 0 (survey_count u hs) /\
  has_key "five_surveys" (earned_keys u st) = Nat.leb 5 (survey_count u hs) /\
  has_key "ten_surveys" (earned_keys u st) = Nat.leb 10 (survey_count u hs).
Proof.
  intros Hh Hr Hf. destruct (earned_keys_prefix u st hs favs Hh Hr Hf)
    as (tail & -> & H1 & H2 & H3 & _). eval_keys. by rewrite H1, H2, H3, !orb_false_r.
Qed.

(** the streak and level badges compare the stored counters with 3, 7
    and 5. *)
Theorem counter_badges (u : string) (st : S) (hs : list jsval) (favs : jsval) (n m : Z) :
  read_json "surveyHistory" "[]" st = Ok (JArr hs) ->
  Forall (fun h => readable h = true) hs ->
  read_json "favorites" "[]" st = Ok favs ->
  getItem ("loginStreak_" +:+ u) st = Some (Z_to_string n) ->
  getItem ("level_" +:+ u) st = Some (Z_to_string m) ->
  has_key "streak_3" (earned_keys u st) = Z.leb 3 n /\
  has_key "streak_7" (earned_keys u st) = Z.leb 7 n /\
  has_key "level_5" (earned_keys u st) = Z.leb 5 m.
Proof.
  intros Hh Hr Hf Hs Hl. destruct (earned_keys_prefix u st hs favs Hh Hr Hf)
    as (tail & -> & _ & _ & _ & H4 & H5 & H6). eval_keys.
  rewrite H4, H5, H6, !orb_false_r. unfold get_or. rewrite Hs, Hl, !Z_to_string_truthy.
  by rewrite !parseInt10_Z_to_string.
Qed.

(** a survey history that parses to anything but an array (an object,
    a number, [null]) makes every badge disappear, whatever the other
    entries hold. *)
Theorem history_not_array_no_badges (u : string) (st : S) (v : jsval) :
  read_json "surveyHistory" "[]" st = Ok v -> is_array v = false ->
  earned_keys u st = [].
Proof.
  intros Hh Ha. unfold earned_keys. rewrite Hh.
  destruct (read_json "favorites" "[]" st); [|done]. by rewrite arr_filter_not_array.
Qed.

(** favourites that parse to a non-array lose the [first_favorite] and
    [profile_pic] badges, even when a picture was uploaded. *)
Theorem favorites_not_array_badges (u : string) (st : S) (hs : list jsval) (v : jsval) :
  read_json "surveyHistory" "[]" st = Ok (JArr hs) ->
  Forall (fun h => readable h = true) hs ->
  read_json "favorites" "[]" st = Ok v -> is_array v = false ->
  has_key "first_favorite" (earned_keys u st) = false /\
  has_key "profile_pic" (earned_keys u st) = false.
Proof.
  intros Hh Hr Hf Ha. unfold earned_keys. rewrite Hh, Hf, arr_filter_readable by done.
  rewrite arr_filter_not_array by done. cbv zeta. eval_keys. by rewrite ?andb_false_r.
Qed.

(** with well-formed entries, [first_favorite] is earned iff the user
    has a favourite and [profile_pic] iff the avatar slot is non-empty. *)
Theorem favorite_avatar_badges (u : string) (st : S) (hs fs : list jsval) :
  read_json "surveyHistory" "[]" st = Ok (JArr hs) ->
  Forall (fun h => readable h = true) hs ->
  read_json "favorites" "[]" st = Ok (JArr fs) ->
  Forall (fun f => readable f = true) fs ->
  has_key "first_favorite" (earned_keys u st) =
    Nat.ltb 0 (length (List.filter (field_is_b "userId" u) fs)) /\
  has_key "profile_pic" (earned_keys u st) = item_truthy (getItem ("avatar_" +:+ u) st).
Proof.
  intros Hh Hr Hf Hfr. unfold earned_keys.
  rewrite Hh, Hf, !arr_filter_readable by done. cbv zeta. eval_keys.
  by rewrite ?andb_false_r, ?orb_false_r, ?orb_false_l.
Qed.

End Theorems.

(** ** Witnesses on a concrete store *)

Definition demo_store : gmap string string := Eval vm_compute in
  <["surveyHistory" :=
     (json_text "[{'user_id':'ann'},{'user_id':'bob'},{'user_id':'ann'},{'user_id':'ann'},{'user_id':'ann'},{'user_id':'ann'}]")]>
  (<["favorites" := (json_text "[{'userId':'ann','career':'Data Scientist'}]")]>
  (<["avatar_ann" := "data:image/png;base64,AA=="]>
  (<["loginStreak_ann" := "7"]>
  (<["level_ann" := "3"]> ∅)))).

Definition demo_list (k : string) (st : gmap string string) : list jsval :=
  match read_json k "[]" st with Ok (JArr l) => l | _ => [] end.

Lemma survey_badge_thresholds_witness :
  has_key "first_survey" (earned_keys "ann" demo_store) = true /\
  has_key "five_surveys" (earned_keys "ann" demo_store) = true /\
  has_key "ten_surveys" (earned_keys "ann" demo_store) = false.
Proof.
  refine (survey_badge_thresholds "ann" demo_store (demo_list "surveyHistory" demo_store)
            (JArr (demo_list "favorites" demo_store)) _ _ _);
    vm_compute; [reflexivity | repeat constructor | reflexivity].
Defined.

Lemma counter_badges_witness :
  has_key "streak_3" (earned_keys "ann" demo_store) = true /\
  has_key "streak_7" (earned_keys "ann" demo_store) = true /\
  has_key "level_5" (earned_keys "ann" demo_store) = false.
Proof.
  refine (counter_badges "ann" demo_store (demo_list "surveyHistory" demo_store)
            (JArr (demo_list "favorites" demo_store)) 7 3 _ _ _ _ _);
    vm_compute; first [reflexivity | repeat constructor].
Defined.

Lemma history_not_array_no_badges_witness :
  earned_keys "ann" (<["surveyHistory" := "{}"]> demo_store) = [].
Proof.
  apply (history_not_array_no_badges "ann" (<["surveyHistory" := "{}"]> demo_store) (JObj []));
    vm_compute; reflexivity.
Defined.

Lemma favorites_not_array_badges_witness :
  has_key "first_favorite" (earned_keys "ann" (<["favorites" := "{}"]> demo_store)) = false /\
  has_key "profile_pic" (earned_keys "ann" (<["favorites" := "{}"]> demo_store)) = false.
Proof.
  refine (favorites_not_array_badges "ann" (<["favorites" := "{}"]> demo_store)
            (demo_list "surveyHistory" demo_store) (JObj []) _ _ _ _);
    vm_compute; first [reflexivity | repeat constructor].
Defined.

Lemma favorite_avatar_badges_witness :
  has_key "first_favorite" (earned_keys "ann" demo_store) = true /\
  has_key "profile_pic" (earned_keys "ann" demo_store) = true.
Proof.
  refine (favorite_avatar_badges "ann" demo_store (demo_list "surveyHistory" demo_store)
            (demo_list "favorites" demo_store) _ _ _ _);
    vm_compute; first [reflexivity | repeat constructor].
Defined.

End Badges.
