(* ===== verification/Profile.v ===== *)
(** * The profile page ([src/src/Profile.jsx])

    The profile is one JSON record in the shared [profile] slot of
    [localStorage]; [initialProfile] takes it when it is an object whose
    [username] is the current user, and a blank record otherwise (also
    when the slot is absent, since [JSON.parse(null)] parses ["null"], or
    malformed).  The avatar is the data URL in [avatar_<userId>].  The
    handlers [handleChange], [handleSave] and [handleAvatarChange] act on
    the record [profile_state] and the store; the 2-second reset of the
    message and the asynchronous [FileReader] are not modelled (the data
    URL is the handler's input).

    Theorems: the profile shown always belongs to the current user; a
    saved profile reads back (in JSON normal form) on the next visit; the
    one slot means another user's visit shows the blank record; an
    uploaded picture is shown again and earns the [profile_pic] badge. *)

From S2P Require Import Prelude JsString JsNumber JsValue Json Storage Badges.

Module Profile.
Import JsValue Json Storage.
Local Open Scope js_scope.

Definition default_profile (userId : string) : jsval :=
  JObj [("username", JStr userId); ("fullName", JStr ""); ("email", JStr "");
        ("age", JStr ""); ("phone", JStr "")].

(** [typeof v === 'object'] *)
Definition is_object_type (v : jsval) : bool :=
  match v with JNull | JArr _ | JObj _ => true | _ => false end.

(** [{ ...fields, [k]: v }]: an existing key keeps its place. *)
Fixpoint put (k : string) (v : jsval) (fs : list (string * jsval)) : list (string * jsval) :=
  match fs with
  | [] => [(k, v)]
  | (k', w) :: r => if String.eqb k k' then (k', v) :: r else (k', w) :: put k v r
  end.

(** The [name] attributes of the four inputs. *)
Inductive pfield := PFullName | PEmail | PAge | PPhone.

Definition pfield_key (n : pfield) : string :=
  match n with PFullName => "fullName" | PEmail => "email" | PAge => "age" | PPhone => "phone" end.

Record profile_state := {
  profile : jsval;
  avatar : string;
  edit : bool;
  msg : string;
}.

Section WithStorage.
Context {S : Type} `{WebStorage S}.

Definition initialProfile (userId : string) (st : S) : jsval :=
  try_catch
    (stored <- parse (match getItem "profile" st with Some v => v | None => "null" end) ;;
     if truthy stored && is_object_type stored then
       u <- get stored "username" ;;
       Ok (if strict_eqb u (JStr userId) then stored else default_profile userId)
     else Ok (default_profile userId))
    (fun _ => default_profile userId).

(** The state when the page opens. *)
Definition mount (userId : string) (st : S) : profile_state :=
  {| profile := initialProfile userId st; avatar := get_or ("avatar_" +:+ userId) "" st;
     edit := false; msg := "" |}.

Definition handleChange (n : pfield) (v : string) (s : profile_state) : profile_state :=
  {| profile := JObj (put (pfield_key n) (JStr v)
                        (match profile s with JObj fs => fs | _ => [] end));
     avatar := avatar s; edit := edit s; msg := msg s |}.

Definition handleSave (s : profile_state) (st : S) : profile_state * S :=
  ({| profile := profile s; avatar := avatar s; edit := false; msg := "Profile updated!" |},
   write_json "profile" (profile s) st).

(** The data URL of the chosen file, if one was chosen. *)
Definition handleAvatarChange (userId : string) (file : option string) (s : profile_state) (st : S)
    : profile_state * S :=
  match file with
  | None => (s, st)
  | Some url =>
      ({| profile := profile s; avatar := url; edit := edit s; msg := msg s |},
       setItem ("avatar_" +:+ userId) url st)
  end.
End WithStorage.

(** ** Sequences of actions on the page *)

(** The page's controls: the inputs and the Save button exist while
    editing, Edit Profile while not, Cancel while editing; the avatar's
    file input always.  A control the page does not render leaves the
    page as it is. *)
Inductive action :=
| Change (n : pfield) (v : string)
| Save
| Upload (file : option string)
| StartEdit
| CancelEdit.

Definition set_edit (b : bool) (s : profile_state) : profile_state :=
  {| profile := profile s; avatar := avatar s; edit := b; msg := msg s |}.

Section Actions.
Context {S : Type} `{WebStorage S}.

Definition act (userId : string) (a : action) (w : profile_state * S) : profile_state * S :=
  match a with
  | Change n v => if edit w.1 then (handleChange n v w.1, w.2) else w
  | Save => if edit w.1 then handleSave w.1 w.2 else w
  | Upload f => handleAvatarChange userId f w.1 w.2
  | StartEdit => if edit w.1 then w else (set_edit true w.1, w.2)
  | CancelEdit => if edit w.1 then (set_edit false w.1, w.2) else w
  end.

Definition run_actions (userId : string) (acts : list action) (w : profile_state * S) : profile_state * S :=
  fold_left (fun w a => act userId a w) acts w.
End Actions.

(** ** Theorems *)

(** The record shown is an object whose [username] is the user. *)
Definition owned (u : string) (p : jsval) : Prop :=
  exists fs, p = JObj fs /\ lookup_field "username" fs = JStr u.

Lemma put_other (k k' : string) (v : jsval) (fs : list (string * jsval)) :
  k <> k' -> lookup_field k' (put k v fs) = lookup_field k' fs.
Proof.
  intros Hne. induction fs as [|[k'' w] fs IH]; simpl.
  - apply String.eqb_neq in Hne. by rewrite String.eqb_sym, Hne.
  - destruct (String.eqb_spec k k'') as [->|_]; simpl.
    + apply String.eqb_neq in Hne. by rewrite String.eqb_sym, Hne.
    + by rewrite IH.
Qed.

Lemma default_owned (u : string) : owned u (default_profile u).
Proof. eexists. split; [done|]. simpl. done. Qed.

Section Theorems.
Context {S : Type} `{WebStorageLaws S}.

Lemma initialProfile_owned (u : string) (st : S) : owned u (initialProfile u st).
Proof.
  unfold initialProfile. destruct (parse _) as [v|e]; simpl; [|apply default_owned].
  destruct v as [| | | | | |fs]; simpl; rewrite ?andb_false_r; simpl; try apply default_owned.
  destruct (strict_eqb (lookup_field "username" fs) (JStr u)) eqn:E; simpl; [|apply default_owned].
  apply strict_eqb_str in E. by exists fs.
Qed.

Lemma act_owned (u : string) (a : action) (w : profile_state * S) :
  owned u (profile w.1) -> owned u (profile (act u a w).1).
Proof.
  intros (fs & Hp & Hu). destruct a as [n v| |[url|]| |]; simpl; try destruct (edit w.1); simpl; try (by exists fs).
  rewrite Hp. eexists. split; [done|]. rewrite put_other; [done|]. by destruct n.
Qed.

(** Every action keeps the page profile owned by the user. *)
Lemma run_owned (u : string) (acts : list action) (w : profile_state * S) :
  owned u (profile w.1) -> owned u (profile (run_actions u acts w).1).
Proof.
  unfold run_actions. revert w. induction acts as [|a acts IH]; intros w Hw; simpl; [done|].
  apply IH, act_owned, Hw.
Qed.

(** C30: The profile on the page belongs to the user, whatever is stored and
    whatever the user edits, saves or uploads. *)
Theorem profile_owned (u : string) (st : S) (acts : list action) :
  owned u (profile (run_actions u acts (mount u st, st)).1).
Proof. apply run_owned, initialProfile_owned. Qed.

(** What the page reads after a profile record has been written. *)
Lemma initialProfile_write (u u' : string) (fs : list (string * jsval)) (st : S) :
  wf (JObj fs) = true -> lookup_field "username" fs = JStr u ->
  initialProfile u' (write_json "profile" (JObj fs) st) =
    if String.eqb u u' then jnorm (JObj fs) else default_profile u'.
Proof.
  intros Hw Hu. unfold initialProfile, write_json. rewrite getItem_setItem_eq.
  destruct (stringify (JObj fs)) as [t|] eqn:Ht; [|by apply stringify_None in Ht].
  rewrite (parse_stringify _ _ Hw Ht), jnorm_obj. simpl.
  simpl in Hw. apply andb_prop in Hw as [Hk _].
  rewrite lookup_field_norm, Hu by done. simpl. by destruct (String.eqb u u').
Qed.

(** C28: A saved profile is the one shown on the next visit, in JSON normal
    form. *)
Theorem save_then_reload (u : string) (s : profile_state) (st : S) (fs : list (string * jsval)) :
  profile s = JObj fs -> wf (JObj fs) = true -> lookup_field "username" fs = JStr u ->
  initialProfile u (handleSave s st).2 = jnorm (JObj fs).
Proof.
  intros Hp Hw Hu. simpl. rewrite Hp, (initialProfile_write u u fs st Hw Hu).
  by rewrite String.eqb_refl.
Qed.

(** There is one profile slot: after a user saves, any other user opening
    the page gets the blank record. *)
Theorem shared_slot_other_user (u u' : string) (s : profile_state) (st : S) (fs : list (string * jsval)) :
  profile s = JObj fs -> wf (JObj fs) = true -> lookup_field "username" fs = JStr u -> u' <> u ->
  initialProfile u' (handleSave s st).2 = default_profile u'.
Proof.
  intros Hp Hw Hu Hne. simpl. rewrite Hp, (initialProfile_write u u' fs st Hw Hu).
  destruct (String.eqb_spec u u'); [congruence | done].
Qed.

(** An uploaded picture is shown on the next visit and earns the
    [profile_pic] badge's condition. *)
Theorem avatar_upload (u url : string) (s : profile_state) (st : S) :
  url <> "" ->
  avatar (mount u (handleAvatarChange u (Some url) s st).2) = url /\
  Badges.item_truthy (getItem ("avatar_" +:+ u) (handleAvatarChange u (Some url) s st).2) = true.
Proof.
  intros Hu. simpl. rewrite get_or_setItem_eq, getItem_setItem_eq. simpl.
  unfold JsString.truthy. by destruct url.
Qed.

End Theorems.

(** ** Witnesses *)

Definition demo_fields : list (string * jsval) :=
  [("username", JStr "ann"); ("fullName", JStr "Ann Lee"); ("email", JStr "ann@example.org");
   ("age", JStr "29"); ("phone", JStr "")].

Definition demo_state : profile_state :=
  {| profile := JObj demo_fields; avatar := ""; edit := true; msg := "" |}.

Definition demo_store : gmap string string := ∅.

Lemma save_then_reload_witness :
  initialProfile "ann" (handleSave demo_state demo_store).2 = jnorm (JObj demo_fields).
Proof. apply (save_then_reload "ann" demo_state demo_store demo_fields); reflexivity. Defined.

Lemma shared_slot_other_user_witness :
  initialProfile "bob" (handleSave demo_state demo_store).2 = default_profile "bob".
Proof.
  apply (shared_slot_other_user "ann" "bob" demo_state demo_store demo_fields);
    [reflexivity | reflexivity | reflexivity | discriminate].
Defined.

Lemma avatar_upload_witness :
  avatar (mount "ann" (handleAvatarChange "ann" (Some "data:image/png;base64,AA==") demo_state demo_store).2)
    = "data:image/png;base64,AA==" /\
  Badges.item_truthy (getItem ("avatar_" +:+ "ann")
    (handleAvatarChange "ann" (Some "data:image/png;base64,AA==") demo_state demo_store).2) = true.
Proof. apply avatar_upload. discriminate. Defined.

End Profile.
