(* ===== verification/Favorites.v ===== *)
(** * Favourite careers: [handleFavorite] and the loader of src/src/Dashboard.jsx

    The favourites of all users live in one JSON array under the key
    [favorites]; each entry is an object [{userId, career}].
    [handleFavorite] toggles the entry of the current user for one career:
    it removes every matching entry if one exists, and appends a new one
    otherwise, then writes the array back and keeps the user's entries as
    component state.  [load_dashboard] is the [useEffect] that loads the
    user's favourites and survey count, [isFav] the test that labels a
    career as saved.

    [toggle] is the abstract operation on a list of (user, career) pairs;
    [handleFavorite_refines] shows the handler implements it on well-formed
    stores.  The theorems: toggling twice restores the set of favourites
    (and the very list when the pair was absent), toggling keeps the
    list duplicate-free, and other users' favourites are untouched. *)

From S2P Require Import Prelude JsString JsNumber JsValue Json Storage.

Module Favorites.
Import JsValue Json Storage.
Local Open Scope js_scope.

(** ** The handlers *)

Section WithStorage.
Context {S : Type} `{WebStorageLaws S}.

(** [f.userId === userId && f.career === careerObj.career] *)
Definition same_fav (userId : string) (careerObj f : jsval) : js bool :=
  a <- field_is "userId" userId f ;;
  if a then (x <- get f "career" ;; c <- get careerObj "career" ;; Ok (strict_eqb x c))
  else Ok false.

(** [handleFavorite(careerObj)]: the new store and the new [favorites]
    state of the component. *)
Definition handleFavorite (userId : string) (careerObj : jsval) (st : S) :
    js (S * list jsval) :=
  favs <- read_json "favorites" "[]" st ;;
  exists_ <- arr_some favs (same_fav userId careerObj) ;;
  updated <-
    (if exists_ then
       arr_filter favs (fun f => b <- same_fav userId careerObj f ;; Ok (negb b))
     else
       l <- as_array favs ;;
       c <- get careerObj "career" ;;
       Ok (l ++ [JObj [("userId", JStr userId); ("career", c)]])) ;;
  let st' := write_json "favorites" (JArr updated) st in
  mine <- filterM (field_is "userId" userId) updated ;;
  Ok (st', mine).

(** The [useEffect] of [Dashboard]: the user's favourites and the number
    of the user's surveys. *)
Definition load_dashboard (userId : string) (st : S) : js (list jsval * nat) :=
  favs <- read_json "favorites" "[]" st ;;
  mine <- arr_filter favs (field_is "userId" userId) ;;
  history <- read_json "surveyHistory" "[]" st ;;
  hs <- arr_filter history (field_is "user_id" userId) ;;
  Ok (mine, length hs).
End WithStorage.

(** [favorites.some(f => f.career === c.career && f.userId === userId)] *)
Definition isFav (userId : string) (favorites : list jsval) (c : jsval) : js bool :=
  someM (fun f =>
           x <- get f "career" ;; y <- get c "career" ;;
           if strict_eqb x y then field_is "userId" userId f else Ok false) favorites.

(** ** The abstract favourites: a list of (user, career) pairs *)

Definition fav_obj (p : string * string) : jsval :=
  JObj [("userId", JStr p.1); ("career", JStr p.2)].

Definition toggle (u c : string) (l : list (string * string)) : list (string * string) :=
  if existsb (fun p => bool_decide (p = (u, c))) l
  then List.filter (fun p => negb (bool_decide (p = (u, c)))) l
  else l ++ [(u, c)].

(** The favourites of one user. *)
Definition of_user (u : string) (l : list (string * string)) : list (string * string) :=
  List.filter (fun p => String.eqb p.1 u) l.

(** ** Lemmas on [toggle] *)

Lemma existsb_pair_In (q : string * string) (l : list (string * string)) :
  existsb (fun p => bool_decide (p = q)) l = true <-> In q l.
Proof.
  rewrite existsb_exists. split.
  - intros (p & Hp & Heq). apply bool_decide_eq_true in Heq. by subst.
  - intros Hq. exists q. split; [done|]. by apply bool_decide_eq_true.
Qed.

Lemma toggle_present (u c : string) (l : list (string * string)) :
  In (u, c) l -> toggle u c l = List.filter (fun p => negb (bool_decide (p = (u, c)))) l.
Proof. intros Hin. unfold toggle. by rewrite (proj2 (existsb_pair_In _ _) Hin). Qed.

Lemma toggle_absent (u c : string) (l : list (string * string)) :
  ~ In (u, c) l -> toggle u c l = l ++ [(u, c)].
Proof.
  intros Hn. unfold toggle. destruct (existsb _ l) eqn:E; [|done].
  by apply existsb_pair_In in E.
Qed.

Lemma not_In_filter_neq (q : string * string) (l : list (string * string)) :
  ~ In q (List.filter (fun p => negb (bool_decide (p = q))) l).
Proof. rewrite filter_In, negb_true_iff, bool_decide_eq_false. naive_solver. Qed.

Lemma filter_not_In (q : string * string) (l : list (string * string)) :
  ~ In q l -> List.filter (fun p => negb (bool_decide (p = q))) l = l.
Proof.
  induction l as [|p l IH]; simpl; intros Hn; [done|].
  rewrite bool_decide_eq_false_2 by naive_solver. simpl. f_equal. apply IH. naive_solver.
Qed.

(** Toggling an absent pair twice gives the very same list back. *)
Lemma toggle_toggle_absent (u c : string) (l : list (string * string)) :
  ~ In (u, c) l -> toggle u c (toggle u c l) = l.
Proof.
  intros Hn. rewrite (toggle_absent u c l Hn), toggle_present by (apply in_app_iff; by right; left).
  rewrite List.filter_app, filter_not_In by done. simpl.
  rewrite bool_decide_eq_true_2 by done. apply app_nil_r.
Qed.

(** Toggling the same pair twice keeps every pair's membership. *)
Lemma toggle_toggle_In (u c : string) (l : list (string * string)) (p : string * string) :
  In p (toggle u c (toggle u c l)) <-> In p l.
Proof.
  destruct (in_dec (decide_rel eq) (u, c) l) as [Hin|Hn]; [|by rewrite toggle_toggle_absent].
  rewrite (toggle_present u c l Hin), toggle_absent by apply not_In_filter_neq.
  rewrite in_app_iff, filter_In, negb_true_iff, bool_decide_eq_false. simpl. split.
  - intros [[Hp _] | [<- | []]]; done.
  - intros Hp. destruct (decide (p = (u, c))) as [->|Hne]; [by right; left | by left].
Qed.

Lemma toggle_NoDup (u c : string) (l : list (string * string)) :
  NoDup l -> NoDup (toggle u c l).
Proof.
  rewrite !NoDup_ListNoDup. intros Hnd.
  destruct (in_dec (decide_rel eq) (u, c) l) as [Hin|Hn].
  - rewrite toggle_present by done. by apply List.NoDup_filter.
  - rewrite toggle_absent by done.
    apply List.NoDup_app; [done | constructor; [by intros [] | constructor] |].
    intros x Hx [Hx2 | []]. subst x. by apply Hn.
Qed.

(** ** The handler implements [toggle] *)

Lemma filterM_map_pure {A B} (p : B -> js bool) (f : A -> B) (q : A -> bool) (l : list A) :
  (forall x, p (f x) = Ok (q x)) -> filterM p (map f l) = Ok (map f (List.filter q l)).
Proof.
  intros Hp. induction l as [|x l IH]; simpl; [done|].
  rewrite Hp, IH. by destruct (q x).
Qed.

Lemma someM_map_pure {A B} (p : B -> js bool) (f : A -> B) (q : A -> bool) (l : list A) :
  (forall x, p (f x) = Ok (q x)) -> someM p (map f l) = Ok (existsb q l).
Proof.
  intros Hp. induction l as [|x l IH]; simpl; [done|].
  rewrite Hp. by destruct (q x).
Qed.

Lemma same_fav_obj (u c : string) (co : jsval) (p : string * string) :
  get co "career" = Ok (JStr c) ->
  same_fav u co (fav_obj p) = Ok (bool_decide (p = (u, c))).
Proof.
  intros Hco. unfold same_fav. simpl. destruct p as [pu pc]. simpl.
  destruct (String.eqb_spec pu u) as [->|Hne]; simpl.
  - rewrite Hco. simpl. destruct (String.eqb_spec pc c) as [->|Hc].
    + by rewrite bool_decide_eq_true_2.
    + rewrite bool_decide_eq_false_2; [done|]. congruence.
  - rewrite bool_decide_eq_false_2; [done|]. congruence.
Qed.

Lemma field_is_fav_obj (u : string) (p : string * string) :
  field_is "userId" u (fav_obj p) = Ok (String.eqb p.1 u).
Proof. reflexivity. Qed.

Section Refinement.
Context {S : Type} `{WebStorageLaws S}.

(** [handleFavorite] on a store whose favourites are [{userId, career}]
    objects with string fields is [toggle] on the pairs, and the
    component keeps the user's pairs. *)
Lemma handleFavorite_refines (u c : string) (co : jsval) (l : list (string * string)) (st : S) :
  read_json "favorites" "[]" st = Ok (JArr (map fav_obj l)) ->
  get co "career" = Ok (JStr c) ->
  handleFavorite u co st =
    Ok (write_json "favorites" (JArr (map fav_obj (toggle u c l))) st,
        map fav_obj (of_user u (toggle u c l))).
Proof.
  intros Hr Hco. unfold handleFavorite, arr_some, arr_filter. rewrite Hr. simpl.
  rewrite (someM_map_pure _ fav_obj (fun p => bool_decide (p = (u, c))))
    by (intros; by apply same_fav_obj).
  unfold toggle. destruct (existsb _ l).
  - rewrite (filterM_map_pure _ fav_obj (fun p => negb (bool_decide (p = (u, c)))))
      by (intros x; cbv beta; by rewrite (same_fav_obj u c co x Hco)).
    by rewrite (filterM_map_pure _ fav_obj (fun p => String.eqb p.1 u))
      by (intros; apply field_is_fav_obj).
  - rewrite Hco. replace (map fav_obj l ++ [JObj [("userId", JStr u); ("career", JStr c)]])
      with (map fav_obj (l ++ [(u, c)])) by (rewrite map_app; reflexivity).
    by rewrite (filterM_map_pure _ fav_obj (fun p => String.eqb p.1 u))
      by (intros; apply field_is_fav_obj).
Qed.

Lemma read_write_favs (l : list (string * string)) (st : S) :
  read_json "favorites" "[]" (write_json "favorites" (JArr (map fav_obj l)) st) =
  Ok (JArr (map fav_obj l)).
Proof.
  rewrite read_write_json.
  - f_equal. rewrite jnorm_arr, map_map. f_equal.
  - simpl. apply forallb_forall. intros x (p & <- & _)%in_map_iff. done.
  - done.
Qed.
End Refinement.

Lemma of_user_toggle_other (u u' c : string) (l : list (string * string)) :
  u' <> u -> of_user u' (toggle u c l) = of_user u' l.
Proof.
  intros Hne. unfold of_user. destruct (in_dec (decide_rel eq) (u, c) l) as [Hin|Hn].
  - rewrite toggle_present by done. clear Hin. induction l as [|[pu pc] l IH]; simpl; [done|].
    destruct (bool_decide_reflect ((pu, pc) = (u, c))) as [Heq|Hneq]; simpl.
    + inv Heq. rewrite IH. destruct (String.eqb_spec u u'); [congruence | done].
    + destruct (String.eqb pu u'); simpl; by rewrite IH.
  - rewrite toggle_absent, List.filter_app by done. simpl.
    destruct (String.eqb_spec u u'); [congruence|]. apply app_nil_r.
Qed.

Section StoreTheorems.
Context {S : Type} `{WebStorageLaws S}.

(** C3: Toggling the same career twice succeeds both times and restores the
    favourites: the same pairs, and the very same list when the career
    was not a favourite. *)
Theorem favorite_toggle_twice (u c : string) (co : jsval) (l : list (string * string)) (st : S) :
  read_json "favorites" "[]" st = Ok (JArr (map fav_obj l)) ->
  get co "career" = Ok (JStr c) ->
  exists st1 m1 st2 m2 l2,
    handleFavorite u co st = Ok (st1, m1) /\ handleFavorite u co st1 = Ok (st2, m2) /\
    read_json "favorites" "[]" st2 = Ok (JArr (map fav_obj l2)) /\
    (forall p, In p l2 <-> In p l) /\ (~ In (u, c) l -> l2 = l).
Proof.
  intros Hr Hco. pose proof (handleFavorite_refines u c co l st Hr Hco) as H1.
  pose proof (handleFavorite_refines u c co (toggle u c l) _ (read_write_favs _ st) Hco) as H2.
  do 4 eexists. exists (toggle u c (toggle u c l)).
  split_and!; [exact H1 | exact H2 | apply read_write_favs | apply toggle_toggle_In |
               apply toggle_toggle_absent].
Qed.

(** A favourites list without duplicate pairs stays without duplicates. *)
Theorem handleFavorite_NoDup (u c : string) (co : jsval) (l : list (string * string))
    (st st' : S) (m : list jsval) :
  read_json "favorites" "[]" st = Ok (JArr (map fav_obj l)) ->
  get co "career" = Ok (JStr c) -> NoDup l ->
  handleFavorite u co st = Ok (st', m) ->
  exists l', read_json "favorites" "[]" st' = Ok (JArr (map fav_obj l')) /\ NoDup l'.
Proof.
  intros Hr Hco Hnd Hh. rewrite (handleFavorite_refines u c co l st Hr Hco) in Hh. inv Hh.
  exists (toggle u c l). split; [apply read_write_favs | by apply toggle_NoDup].
Qed.

(** Another user's favourites are untouched, and the component keeps
    exactly the acting user's favourites. *)
Theorem handleFavorite_other_users (u u' c : string) (co : jsval)
    (l : list (string * string)) (st st' : S) (m : list jsval) :
  read_json "favorites" "[]" st = Ok (JArr (map fav_obj l)) ->
  get co "career" = Ok (JStr c) -> u' <> u ->
  handleFavorite u co st = Ok (st', m) ->
  exists l', read_json "favorites" "[]" st' = Ok (JArr (map fav_obj l')) /\
             of_user u' l' = of_user u' l /\ m = map fav_obj (of_user u l').
Proof.
  intros Hr Hco Hne Hh. rewrite (handleFavorite_refines u c co l st Hr Hco) in Hh. inv Hh.
  exists (toggle u c l). split_and!; [apply read_write_favs | by apply of_user_toggle_other | done].
Qed.
End StoreTheorems.

(** ** Witnesses *)

Definition demo_favs : gmap string string := Eval vm_compute in
  <["favorites" := (json_text "[{'userId':'ann','career':'Data Scientist'},{'userId':'bob','career':'Data Scientist'}]")]> ∅.

Definition demo_pairs : list (string * string) :=
  [("ann", "Data Scientist"); ("bob", "Data Scientist")].

Definition demo_career (c : string) : jsval :=
  JObj [("career", JStr c); ("score", JNum (JsNumber.Dec 9 1))].

Lemma favorite_toggle_twice_witness :
  exists st1 m1 st2 m2 l2,
    handleFavorite "ann" (demo_career "Software Engineer") demo_favs = Ok (st1, m1) /\
    handleFavorite "ann" (demo_career "Software Engineer") st1 = Ok (st2, m2) /\
    read_json "favorites" "[]" st2 = Ok (JArr (map fav_obj l2)) /\
    (forall p, In p l2 <-> In p demo_pairs) /\
    (~ In ("ann", "Software Engineer") demo_pairs -> l2 = demo_pairs).
Proof.
  apply favorite_toggle_twice; vm_compute; reflexivity.
Defined.

(** The store and the component state after [ann] removes her favourite. *)
Definition demo_after : gmap string string * list jsval := Eval vm_compute in
  match handleFavorite "ann" (demo_career "Data Scientist") demo_favs with
  | Ok r => r
  | Throw _ => (demo_favs, [])
  end.

Lemma handleFavorite_NoDup_witness :
  exists l', read_json "favorites" "[]" demo_after.1 = Ok (JArr (map fav_obj l')) /\ NoDup l'.
Proof.
  apply (handleFavorite_NoDup "ann" "Data Scientist" (demo_career "Data Scientist") demo_pairs
           demo_favs demo_after.1 demo_after.2);
    [vm_compute; reflexivity | vm_compute; reflexivity | | vm_compute; reflexivity].
  repeat constructor; set_solver.
Defined.

Lemma handleFavorite_other_users_witness :
  exists l', read_json "favorites" "[]" demo_after.1 = Ok (JArr (map fav_obj l')) /\
             of_user "bob" l' = of_user "bob" demo_pairs /\ demo_after.2 = map fav_obj (of_user "ann" l').
Proof.
  apply (handleFavorite_other_users "ann" "bob" "Data Scientist" (demo_career "Data Scientist")
           demo_pairs demo_favs demo_after.1 demo_after.2);
    [vm_compute; reflexivity | vm_compute; reflexivity | discriminate | vm_compute; reflexivity].
Defined.

(** The store after [ann] toggles the same career a second time. *)
Definition demo_after2 : gmap string string * list jsval := Eval vm_compute in
  match handleFavorite "ann" (demo_career "Data Scientist") demo_after.1 with
  | Ok r => r
  | Throw _ => (demo_favs, [])
  end.

(** Toggling a present favourite off and on again moves it to the end of
    the stored list: two toggles restore the set of favourites, not the
    stored order. *)
Example handleFavorite_twice_reorders :
  read_json "favorites" "[]" demo_favs =
    Ok (JArr (map fav_obj [("ann", "Data Scientist"); ("bob", "Data Scientist")])) /\
  handleFavorite "ann" (demo_career "Data Scientist") demo_favs = Ok demo_after /\
  handleFavorite "ann" (demo_career "Data Scientist") demo_after.1 = Ok demo_after2 /\
  read_json "favorites" "[]" demo_after2.1 =
    Ok (JArr (map fav_obj [("bob", "Data Scientist"); ("ann", "Data Scientist")])).
Proof. split_and!; vm_compute; reflexivity. Qed.

End Favorites.
