(* ===== verification/Survey.v ===== *)
(** * The survey form ([src/src/SurveyForm.jsx])

    The form's state ([form], [error], [touched]) is the record
    [survey_state]; [handleChange], [validate], the progress index
    [currentStep] and the submit handler [handleSubmit] are translated
    one to one.  The remote call [predictCareer] (api.js) is a section
    variable: it receives the payload and the token and yields [res.data]
    or the axios rejection.  [handleSubmit] returns the new state, the new
    store and the list of values handed to [onResult] (at most one), so
    that the order of the callback and the history write is visible.

    Theorems: the message [validate] shows is the one of the step
    [currentStep] points at; an invalid form changes nothing but the
    message; a successful request appends exactly one record, owned by the
    submitting user, whose [careers] is the server's; a malformed history
    turns a successful request into the message [Error] after the result
    was already handed over; server errors surface their [detail]. *)

From S2P Require Import Prelude JsString JsNumber JsValue Json Storage.

Module Survey.
Import JsValue Json Storage.
Local Open Scope js_scope.

(** ** Form state *)

Definition educationOptions : list string :=
  [""; "High School"; "Associate Degree"; "Bachelor's Degree"; "Master's Degree"; "PhD"; "Other"].

Record survey_form := {
  skills : string;
  education : string;
  interests : string;
  personality : string;
  goals : string;
}.

Definition initial_form : survey_form :=
  {| skills := ""; education := ""; interests := ""; personality := ""; goals := "" |}.

(** The [name] attributes of the five inputs. *)
Inductive field := FSkills | FEducation | FInterests | FPersonality | FGoals.

Definition field_key (n : field) : string :=
  match n with
  | FSkills => "skills" | FEducation => "education" | FInterests => "interests"
  | FPersonality => "personality" | FGoals => "goals"
  end.

(** [{ ...form, [name]: value }] *)
Definition set_field (f : survey_form) (n : field) (v : string) : survey_form :=
  match n with
  | FSkills => {| skills := v; education := education f; interests := interests f;
                  personality := personality f; goals := goals f |}
  | FEducation => {| skills := skills f; education := v; interests := interests f;
                     personality := personality f; goals := goals f |}
  | FInterests => {| skills := skills f; education := education f; interests := v;
                     personality := personality f; goals := goals f |}
  | FPersonality => {| skills := skills f; education := education f; interests := interests f;
                       personality := v; goals := goals f |}
  | FGoals => {| skills := skills f; education := education f; interests := interests f;
                 personality := personality f; goals := v |}
  end.

Definition get_field (f : survey_form) (n : field) : string :=
  match n with
  | FSkills => skills f | FEducation => education f | FInterests => interests f
  | FPersonality => personality f | FGoals => goals f
  end.

Record survey_state := {
  form : survey_form;
  error : string;
  touched : gmap string bool;
}.

Definition initial_state : survey_state := {| form := initial_form; error := ""; touched := ∅ |}.

Definition set_error (m : string) (s : survey_state) : survey_state :=
  {| form := form s; error := m; touched := touched s |}.

Definition handleChange (n : field) (v : string) (s : survey_state) : survey_state :=
  {| form := set_field (form s) n v; error := error s;
     touched := <[field_key n := true]> (touched s) |}.

(** ** Validation and the progress stepper *)

Definition blank (s : string) : bool := JsString.is_empty (JsString.trim s).

Definition validate (f : survey_form) : string :=
  if blank (skills f) then "Please enter at least one skill."
  else if JsString.is_empty (education f) then "Please select your education."
  else if blank (interests f) then "Please enter at least one interest."
  else if blank (personality f) then "Please describe your personality."
  else if blank (goals f) then "Please enter your goals."
  else "".

Definition steps : list string := ["Skills"; "Education"; "Interests"; "Personality"; "Goals"].

Definition step_pending (f : survey_form) (idx : nat) : bool :=
  match idx with
  | 0 => blank (skills f)
  | 1 => JsString.is_empty (education f)
  | 2 => blank (interests f)
  | 3 => blank (personality f)
  | 4 => blank (goals f)
  | _ => false
  end.

(** [Array.prototype.findIndex] from index [i]: [-1] when nothing matches. *)
Fixpoint find_index_from {A} (p : A -> nat -> bool) (l : list A) (i : nat) : Z :=
  match l with
  | [] => -1
  | x :: l' => if p x i then Z.of_nat i else find_index_from p l' (S i)
  end.

Definition currentStep (f : survey_form) : Z :=
  find_index_from (fun _ idx => step_pending f idx) steps 0.

(** The messages of the five steps, in step order. *)
Definition validation_messages : list string :=
  ["Please enter at least one skill."; "Please select your education.";
   "Please enter at least one interest."; "Please describe your personality.";
   "Please enter your goals."].

(** ** Payload and history record *)

(** [s.split(',').map(s => s.trim()).filter(Boolean)] *)
Definition split_list (s : string) : jsval :=
  JArr (map JStr (JsString.split_trim_filter "," s)).

Definition payload (userId : jsval) (f : survey_form) : jsval :=
  JObj [("user_id", userId); ("skills", split_list (skills f)); ("education", JStr (education f));
        ("interests", split_list (interests f)); ("personality", JStr (personality f));
        ("goals", JStr (goals f))].

Definition history_record (userId : jsval) (date : string) (f : survey_form) (careers : jsval) : jsval :=
  JObj [("user_id", userId); ("date", JStr date); ("skills", split_list (skills f));
        ("education", JStr (education f)); ("interests", split_list (interests f));
        ("personality", JStr (personality f)); ("goals", JStr (goals f));
        ("careers", careers)].

(** The message of the [catch] block, from [err.response?.data?.detail];
    [detail.map(e => e.msg)] throws on a [null] entry. *)
Definition detail_message (err : js_exn) : js string :=
  let detail := match err with HttpError (Some d) => get_opt d "detail" | _ => JUndefined end in
  match detail with
  | JStr m => Ok m
  | JArr l => ms <- mapM (fun e => get e "msg") l ;; Ok (join_values " " ms)
  | _ => Ok "Error"
  end.

(** ** Submission *)

Section WithStorage.
Context {S : Type} `{WebStorage S}.
(** [predictCareer(payload, token)] resolved to [res.data], or rejected. *)
Variable predictCareer : jsval -> string -> js jsval.

(** The [try] block: the values handed to [onResult] before anything
    could throw, and the store it leaves or the exception it raises. *)
Definition submit_try (token : string) (userId : jsval) (date : string) (f : survey_form)
    (st : S) : list jsval * js S :=
  match predictCareer (payload userId f) token with
  | Throw e => ([], Throw e)
  | Ok data =>
      ([data],
       history <- read_json "surveyHistory" "[]" st ;;
       push <- get history "push" ;;
       careers <- get data "careers" ;;
       l <- as_array history ;;
       Ok (write_json "surveyHistory" (JArr (l ++ [history_record userId date f careers])) st))
  end.

(** [handleSubmit]: the new state, the new store, and the [onResult] calls.
    An exception of the [catch] block itself escapes with [error] reset. *)
Definition handleSubmit (token : string) (userId : jsval) (date : string) (s : survey_state)
    (st : S) : survey_state * S * list jsval :=
  let s0 := set_error "" s in
  let validationError := validate (form s) in
  if JsString.truthy validationError then (set_error validationError s0, st, [])
  else
    let '(calls, r) := submit_try token userId date (form s) st in
    match r with
    | Ok st' => (s0, st', calls)
    | Throw e =>
        match detail_message e with
        | Ok m => (set_error m s0, st, calls)
        | Throw _ => (s0, st, calls)
        end
    end.
End WithStorage.

(** ** Lemmas *)

Lemma validate_nonempty_truthy (f : survey_form) :
  validate f <> "" -> JsString.truthy (validate f) = true.
Proof. unfold JsString.truthy, JsString.is_empty. by destruct (validate f). Qed.

Lemma validate_empty_falsy (f : survey_form) :
  validate f = "" -> JsString.truthy (validate f) = false.
Proof. by intros ->. Qed.

(** Every exception raised outside the request carries no response. *)
Lemma detail_message_local (e : js_exn) : e = TypeError \/ e = SyntaxError -> detail_message e = Ok "Error".
Proof. by intros [-> | ->]. Qed.

Lemma read_json_throw {S} `{WebStorage S} (k d : string) (st : S) (e : js_exn) :
  read_json k d st = Throw e -> e = SyntaxError.
Proof. apply parse_throw. Qed.

Lemma wf_strings (xs : list string) : forallb wf (map JStr xs) = true.
Proof. apply forallb_forall. intros x (p & <- & _)%in_map_iff. done. Qed.

Lemma history_append_wf (u date : string) (f : survey_form) (careers : jsval) (l : list jsval) :
  wf (JArr l) = true -> wf careers = true ->
  wf (JArr (l ++ [history_record (JStr u) date f careers])) = true.
Proof.
  intros Hwl Hwc. simpl in Hwl |- *. rewrite forallb_app, Hwl. simpl. by rewrite Hwc, !wf_strings.
Qed.

(** The message a rejected request shows, as the specification words it:
    the server's [detail] string, or its messages joined, or [Error]. *)
Definition server_message (resp : option jsval) : string :=
  match resp with
  | Some d =>
      match get_opt d "detail" with
      | JStr m => m
      | JArr l => join_values " " (map (fun e => get_opt e "msg") l)
      | _ => "Error"
      end
  | None => "Error"
  end.

Lemma detail_message_http (resp : option jsval) :
  (forall d l, resp = Some d -> get_opt d "detail" = JArr l -> Forall (fun e => readable e = true) l) ->
  detail_message (HttpError resp) = Ok (server_message resp).
Proof.
  intros Hr. destruct resp as [d|]; [|done]. unfold detail_message, server_message.
  destruct (get_opt d "detail") eqn:Hd; try done.
  rewrite (mapM_ext _ (fun e => get_opt e "msg")); [done|].
  intros x Hx%list_elem_of_In. apply get_readable.
  by eapply (proj1 (List.Forall_forall _ _) (Hr d l eq_refl Hd)).
Qed.

(** ** Validation and the stepper *)

(** The stepper points at the first unsatisfied field, and the message
    [validate] shows is that field's: the form is valid exactly when the
    stepper shows no pending step ([-1]). *)
Theorem validate_currentStep (f : survey_form) :
  (validate f = "" /\ currentStep f = (-1)%Z) \/
  (exists i, currentStep f = Z.of_nat i /\ nth_error validation_messages i = Some (validate f)).
Proof.
  unfold validate, currentStep. cbn.
  repeat case_match; first [by left | right; first [by exists 0%nat | by exists 1%nat |
    by exists 2%nat | by exists 3%nat | by exists 4%nat]].
Qed.

(** The payload sends the lists split at commas, trimmed and without empty
    entries, in input order, and the other answers as typed. *)
Theorem payload_lists (userId : jsval) (f : survey_form) :
  exists sk it,
    payload userId f =
      JObj [("user_id", userId); ("skills", JArr (map JStr sk)); ("education", JStr (education f));
            ("interests", JArr (map JStr it)); ("personality", JStr (personality f));
            ("goals", JStr (goals f))] /\
    sk = List.filter JsString.truthy (map JsString.trim (JsString.split "," (skills f))) /\
    it = List.filter JsString.truthy (map JsString.trim (JsString.split "," (interests f))) /\
    Forall (fun p => JsString.truthy p = true /\ JsString.trim p = p /\
                     JsString.has_char "," p = false) (sk ++ it).
Proof.
  eexists _, _. split_and!; [reflexivity | reflexivity | reflexivity |].
  apply Forall_app. split; apply JsString.split_trim_filter_shape.
Qed.

(** The check only asks for a non-blank skills text: a text made of
    commas passes it and sends an empty list of skills. *)
Example validate_accepts_empty_skill_list :
  let f := {| skills := " , "; education := "PhD"; interests := "AI"; personality := "calm";
              goals := "lead" |} in
  validate f = "" /\ currentStep f = (-1)%Z /\ lookup_field "skills" (match payload (JStr "ann") f with
    JObj fs => fs | _ => [] end) = JArr [].
Proof. vm_compute. auto. Qed.

Section Submit.
Context {S : Type} `{WebStorageLaws S}.
Variable predictCareer : jsval -> string -> js jsval.
Variables (token date : string) (s : survey_state) (st : S).

(** An invalid form shows the message, sends nothing, hands nothing to
    [onResult] and leaves the store as it was. *)
Theorem handleSubmit_invalid (userId : jsval) :
  validate (form s) <> "" ->
  handleSubmit predictCareer token userId date s st = (set_error (validate (form s)) s, st, []).
Proof. intros Hv. unfold handleSubmit. by rewrite validate_nonempty_truthy. Qed.

(** A successful request on a readable history: the error is cleared,
    the server's data is handed to [onResult], and one record is
    appended to the history. *)
Theorem handleSubmit_success (userId data careers : jsval) (l : list jsval) :
  validate (form s) = "" ->
  predictCareer (payload userId (form s)) token = Ok data ->
  get data "careers" = Ok careers ->
  read_json "surveyHistory" "[]" st = Ok (JArr l) ->
  handleSubmit predictCareer token userId date s st =
    (set_error "" s,
     write_json "surveyHistory" (JArr (l ++ [history_record userId date (form s) careers])) st,
     [data]).
Proof.
  intros Hv Hp Hc Hr. unfold handleSubmit, submit_try.
  rewrite validate_empty_falsy, Hp by done. simpl. by rewrite Hr, Hc.
Qed.
(** C1: The property the specification states for submissions: a successful
    request appends exactly one record to the history; the records
    already there read back unchanged (up to the JSON normal form), the
    new record belongs to the submitting user and to no other, and its
    [careers] is the server's. *)
Theorem submit_appends_one (u : string) (data careers : jsval) (l : list jsval) :
  validate (form s) = "" ->
  predictCareer (payload (JStr u) (form s)) token = Ok data ->
  get data "careers" = Ok careers ->
  read_json "surveyHistory" "[]" st = Ok (JArr l) ->
  wf (JArr l) = true -> wf careers = true ->
  exists st' l' r,
    handleSubmit predictCareer token (JStr u) date s st = (set_error "" s, st', [data]) /\
    read_json "surveyHistory" "[]" st' = Ok (JArr (l' ++ [r])) /\
    jnorm (JArr l) = JArr l' /\
    field_is_b "user_id" u r = true /\
    (forall u', u' <> u -> field_is_b "user_id" u' r = false) /\
    lookup_field "careers" (match r with JObj fs => fs | _ => [] end) = jnorm careers.
Proof.
  intros Hv Hp Hc Hr Hwl Hwc.
  rewrite (handleSubmit_success (JStr u) data careers l Hv Hp Hc Hr).
  eexists _, _, (jnorm (history_record (JStr u) date (form s) careers)).
  split_and!; [done | | done | | |].
  - rewrite read_write_json by (done || by apply history_append_wf).
    simpl. by rewrite map_app.
  - simpl. by rewrite String.eqb_refl.
  - intros u' Hne. simpl. by apply String.eqb_neq.
  - by destruct careers.
Qed.

(** C26: The result is handed to [onResult] before the history is read: with
    a history that is not a JSON array, the user gets the result and the
    message [Error] at once, and no record is written. *)
Theorem submit_history_unreadable (userId data : jsval) :
  validate (form s) = "" ->
  predictCareer (payload userId (form s)) token = Ok data ->
  (forall l, read_json "surveyHistory" "[]" st <> Ok (JArr l)) ->
  handleSubmit predictCareer token userId date s st = (set_error "Error" s, st, [data]).
Proof.
  intros Hv Hp Hr. unfold handleSubmit, submit_try.
  rewrite validate_empty_falsy, Hp by done. cbv zeta.
  destruct (read_json "surveyHistory" "[]" st) as [h|e] eqn:Eh.
  - destruct h; first [by exfalso; eapply Hr | idtac]; simpl;
      destruct (get data "careers") as [c|e] eqn:Ec; try done;
      apply get_throw in Ec; by subst.
  - apply read_json_throw in Eh. by subst.
Qed.

(** A rejected request writes nothing, hands nothing to [onResult] and
    shows the server's [detail] (a string, or the [msg] of each entry
    joined by spaces), or [Error] when there is none. *)
Theorem submit_server_error (userId : jsval) (resp : option jsval) :
  validate (form s) = "" ->
  predictCareer (payload userId (form s)) token = Throw (HttpError resp) ->
  (forall d l, resp = Some d -> get_opt d "detail" = JArr l -> Forall (fun e => readable e = true) l) ->
  handleSubmit predictCareer token userId date s st = (set_error (server_message resp) s, st, []).
Proof.
  intros Hv Hp Hd. unfold handleSubmit, submit_try.
  rewrite validate_empty_falsy, Hp by done. cbv zeta. by rewrite detail_message_http.
Qed.
End Submit.

(** ** Witnesses *)

Definition demo_form : survey_form :=
  {| skills := "Python, SQL"; education := "PhD"; interests := "AI"; personality := "calm";
     goals := "lead a team" |}.

Definition demo_state : survey_state := {| form := demo_form; error := ""; touched := ∅ |}.

Definition demo_data : jsval :=
  JObj [("careers", JArr [JObj [("career", JStr "Data Scientist"); ("score", JNum (JsNumber.Dec 9 1))]]);
        ("reasoning", JStr "fits")].

(** A server that accepts every request, and one that rejects it with
    field messages. *)
Definition demo_server (p : jsval) (token : string) : js jsval := Ok demo_data.

Definition demo_rejecting (p : jsval) (token : string) : js jsval :=
  Throw (HttpError (Some (JObj [("detail", JArr [JObj [("msg", JStr "skills:")];
                                                 JObj [("msg", JStr "required")]])]))).

Definition demo_history : gmap string string := Eval vm_compute in
  <["surveyHistory" := json_text "[{'user_id':'bob','careers':[]}]"]> ∅.

Definition demo_broken : gmap string string := <["surveyHistory" := "{}"]> ∅.

Lemma handleSubmit_invalid_witness :
  handleSubmit demo_server "tok" (JStr "ann") "today" initial_state demo_history =
    (set_error "Please enter at least one skill." initial_state, demo_history, []).
Proof.
  apply (handleSubmit_invalid demo_server "tok" "today" initial_state demo_history (JStr "ann")).
  vm_compute. discriminate.
Defined.

Lemma handleSubmit_success_witness :
  handleSubmit demo_server "tok" (JStr "ann") "today" demo_state demo_history =
    (set_error "" demo_state,
     write_json "surveyHistory"
       (JArr ([JObj [("user_id", JStr "bob"); ("careers", JArr [])]] ++
              [history_record (JStr "ann") "today" demo_form
                 (JArr [JObj [("career", JStr "Data Scientist"); ("score", JNum (JsNumber.Dec 9 1))]])]))
       demo_history,
     [demo_data]).
Proof.
  apply (handleSubmit_success demo_server "tok" "today" demo_state demo_history);
    vm_compute; reflexivity.
Defined.

Lemma submit_appends_one_witness :
  exists st' l' r,
    handleSubmit demo_server "tok" (JStr "ann") "today" demo_state demo_history =
      (set_error "" demo_state, st', [demo_data]) /\
    read_json "surveyHistory" "[]" st' = Ok (JArr (l' ++ [r])) /\
    jnorm (JArr [JObj [("user_id", JStr "bob"); ("careers", JArr [])]]) = JArr l' /\
    field_is_b "user_id" "ann" r = true /\
    (forall u', u' <> "ann" -> field_is_b "user_id" u' r = false) /\
    lookup_field "careers" (match r with JObj fs => fs | _ => [] end) =
      jnorm (JArr [JObj [("career", JStr "Data Scientist"); ("score", JNum (JsNumber.Dec 9 1))]]).
Proof.
  apply (submit_appends_one demo_server "tok" "today" demo_state demo_history "ann" demo_data);
    vm_compute; reflexivity.
Defined.

Lemma submit_history_unreadable_witness :
  handleSubmit demo_server "tok" (JStr "ann") "today" demo_state demo_broken =
    (set_error "Error" demo_state, demo_broken, [demo_data]).
Proof.
  apply (submit_history_unreadable demo_server "tok" "today" demo_state demo_broken);
    [vm_compute; reflexivity | vm_compute; reflexivity | intros l; vm_compute; discriminate].
Defined.

Lemma submit_server_error_witness :
  handleSubmit demo_rejecting "tok" (JStr "ann") "today" demo_state demo_history =
    (set_error "skills: required" demo_state, demo_history, []).
Proof.
  apply (submit_server_error demo_rejecting "tok" "today" demo_state demo_history (JStr "ann")
           (Some (JObj [("detail", JArr [JObj [("msg", JStr "skills:")]; JObj [("msg", JStr "required")]])])));
    [vm_compute; reflexivity | vm_compute; reflexivity |].
  intros d l [= <-] Hd. vm_compute in Hd. inv Hd. repeat constructor.
Defined.

End Survey.
