(* ===== verification/SurveyView.v ===== *)
(** * What the survey form shows (src/src/SurveyForm.jsx, the render)

    [Survey] models the form's state and handlers; this file models what
    the form renders from that state: the progress bar's width, the
    stepper of the five steps with the reached ones highlighted, the
    inputs with their values, the options of the education select, the
    error box and the submit button.

    The bar and the stepper both follow [currentStep], the index of the
    first field still missing, or [-1] when none is.  Theorems: the width
    is [20 * (currentStep + 1)] per cent, within [0, 100]; it drops to
    0 and the stepper goes blank exactly when the form is complete, and it
    is full when only the last field is missing. *)

From S2P Require Import Prelude JsString JsNumber JsValue Json Storage Survey.

Module SurveyView.
Import Survey.

(** [((currentStep+1)/steps.length)*100] per cent.  [currentStep] is one
    of [-1 .. 4], and for those the double arithmetic of JavaScript is
    exact ([0.2 * 100] is [20], [0.6 * 100] is [60], ...), so the width is
    this integer. *)
Definition progress_width (f : survey_form) : Z :=
  ((currentStep f + 1) * 100) / Z.of_nat (length steps).

(** [steps.map((step, idx) => ...)]: the number, the name, and whether
    [idx <= currentStep] highlights it. *)
Definition stepper (f : survey_form) : list (nat * string * bool) :=
  imap (fun idx step => (S idx, step, Z.leb (Z.of_nat idx) (currentStep f))) steps.

(** The five inputs, by [name], with their [value]. *)
Definition inputs (f : survey_form) : list (string * string) :=
  [("skills", skills f); ("education", education f); ("interests", interests f);
   ("personality", personality f); ("goals", goals f)].

(** [educationOptions.map(opt => <option value={opt}>{opt || 'Select education'}</option>)] *)
Definition options : list (string * string) :=
  map (fun opt => (opt, if JsString.truthy opt then opt else "Select education")) educationOptions.

Record survey_view := {
  sv_progress : Z;
  sv_title : string;
  sv_stepper : list (nat * string * bool);
  sv_inputs : list (string * string);
  sv_options : list (string * string);
  sv_error : option string;
  sv_button : string
}.

Definition view (s : survey_state) : survey_view :=
  {| sv_progress := progress_width (form s); sv_title := "Career Survey"; sv_stepper := stepper (form s);
     sv_inputs := inputs (form s); sv_options := options;
     sv_error := if JsString.truthy (error s) then Some (error s) else None;
     sv_button := "Get Career Suggestions" |}.

(** ** Lemmas *)

Lemma currentStep_range (f : survey_form) :
  currentStep f = (-1)%Z \/ (0 <= currentStep f <= 4)%Z.
Proof. unfold currentStep. cbn. repeat case_match; lia. Qed.

Lemma validate_empty_iff (f : survey_form) : validate f = "" <-> currentStep f = (-1)%Z.
Proof. unfold validate, currentStep. cbn. repeat case_match; done. Qed.

Lemma progress_width_step (f : survey_form) : progress_width f = (20 * (currentStep f + 1))%Z.
Proof.
  unfold progress_width. simpl.
  replace ((currentStep f + 1) * 100)%Z with (20 * (currentStep f + 1) * 5)%Z by lia.
  by rewrite Z.div_mul.
Qed.

(** No step is highlighted exactly when [currentStep] is below the first. *)
Lemma stepper_blank (f : survey_form) :
  Forall (fun x => x.2 = false) (stepper f) <-> (currentStep f < 0)%Z.
Proof.
  unfold stepper. cbn. rewrite !Forall_cons, Forall_nil. simpl.
  pose proof (currentStep_range f). split.
  - intros [H0 _]. apply Z.leb_gt in H0. lia.
  - intros Hl. split_and!; try done; apply Z.leb_gt; lia.
Qed.

(** ** Theorems *)

(** C25: The progress bar is [20 * (currentStep + 1)] per cent, within
    [0, 100]; it is empty and the stepper shows no step reached exactly
    when the form is complete, the moment it can be submitted. *)
Theorem progress_empty_when_complete (s : survey_state) :
  sv_progress (view s) = (20 * (currentStep (form s) + 1))%Z /\
  (0 <= sv_progress (view s) <= 100)%Z /\
  (validate (form s) = "" <-> sv_progress (view s) = 0%Z /\ Forall (fun x => x.2 = false) (sv_stepper (view s))).
Proof.
  simpl. rewrite progress_width_step, stepper_blank, validate_empty_iff.
  pose proof (currentStep_range (form s)). split_and!; [done|lia|lia|lia].
Qed.

(** With every field filled but the goals, the bar is full and all five
    steps are highlighted. *)
Example progress_full_before_goals :
  let s := {| form := {| skills := "Python"; education := "PhD"; interests := "AI"; personality := "calm";
                         goals := "" |}; error := ""; touched := ∅ |} in
  sv_progress (view s) = 100%Z /\ map (fun x => x.2) (sv_stepper (view s)) = [true; true; true; true; true].
Proof. split; reflexivity. Qed.
End SurveyView.
