(* ===== verification/SurveyPage.v ===== *)
(** * The survey form as the browser runs it (src/src/SurveyForm.jsx)

    [Survey.handleSubmit] is the handler as one function of the server's
    answer.  On the page the handler is [async]: it validates, builds the
    payload from the form of that render, and awaits [predictCareer];
    the rest ([onResult], the read-modify-write of ["surveyHistory"],
    or the error message) runs when the answer arrives.  Nothing
    disables the submit button meanwhile: App.jsx raises its loading
    overlay only in [onResult], after the answer.  So the page is a step
    relation over the form state and the list of requests out, each with
    the form it was built from; answers may arrive in any order.

    Theorems: submitting and receiving the answer with nothing in between
    is [Survey.handleSubmit]; a second click before the answer sends the
    survey again, and two accepted answers hand the result to [onResult]
    twice and append two records of the one survey to the history. *)

From S2P Require Import Prelude JsString JsNumber JsValue Json Storage Survey.

Module SurveyPage.
Import JsValue Json Storage Survey.
Local Open Scope js_scope.

Record survey_page := { sstate : survey_state; outstanding : list survey_form }.

Inductive sevent :=
| SChange (n : field) (v : string)                 (** [handleChange] of an input *)
| SSubmit                                          (** the form's submit *)
| SRespond (i : nat) (r : js jsval) (date : string). (** the [i]-th request out settles, at [date] *)

Section Page.
Context {S : Type} `{WebStorage S}.
Variables (token : string) (userId : jsval).

(** The handler up to its [await]: [setError('')], [validate()], and the
    request of the payload, if the form is valid. *)
Definition ssubmit (s : survey_state) : survey_state * option survey_form :=
  let s0 := set_error "" s in
  let v := validate (form s) in
  if JsString.truthy v then (set_error v s0, None) else (s0, Some (form s)).

(** The handler after its [await], with the payload's form and the
    state of the page at that moment: [submit_try] with the answer [r]
    as the server, and the [catch] block. *)
Definition sfinish (f : survey_form) (r : js jsval) (date : string) (s : survey_state) (st : S) :
    survey_state * S * list jsval :=
  let '(calls, res) := submit_try (fun _ _ => r) token userId date f st in
  match res with
  | Ok st' => (s, st', calls)
  | Throw e =>
      match detail_message e with Ok m => (set_error m s, st, calls) | Throw _ => (s, st, calls) end
  end.

(** One event: the new page, the store, and the values handed to
    [onResult]; [None] when the [i]-th request does not exist. *)
Definition sstep (e : sevent) (p : survey_page) (st : S) : option (survey_page * S * list jsval) :=
  match e with
  | SChange n v => Some ({| sstate := handleChange n v (sstate p); outstanding := outstanding p |}, st, [])
  | SSubmit =>
      let '(s', q) := ssubmit (sstate p) in
      Some ({| sstate := s'; outstanding := outstanding p ++ option_list q |}, st, [])
  | SRespond i r date =>
      match nth_error (outstanding p) i with
      | Some f =>
          let '(s', st', calls) := sfinish f r date (sstate p) st in
          Some ({| sstate := s'; outstanding := delete i (outstanding p) |}, st', calls)
      | None => None
      end
  end.

(** A sequence of events, with the [onResult] calls in order. *)
Fixpoint srun (es : list sevent) (p : survey_page) (st : S) : option (survey_page * S * list jsval) :=
  match es with
  | [] => Some (p, st, [])
  | e :: es' =>
      match sstep e p st with
      | Some (p', st', c) =>
          match srun es' p' st' with Some (p'', st'', c') => Some (p'', st'', c ++ c') | None => None end
      | None => None
      end
  end.
End Page.

(** ** Lemmas *)

Section Lemmas.
Context {S : Type} `{WebStorageLaws S}.
Variables (token : string) (userId : jsval).

(** An accepted answer on a readable history appends the record of the
    payload's form. *)
Lemma sfinish_ok (f : survey_form) (data careers : jsval) (date : string) (s : survey_state) (st : S)
    (l : list jsval) :
  get data "careers" = Ok careers -> read_json "surveyHistory" "[]" st = Ok (JArr l) ->
  sfinish token userId f (Ok data) date s st =
    (s, write_json "surveyHistory" (JArr (l ++ [history_record userId date f careers])) st, [data]).
Proof. intros Hc Hr. unfold sfinish, submit_try. simpl. by rewrite Hr, Hc. Qed.

Lemma elem_norm_jnorm (v : jsval) : v <> JUndefined -> elem_norm v = jnorm v.
Proof. by destruct v. Qed.

Lemma jnorm_defined (v : jsval) : v <> JUndefined -> jnorm v <> JUndefined.
Proof. by destruct v. Qed.

Lemma elem_norm_idem (x : jsval) : elem_norm (elem_norm x) = elem_norm x.
Proof.
  assert (Hu : x = JUndefined \/ x <> JUndefined) by (destruct x; [left; done|right; discriminate..]).
  destruct Hu as [->|Hx]; [reflexivity|].
  rewrite !(elem_norm_jnorm x Hx), (elem_norm_jnorm (jnorm x)) by (by apply jnorm_defined).
  apply jnorm_idem.
Qed.

(** Appending to a history read back in normal form is appending to the
    history, up to the normal form. *)
Lemma norm_append (l : list jsval) (x : jsval) :
  jnorm (JArr (map elem_norm l ++ [x])) = jnorm (JArr (l ++ [x])).
Proof.
  rewrite !jnorm_arr, !map_app, map_map. do 2 f_equal. apply map_ext, elem_norm_idem.
Qed.

Lemma wf_norm_append (l : list jsval) (x : jsval) :
  wf (JArr l) = true -> wf x = true -> wf (JArr (map elem_norm l ++ [x])) = true.
Proof.
  intros Hl Hx. pose proof (wf_jnorm _ Hl) as Hn. rewrite jnorm_arr in Hn.
  simpl in Hn |- *. rewrite forallb_app, Hn. simpl. by rewrite Hx.
Qed.

Lemma wf_history_record (u date : string) (f : survey_form) (careers : jsval) :
  wf careers = true -> wf (history_record (JStr u) date f careers) = true.
Proof.
  intros Hc. pose proof (history_append_wf u date f careers [] eq_refl Hc) as Hw.
  change (wf (history_record (JStr u) date f careers) && true = true) in Hw.
  by rewrite andb_true_r in Hw.
Qed.

(** Reading back a written history. *)
Lemma read_history_write (l : list jsval) (st : S) :
  wf (JArr l) = true ->
  read_json "surveyHistory" "[]" (write_json "surveyHistory" (JArr l) st) = Ok (jnorm (JArr l)).
Proof. intros Hw. by apply read_write_json. Qed.
End Lemmas.

(** ** Theorems *)

(** Submitting and receiving the answer, with no event in between, is
    [Survey.handleSubmit] on the same state with that answer, on every
    branch: an invalid form sends nothing. *)
Theorem survey_submit_respond {S : Type} `{WebStorage S} (token : string) (userId : jsval)
    (r : js jsval) (date : string) (s : survey_state) (st : S) :
  match sstep token userId SSubmit {| sstate := s; outstanding := [] |} st with
  | Some (p1, st1, _) =>
      if outstanding p1 is [] then Some (p1, st1, [])
      else sstep token userId (SRespond 0 r date) p1 st1
  | None => None
  end =
  let '(s', st', calls) := Survey.handleSubmit (fun _ _ => r) token userId date s st in
  Some ({| sstate := s'; outstanding := [] |}, st', calls).
Proof.
  simpl. unfold ssubmit, Survey.handleSubmit. destruct (JsString.truthy _); simpl; [reflexivity|].
  unfold sfinish. destruct (submit_try _ _ _ _ _ _) as [calls [st'|e]]; simpl; [reflexivity|].
  by destruct (detail_message e).
Qed.

(** The double submission, with what it leaves in the store: the
    history ends with the two records, and every other slot reads as
    before. *)
Lemma double_submit_store {S : Type} `{WebStorageLaws S} (token u d1 d2 : string)
    (s : survey_state) (st : S) (data careers : jsval) (l : list jsval) :
  validate (form s) = "" -> get data "careers" = Ok careers ->
  read_json "surveyHistory" "[]" st = Ok (JArr l) -> wf (JArr l) = true -> wf careers = true ->
  exists p' st',
    srun token (JStr u) [SSubmit; SSubmit; SRespond 0 (Ok data) d1; SRespond 0 (Ok data) d2]
      {| sstate := s; outstanding := [] |} st = Some (p', st', [data; data]) /\
    read_json "surveyHistory" "[]" st' =
      Ok (jnorm (JArr (l ++ [history_record (JStr u) d1 (form s) careers;
                             history_record (JStr u) d2 (form s) careers]))) /\
    outstanding p' = [] /\
    (forall k d, k <> "surveyHistory" -> read_json k d st' = read_json k d st).
Proof.
  intros Hv Hc Hr Hwl Hwc. unfold srun, sstep, ssubmit. cbn [sstate outstanding form set_error].
  rewrite (validate_empty_falsy _ Hv). cbn -[sfinish]. rewrite (validate_empty_falsy _ Hv). cbn -[sfinish].
  rewrite (sfinish_ok token (JStr u) (form s) data careers d1 _ st l Hc Hr). cbn -[sfinish write_json].
  pose proof (read_history_write (l ++ [history_record (JStr u) d1 (form s) careers]) st
                (history_append_wf u d1 (form s) careers l Hwl Hwc)) as Hr2.
  rewrite jnorm_arr in Hr2.
  rewrite (sfinish_ok token (JStr u) (form s) data careers d2 _ _ _ Hc Hr2). cbn -[write_json].
  do 2 eexists. split_and!; [reflexivity| |reflexivity|].
  - rewrite read_history_write
      by (apply wf_norm_append; [by apply history_append_wf | by apply wf_history_record]).
    by rewrite norm_append, <- app_assoc.
  - intros k d Hk. unfold write_json. by rewrite !read_json_setItem_ne by congruence.
Qed.

(** C23: Nothing stops a second submission while the first is out: two
    clicks on a valid form send the survey twice, and when both requests
    succeed the result is handed to [onResult] twice and the history,
    read back, ends with two records of the one survey, one per answer. *)
Theorem double_submit_two_records {S : Type} `{WebStorageLaws S} (token u d1 d2 : string)
    (s : survey_state) (st : S) (data careers : jsval) (l : list jsval) :
  validate (form s) = "" -> get data "careers" = Ok careers ->
  read_json "surveyHistory" "[]" st = Ok (JArr l) -> wf (JArr l) = true -> wf careers = true ->
  exists p' st',
    srun token (JStr u) [SSubmit; SSubmit; SRespond 0 (Ok data) d1; SRespond 0 (Ok data) d2]
      {| sstate := s; outstanding := [] |} st = Some (p', st', [data; data]) /\
    read_json "surveyHistory" "[]" st' =
      Ok (jnorm (JArr (l ++ [history_record (JStr u) d1 (form s) careers;
                             history_record (JStr u) d2 (form s) careers]))) /\
    outstanding p' = [].
Proof.
  intros Hv Hc Hr Hwl Hwc.
  destruct (double_submit_store token u d1 d2 s st data careers l Hv Hc Hr Hwl Hwc) as (p' & st' & H1 & H2 & H3 & _).
  eauto.
Qed.

(** ** Witnesses *)

Definition demo_form : survey_form :=
  {| skills := "Python"; education := "PhD"; interests := "AI"; personality := "calm"; goals := "research" |}.

Lemma double_submit_two_records_witness :
  exists p' st',
    srun "tok" (JStr "ann") [SSubmit; SSubmit; SRespond 0 (Ok (JObj [("careers", JArr [])])) "d1";
                             SRespond 0 (Ok (JObj [("careers", JArr [])])) "d2"]
      {| sstate := {| form := demo_form; error := ""; touched := ∅ |}; outstanding := [] |}
      (∅ : gmap string string) = Some (p', st', [JObj [("careers", JArr [])]; JObj [("careers", JArr [])]]) /\
    read_json "surveyHistory" "[]" st' =
      Ok (jnorm (JArr ([] ++ [history_record (JStr "ann") "d1" demo_form (JArr []);
                              history_record (JStr "ann") "d2" demo_form (JArr [])]))) /\
    outstanding p' = [].
Proof. apply double_submit_two_records; reflexivity. Defined.
End SurveyPage.
