(* ===== verification/Auth.v ===== *)
(** * The login / signup form ([src/src/Auth.jsx], [src/src/Auth_clean.jsx])

    [Auth.jsx] is the form App shows; [Auth_clean.jsx] is the same form
    without the captcha, which nothing imports.  The fields both share
    are the record [auth_form]; [auth_state] adds the captcha.  The remote
    calls [login] and [signup] (api.js) are section variables ([login]
    yields [res.data]); the handlers take the doubles [Math.random()]
    returns, which [Random.getRandomInt] turns into the captcha's operands.  [handleSubmit] returns the new state, the new store and the
    value handed to [setToken], if any.  The [catch] block is the one of
    the survey form, [Survey.detail_message].

    Theorems: a wrong captcha blocks the login before any request; with
    the captcha passed (and always for signup) [Auth] does what
    [Auth_clean] does, and draws a new captcha after a login attempt; a
    successful login hands the server's token to [setToken]; a signup
    stores the profile the profile page then shows. *)

From S2P Require Import Prelude JsString JsNumber JsValue Json Storage Survey Badges Profile Random.

Module Auth.
Import JsNumber JsValue Json Storage.
Local Open Scope js_scope.

Record auth_form := {
  username : string;
  password : string;
  isLogin : bool;
  error : string;
  loading : bool;
  fullName : string;
  email : string;
  age : string;
  phone : string;
}.

Definition with_error (m : string) (f : auth_form) : auth_form :=
  {| username := username f; password := password f; isLogin := isLogin f; error := m;
     loading := loading f; fullName := fullName f; email := email f; age := age f; phone := phone f |}.
Definition with_loading (b : bool) (f : auth_form) : auth_form :=
  {| username := username f; password := password f; isLogin := isLogin f; error := error f;
     loading := b; fullName := fullName f; email := email f; age := age f; phone := phone f |}.
Definition with_isLogin (b : bool) (f : auth_form) : auth_form :=
  {| username := username f; password := password f; isLogin := b; error := error f;
     loading := loading f; fullName := fullName f; email := email f; age := age f; phone := phone f |}.

(** [{ username, fullName, email, age, phone }] *)
Definition profile_record (f : auth_form) : jsval :=
  JObj [("username", JStr (username f)); ("fullName", JStr (fullName f)); ("email", JStr (email f));
        ("age", JStr (age f)); ("phone", JStr (phone f))].

Record captcha := { ca : Z; cb : Z; answer : Z }.

Record auth_state := { form : auth_form; captcha_of : captcha; captchaInput : string }.

Definition set_form (f : auth_form) (s : auth_state) : auth_state :=
  {| form := f; captcha_of := captcha_of s; captchaInput := captchaInput s |}.

(** [const a = getRandomInt(1, 10); const b = getRandomInt(1, 10);
    { a, b, answer: a + b }], from the two doubles drawn. *)
Definition draw_captcha (r1 r2 : Random.rand) : captcha :=
  let a := Random.getRandomInt 1 10 r1 in
  let b := Random.getRandomInt 1 10 r2 in
  {| ca := a; cb := b; answer := a + b |}.

(** [regenerateCaptcha] *)
Definition regenerateCaptcha (r1 r2 : Random.rand) (s : auth_state) : auth_state :=
  {| form := form s; captcha_of := draw_captcha r1 r2; captchaInput := "" |}.

(** A captcha [getRandomInt(1, 10)] can draw. *)
Definition captcha_wf (c : captcha) : Prop :=
  (1 <= ca c <= 10 /\ 1 <= cb c <= 10 /\ answer c = ca c + cb c)%Z.

(** [parseInt(captchaInput, 10) === captcha.answer]; [NaN] equals nothing. *)
Definition captcha_ok (s : auth_state) : bool :=
  match parseInt10 (captchaInput s) with Some n => Z.eqb n (answer (captcha_of s)) | None => false end.

Section Handlers.
Context {S : Type} `{WebStorage S}.
Variable login : string -> string -> js jsval.
Variable signup : string -> string -> js jsval.

Definition saveProfile (p : jsval) (st : S) : S := write_json "profile" p st.

(** [handleSubmit] of [Auth_clean.jsx]. *)
Definition clean_handleSubmit (f : auth_form) (st : S) : auth_form * S * option jsval :=
  let f1 := with_loading true (with_error "" f) in
  let '(f2, st2, tok) :=
    match (if isLogin f then
             data <- login (username f) (password f) ;; t <- get data "access_token" ;; Ok (f1, st, Some t)
           else
             r <- signup (username f) (password f) ;;
             Ok (with_isLogin true f1, saveProfile (profile_record f) st, None)) with
    | Ok x => x
    | Throw e =>
        match Survey.detail_message e with Ok m => (with_error m f1, st, None) | Throw _ => (f1, st, None) end
    end in
  (with_loading false f2, st2, tok).

(** [handleSubmit] of [Auth.jsx]: the captcha check, the same request, and
    a new captcha in [finally] after a login attempt. *)
Definition handleSubmit (draw : Random.rand * Random.rand) (s : auth_state) (st : S) : auth_state * S * option jsval :=
  let f0 := with_error "" (form s) in
  if isLogin (form s) && negb (captcha_ok s) then
    (regenerateCaptcha draw.1 draw.2 (set_form (with_error "Captcha incorrect. Please try again." f0) s),
     st, None)
  else
    let f1 := with_loading true f0 in
    let '(f2, st2, tok) :=
      match (if isLogin (form s) then
               data <- login (username (form s)) (password (form s)) ;;
               t <- get data "access_token" ;; Ok (f1, st, Some t)
             else
               r <- signup (username (form s)) (password (form s)) ;;
               Ok (with_isLogin true f1, saveProfile (profile_record (form s)) st, None)) with
      | Ok x => x
      | Throw e =>
          match Survey.detail_message e with Ok m => (with_error m f1, st, None) | Throw _ => (f1, st, None) end
      end in
    let s3 := set_form (with_loading false f2) s in
    ((if isLogin (form s) then regenerateCaptcha draw.1 draw.2 s3 else s3), st2, tok).
End Handlers.

(** ** Theorems *)

(** Every captcha drawn has operands from 1 to 10, whatever doubles
    [Math.random] returns. *)
Lemma draw_captcha_wf (r1 r2 : Random.rand) : captcha_wf (draw_captcha r1 r2).
Proof.
  unfold captcha_wf, draw_captcha, Random.getRandomInt. cbn [ca cb answer].
  pose proof (Random.floor_mul_below r1 (10 - 1 + 1) ltac:(lia)).
  pose proof (Random.floor_mul_below r2 (10 - 1 + 1) ltac:(lia)). lia.
Qed.

Lemma regenerate_wf (r1 r2 : Random.rand) (s : auth_state) :
  captcha_wf (captcha_of (regenerateCaptcha r1 r2 s)).
Proof. apply draw_captcha_wf. Qed.

Section Theorems.
Context {S : Type} `{WebStorageLaws S}.
Variable login : string -> string -> js jsval.
Variable signup : string -> string -> js jsval.

(** C9: A login with a wrong captcha answer (or one that is not a number)
    shows the message, draws a new captcha, and neither calls the server
    nor touches the store. *)
Theorem captcha_blocks_login (draw : Random.rand * Random.rand) (s : auth_state) (st : S) :
  isLogin (form s) = true -> captcha_ok s = false ->
  handleSubmit login signup draw s st =
    (regenerateCaptcha draw.1 draw.2
       (set_form (with_error "Captcha incorrect. Please try again." (with_error "" (form s))) s),
     st, None).
Proof. intros Hl Hc. unfold handleSubmit. by rewrite Hl, Hc. Qed.

(** C10: Past the captcha (and always on signup) the form does what the
    captcha-free [Auth_clean] does; after a login attempt it also draws a
    new captcha and clears the answer. *)
Theorem auth_refines_clean (draw : Random.rand * Random.rand) (s : auth_state) (st : S) :
  (isLogin (form s) = true -> captcha_ok s = true) ->
  let '(s', st', tok) := handleSubmit login signup draw s st in
  let '(f, st'', tok') := clean_handleSubmit login signup (form s) st in
  form s' = f /\ st' = st'' /\ tok = tok' /\
  (if isLogin (form s) then captcha_of s' = draw_captcha draw.1 draw.2 /\
                            captchaInput s' = ""
   else captcha_of s' = captcha_of s /\ captchaInput s' = captchaInput s).
Proof.
  intros Hc. unfold handleSubmit, clean_handleSubmit.
  destruct (isLogin (form s)) eqn:Hl; [rewrite (Hc eq_refl)|]; simpl;
    repeat case_match; simplify_eq; simpl; auto.
Qed.

(** A login the server accepts hands its [access_token] to [setToken],
    clears the error and the spinner, and leaves the store alone. *)
Theorem login_success (draw : Random.rand * Random.rand) (s : auth_state) (st : S) (data t : jsval) :
  isLogin (form s) = true -> captcha_ok s = true ->
  login (username (form s)) (password (form s)) = Ok data -> get data "access_token" = Ok t ->
  handleSubmit login signup draw s st =
    (regenerateCaptcha draw.1 draw.2 (set_form (with_loading false (with_loading true (with_error "" (form s)))) s),
     st, Some t).
Proof. intros Hl Hc Hlog Ht. unfold handleSubmit. rewrite Hl, Hc. simpl. by rewrite Hlog, Ht. Qed.

(** C29: A signup the server accepts stores the entered profile (never the
    password), switches to the login form without a token, and the
    profile page then shows that profile to the new user. *)
Theorem signup_then_profile (draw : Random.rand * Random.rand) (s : auth_state) (st : S) (r : jsval) :
  isLogin (form s) = false -> signup (username (form s)) (password (form s)) = Ok r ->
  let '(s', st', tok) := handleSubmit login signup draw s st in
  tok = None /\ isLogin (form s') = true /\
  Profile.initialProfile (username (form s)) st' = profile_record (form s).
Proof.
  intros Hl Hs. unfold handleSubmit. rewrite Hl. simpl. rewrite ?Hl, Hs. simpl.
  split_and!; [done | done |]. unfold saveProfile, profile_record.
  rewrite (Profile.initialProfile_write (username (form s))); [| reflexivity | reflexivity].
  by rewrite String.eqb_refl.
Qed.
End Theorems.

(** [parseInt] reads a leading number: an answer with trailing text
    passes the captcha. *)
Example captcha_accepts_trailing_text :
  captcha_ok {| form := {| username := "ann"; password := "pw"; isLogin := true; error := "";
                           loading := false; fullName := ""; email := ""; age := ""; phone := "" |};
                captcha_of := {| ca := 3; cb := 4; answer := 7 |}; captchaInput := " 7 apples" |} = true.
Proof. reflexivity. Qed.

(** ** Witnesses *)

Definition demo_form (isl : bool) : auth_form :=
  {| username := "ann"; password := "pw"; isLogin := isl; error := "old"; loading := false;
     fullName := "Ann Lee"; email := "ann@example.org"; age := "29"; phone := "" |}.

Definition demo_auth (isl : bool) (input : string) : auth_state :=
  {| form := demo_form isl; captcha_of := {| ca := 3; cb := 4; answer := 7 |}; captchaInput := input |}.

Definition demo_login (u p : string) : js jsval := Ok (JObj [("access_token", JStr "tok")]).
Definition demo_signup (u p : string) : js jsval := Ok JNull.
Definition demo_store : gmap string string := ∅.

(** Two doubles [Math.random()] may return, [1/8] and [3/8]: the captcha
    [2 + 4]. *)
Definition demo_draw : Random.rand * Random.rand :=
  (Random.Build_rand 1 3 eq_refl, Random.Build_rand 3 3 eq_refl).

Lemma captcha_blocks_login_witness :
  handleSubmit demo_login demo_signup demo_draw (demo_auth true "8") demo_store =
    (regenerateCaptcha demo_draw.1 demo_draw.2 (set_form (with_error "Captcha incorrect. Please try again."
       (with_error "" (demo_form true))) (demo_auth true "8")), demo_store, None).
Proof. apply (captcha_blocks_login demo_login demo_signup demo_draw); reflexivity. Defined.

Lemma auth_refines_clean_witness :
  let '(s', st', tok) := handleSubmit demo_login demo_signup demo_draw (demo_auth true "7") demo_store in
  let '(f, st'', tok') := clean_handleSubmit demo_login demo_signup (demo_form true) demo_store in
  form s' = f /\ st' = st'' /\ tok = tok' /\
  (captcha_of s' = draw_captcha demo_draw.1 demo_draw.2 /\ captchaInput s' = "").
Proof. apply (auth_refines_clean demo_login demo_signup demo_draw (demo_auth true "7") demo_store). reflexivity. Defined.

Lemma login_success_witness :
  handleSubmit demo_login demo_signup demo_draw (demo_auth true "7") demo_store =
    (regenerateCaptcha demo_draw.1 demo_draw.2 (set_form (with_loading false (with_loading true (with_error "" (demo_form true))))
       (demo_auth true "7")), demo_store, Some (JStr "tok")).
Proof.
  apply (login_success demo_login demo_signup demo_draw (demo_auth true "7") demo_store
           (JObj [("access_token", JStr "tok")])); reflexivity.
Defined.

Lemma signup_then_profile_witness :
  let '(s', st', tok) := handleSubmit demo_login demo_signup demo_draw (demo_auth false "") demo_store in
  tok = None /\ isLogin (form s') = true /\
  Profile.initialProfile "ann" st' = profile_record (demo_form false).
Proof. apply (signup_then_profile demo_login demo_signup demo_draw (demo_auth false "") demo_store JNull); reflexivity. Defined.

End Auth.
