(* ===== verification/History.v ===== *)
(** * The survey history view ([src/src/SurveyHistory.jsx])

    The loading effect ([load_history]) reads the shared [surveyHistory]
    slot, keeps the current user's records and turns every exception or
    non-array into the empty list.  The render ([SurveyHistory],
    [render_row]) evaluates, for each record, the expressions the JSX
    shows: [h.date || 'Unknown'], [h.skills.join(', ')], [h.education],
    [h.interests.join(', ')], [h.personality], [h.goals] and
    [h.careers?.[0]?.career || '-'].  Rendering is not inside the [try]:
    an exception there escapes to React.  React renders strings and numbers
    as text, [null], [undefined] and booleans as nothing, arrays as the
    concatenation of their children, and refuses plain objects
    ([react_text]).

    Theorems: a history that is not an array reads as empty; the user's
    records are loaded in order; a record of the user without a [skills]
    array makes the view throw; a survey submitted through [Survey]
    appears as the last row of the submitting user's view. *)

From S2P Require Import Prelude JsString JsNumber JsValue Json Storage Survey.

Module History.
Import JsNumber JsValue Json Storage.
Local Open Scope js_scope.

(** ** Rendering values *)

(** The text React renders for a child value. *)
Fixpoint react_text (v : jsval) : js string :=
  match v with
  | JUndefined | JNull | JBool _ => Ok ""
  | JNum d => Ok (dec_to_string d)
  | JStr s => Ok s
  | JArr l => ts <- mapM react_text l ;; Ok (String.concat "" ts)
  | JObj _ => Throw TypeError
  end.

(** [v.join(sep)]: a [TypeError] unless [v] is an array. *)
Definition join_array (v : jsval) (sep : string) : js string :=
  l <- as_array v ;; Ok (join_values sep l).

Record row := {
  row_date : string;
  row_skills : string;
  row_education : string;
  row_interests : string;
  row_personality : string;
  row_goals : string;
  row_top : string;
}.

Definition render_row (h : jsval) : js row :=
  date <- get h "date" ;; d <- react_text (or_else date (JStr "Unknown")) ;;
  skills <- get h "skills" ;; sk <- join_array skills ", " ;;
  education <- get h "education" ;; e <- react_text education ;;
  interests <- get h "interests" ;; it <- join_array interests ", " ;;
  personality <- get h "personality" ;; p <- react_text personality ;;
  goals <- get h "goals" ;; g <- react_text goals ;;
  t <- react_text (or_else (get_opt (index0 (get_opt h "careers")) "career") (JStr "-")) ;;
  Ok {| row_date := d; row_skills := sk; row_education := e; row_interests := it;
        row_personality := p; row_goals := g; row_top := t |}.

(** [null] when no user is logged in, else the rows, or the exception a
    row raises. *)
Definition SurveyHistory (userId : string) (history : list jsval) : js (option (list row)) :=
  if JsString.is_empty userId then Ok None
  else rows <- mapM render_row history ;; Ok (Some rows).

Section WithStorage.
Context {S : Type} `{WebStorage S}.

(** The [useEffect] on [userId]. *)
Definition load_history (userId : string) (st : S) : list jsval :=
  try_catch
    (h <- read_json "surveyHistory" "[]" st ;;
     if is_array h then arr_filter h (field_is "user_id" userId) else Ok [])
    (fun _ => []).

(** What the component shows once the effect has run. *)
Definition history_view (userId : string) (st : S) : js (option (list row)) :=
  SurveyHistory userId (load_history userId st).
End WithStorage.

(** ** Lemmas *)

Lemma field_is_b_elem_norm (k s : string) (x : jsval) :
  wf x = true -> field_is_b k s (elem_norm x) = field_is_b k s x.
Proof. intros Hw. destruct x; try done. all: by apply field_is_b_jnorm. Qed.

Lemma filter_map_elem_norm (k s : string) (l : list jsval) :
  Forall (fun x => wf x = true) l ->
  List.filter (field_is_b k s) (map elem_norm l) = map elem_norm (List.filter (field_is_b k s) l).
Proof.
  induction 1 as [|x l Hx _ IH]; simpl; [done|].
  rewrite field_is_b_elem_norm by done. destruct (field_is_b k s x); simpl; by rewrite IH.
Qed.

Lemma wf_Forall (l : list jsval) : wf (JArr l) = true -> Forall (fun x => wf x = true) l.
Proof. simpl. intros Hl. apply Forall_forall. intros x Hx%list_elem_of_In. by eapply forallb_forall. Qed.

Lemma join_values_elem_norm (sep : string) (xs : list string) :
  join_values sep (map elem_norm (map JStr xs)) = JsString.join sep xs.
Proof. rewrite <- join_values_strings. f_equal. rewrite map_map. by apply map_ext. Qed.

Lemma react_or_else_str (s d : string) :
  react_text (or_else (JStr s) (JStr d)) = Ok (if JsString.is_empty s then d else s).
Proof. unfold or_else. cbn. unfold JsString.truthy. by destruct (JsString.is_empty s). Qed.

Section Loading.
Context {S : Type} `{WebStorageLaws S}.

Lemma load_history_readable (u : string) (st : S) (l : list jsval) :
  read_json "surveyHistory" "[]" st = Ok (JArr l) -> Forall (fun h => readable h = true) l ->
  load_history u st = List.filter (field_is_b "user_id" u) l.
Proof. intros Hr Hl. unfold load_history. rewrite Hr. simpl. by rewrite arr_filter_readable. Qed.

(** Writing a well-formed history and loading it gives the user's
    normalised records. *)
Lemma load_history_write (u : string) (l : list jsval) (st : S) :
  wf (JArr l) = true -> Forall (fun h => readable h = true) l ->
  load_history u (write_json "surveyHistory" (JArr l) st) =
    map elem_norm (List.filter (field_is_b "user_id" u) l).
Proof.
  intros Hw Hl. rewrite (load_history_readable u _ (map elem_norm l)).
  - by apply filter_map_elem_norm, wf_Forall.
  - rewrite read_write_json by done. by rewrite jnorm_arr.
  - apply Forall_map. eapply Forall_impl; [exact Hl|]. intros x. apply readable_elem_norm.
Qed.
End Loading.

(** The row of a history record written by the survey form. *)
Lemma render_history_record (u date : string) (f : Survey.survey_form)
    (fs : list (string * jsval)) (rest : list jsval) (c : string) :
  keys_nodup (map fst fs) = true -> lookup_field "career" fs = JStr c ->
  render_row (elem_norm (Survey.history_record (JStr u) date f (JArr (JObj fs :: rest)))) =
    Ok {| row_date := if JsString.is_empty date then "Unknown" else date;
          row_skills := JsString.join ", " (JsString.split_trim_filter "," (Survey.skills f));
          row_education := Survey.education f;
          row_interests := JsString.join ", " (JsString.split_trim_filter "," (Survey.interests f));
          row_personality := Survey.personality f; row_goals := Survey.goals f;
          row_top := if JsString.is_empty c then "-" else c |}.
Proof.
  intros Hk Hc. unfold render_row. cbn -[or_else react_text join_values].
  rewrite react_or_else_str. cbn -[or_else react_text join_values].
  rewrite !join_values_elem_norm. cbn -[or_else react_text].
  change (flat_map (fun kv : string * jsval =>
            match kv.2 with JUndefined => [] | _ => [(kv.1, jnorm kv.2)] end) fs)
    with (flat_map member_norm fs).
  rewrite (lookup_field_norm "career" fs Hk), Hc. cbn [jnorm]. by rewrite react_or_else_str.
Qed.

Section Theorems.
Context {S : Type} `{WebStorageLaws S}.

(** C6: A stored history that does not parse, or parses to anything but an
    array, shows as the empty history, never as an exception. *)
Theorem history_unreadable_empty (u : string) (st : S) :
  (forall l, read_json "surveyHistory" "[]" st <> Ok (JArr l)) ->
  load_history u st = [] /\
  history_view u st = Ok (if JsString.is_empty u then None else Some []).
Proof.
  intros Hr. assert (Hl : load_history u st = []).
  { unfold load_history. destruct (read_json "surveyHistory" "[]" st) as [h|e]; [|done].
    destruct h; try done. by destruct (Hr l). }
  split; [done|]. unfold history_view, SurveyHistory. rewrite Hl. by destruct (JsString.is_empty u).
Qed.

(** One entry that is [null] (or [undefined]) anywhere in the history
    hides all of the user's records: the filter throws and the effect's
    [catch] shows nothing. *)
Theorem history_null_entry_empty (u : string) (st : S) (l : list jsval) (x : jsval) :
  read_json "surveyHistory" "[]" st = Ok (JArr l) -> x ∈ l -> readable x = false ->
  load_history u st = [].
Proof.
  intros Hr Hx Hu. unfold load_history. rewrite Hr. cbn -[filterM field_is].
  destruct (filterM_throw (field_is "user_id" u) l x TypeError Hx) as [e ->]; [|done].
  by destruct x.
Qed.

(** A record of the user whose [skills] is not an array makes the view
    throw when it renders: such a history is not shown as empty. *)
Theorem history_view_missing_skills (u : string) (st : S) (l : list jsval) (h : jsval) :
  JsString.is_empty u = false ->
  read_json "surveyHistory" "[]" st = Ok (JArr l) -> Forall (fun x => readable x = true) l ->
  h ∈ l -> field_is_b "user_id" u h = true -> is_array (get_opt h "skills") = false ->
  exists e, history_view u st = Throw e.
Proof.
  intros Hu Hr Hl Hh Hf Hs. unfold history_view, SurveyHistory.
  rewrite Hu, (load_history_readable u st l Hr Hl).
  assert (Hrh : readable h = true) by (rewrite Forall_forall in Hl; by apply Hl).
  destruct (render_row h) as [r|e] eqn:Er.
  - exfalso. revert Er. unfold render_row. rewrite !get_readable by done.
    destruct (react_text _); [|done]. simpl. unfold join_array.
    by destruct (get_opt h "skills").
  - destruct (mapM_throw render_row (List.filter (field_is_b "user_id" u) l) h e) as [e' ->];
      [| done | by eexists]. apply list_elem_of_In, filter_In. split; [|done]. by apply list_elem_of_In.
Qed.
End Theorems.

(** C8: A survey submitted through the form shows as the last row of the
    submitting user's history, with the data of the form and the top
    career of the server's answer; the rows before it are the user's
    earlier records. *)
Theorem submit_shows_in_history {S : Type} `{WebStorageLaws S}
    (predictCareer : jsval -> string -> js jsval) (token date : string) (s : Survey.survey_state)
    (st : S) (u : string) (data : jsval) (l : list jsval) (fs : list (string * jsval))
    (rest : list jsval) (c : string) :
  Survey.validate (Survey.form s) = "" ->
  predictCareer (Survey.payload (JStr u) (Survey.form s)) token = Ok data ->
  get data "careers" = Ok (JArr (JObj fs :: rest)) ->
  wf (JArr (JObj fs :: rest)) = true -> lookup_field "career" fs = JStr c ->
  read_json "surveyHistory" "[]" st = Ok (JArr l) ->
  wf (JArr l) = true -> Forall (fun h => readable h = true) l ->
  exists st' r,
    Survey.handleSubmit predictCareer token (JStr u) date s st = (Survey.set_error "" s, st', [data]) /\
    load_history u st' = map elem_norm (load_history u st) ++ [r] /\
    render_row r =
      Ok {| row_date := if JsString.is_empty date then "Unknown" else date;
            row_skills := JsString.join ", " (JsString.split_trim_filter "," (Survey.skills (Survey.form s)));
            row_education := Survey.education (Survey.form s);
            row_interests := JsString.join ", " (JsString.split_trim_filter "," (Survey.interests (Survey.form s)));
            row_personality := Survey.personality (Survey.form s); row_goals := Survey.goals (Survey.form s);
            row_top := if JsString.is_empty c then "-" else c |}.
Proof.
  intros Hv Hp Hc Hwc Hcar Hr Hwl Hl.
  rewrite (Survey.handleSubmit_success predictCareer token date s st _ data _ l Hv Hp Hc Hr).
  eexists _, _. split_and!; [done | | ].
  - rewrite load_history_write, (load_history_readable u st l Hr Hl), List.filter_app, map_app.
    + assert (Hu : field_is_b "user_id" u
        (Survey.history_record (JStr u) date (Survey.form s) (JArr (JObj fs :: rest))) = true)
        by (simpl; apply String.eqb_refl).
      cbn [List.filter]. by rewrite Hu.
    + by apply Survey.history_append_wf.
    + apply Forall_app. split; [done|]. by repeat constructor.
  - apply render_history_record; [|done]. simpl in Hwc. by apply andb_prop in Hwc as [[Hk _]%andb_prop _].
Qed.

(** ** Witnesses *)

Definition demo_null_entry : gmap string string := Eval vm_compute in
  <["surveyHistory" := json_text "[{'user_id':'ann','skills':[]},null]"]> ∅.

Definition demo_no_skills : gmap string string := Eval vm_compute in
  <["surveyHistory" := json_text "[{'user_id':'ann','date':'today'}]"]> ∅.

Lemma history_unreadable_empty_witness :
  load_history "ann" Survey.demo_broken = [] /\ history_view "ann" Survey.demo_broken = Ok (Some []).
Proof. apply (history_unreadable_empty "ann" Survey.demo_broken). intros l. vm_compute. discriminate. Defined.

Lemma history_null_entry_empty_witness : load_history "ann" demo_null_entry = [].
Proof.
  apply (history_null_entry_empty "ann" demo_null_entry
           [JObj [("user_id", JStr "ann"); ("skills", JArr [])]; JNull] JNull);
    [vm_compute; reflexivity | set_solver | reflexivity].
Defined.

Lemma history_view_missing_skills_witness : exists e, history_view "ann" demo_no_skills = Throw e.
Proof.
  apply (history_view_missing_skills "ann" demo_no_skills
           [JObj [("user_id", JStr "ann"); ("date", JStr "today")]]
           (JObj [("user_id", JStr "ann"); ("date", JStr "today")]));
    [reflexivity | vm_compute; reflexivity | repeat constructor | set_solver | reflexivity | reflexivity].
Defined.

Lemma submit_shows_in_history_witness :
  exists st' r,
    Survey.handleSubmit Survey.demo_server "tok" (JStr "ann") "today" Survey.demo_state Survey.demo_history =
      (Survey.set_error "" Survey.demo_state, st', [Survey.demo_data]) /\
    load_history "ann" st' = map elem_norm (load_history "ann" Survey.demo_history) ++ [r] /\
    render_row r =
      Ok {| row_date := "today"; row_skills := "Python, SQL"; row_education := "PhD";
            row_interests := "AI"; row_personality := "calm"; row_goals := "lead a team";
            row_top := "Data Scientist" |}.
Proof.
  apply (submit_shows_in_history Survey.demo_server "tok" "today" Survey.demo_state Survey.demo_history
           "ann" Survey.demo_data [JObj [("user_id", JStr "bob"); ("careers", JArr [])]]
           [("career", JStr "Data Scientist"); ("score", JNum (Dec 9 1))] [] "Data Scientist");
    first [vm_compute; reflexivity | repeat constructor].
Defined.

End History.
