(* ===== verification/Session.v ===== *)
(** * The session manager ([src/src/App.jsx])

    [App] holds the session: the token (mirrored in [localStorage]), the
    user name decoded from it, the last survey result, the loading flag,
    the page shown and the session-expired notice.  Two effects depend on
    the token: the first decodes the user name
    ([JSON.parse(atob(token.split('.')[1])).sub || '']), the second, when
    the token is non-empty, shows the survey, hides the notice and starts a
    30-minute [setTimeout] that logs out; its cleanup clears that timer.
    Survey results arrive through [onResult], which shows the loading
    overlay and starts a 1200 ms timer that shows the dashboard.  SurveyForm
    calls it when its [predictCareer] request resolves, however long after
    the submit and whatever App shows by then; the model counts the
    requests out ([surveysOut]): [SubmitSurvey] is the click that sends
    one, and [SurveyResult] and [SurveyFail], its settling, are events the
    page does not gate.

    The model is a state machine.  [app] is the component state plus the
    clock [clock] and the pending timers (in creation order); [step] performs
    one event: a click the rendered page offers (the overlay blocks every
    click while [loading]), a callback a child calls when its request
    settles ([Login], Auth's [setToken], and [SurveyResult] /
    [SurveyFail]), which no page gates, the firing of the earliest pending timer
    ([Fire], earliest creation first among equal deadlines), or the passing
    of time before the next deadline ([Wait]).  After every handler the
    token effects run if the token changed ([commit]), as React runs
    effects whose dependencies changed.  [reachable] is the closure of the
    mount ([init]) under [step] and under the writes the other components
    make to the shared store, which never touch the ["token"] key. *)

From S2P Require Import Prelude JsString JsNumber JsValue Json Base64 Storage.

Module Session.
Import JsValue Json Base64 Storage.
Local Open Scope js_scope.

(** ** State *)

(** The pages App renders: ['auth'], ['survey'], ['dashboard'], ['profile']. *)
Inductive app_page := PAuth | PSurvey | PDashboard | PProfile.

#[global] Instance page_eq_dec : EqDecision app_page.
Proof. solve_decision. Defined.

Inductive timer_kind :=
| TSession               (* the 30-minute session timeout *)
| TLoading (r : jsval).  (* the 1200 ms delay before showing a result *)

Record timer := { due : Z; kind : timer_kind }.

Record app := {
  darkMode : bool;
  token : string;
  userId : jsval;
  result : jsval;
  loading : bool;
  page : app_page;
  sessionTimeout : bool;
  timers : list timer;
  clock : Z;
  surveysOut : nat;
}.

Definition session_ms : Z := 30 * 60 * 1000.
Definition loading_ms : Z := 1200.

Definition is_session (t : timer) : bool := match kind t with TSession => true | _ => false end.

(** ** The token effects *)

(** [JSON.parse(atob(token.split('.')[1])).sub || ''], and [''] on any
    exception.  A token without a second segment passes [undefined], which
    [atob] reads as the text ["undefined"]. *)
Definition decode_userId (t : string) : jsval :=
  try_catch
    (let seg := match nth_error (JsString.split "." t) 1 with Some p => p | None => "undefined" end in
     bin <- atob seg ;; payload <- parse bin ;; sub <- get payload "sub" ;;
     Ok (or_else sub (JStr "")))
    (fun _ => JStr "").

(** Both effects on [[token]], after the cleanup of the previous timer. *)
Definition token_effects (a : app) : app :=
  let uid := if JsString.truthy (token a) then decode_userId (token a) else userId a in
  let ts := List.filter (fun t => negb (is_session t)) (timers a) in
  if JsString.truthy (token a) then
    {| darkMode := darkMode a; token := token a; userId := uid; result := result a;
       loading := loading a; page := PSurvey; sessionTimeout := false;
       timers := ts ++ [{| due := clock a + session_ms; kind := TSession |}]; clock := clock a;
       surveysOut := surveysOut a |}
  else
    {| darkMode := darkMode a; token := token a; userId := uid; result := result a;
       loading := loading a; page := page a; sessionTimeout := sessionTimeout a;
       timers := ts; clock := clock a; surveysOut := surveysOut a |}.

(** Effects run when the token differs from the previous render's. *)
Definition commit (old : string) (a : app) : app :=
  if String.eqb old (token a) then a else token_effects a.

(** ** Setters *)

Definition set_token (t : string) (a : app) : app :=
  {| darkMode := darkMode a; token := t; userId := userId a; result := result a; loading := loading a;
     page := page a; sessionTimeout := sessionTimeout a; timers := timers a; clock := clock a;
     surveysOut := surveysOut a |}.
Definition set_page (p : app_page) (a : app) : app :=
  {| darkMode := darkMode a; token := token a; userId := userId a; result := result a; loading := loading a;
     page := p; sessionTimeout := sessionTimeout a; timers := timers a; clock := clock a;
     surveysOut := surveysOut a |}.
Definition set_result (r : jsval) (a : app) : app :=
  {| darkMode := darkMode a; token := token a; userId := userId a; result := r; loading := loading a;
     page := page a; sessionTimeout := sessionTimeout a; timers := timers a; clock := clock a;
     surveysOut := surveysOut a |}.
Definition set_loading (b : bool) (a : app) : app :=
  {| darkMode := darkMode a; token := token a; userId := userId a; result := result a; loading := b;
     page := page a; sessionTimeout := sessionTimeout a; timers := timers a; clock := clock a;
     surveysOut := surveysOut a |}.
Definition set_sessionTimeout (b : bool) (a : app) : app :=
  {| darkMode := darkMode a; token := token a; userId := userId a; result := result a; loading := loading a;
     page := page a; sessionTimeout := b; timers := timers a; clock := clock a;
     surveysOut := surveysOut a |}.
Definition set_darkMode (b : bool) (a : app) : app :=
  {| darkMode := b; token := token a; userId := userId a; result := result a; loading := loading a;
     page := page a; sessionTimeout := sessionTimeout a; timers := timers a; clock := clock a;
     surveysOut := surveysOut a |}.
Definition set_timers (ts : list timer) (a : app) : app :=
  {| darkMode := darkMode a; token := token a; userId := userId a; result := result a; loading := loading a;
     page := page a; sessionTimeout := sessionTimeout a; timers := ts; clock := clock a;
     surveysOut := surveysOut a |}.
Definition set_now (t : Z) (a : app) : app :=
  {| darkMode := darkMode a; token := token a; userId := userId a; result := result a; loading := loading a;
     page := page a; sessionTimeout := sessionTimeout a; timers := timers a; clock := t;
     surveysOut := surveysOut a |}.
Definition set_surveysOut (n : nat) (a : app) : app :=
  {| darkMode := darkMode a; token := token a; userId := userId a; result := result a; loading := loading a;
     page := page a; sessionTimeout := sessionTimeout a; timers := timers a; clock := clock a;
     surveysOut := n |}.

(** ** Timers *)

Fixpoint min_due (ts : list timer) : option Z :=
  match ts with
  | [] => None
  | t :: ts' => match min_due ts' with Some d => Some (Z.min (due t) d) | None => Some (due t) end
  end.

(** The first timer due at [d], and the others in order. *)
Fixpoint pick (d : Z) (ts : list timer) : option (timer * list timer) :=
  match ts with
  | [] => None
  | t :: ts' =>
      if Z.eqb (due t) d then Some (t, ts')
      else match pick d ts' with Some (x, r) => Some (x, t :: r) | None => None end
  end.

(** The timer the event loop runs next. *)
Definition next_timer (ts : list timer) : option (timer * list timer) :=
  match min_due ts with Some d => pick d ts | None => None end.

(** ** Events *)

Inductive event :=
| Login (t : string)      (* an Auth page's answer calls setToken(access_token) *)
| Logout                  (* the Logout button *)
| SubmitSurvey            (* SurveyForm: a valid submit sends predictCareer *)
| SurveyResult (r : jsval)(* a request out resolves: SurveyForm calls onResult(res.data) *)
| SurveyFail              (* a request out rejects: SurveyForm shows its error *)
| GoProfile               (* NavBar: Profile *)
| GoDashboard             (* NavBar: Dashboard *)
| EditSurvey              (* Dashboard: onEdit *)
| ProfileBack             (* Profile: onBack *)
| ToggleDark              (* NavBar: dark mode switch *)
| Fire                    (* the earliest pending timer runs *)
| Wait (t : Z).           (* time passes to [t], before any deadline *)

Section Machine.
Context {S : Type} `{WebStorage S}.

(** [localStorage.getItem('darkMode') === 'true'], [getItem('token') || ''],
    then the effects, which React runs on mount. *)
Definition init (st : S) (t0 : Z) : app * S :=
  (token_effects
     {| darkMode := match getItem "darkMode" st with Some v => String.eqb v "true" | None => false end;
        token := get_or "token" "" st; userId := JStr ""; result := JNull; loading := false;
        page := PAuth; sessionTimeout := false; timers := []; clock := t0; surveysOut := 0 |}, st).

Definition handleSetToken (t : string) (a : app) (st : S) : app * S :=
  (set_page PSurvey (set_token t a), setItem "token" t st).

Definition handleSurveyResult (r : jsval) (a : app) : app := set_page PDashboard (set_result r a).

Definition handleLogout (a : app) (st : S) : app * S :=
  (set_page PAuth (set_result JNull (set_token "" a)), removeItem "token" st).

(** [onResult]: show the overlay and hand the result over after 1200 ms. *)
Definition onResult (r : jsval) (a : app) : app :=
  set_timers (timers a ++ [{| due := clock a + loading_ms; kind := TLoading r |}]) (set_loading true a).

(** The session timeout's callback. *)
Definition expire (a : app) (st : S) : app * S :=
  (set_page PAuth (set_sessionTimeout true (set_token "" a)), removeItem "token" st).

Definition navbar_shown (a : app) : bool :=
  match page a with PSurvey | PDashboard | PProfile => true | PAuth => false end.

(** The clicks the rendered page offers. *)
Definition offers (e : event) (a : app) : bool :=
  match e with
  | Logout | GoProfile | ToggleDark => navbar_shown a
  | SubmitSurvey => bool_decide (page a = PSurvey)
  | GoDashboard => bool_decide (page a = PDashboard) || bool_decide (page a = PProfile)
  | EditSurvey => bool_decide (page a = PDashboard) && truthy (result a)
  | ProfileBack => bool_decide (page a = PProfile) && truthy (userId a)
  | Login _ | SurveyResult _ | SurveyFail | Fire | Wait _ => false
  end.

(** The handler of a click. *)
Definition handle (e : event) (a : app) (st : S) : app * S :=
  match e with
  | Login t => handleSetToken t a st
  | Logout => handleLogout a st
  | SubmitSurvey => (set_surveysOut (Datatypes.S (surveysOut a)) a, st)
  | SurveyResult r => (onResult r a, st)
  | SurveyFail => (a, st)
  | GoProfile => (set_page PProfile a, st)
  | GoDashboard => (set_page (if truthy (result a) then PDashboard else PSurvey) a, st)
  | EditSurvey => (set_page PSurvey (set_result JNull a), st)
  | ProfileBack => (set_page PDashboard a, st)
  | ToggleDark =>
      (set_darkMode (negb (darkMode a)) a,
       setItem "darkMode" (if negb (darkMode a) then "true" else "false") st)
  | Fire | Wait _ => (a, st)
  end.

Definition step (e : event) (w : app * S) : option (app * S) :=
  let '(a, st) := w in
  match e with
  | Fire =>
      match next_timer (timers a) with
      | None => None
      | Some (t, rest) =>
          let a1 := set_now (due t) (set_timers rest a) in
          match kind t with
          | TSession => let '(a2, st2) := expire a1 st in Some (commit (token a) a2, st2)
          | TLoading r => Some (commit (token a) (handleSurveyResult r (set_loading false a1)), st)
          end
      end
  | Wait t =>
      if (clock a <? t)%Z && forallb (fun x => (t <? due x)%Z) (timers a) then Some (set_now t a, st)
      else None
  | Login _ => let '(a', st') := handle e a st in Some (commit (token a) a', st')
  | SurveyResult _ | SurveyFail =>
      match surveysOut a with
      | O => None
      | Datatypes.S n => let '(a', st') := handle e (set_surveysOut n a) st in Some (commit (token a) a', st')
      end
  | _ =>
      if negb (loading a) && offers e a then
        let '(a', st') := handle e a st in Some (commit (token a) a', st')
      else None
  end.

(** Runs of several events. *)
Fixpoint run (es : list event) (w : app * S) : option (app * S) :=
  match es with
  | [] => Some w
  | e :: es' => match step e w with Some w' => run es' w' | None => None end
  end.

Inductive reachable : app * S -> Prop :=
| reach_init (st : S) (t0 : Z) : reachable (init st t0)
| reach_step (e : event) (w w' : app * S) : reachable w -> step e w = Some w' -> reachable w'
(** the other components share the store and write keys other than ["token"] *)
| reach_write (k v : string) (a : app) (st : S) : reachable (a, st) -> k <> "token" -> reachable (a, setItem k v st).
End Machine.

(** ** Lemmas on timers *)

Lemma min_due_spec (ts : list timer) (d : Z) :
  min_due ts = Some d -> Forall (fun x => (d <= due x)%Z) ts /\ Exists (fun x => due x = d) ts.
Proof.
  revert d. induction ts as [|t ts IH]; intros d; simpl; [done|].
  destruct (min_due ts) as [d'|] eqn:E; intros [= <-].
  - destruct (IH d' eq_refl) as [Hf He]. split.
    + constructor; [lia|]. eapply Forall_impl; [exact Hf|]. intros x; simpl; lia.
    + destruct (Z.min_spec (due t) d') as [[_ ->]|[_ ->]]; [by left | by right].
  - destruct ts as [|y ts']; [|simpl in E; by destruct (min_due ts')].
    split; [constructor; [lia | constructor] | by left].
Qed.

Lemma pick_spec (d : Z) (ts : list timer) (t : timer) (rest : list timer) :
  pick d ts = Some (t, rest) -> due t = d /\ exists l1 l2, ts = l1 ++ t :: l2 /\ rest = l1 ++ l2.
Proof.
  revert rest. induction ts as [|x ts IH]; intros rest; simpl; [done|].
  destruct (Z.eqb_spec (due x) d) as [Hd|Hd].
  - intros [= <- <-]. split; [done|]. by exists [], ts.
  - destruct (pick d ts) as [[y r]|] eqn:E; [|done]. intros [= <- <-].
    destruct (IH r eq_refl) as [Hy (l1 & l2 & -> & ->)]. split; [done|]. by exists (x :: l1), l2.
Qed.

Lemma pick_exists (d : Z) (ts : list timer) :
  Exists (fun x => due x = d) ts -> exists t rest, pick d ts = Some (t, rest).
Proof.
  induction 1 as [x ts Hx|x ts _ [t [rest IH]]]; simpl.
  - rewrite Hx, Z.eqb_refl. by eexists _, _.
  - destruct (Z.eqb (due x) d); [by eexists _, _|]. rewrite IH. by eexists _, _.
Qed.

(** The timer that fires is a pending one, due no later than any other. *)
Lemma next_timer_spec (ts : list timer) (t : timer) (rest : list timer) :
  next_timer ts = Some (t, rest) ->
  Forall (fun x => (due t <= due x)%Z) ts /\ exists l1 l2, ts = l1 ++ t :: l2 /\ rest = l1 ++ l2.
Proof.
  unfold next_timer. destruct (min_due ts) as [d|] eqn:E; [|done]. intros Hp.
  destruct (min_due_spec ts d E) as [Hf _]. destruct (pick_spec d ts t rest Hp) as [-> Hs].
  by split.
Qed.

(** Some timer fires whenever one is pending. *)
Lemma next_timer_exists (ts : list timer) : ts <> [] -> exists t rest, next_timer ts = Some (t, rest).
Proof.
  intros Hne. unfold next_timer. destruct (min_due ts) as [d|] eqn:E.
  - apply pick_exists, (min_due_spec ts d E).
  - destruct ts as [|t ts]; [done|]. simpl in E. by destruct (min_due ts).
Qed.

(** A timer added after pending ones that are all due later fires first. *)
Lemma next_timer_last (ts : list timer) (x : timer) :
  Forall (fun y => (due x < due y)%Z) ts -> next_timer (ts ++ [x]) = Some (x, ts).
Proof.
  intros Hts. unfold next_timer.
  assert (Hm : min_due (ts ++ [x]) = Some (due x)).
  { induction Hts as [|y ts Hy _ IH]; [done|]. cbn [List.app min_due]. rewrite IH. f_equal. lia. }
  rewrite Hm. clear Hm. induction Hts as [|y ts Hy _ IH]; cbn [List.app pick]; [by rewrite Z.eqb_refl|].
  destruct (Z.eqb_spec (due y) (due x)); [lia|]. by rewrite IH.
Qed.

(** ** The invariant *)

Lemma filter_session_clean (ts : list timer) :
  List.filter is_session (List.filter (fun t => negb (is_session t)) ts) = [].
Proof. induction ts as [|t ts IH]; simpl; [done|]. destruct (is_session t) eqn:E; simpl; by rewrite ?E. Qed.

(** No timer is overdue. *)
Definition future (a : app) : Prop := Forall (fun x => (clock a <= due x)%Z) (timers a).

(** A session timer is pending exactly while a token is held, due within
    the next 30 minutes. *)
Definition session_ok (a : app) : Prop :=
  if JsString.truthy (token a) then
    exists D, List.filter is_session (timers a) = [{| due := D; kind := TSession |}] /\
              (clock a <= D <= clock a + session_ms)%Z
  else List.filter is_session (timers a) = [].

Lemma token_effects_ok (a : app) :
  future a -> future (token_effects a) /\ session_ok (token_effects a).
Proof.
  intros Hf. unfold token_effects, future, session_ok in *.
  destruct (JsString.truthy (token a)) eqn:T; cbn [timers clock token]; rewrite ?T.
  - split.
    + apply Forall_app. split; [by apply Forall_list_filter|]. repeat constructor. simpl. unfold session_ms. lia.
    + eexists. rewrite List.filter_app, filter_session_clean. split; [done|]. unfold session_ms. lia.
  - split; [by apply Forall_list_filter | apply filter_session_clean].
Qed.

Lemma token_commit (old : string) (a : app) : token (commit old a) = token a.
Proof. unfold commit, token_effects. by repeat case_match. Qed.

Lemma commit_ok (old : string) (a : app) :
  future a -> (old = token a -> session_ok a) -> future (commit old a) /\ session_ok (commit old a).
Proof.
  intros Hf Hs. unfold commit. destruct (String.eqb_spec old (token a)) as [E|E].
  - by split; [|apply Hs].
  - by apply token_effects_ok.
Qed.

Lemma token_token_effects (a : app) : token (token_effects a) = token a.
Proof. unfold token_effects. by case_match. Qed.

Definition is_click (e : event) : bool :=
  match e with Login _ | SurveyResult _ | SurveyFail | Fire | Wait _ => false | _ => true end.

(** The settling of a request, whatever the page shows. *)
Definition is_async (e : event) : bool :=
  match e with SurveyResult _ | SurveyFail => true | _ => false end.

(** A click runs its handler, then the effects. *)
Lemma step_click {S : Type} `{WebStorage S} (e : event) (a : app) (st : S) (w' : app * S) :
  is_click e = true -> step e (a, st) = Some w' ->
  w' = (commit (token a) (handle e a st).1, (handle e a st).2).
Proof.
  intros Hc. unfold step.
  destruct e; try done; case_match; try done;
    match goal with |- context [handle ?e a st] => destruct (handle e a st) eqn:Eh end;
    by intros [= <-].
Qed.

(** A login answer runs [handleSetToken], whatever the page shows. *)
Lemma step_login {S : Type} `{WebStorage S} (t : string) (a : app) (st : S) :
  step (Login t) (a, st) =
    Some (commit (token a) (handle (Login t) a st).1, (handle (Login t) a st).2).
Proof. done. Qed.

(** A request settling runs its handler with one request fewer out. *)
Lemma step_async {S : Type} `{WebStorage S} (e : event) (a : app) (st : S) (w' : app * S) :
  is_async e = true -> step e (a, st) = Some w' ->
  exists n, surveysOut a = Datatypes.S n /\
    w' = (commit (token a) (handle e (set_surveysOut n a) st).1, (handle e (set_surveysOut n a) st).2).
Proof.
  intros Ha. unfold step.
  destruct e; try done; destruct (surveysOut a) as [|n]; try done;
    match goal with |- context [handle ?e ?a0 st] => destruct (handle e a0 st) eqn:Eh end;
    intros [= <-]; exists n; by rewrite Eh.
Qed.

Section Invariant.
Context {S : Type} `{WebStorageLaws S}.

(** The stored token is the held one, no timer is overdue, and the
    session timer is pending exactly while a token is held. *)
Definition inv (w : app * S) : Prop :=
  get_or "token" "" w.2 = token w.1 /\ future w.1 /\ session_ok w.1.

Lemma get_or_token_set (t : string) (st : S) : get_or "token" "" (setItem "token" t st) = t.
Proof. rewrite get_or_setItem_eq. unfold JsString.truthy. by destruct t. Qed.

(** A click keeps the stored token in step, keeps timers in the future,
    and keeps the session timer when the token does not change. *)
Lemma handle_ok (e : event) (a : app) (st : S) :
  inv (a, st) ->
  get_or "token" "" (handle e a st).2 = token (handle e a st).1 /\ future (handle e a st).1 /\
  (token a = token (handle e a st).1 -> session_ok (handle e a st).1).
Proof.
  intros (Hs & Hf & Hss). unfold future, session_ok in *. simpl in Hs, Hf, Hss.
  destruct e; cbn [handle handleSetToken handleLogout onResult fst snd];
    cbn [token timers clock set_page set_token set_result set_loading set_timers set_darkMode set_surveysOut].
  - split_and!; [apply get_or_token_set | done | intros <-; done].
  - split_and!; [apply get_or_removeItem_eq | done | intros E; rewrite <- E in *; done].
  - done.
  - unfold onResult. cbn [token timers clock set_timers set_loading]. split_and!; [done | |].
    + apply Forall_app. split; [done|]. repeat constructor. simpl. unfold loading_ms. lia.
    + intros _. rewrite List.filter_app, app_nil_r. done.
  - done.
  - done.
  - done.
  - done.
  - done.
  - split_and!; [by rewrite get_or_setItem_ne | done | done].
  - done.
  - done.
Qed.

Lemma filter_drop_other (l1 l2 : list timer) (t : timer) :
  is_session t = false ->
  List.filter is_session (l1 ++ t :: l2) = List.filter is_session (l1 ++ l2).
Proof. intros Ht. rewrite !List.filter_app. simpl. by rewrite Ht. Qed.

Lemma Forall_drop {A} (P : A -> Prop) (l1 l2 : list A) (x : A) :
  Forall P (l1 ++ x :: l2) -> Forall P (l1 ++ l2) /\ P x.
Proof. rewrite !Forall_app, !Forall_cons. naive_solver. Qed.

Lemma session_in (ts : list timer) (D : Z) :
  List.filter is_session ts = [{| due := D; kind := TSession |}] ->
  In {| due := D; kind := TSession |} ts.
Proof. intros E. apply (filter_In is_session). rewrite E. by left. Qed.

(** The earliest timer firing keeps the invariant. *)
Lemma fire_ok (a : app) (st : S) (w' : app * S) :
  inv (a, st) -> step Fire (a, st) = Some w' -> inv w'.
Proof.
  intros (Hs & Hf & Hss) Hstep. simpl in Hs, Hf, Hss, Hstep. unfold future, session_ok in *.
  destruct (next_timer (timers a)) as [[t rest]|] eqn:En; [|done].
  destruct (next_timer_spec _ _ _ En) as [Hmin (l1 & l2 & Ets & ->)].
  rewrite Ets in Hmin, Hf, Hss. apply Forall_drop in Hmin as [Hmin _].
  apply Forall_drop in Hf as [_ Hnow].
  destruct (kind t) as [|r] eqn:Ek; injection Hstep as <-; split.
  - simpl. rewrite token_commit. apply get_or_removeItem_eq.
  - apply commit_ok; [done|]. intros Hold. exfalso. simpl in Hold. rewrite Hold in Hss.
    simpl in Hss. rewrite List.filter_app in Hss. simpl in Hss. unfold is_session in Hss.
    rewrite Ek in Hss. by destruct (List.filter _ l1).
  - simpl. by rewrite token_commit.
  - apply commit_ok; [done|]. intros _. unfold session_ok. simpl.
    assert (Ht : is_session t = false) by (unfold is_session; by rewrite Ek).
    destruct (JsString.truthy (token a)); rewrite filter_drop_other in Hss by done; [|done].
    destruct Hss as (D & HD & HDb). exists D. split; [done|].
    pose proof (session_in _ _ HD) as Hin. apply list_elem_of_In in Hin.
    rewrite Forall_forall in Hmin. specialize (Hmin _ Hin). simpl in Hmin. lia.
Qed.

(** Time passing before the next deadline keeps the invariant. *)
Lemma wait_ok (a : app) (st : S) (t : Z) (w' : app * S) :
  inv (a, st) -> step (Wait t) (a, st) = Some w' -> inv w'.
Proof.
  intros (Hs & Hf & Hss) Hstep. simpl in Hs, Hf, Hss, Hstep. unfold future, session_ok in *.
  destruct ((clock a <? t)%Z && forallb (fun x => (t <? due x)%Z) (timers a)) eqn:Hw; [|done].
  injection Hstep as <-. apply andb_prop in Hw as [Hlt Hall]. apply Z.ltb_lt in Hlt.
  assert (Hd : forall x, In x (timers a) -> (t < due x)%Z)
    by (intros x Hx; apply Z.ltb_lt; by apply (proj1 (forallb_forall _ _) Hall)).
  split_and!; simpl; [done | |].
  - apply Forall_forall. intros x Hx%list_elem_of_In. specialize (Hd x Hx). simpl. lia.
  - unfold session_ok. simpl. destruct (JsString.truthy (token a)); [|done].
    destruct Hss as (D & HD & HDb).
    exists D. split; [done|]. specialize (Hd _ (session_in _ _ HD)). simpl in Hd. lia.
Qed.

(** A handler run on a state holding the same token, then the effects. *)
Lemma handled_ok (e : event) (a a0 : app) (st : S) :
  inv (a0, st) -> token a0 = token a ->
  inv (commit (token a) (handle e a0 st).1, (handle e a0 st).2).
Proof.
  intros Hi <-. destruct (handle_ok e a0 st Hi) as (Hs & Hf & Hss).
  split; [simpl; by rewrite token_commit | apply commit_ok; [done | intros E; by apply Hss]].
Qed.

(** Every reachable state satisfies the invariant. *)
Theorem reachable_inv (w : app * S) : reachable w -> inv w.
Proof.
  induction 1 as [st t0|e [a st] w' _ IH Hstep|k v a st _ (Hs & Hf & Hss) Hk].
  - unfold init, inv. cbn [fst snd]. rewrite token_token_effects. split; [done|].
    apply token_effects_ok. constructor.
  - destruct (is_click e) eqn:Hc.
    + rewrite (step_click e a st w' Hc Hstep). by apply handled_ok.
    + destruct (is_async e) eqn:Ha.
      * destruct (step_async e a st w' Ha Hstep) as (n & _ & ->). by apply handled_ok.
      * destruct e; try done; [| by eapply fire_ok | by eapply wait_ok].
        rewrite step_login in Hstep. injection Hstep as <-. exact (handled_ok (Login t) a a st IH eq_refl).
  - split_and!; [simpl; by rewrite get_or_setItem_ne | done | done].
Qed.
End Invariant.

(** ** Expiry *)

(** Events that are not an explicit login or logout. *)
Definition quiet (e : event) : bool := match e with Login _ | Logout => false | _ => true end.

(** After a login with token [t] whose timer is due at [D]: either still
    logged in with that timer pending and the clock not past [D], or
    expired, with the notice shown and the clock at or past [D]. *)
Definition expiry_phase (t : string) (D : Z) (a : app) : Prop :=
  future a /\
  ((clock a <= D /\ token a = t /\ sessionTimeout a = false /\
    List.filter is_session (timers a) = [{| due := D; kind := TSession |}])%Z \/
   (D <= clock a /\ token a = "" /\ sessionTimeout a = true /\
    List.filter is_session (timers a) = [])%Z).

Lemma quiet_click {S : Type} `{WebStorage S} (e : event) (a : app) (st : S) :
  quiet e = true -> is_click e || is_async e = true ->
  let a' := (handle e a st).1 in
  token a' = token a /\ sessionTimeout a' = sessionTimeout a /\ clock a' = clock a /\
  List.filter is_session (timers a') = List.filter is_session (timers a) /\ (future a -> future a').
Proof.
  intros Hq Hc. destruct e; try done; cbn; try done.
  unfold future. cbn. rewrite List.filter_app, app_nil_r. split_and!; try done.
  intros Hf. apply Forall_app. split; [done|]. repeat constructor. simpl. unfold loading_ms. lia.
Qed.

Lemma commit_same (old : string) (a : app) : token a = old -> commit old a = a.
Proof. intros <-. unfold commit. by rewrite String.eqb_refl. Qed.

Lemma filter_session_in (ts : list timer) (x : timer) :
  List.filter is_session ts = [] -> In x ts -> is_session x = false.
Proof.
  intros E Hx. destruct (is_session x) eqn:Hs; [|done].
  assert (In x (List.filter is_session ts)) by (by apply filter_In). by rewrite E in H.
Qed.

Lemma token_effects_logged_out (a : app) :
  JsString.truthy (token a) = false ->
  token_effects a = set_timers (List.filter (fun x => negb (is_session x)) (timers a)) a.
Proof. intros T. unfold token_effects. rewrite T. by destruct a. Qed.

Lemma phase_fire {S : Type} `{WebStorage S} (t : string) (D : Z) (a a' : app) (st st' : S) :
  t <> "" -> expiry_phase t D a -> step Fire (a, st) = Some (a', st') -> expiry_phase t D a'.
Proof.
  intros Ht (Hf & Hph) Hstep. unfold step in Hstep. unfold future in *.
  destruct (next_timer (timers a)) as [[x rest]|] eqn:En; [|done].
  destruct (next_timer_spec _ _ _ En) as [Hmin (l1 & l2 & Ets & ->)].
  rewrite Ets in Hmin, Hf, Hph. apply Forall_drop in Hmin as [Hmin _].
  apply Forall_drop in Hf as [_ Hnow].
  assert (Hx : In x (l1 ++ x :: l2)) by (apply in_or_app; right; left; done).
  destruct (kind x) as [|r] eqn:Ek; injection Hstep as <- <-.
  - (* the session timer: only pending before expiry, and due at D *)
    destruct Hph as [(HnD & Htok & Hto & HD) | (_ & _ & _ & HD)];
      [| pose proof (filter_session_in _ x HD Hx) as Hc; unfold is_session in Hc; by rewrite Ek in Hc].
    assert (HxD : In x (List.filter is_session (l1 ++ x :: l2)))
      by (apply filter_In; split; [done | unfold is_session; by rewrite Ek]).
    rewrite HD in HxD. destruct HxD as [<-|[]]; cbn [due] in *.
    unfold commit. rewrite Htok. cbn [token expire set_page set_sessionTimeout set_token set_now set_timers].
    replace (String.eqb t "") with false by (symmetry; by apply String.eqb_neq).
    rewrite token_effects_logged_out by reflexivity. unfold future.
    unfold set_timers, set_page, set_sessionTimeout, set_token, set_now. cbn [clock timers token sessionTimeout].
    split.
    + apply Forall_list_filter. eapply Forall_impl; [exact Hmin|]. intros y Hy. simpl in *. lia.
    + right. split_and!; simpl; [lia | done | done | apply filter_session_clean].
  - (* a loading timer: the token and the session timer stay *)
    assert (Hs : is_session x = false) by (unfold is_session; by rewrite Ek).
    cbn [token handleSurveyResult set_page set_result set_loading set_now set_timers].
    rewrite commit_same by reflexivity. split; [simpl; done|]. simpl.
    rewrite <- (filter_drop_other l1 l2 x Hs).
    destruct Hph as [(HnD & Htok & Hto & HD) | (HnD & Htok & Hto & HD)]; [left | right];
      split_and!; try done; [|lia].
    assert (HxD : In {| due := D; kind := TSession |} (l1 ++ x :: l2))
      by (apply (filter_In is_session); rewrite HD; by left).
    apply in_app_or in HxD as [HxD|[Heq|HxD]]; [| subst; discriminate Ek | ];
      rewrite Forall_forall in Hmin; apply (Hmin {| due := D; kind := TSession |});
      apply list_elem_of_In, in_or_app; first [by left | by right].
Qed.

Lemma phase_wait {S : Type} `{WebStorage S} (t : string) (D t' : Z) (a a' : app) (st st' : S) :
  expiry_phase t D a -> step (Wait t') (a, st) = Some (a', st') -> expiry_phase t D a'.
Proof.
  intros (Hf & Hph) Hstep. unfold step in Hstep.
  destruct ((clock a <? t')%Z && forallb (fun x => (t' <? due x)%Z) (timers a)) eqn:Hw; [|done].
  injection Hstep as <- <-. apply andb_prop in Hw as [Hlt Hall]. apply Z.ltb_lt in Hlt.
  assert (Hd : forall x, In x (timers a) -> (t' < due x)%Z)
    by (intros x Hx; apply Z.ltb_lt; by apply (proj1 (forallb_forall _ _) Hall)).
  split.
  - unfold future. simpl. apply Forall_forall. intros x Hx%list_elem_of_In. specialize (Hd x Hx). lia.
  - simpl. destruct Hph as [(HnD & Htok & Hto & HD) | (HnD & Htok & Hto & HD)]; [left | right];
      split_and!; try done; [|lia].
    specialize (Hd _ (session_in _ _ HD)). simpl in Hd. lia.
Qed.

(** A quiet handler keeps the phase, on any state holding the same
    token, timers, clock and notice. *)
Lemma phase_handled {S : Type} `{WebStorage S} (t : string) (D : Z) (e : event) (a a0 : app) (st : S) :
  quiet e = true -> is_click e || is_async e = true ->
  token a0 = token a -> sessionTimeout a0 = sessionTimeout a -> clock a0 = clock a -> timers a0 = timers a ->
  expiry_phase t D a -> expiry_phase t D (commit (token a) (handle e a0 st).1).
Proof.
  intros Hq Hc E1 E2 E3 E4 [Hfa Hph]. destruct (quiet_click e a0 st Hq Hc) as (Htok & Hto & Hcl & Hs & Hf).
  rewrite commit_same by congruence. split; [apply Hf; unfold future in *; by rewrite E3, E4|].
  by rewrite Htok, Hto, Hcl, Hs, E1, E2, E3, E4.
Qed.

Lemma phase_step {S : Type} `{WebStorage S} (t : string) (D : Z) (e : event) (a a' : app) (st st' : S) :
  t <> "" -> quiet e = true -> expiry_phase t D a -> step e (a, st) = Some (a', st') ->
  expiry_phase t D a'.
Proof.
  intros Ht Hq Hph Hstep. destruct (is_click e) eqn:Hc; [|destruct (is_async e) eqn:Ha].
  - apply step_click in Hstep as [= -> _]; [|done]. apply phase_handled; by rewrite ?Hc.
  - apply step_async in Hstep as (n & _ & [= -> _]); [|done].
    apply phase_handled; by rewrite ?Ha, ?orb_true_r.
  - destruct e; try done; [by eapply phase_fire | by eapply phase_wait].
Qed.

Lemma phase_run {S : Type} `{WebStorage S} (t : string) (D : Z) (es : list event) (a a' : app) (st st' : S) :
  t <> "" -> Forall (fun e => quiet e = true) es -> expiry_phase t D a ->
  run es (a, st) = Some (a', st') -> expiry_phase t D a'.
Proof.
  intros Ht Hq. revert a st. induction Hq as [|e es He _ IH]; intros a st Hph Hrun; cbn [run] in Hrun.
  - by injection Hrun as <- <-.
  - revert Hrun. destruct (step e (a, st)) as [[a1 st1]|] eqn:Hs; [|intros H'; discriminate H'].
    intros Hrun. apply (IH a1 st1); [by eapply phase_step | done].
Qed.

(** An answer whose 1200 ms timer is the next to fire shows the
    dashboard with the answer, to whoever holds the session then. *)
Lemma answer_fire_dashboard {S : Type} `{WebStorage S} (r : jsval) (a : app) (st : S) :
  Forall (fun y => (clock a + loading_ms < due y)%Z) (timers a) ->
  exists a', step Fire (onResult r a, st) = Some (a', st) /\
    page a' = PDashboard /\ result a' = r /\ token a' = token a /\ userId a' = userId a /\ loading a' = false.
Proof.
  intros Hts. unfold step, onResult. cbn [timers set_timers]. rewrite next_timer_last by done.
  cbn [kind]. rewrite commit_same by reflexivity. eexists. split; [reflexivity|]. done.
Qed.

Section Expiry.
Context {S : Type} `{WebStorageLaws S}.

(** A login with a new token starts the 30-minute window at the clock. *)
Lemma login_phase (t : string) (a a1 : app) (st st1 : S) :
  inv (a, st) -> t <> "" -> token a <> t -> step (Login t) (a, st) = Some (a1, st1) ->
  clock a1 = clock a /\ expiry_phase t (clock a + session_ms) a1.
Proof.
  intros (_ & Hf & _) Ht Hne Hstep. rewrite step_login in Hstep. injection Hstep as <- _.
  assert (T : JsString.truthy t = true) by (unfold JsString.truthy; by destruct t).
  unfold commit. simpl. destruct (String.eqb_spec (token a) t) as [|_]; [done|].
  destruct (token_effects_ok (set_page PSurvey (set_token t a)) Hf) as [Hf' _].
  unfold token_effects in *. simpl in *. rewrite T in *. split; [done|]. split; [done|].
  left. simpl. split_and!; [unfold session_ms; lia | done | done |].
  by rewrite List.filter_app, filter_session_clean.
Qed.

(** C4: the session expires 30 minutes after a login and never before:
    after a login at clock [T] with a new token, and any events but
    another login or a logout, the user is still logged in (without the
    expiry notice) while the clock is before [T + 30 min], and logged out
    with the notice once it is past. *)
Theorem session_expiry (t : string) (es : list event) (a a1 a2 : app) (st st1 st2 : S) :
  reachable (a, st) -> t <> "" -> token a <> t ->
  step (Login t) (a, st) = Some (a1, st1) ->
  Forall (fun e => quiet e = true) es -> run es (a1, st1) = Some (a2, st2) ->
  ((clock a2 < clock a1 + session_ms)%Z -> token a2 = t /\ sessionTimeout a2 = false) /\
  ((clock a1 + session_ms < clock a2)%Z -> token a2 = "" /\ sessionTimeout a2 = true).
Proof.
  intros Hr Ht Hne Hl Hq Hrun.
  destruct (login_phase t a a1 st st1 (reachable_inv _ Hr) Ht Hne Hl) as [Hc Hph].
  destruct (phase_run t _ es a1 a2 st1 st2 Ht Hq Hph Hrun) as [_ [(HnD & Htok & Hto & _) | (HnD & Htok & Hto & _)]];
    rewrite Hc; split; intros; try done; lia.
Qed.

(** The session timer is the earliest of the two pending after an
    answer arrives, and fires first: the user is logged out with the
    overlay still up and the answer's timer pending. *)
Lemma answer_then_expire (a : app) (st : S) (r : jsval) (D : Z) :
  token a <> "" -> timers a = [{| due := D; kind := TSession |}] -> (D < clock a + loading_ms)%Z ->
  step Fire (onResult r a, st) =
    Some (set_timers [{| due := clock a + loading_ms; kind := TLoading r |}]
            (set_now D (set_page PAuth (set_sessionTimeout true (set_token "" (set_loading true a))))),
          removeItem "token" st).
Proof.
  intros Ht Hts HD. unfold step, onResult, next_timer. cbn [timers set_timers]. rewrite Hts.
  cbn [List.app min_due due]. rewrite Z.min_l by lia. cbn [pick due]. rewrite Z.eqb_refl. cbn [kind expire].
  unfold commit. cbn [token set_page set_sessionTimeout set_token set_now set_timers set_loading].
  replace (String.eqb (token a) "") with false by (symmetry; by apply String.eqb_neq).
  rewrite token_effects_logged_out by reflexivity. done.
Qed.

(** C35: An answer that arrives less than 1200 ms before the session
    expires is shown after the expiry: from any reachable state whose
    only pending timer is the session's, with a survey request out, the
    answer, then the two timers, leave the user logged out with the
    expiry notice, the token gone from storage, and the dashboard showing
    the answer. *)
Theorem expiry_then_dashboard (a : app) (st : S) (r : jsval) (D : Z) (n : nat) :
  reachable (a, st) -> timers a = [{| due := D; kind := TSession |}] -> surveysOut a = Datatypes.S n ->
  (D < clock a + loading_ms)%Z ->
  exists a3 st3, run [SurveyResult r; Fire; Fire] (a, st) = Some (a3, st3) /\
    page a3 = PDashboard /\ result a3 = r /\ token a3 = "" /\ sessionTimeout a3 = true /\
    getItem "token" st3 = None /\ loading a3 = false /\ timers a3 = [].
Proof.
  intros Hr Hts Hn HD. destruct (reachable_inv _ Hr) as (_ & _ & Hs). cbn [fst] in Hs. unfold session_ok in Hs.
  rewrite Hts in Hs. destruct (JsString.truthy (token a)) eqn:T; [|done].
  assert (Ht : token a <> "") by (intros E; by rewrite E in T).
  cbn [run]. unfold step at 1. rewrite Hn. cbn [handle]. rewrite commit_same by done.
  rewrite (answer_then_expire _ _ _ D) by done. unfold step, next_timer.
  cbn [timers set_timers min_due pick due]. rewrite Z.eqb_refl. eexists _, _. split; [reflexivity|].
  cbn. rewrite getItem_removeItem_eq. split_and!; done.
Qed.
End Expiry.

(** ** Logout, reload, dark mode *)

Lemma filter_other_idem (ts : list timer) :
  List.filter (fun x => negb (is_session x)) (List.filter (fun x => negb (is_session x)) ts) =
  List.filter (fun x => negb (is_session x)) ts.
Proof.
  induction ts as [|x ts IH]; simpl; [done|].
  destruct (is_session x) eqn:E; simpl; rewrite ?E; simpl; by rewrite IH.
Qed.

Lemma darkMode_commit_effects (a : app) : darkMode (token_effects a) = darkMode a.
Proof. unfold token_effects. by case_match. Qed.

Lemma darkMode_commit (old : string) (a : app) : darkMode (commit old a) = darkMode a.
Proof. unfold commit. case_match; [done | apply darkMode_commit_effects]. Qed.

Section Lifecycle.
Context {S : Type} `{WebStorageLaws S}.

(** C27: Logging out drops the token, its storage slot, the result and the
    session timer, but keeps the decoded user name and any pending result
    timer. *)
Theorem logout_keeps_identity (a a' : app) (st st' : S) :
  reachable (a, st) -> step Logout (a, st) = Some (a', st') ->
  token a' = "" /\ getItem "token" st' = None /\ result a' = JNull /\ page a' = PAuth /\
  userId a' = userId a /\ List.filter is_session (timers a') = [] /\
  List.filter (fun x => negb (is_session x)) (timers a') =
    List.filter (fun x => negb (is_session x)) (timers a).
Proof.
  intros Hr Hstep. destruct (reachable_inv _ Hr) as (_ & _ & Hss). unfold session_ok in Hss.
  simpl in Hss. apply step_click in Hstep as [= -> ->]; [|done].
  cbn [handle handleLogout fst snd]. rewrite getItem_removeItem_eq. unfold commit. simpl.
  destruct (String.eqb_spec (token a) "") as [E|E].
  - rewrite E in Hss. simpl in Hss. by split_and!.
  - rewrite token_effects_logged_out by reflexivity. simpl. split_and!; try done.
    + apply filter_session_clean.
    + apply filter_other_idem.
Qed.

(** Mounting the app with a stored token logs straight in and starts a
    new 30-minute window at the mount time, however old the token is. *)
Theorem init_restarts_window (st : S) (t0 : Z) (t : string) :
  get_or "token" "" st = t -> t <> "" ->
  let a := (init st t0).1 in
  token a = t /\ page a = PSurvey /\ sessionTimeout a = false /\ userId a = decode_userId t /\
  List.filter is_session (timers a) = [{| due := t0 + session_ms; kind := TSession |}].
Proof.
  intros Ht Hne. unfold init, token_effects. simpl. rewrite Ht.
  assert (T : JsString.truthy t = true) by (unfold JsString.truthy; by destruct t).
  by rewrite T.
Qed.

(** The dark-mode switch is stored as the text ["true"] or ["false"] and
    read back by the next mount. *)
Theorem dark_mode_persists (a a' : app) (st st' : S) (t0 : Z) :
  step ToggleDark (a, st) = Some (a', st') -> darkMode (init st' t0).1 = darkMode a'.
Proof.
  intros Hstep. apply step_click in Hstep as [= -> ->]; [|done].
  unfold init. cbn [fst]. rewrite darkMode_commit_effects, darkMode_commit.
  cbn [handle fst snd darkMode set_darkMode]. rewrite getItem_setItem_eq. by destruct (darkMode a).
Qed.
(** C37: While a token is held exactly one session timer is pending, due
    neither in the past nor more than 30 minutes ahead; without a token
    none is. *)
Theorem session_timer_bounds (w : app * S) :
  reachable w ->
  (JsString.truthy (token w.1) = true ->
   exists D, List.filter is_session (timers w.1) = [{| due := D; kind := TSession |}] /\
             (clock w.1 <= D <= clock w.1 + session_ms)%Z) /\
  (JsString.truthy (token w.1) = false -> List.filter is_session (timers w.1) = []).
Proof.
  intros Hr. destruct (reachable_inv _ Hr) as (_ & _ & Hs). unfold session_ok in Hs.
  destruct (JsString.truthy (token w.1)); split; intros Ht; done.
Qed.
End Lifecycle.

(** ** Decoding the token *)

Lemma has_char_none (sep : ascii) (s : string) :
  Forall (fun c => Ascii.eqb c sep = false) (String.list_ascii_of_string s) ->
  JsString.has_char sep s = false.
Proof.
  induction s as [|c s IH]; simpl; intros Hs; [done|].
  apply Forall_cons in Hs as [Hc Hs]. by rewrite Hc, IH.
Qed.

Lemma has_char_dot_btoa (p : string) : JsString.has_char "." (btoa p) = false.
Proof.
  apply has_char_none. eapply Forall_impl; [apply btoa_chars|]. simpl. naive_solver.
Qed.

(** C7: A token whose middle segment is the base64 text of the JSON of an
    object with a non-empty [sub] yields that [sub] as the user name. *)
Theorem token_userId (h p sg u : string) (fs : list (string * jsval)) :
  JsString.has_char "." h = false ->
  stringify (JObj fs) = Some p -> wf (JObj fs) = true ->
  lookup_field "sub" fs = JStr u -> u <> "" ->
  decode_userId (h +:+ String "." (btoa p +:+ String "." sg)) = JStr u.
Proof.
  intros Hh Hp Hwf Hsub Hu. unfold decode_userId.
  rewrite !JsString.split_app_sep by (done || apply has_char_dot_btoa). cbn [nth_error].
  rewrite atob_btoa. cbn -[parse]. rewrite (parse_stringify _ _ Hwf Hp), jnorm_obj.
  simpl in Hwf. apply andb_prop in Hwf as [Hk _]. cbn [get].
  rewrite lookup_field_norm, Hsub by done. simpl. unfold or_else. simpl.
  unfold JsString.truthy. by destruct u.
Qed.

(** ** Examples *)

Definition demo_token : string := "eyJhbGciOiJIUzI1NiJ9.eyJzdWIiOiJhbm4ifQ.sig".

(** Tokens use the URL-safe alphabet of JSON web tokens, which [atob]
    refuses: a payload whose encoding has a [_] where standard base64 has
    a [/] yields the empty user name. *)
Example url_safe_token_rejected :
  decode_userId "h.eyJzdWIiOiJhbm4_In0.s" = JStr "" /\
  decode_userId "h.eyJzdWIiOiJhbm4/In0.s" = JStr "ann?".
Proof. split; vm_compute; reflexivity. Qed.

(** The answer to a survey sent before a logout still arrives: the
    overlay covers the sign-in page, and 1200 ms later the logged-out user
    is shown the dashboard with the answer.  Two clicks on the survey's
    submit send two requests, and each answer restarts the overlay. *)
Example result_after_logout :
  match run [Login demo_token; SubmitSurvey; Logout; SurveyResult (JStr "r"); Fire]
            (init (∅ : gmap string string) 0) with
  | Some (a, _) => page a = PDashboard /\ token a = "" /\ result a = JStr "r" /\ surveysOut a = 0
  | None => False
  end /\
  match run [Login demo_token; SubmitSurvey; SubmitSurvey; SurveyResult (JStr "r");
             SurveyResult (JStr "s"); Fire; Fire] (init (∅ : gmap string string) 0) with
  | Some (a, _) => page a = PDashboard /\ result a = JStr "s" /\ loading a = false
  | None => False
  end.
Proof. split; vm_compute; auto. Qed.

(** ** Witnesses *)

Definition demo_store : gmap string string := ∅.

(** The app logged in with [demo_token] at clock 0. *)
Definition demo_login : app * gmap string string := Eval vm_compute in
  match step (Login demo_token) (init demo_store 0) with Some w => w | None => init demo_store 0 end.

Definition demo_events : list event := [Wait 1000; SubmitSurvey; SurveyResult (JObj []); Fire; GoProfile].

Definition demo_after : app * gmap string string := Eval vm_compute in
  match run demo_events demo_login with Some w => w | None => demo_login end.

Definition demo_logout : app * gmap string string := Eval vm_compute in
  match step Logout demo_login with Some w => w | None => demo_login end.

Definition demo_dark : app * gmap string string := Eval vm_compute in
  match step ToggleDark demo_login with Some w => w | None => demo_login end.

Lemma demo_login_reachable : reachable demo_login.
Proof. apply (reach_step (Login demo_token) (init demo_store 0)); [apply reach_init | reflexivity]. Qed.

Lemma session_timer_bounds_witness :
  (JsString.truthy (token demo_login.1) = true ->
   exists D, List.filter is_session (timers demo_login.1) = [{| due := D; kind := TSession |}] /\
             (clock demo_login.1 <= D <= clock demo_login.1 + session_ms)%Z) /\
  (JsString.truthy (token demo_login.1) = false -> List.filter is_session (timers demo_login.1) = []).
Proof. apply session_timer_bounds, demo_login_reachable. Defined.

Lemma session_expiry_witness :
  ((clock demo_after.1 < clock demo_login.1 + session_ms)%Z ->
   token demo_after.1 = demo_token /\ sessionTimeout demo_after.1 = false) /\
  ((clock demo_login.1 + session_ms < clock demo_after.1)%Z ->
   token demo_after.1 = "" /\ sessionTimeout demo_after.1 = true).
Proof.
  apply (session_expiry demo_token demo_events (init demo_store 0).1 demo_login.1 demo_after.1
           demo_store demo_login.2 demo_after.2);
    [exact (reach_init demo_store 0) | discriminate | vm_compute; discriminate | reflexivity
    | repeat constructor | reflexivity].
Defined.

Lemma logout_keeps_identity_witness :
  token demo_logout.1 = "" /\ getItem "token" demo_logout.2 = None /\ result demo_logout.1 = JNull /\
  page demo_logout.1 = PAuth /\ userId demo_logout.1 = userId demo_login.1 /\
  List.filter is_session (timers demo_logout.1) = [] /\
  List.filter (fun x => negb (is_session x)) (timers demo_logout.1) =
    List.filter (fun x => negb (is_session x)) (timers demo_login.1).
Proof.
  apply (logout_keeps_identity demo_login.1 demo_logout.1 demo_login.2 demo_logout.2);
    [exact demo_login_reachable | reflexivity].
Defined.

Lemma init_restarts_window_witness :
  let a := (init (<["token" := demo_token]> demo_store) 5000).1 in
  token a = demo_token /\ page a = PSurvey /\ sessionTimeout a = false /\
  userId a = decode_userId demo_token /\
  List.filter is_session (timers a) = [{| due := 5000 + session_ms; kind := TSession |}].
Proof. apply (init_restarts_window _ 5000 demo_token); [reflexivity | discriminate]. Defined.

Lemma dark_mode_persists_witness : darkMode (init demo_dark.2 0).1 = darkMode demo_dark.1.
Proof. apply (dark_mode_persists demo_login.1 demo_dark.1 demo_login.2 demo_dark.2). reflexivity. Defined.

Lemma token_userId_witness :
  decode_userId ("eyJhbGciOiJIUzI1NiJ9" +:+ String "." (btoa (json_text "{'sub':'ann','exp':5}") +:+ String "." "sig"))
    = JStr "ann".
Proof.
  apply (token_userId _ _ _ "ann" [("sub", JStr "ann"); ("exp", JNum (JsNumber.Dec 5 0))]);
    [reflexivity | vm_compute; reflexivity | reflexivity | reflexivity | discriminate].
Defined.

(** Logged in at 0, 500 ms before the expiry, with a survey request out. *)
Definition demo_expiring : app * gmap string string := Eval vm_compute in
  match run [Wait (session_ms - 500); SubmitSurvey] demo_login with Some w => w | None => demo_login end.

Lemma demo_expiring_reachable : reachable demo_expiring.
Proof.
  apply (reach_step SubmitSurvey (set_now (session_ms - 500) demo_login.1, demo_login.2));
    [|reflexivity].
  apply (reach_step (Wait (session_ms - 500)) demo_login); [exact demo_login_reachable | reflexivity].
Qed.

Lemma expiry_then_dashboard_witness :
  exists a3 st3, run [SurveyResult (JStr "r"); Fire; Fire] demo_expiring = Some (a3, st3) /\
    page a3 = PDashboard /\ result a3 = JStr "r" /\ token a3 = "" /\ sessionTimeout a3 = true /\
    getItem "token" st3 = None /\ loading a3 = false /\ timers a3 = [].
Proof.
  apply (expiry_then_dashboard demo_expiring.1 demo_expiring.2 (JStr "r") session_ms 0);
    [exact demo_expiring_reachable | reflexivity | reflexivity | vm_compute; reflexivity].
Defined.

End Session.
