(* ===== verification/Dashboard.v ===== *)
(** * The dashboard ([src/src/Dashboard.jsx]): export, checklist, scores

    The favourites handler and loader of the same component are in
    [Favorites].  This file holds the text export shared by [handleCopy]
    and [handleDownload] ([export_text]: a template literal, where every
    [${v}] is [String(v)] and [arr.join(', ')] prints [null] and
    [undefined] elements as nothing), the roadmap checklist
    ([initial_checked], [handleCheck]), the score a career row shows
    ([score_shown], [c.match_score ?? c.score]) and the initial of the
    avatar ([avatar_initial]).

    Theorems: the export renders a well-typed result in the format of the
    specification, and the specification's example exactly; the checklist
    toggle is an involution that only touches its own step; the row shows
    [match_score] where the export prints [score]; a user name that is not
    a string makes the avatar throw. *)

From S2P Require Import Prelude JsString JsNumber JsValue Json Base64 Storage Session.

Module Dashboard.
Import JsNumber JsValue Json.
Local Open Scope js_scope.

(** ** Export *)

Definition nl : string := String "010" EmptyString.

(** [`${c.career} (Score: ${c.score})`] *)
Definition career_line (c : jsval) : js jsval :=
  career <- get c "career" ;; score <- get c "score" ;;
  Ok (JStr (to_string career +:+ " (Score: " +:+ to_string score +:+ ")")).

(** The template literal of [handleCopy] and [handleDownload]. *)
Definition export_text (result : jsval) : js string :=
  careers <- get result "careers" ;; lines <- arr_map careers career_line ;;
  reasoning <- get result "reasoning" ;;
  roadmap <- get result "roadmap" ;; steps <- as_array roadmap ;;
  Ok ("Top Careers:" +:+ nl +:+ join_values ", " lines +:+ nl +:+
      "Reasoning: " +:+ to_string reasoning +:+ nl +:+
      "Roadmap: " +:+ join_values ", " steps).

(** [handleCopy]: the clipboard text and the [copied] flag (its reset
    after 1500 ms is not modelled). *)
Definition handleCopy (result : jsval) : js (string * bool) :=
  text <- export_text result ;; Ok (text, true).

(** [handleDownload]: the file name and contents of the download. *)
Definition handleDownload (result : jsval) : js (string * string) :=
  text <- export_text result ;; Ok ("career_suggestions.txt", text).

(** ** Rows, checklist and avatar *)

(** [c.match_score ?? c.score] *)
Definition score_shown (c : jsval) : js jsval :=
  m <- get c "match_score" ;;
  match m with JUndefined | JNull => get c "score" | _ => Ok m end.

(** [Array(result?.roadmap?.length || 0).fill(false)]: [Array(n)] has
    [n] holes for a number [n] (an integer from 0 to [2^32 - 1]; any
    other number throws [RangeError], which is not modelled and gives
    the empty list), and [Array(x)] is [[x]] for any other [x]. *)
Definition initial_checked (result : jsval) : list bool :=
  match or_else (get_opt (get_opt result "roadmap") "length") (JNum (Dec 0 0)) with
  | JNum d =>
      let d' := dec_norm d in
      if Nat.eqb (dscale d') 0 && (0 <=? dmant d')%Z && (dmant d' <? 2 ^ 32)%Z
      then repeat false (Z.to_nat (dmant d')) else []
  | _ => [false]
  end.

(** [checked.map((c, i) => (i === idx ? !c : c))] *)
Definition handleCheck (idx : nat) (checked : list bool) : list bool :=
  imap (fun i c => if Nat.eqb i idx then negb c else c) checked.

Definition upper_char (c : ascii) : ascii :=
  let n := N_of_ascii c in
  if ((97 <=? n) && (n <=? 122))%N then ascii_of_N (n - 32) else c.

(** [v.toUpperCase()] on the ASCII range; any other value has no such
    method. *)
Definition to_upper_case (v : jsval) : js string :=
  match v with
  | JStr s => Ok (String.string_of_list_ascii (map upper_char (String.list_ascii_of_string s)))
  | _ => Throw TypeError
  end.

(** [userId ? userId[0].toUpperCase() : 'U'] *)
Definition avatar_initial (userId : jsval) : js string :=
  if truthy userId then to_upper_case (index0 userId) else Ok "U".

(** ** The format of the specification *)

Definition spec_line (c : string * decimal) : string :=
  c.1 +:+ " (Score: " +:+ dec_to_string c.2 +:+ ")".

Definition spec_text (cs : list (string * decimal)) (r : string) (steps : list string) : string :=
  "Top Careers:" +:+ nl +:+ JsString.join ", " (map spec_line cs) +:+ nl +:+
  "Reasoning: " +:+ r +:+ nl +:+ "Roadmap: " +:+ JsString.join ", " steps.

Definition career_obj (c : string * decimal) : jsval :=
  JObj [("career", JStr c.1); ("score", JNum c.2)].

(** ** Theorems *)

Lemma career_lines (cs : list (string * decimal)) :
  mapM career_line (map career_obj cs) = Ok (map JStr (map spec_line cs)).
Proof. induction cs as [|c cs IH]; simpl; [done|]. by rewrite IH. Qed.

(** C5: The export renders a result of the documented shape in the format of
    the specification: [Top Careers:], the careers with their scores
    joined by commas, the reasoning, and the roadmap joined by commas, on
    four lines. *)
Theorem export_text_spec (result : jsval) (cs : list (string * decimal)) (r : string)
    (steps : list string) :
  get result "careers" = Ok (JArr (map career_obj cs)) ->
  get result "reasoning" = Ok (JStr r) ->
  get result "roadmap" = Ok (JArr (map JStr steps)) ->
  export_text result = Ok (spec_text cs r steps) /\
  handleDownload result = Ok ("career_suggestions.txt", spec_text cs r steps).
Proof.
  intros Hc Hr Hs.
  assert (He : export_text result = Ok (spec_text cs r steps)).
  { unfold export_text. rewrite Hc. cbn -[get mapM]. rewrite career_lines, Hr, Hs.
    cbn -[join_values]. by rewrite !join_values_strings. }
  split; [done|]. unfold handleDownload. by rewrite He.
Qed.

(** The example of the specification, exactly. *)
Example export_text_example :
  export_text (JObj [("careers", JArr [JObj [("career", JStr "Software Engineer"); ("score", JNum (Dec 9 1))]]);
                     ("reasoning", JStr "Good fit");
                     ("roadmap", JArr [JStr "Learn Python"; JStr "Build a project"])]) =
  Ok ("Top Careers:" +:+ nl +:+ "Software Engineer (Score: 0.9)" +:+ nl +:+ "Reasoning: Good fit" +:+
      nl +:+ "Roadmap: Learn Python, Build a project").
Proof. vm_compute. reflexivity. Qed.

(** Ticking a roadmap step twice restores the checklist; a tick changes
    only its own step and keeps the length. *)
Theorem handleCheck_toggle (idx : nat) (checked : list bool) :
  handleCheck idx (handleCheck idx checked) = checked /\
  length (handleCheck idx checked) = length checked /\
  handleCheck idx checked !! idx = negb <$> checked !! idx /\
  (forall j, j <> idx -> handleCheck idx checked !! j = checked !! j).
Proof.
  unfold handleCheck. split_and!.
  - apply list_eq. intros j. rewrite !list_lookup_imap.
    destruct (checked !! j) as [b|]; simpl; [|done].
    destruct (Nat.eqb j idx); by rewrite ?negb_involutive.
  - apply length_imap.
  - by rewrite list_lookup_imap, Nat.eqb_refl.
  - intros j Hj. rewrite list_lookup_imap. apply Nat.eqb_neq in Hj. rewrite Hj.
    by destruct (checked !! j).
Qed.

(** A career the server scores with [match_score] only shows that score
    in its row, while the export prints [undefined]. *)
Example match_score_not_exported :
  let c := JObj [("career", JStr "Data Scientist"); ("match_score", JNum (Dec 8 1))] in
  score_shown c = Ok (JNum (Dec 8 1)) /\ career_line c = Ok (JStr "Data Scientist (Score: undefined)").
Proof. split; reflexivity. Qed.

(** A token whose [sub] is a number gives a numeric user name, and the
    dashboard's avatar then throws: [userId[0]] is [undefined]. *)
Example numeric_sub_breaks_avatar :
  Session.decode_userId "h.eyJzdWIiOjQyfQ.s" = JNum (Dec 42 0) /\
  avatar_initial (Session.decode_userId "h.eyJzdWIiOjQyfQ.s") = Throw TypeError /\
  avatar_initial (Session.decode_userId "h.eyJzdWIiOiJhbm4ifQ.s") = Ok "A".
Proof. split_and!; vm_compute; reflexivity. Qed.

(** The checklist has one box per step of an array or per character of
    a string roadmap, one box for a [length] that is not a number, and
    none without a roadmap. *)
Example initial_checked_cases :
  initial_checked (JObj [("roadmap", JArr [JStr "a"; JStr "b"])]) = [false; false] /\
  initial_checked (JObj [("roadmap", JStr "abc")]) = [false; false; false] /\
  initial_checked (JObj [("roadmap", JObj [("length", JStr "x")])]) = [false] /\
  initial_checked (JObj [("roadmap", JObj [("length", JNum (Dec 20 1))])]) = [false; false] /\
  initial_checked JNull = [].
Proof. split_and!; vm_compute; reflexivity. Qed.

(** ** Witnesses *)

Lemma export_text_spec_witness :
  export_text (JObj [("careers", JArr (map career_obj [("Nurse", Dec 75 2); ("Pilot", Dec 5 1)]));
                     ("reasoning", JStr "care"); ("roadmap", JArr (map JStr ["Study"; "Practice"]))]) =
    Ok (spec_text [("Nurse", Dec 75 2); ("Pilot", Dec 5 1)] "care" ["Study"; "Practice"]) /\
  handleDownload (JObj [("careers", JArr (map career_obj [("Nurse", Dec 75 2); ("Pilot", Dec 5 1)]));
                        ("reasoning", JStr "care"); ("roadmap", JArr (map JStr ["Study"; "Practice"]))]) =
    Ok ("career_suggestions.txt", spec_text [("Nurse", Dec 75 2); ("Pilot", Dec 5 1)] "care" ["Study"; "Practice"]).
Proof. apply export_text_spec; reflexivity. Defined.

Lemma handleCheck_toggle_witness :
  handleCheck 1 (handleCheck 1 [false; false; true]) = [false; false; true] /\
  length (handleCheck 1 [false; false; true]) = length [false; false; true] /\
  handleCheck 1 [false; false; true] !! 1 = negb <$> [false; false; true] !! 1 /\
  (forall j, j <> 1 -> handleCheck 1 [false; false; true] !! j = [false; false; true] !! j).
Proof. apply (handleCheck_toggle 1 [false; false; true]). Defined.

End Dashboard.
