(* ===== verification/ProfileView.v ===== *)
(** * What the profile page shows (src/src/Profile.jsx, the render)

    [Profile] models the page's state, handlers and controls; this file
    models its render: the "You are not logged in." page of the early
    return, the avatar (the stored picture, or the initial of [userId]
    as the dashboard computes it), the username line, the four fields
    (inputs while editing, texts with ['-'] for an empty value
    otherwise), the buttons of the mode, and the message.  The embedded
    [BadgeDisplay] and [SurveyHistory] are their own components
    ([Badges], [History]).

    Theorems: editing a field of a new profile, saving, and coming back
    shows the new value in that field and ['-'] in the others; any stored
    profile of the user with a field holding an object passes the parse
    and the ownership check but makes the page throw [TypeError] while
    rendering; any numeric [userId] makes the page throw unless a picture
    is stored. *)

From S2P Require Import Prelude JsString JsNumber JsValue Json Storage Badges History Profile Dashboard.

Module ProfileView.
Import JsValue Json Storage Profile.
Local Open Scope js_scope.

(** A field as shown: an input with its [name] and [value], or a text. *)
Inductive shown := PInput (name : string) (value : jsval) | PText (t : string).

Record profile_view := {
  pv_avatar : string + string;
  pv_username : string;
  pv_fields : list (string * shown);
  pv_buttons : list string;
  pv_msg : option string
}.

Definition pfield_label (n : pfield) : string :=
  match n with PFullName => "Full Name:" | PEmail => "Email:" | PAge => "Age:" | PPhone => "Phone:" end.

Definition pfields : list pfield := [PFullName; PEmail; PAge; PPhone].

(** [edit ? <input name=.. value={profile.x} /> : <span>{profile.x || '-'}</span>] *)
Definition show_field (edit : bool) (p : jsval) (n : pfield) : js (string * shown) :=
  v <- get p (pfield_key n) ;;
  if edit then Ok (pfield_label n, PInput (pfield_key n) v)
  else t <- History.react_text (or_else v (JStr "-")) ;; Ok (pfield_label n, PText t).

(** The render; [None] is the page of the early return. *)
Definition view (userId : jsval) (s : profile_state) : js (option profile_view) :=
  if negb (truthy userId) then Ok None
  else
    av <- (if JsString.truthy (avatar s) then Ok (inl (avatar s))
           else i <- Dashboard.avatar_initial userId ;; Ok (inr i)) ;;
    u <- History.react_text (or_else userId (JStr "User")) ;;
    fs <- mapM (show_field (edit s) (profile s)) pfields ;;
    Ok (Some {| pv_avatar := av; pv_username := u; pv_fields := fs;
                pv_buttons := if edit s then ["Save"; "Cancel"] else ["Edit Profile"];
                pv_msg := if JsString.truthy (msg s) then Some (msg s) else None |}).

(** ** Lemmas *)

Definition pfield_eqb (a b : pfield) : bool := String.eqb (pfield_key a) (pfield_key b).

(** The text of a string field: the string, or ['-'] when empty. *)
Definition text_or_dash (v : string) : string := if JsString.truthy v then v else "-".

Lemma show_field_str (p : list (string * jsval)) (n : pfield) (v : string) :
  lookup_field (pfield_key n) p = JStr v ->
  show_field false (JObj p) n = Ok (pfield_label n, PText (text_or_dash v)).
Proof.
  intros Hv. unfold show_field. simpl. rewrite Hv. unfold or_else, text_or_dash. simpl.
  by destruct (JsString.truthy v).
Qed.

(** React renders a child as text or throws [TypeError] (on an object). *)
Lemma react_text_ok_or (v : jsval) :
  (exists t, History.react_text v = Ok t) \/ History.react_text v = Throw TypeError.
Proof.
  induction v as [| | | | |l Hl|fs _] using jsval_ind'; simpl; try (by left; eexists); [|by right].
  destruct (mapM_ok_or History.react_text l TypeError) as [[ts ->] | ->];
    [rewrite Forall_forall in Hl; exact Hl | by left; eexists | by right].
Qed.

Lemma show_field_ok_or (fs : list (string * jsval)) (n : pfield) :
  (exists r, show_field false (JObj fs) n = Ok r) \/ show_field false (JObj fs) n = Throw TypeError.
Proof.
  unfold show_field. simpl.
  destruct (react_text_ok_or (or_else (lookup_field (pfield_key n) fs) (JStr "-"))) as [[t ->] | ->];
    [by left; eexists | by right].
Qed.

(** A field holding an object makes the page throw while rendering. *)
Lemma view_object_field (u : jsval) (s : profile_state) (fs o : list (string * jsval)) (n : pfield) :
  truthy u = true -> edit s = false -> profile s = JObj fs -> lookup_field (pfield_key n) fs = JObj o ->
  (exists av, (if JsString.truthy (avatar s) then Ok (inl (avatar s))
               else i <- Dashboard.avatar_initial u ;; Ok (inr i)) = Ok av) ->
  (exists t, History.react_text (or_else u (JStr "User")) = Ok t) ->
  view u s = Throw TypeError.
Proof.
  intros Hu He Hp Hn [av Hav] [t Ht]. unfold view. rewrite Hu, Hav, Ht, He, Hp. cbn -[mapM pfields show_field].
  rewrite (mapM_throw_only _ pfields n TypeError); [done | | unfold pfields; destruct n; set_solver |].
  - intros m _. apply show_field_ok_or.
  - unfold show_field. simpl. by rewrite Hn.
Qed.

(** ** Theorems *)

Section Theorems.
Context {S : Type} `{WebStorageLaws S}.

(** A user without a stored profile who edits one field, saves, and comes
    back sees the new value in that field and ['-'] in the others. *)
Theorem edit_save_reload_shows (u v : string) (n : pfield) (st : S) :
  u <> "" -> initialProfile u st = default_profile u ->
  let st' := (run_actions u [StartEdit; Change n v; Save] (mount u st, st)).2 in
  exists pv, view (JStr u) (mount u st') = Ok (Some pv) /\
    pv_fields pv = map (fun n' => (pfield_label n', PText (if pfield_eqb n' n then text_or_dash v else "-"))) pfields.
Proof.
  intros Hu Hi st'. subst st'. unfold run_actions. cbn [fold_left act mount edit set_edit profile fst snd].
  simpl. rewrite Hi. unfold mount.
  destruct n; (rewrite (initialProfile_write u u); [| reflexivity | reflexivity]); rewrite String.eqb_refl;
    unfold view; (destruct u as [|c u']; [done|]); cbn -[get_or];
    destruct (JsString.truthy (get_or _ _ _)), v as [|cv v']; cbn; (eexists; split; [reflexivity|]); reflexivity.
Qed.

(** C36: A profile of the user whose field holds an object passes
    [initialProfile]'s checks and becomes the page's profile, and the
    page then throws while rendering, since React refuses an object as a
    child; and a numeric [userId] (a token whose [sub] is a number) makes
    the page throw on [userId[0].toUpperCase()] unless a picture is
    stored. *)
Theorem profile_render_throws (u : string) (st : S) (fs o : list (string * jsval)) (n : pfield) :
  u <> "" -> wf (JObj fs) = true -> lookup_field "username" fs = JStr u -> lookup_field (pfield_key n) fs = JObj o ->
  view (JStr u) (mount u (write_json "profile" (JObj fs) st)) = Throw TypeError /\
  forall (d : JsNumber.decimal) (s : profile_state),
    truthy (JNum d) = true -> JsString.is_empty (avatar s) = true -> view (JNum d) s = Throw TypeError.
Proof.
  intros Hu Hw Hname Hn. split.
  - unfold mount. rewrite (initialProfile_write u u fs st Hw Hname), String.eqb_refl, jnorm_obj.
    pose proof Hw as Hk. simpl in Hk. apply andb_prop in Hk as [Hk _].
    destruct u as [|c u']; [done|].
    apply (view_object_field _ _ (flat_map member_norm fs) (flat_map member_norm o) n);
      [done | done | done | rewrite lookup_field_norm, Hn by done; apply jnorm_obj | |].
    + cbn [avatar]. destruct (JsString.truthy _); by eexists.
    + by eexists.
  - intros d s Hd Ha. unfold view. rewrite Hd. unfold JsString.truthy. rewrite Ha. unfold Dashboard.avatar_initial. rewrite Hd. reflexivity.
Qed.
End Theorems.

(** ** Witnesses *)

Lemma edit_save_reload_shows_witness :
  exists pv, view (JStr "ann") (mount "ann" (run_actions "ann" [StartEdit; Change PEmail "ann@x.org"; Save]
                                               (mount "ann" ∅, (∅ : gmap string string))).2) = Ok (Some pv) /\
    pv_fields pv = map (fun n' => (pfield_label n', PText (if pfield_eqb n' PEmail then text_or_dash "ann@x.org" else "-")))
                     pfields.
Proof. apply (edit_save_reload_shows "ann" "ann@x.org" PEmail ∅); [discriminate|reflexivity]. Defined.
Lemma profile_render_throws_witness :
  view (JStr "ann") (mount "ann" (write_json "profile"
          (JObj [("username", JStr "ann"); ("fullName", JObj [("first", JStr "Ann")])]) (∅ : gmap string string)))
    = Throw TypeError /\
  forall (d : JsNumber.decimal) (s : profile_state),
    truthy (JNum d) = true -> JsString.is_empty (avatar s) = true -> view (JNum d) s = Throw TypeError.
Proof.
  apply (profile_render_throws "ann" ∅ _ [("first", JStr "Ann")] PFullName);
    [discriminate | vm_compute; reflexivity | reflexivity | reflexivity].
Defined.

End ProfileView.
