(* ===== verification/Api.v ===== *)
(** * The API client of src/src/api.js

    [api.js] builds one axios instance and five request wrappers.  A
    request is modelled by what the wrapper hands to axios: the method,
    the path, the body and the headers it sets; the server's reply is an
    input of the components that call the wrappers.  The login body is a
    [URLSearchParams], which axios sends in its
    [application/x-www-form-urlencoded] serialisation; this file gives
    that serialiser, the parser a server applies to it, and their round
    trip.  Strings are 8-bit: a character is the code point U+0000 to
    U+00FF, which the serialiser encodes as its one or two UTF-8 bytes. *)

From S2P Require Import Prelude JsString JsNumber JsValue Json Survey.

Module Api.
Import JsNumber JsValue Json.
Local Open Scope js_scope.

(** ** [URLSearchParams.prototype.toString] *)

(** The bytes left as they are: ASCII alphanumerics and [*-._]. *)
Definition safe_byte (b : nat) : bool :=
  ((48 <=? b) && (b <=? 57)) || ((65 <=? b) && (b <=? 90)) || ((97 <=? b) && (b <=? 122)) ||
  (b =? 42) || (b =? 45) || (b =? 46) || (b =? 95).

Definition upper_hex (n : nat) : ascii :=
  match n with
  | 0 => "0" | 1 => "1" | 2 => "2" | 3 => "3" | 4 => "4" | 5 => "5" | 6 => "6"
  | 7 => "7" | 8 => "8" | 9 => "9" | 10 => "A" | 11 => "B" | 12 => "C"
  | 13 => "D" | 14 => "E" | _ => "F"
  end%char.

(** The UTF-8 encoding of one code point below U+0100. *)
Definition utf8_bytes (c : ascii) : list nat :=
  let n := nat_of_ascii c in
  if n <? 128 then [n] else [192 + n / 64; 128 + n mod 64].

(** The urlencoded byte serialiser, one byte. *)
Definition encode_byte (b : nat) : string :=
  if safe_byte b then String (ascii_of_nat b) EmptyString
  else if b =? 32 then "+"
  else String "%" (String (upper_hex (b / 16)) (String (upper_hex (b mod 16)) EmptyString)).

Fixpoint encode_bytes (bs : list nat) : string :=
  match bs with
  | [] => EmptyString
  | b :: bs' => encode_byte b +:+ encode_bytes bs'
  end.

(** Each character as its UTF-8 bytes, each byte serialised. *)
Fixpoint encode_string (s : string) : string :=
  match s with
  | EmptyString => EmptyString
  | String c r => encode_bytes (utf8_bytes c) +:+ encode_string r
  end.

(** One [name=value] pair. *)
Definition pair_text (kv : string * string) : string :=
  encode_string kv.1 +:+ "=" +:+ encode_string kv.2.

(** [params.toString()]: the pairs in insertion order, joined by [&]. *)
Definition serialize (ps : list (string * string)) : string :=
  JsString.join "&" (map pair_text ps).

(** ** The urlencoded parser on the server side *)

(** [+] is a space, [%XY] the byte XY, any other character its code. *)
Fixpoint pct_decode (s : string) : list nat :=
  match s with
  | EmptyString => []
  | String c r =>
      if Ascii.eqb c "+" then 32 :: pct_decode r
      else if Ascii.eqb c "%" then
        match r with
        | String h (String l r') =>
            match Json.hex_value h, Json.hex_value l with
            | Some x, Some y => (x * 16 + y) :: pct_decode r'
            | _, _ => 37 :: pct_decode r
            end
        | _ => 37 :: pct_decode r
        end
      else nat_of_ascii c :: pct_decode r
  end.

(** UTF-8 decoding, for code points below U+0100; [None] on anything
    else. *)
Fixpoint utf8_decode (bs : list nat) : option string :=
  match bs with
  | [] => Some EmptyString
  | b :: r =>
      if b <? 128 then
        s ← utf8_decode r ; Some (String (ascii_of_nat b) s)
      else match r with
           | b2 :: r' =>
               if (192 <=? b) && (b <? 196) && (128 <=? b2) && (b2 <? 192) then
                 s ← utf8_decode r' ; Some (String (ascii_of_nat ((b - 192) * 64 + (b2 - 128))) s)
               else None
           | [] => None
           end
  end.

(** The text before the first [c], and the text after it ([""] when
    there is none). *)
Fixpoint split_first (c : ascii) (s : string) : string * string :=
  match s with
  | EmptyString => (EmptyString, EmptyString)
  | String d r =>
      if Ascii.eqb d c then (EmptyString, r)
      else let '(a, b) := split_first c r in (String d a, b)
  end.

Definition parse_pair (seq : string) : option (string * string) :=
  let '(n, v) := split_first "=" seq in
  k ← utf8_decode (pct_decode n) ; w ← utf8_decode (pct_decode v) ; Some (k, w).

Fixpoint mapO {A B} (f : A -> option B) (l : list A) : option (list B) :=
  match l with
  | [] => Some []
  | x :: l' => y ← f x ; ys ← mapO f l' ; Some (y :: ys)
  end.

Definition form_parse (s : string) : option (list (string * string)) :=
  mapO parse_pair (List.filter JsString.truthy (JsString.split "&" s)).

(** ** Requests *)

Inductive http_method := GET | POST.

(** What axios sends as the body: [JSON.stringify] of a plain value, the
    urlencoded text of a [URLSearchParams]. *)
Inductive body :=
| NoBody
| JsonBody (v : jsval)
| FormBody (ps : list (string * string)).

(** The method, the path relative to the base URL, the body and the
    headers the wrapper sets. *)
Record request := {
  method_of : http_method;
  path : string;
  body_of : body;
  headers : list (string * string)
}.

Definition default_base : string := "http://localhost:8000".

(** [baseURL: import.meta.env.VITE_API_URL || 'http://localhost:8000'];
    [None] when the variable is not defined. *)
Definition baseURL (env : option string) : string :=
  match env with
  | Some u => if JsString.truthy u then u else default_base
  | None => default_base
  end.

(** [baseURL.replace(/\/?\/$/, '')]: one or two trailing slashes. *)
Definition strip_end_slashes (s : string) : string :=
  let r := rev (String.list_ascii_of_string s) in
  let r' := match r with
            | "/"%char :: "/"%char :: t => t
            | "/"%char :: t => t
            | _ => r
            end in
  String.string_of_list_ascii (rev r').

(** [relativeURL.replace(/^\/+/, '')] *)
Fixpoint strip_start_slashes (s : string) : string :=
  match s with
  | String "/" r => strip_start_slashes r
  | _ => s
  end.

(** axios' [combineURLs]; the five paths below start with a slash and
    a letter, so axios' absolute-URL test fails on them and the base is
    always prefixed. *)
Definition full_url (env : option string) (r : request) : string :=
  strip_end_slashes (baseURL env) +:+ "/" +:+ strip_start_slashes (path r).

Definition bearer (token : string) : list (string * string) :=
  [("Authorization", "Bearer " +:+ token)].

(** [signup = (data) => API.post('/auth/signup', data)] *)
Definition signup (data : jsval) : request :=
  {| method_of := POST; path := "/auth/signup"; body_of := JsonBody data; headers := [] |}.

(** [login = ({ username, password }) => ...]: the destructuring throws on
    [null] and [undefined]; [params.append] converts with [String]. *)
Definition login (cred : jsval) : js request :=
  username <- get cred "username" ;; password <- get cred "password" ;;
  Ok {| method_of := POST; path := "/auth/token";
        body_of := FormBody [("username", to_string username); ("password", to_string password)];
        headers := [("Content-Type", "application/x-www-form-urlencoded")] |}.

Definition predictCareer (data : jsval) (token : string) : request :=
  {| method_of := POST; path := "/predict-career-content-based"; body_of := JsonBody data;
     headers := bearer token |}.

(** [`/results/${userId}`]: the id is inserted with [String], unencoded. *)
Definition getResults (userId : jsval) (token : string) : request :=
  {| method_of := GET; path := "/results/" +:+ to_string userId; body_of := NoBody;
     headers := bearer token |}.

Definition sendFeedback (data : jsval) (token : string) : request :=
  {| method_of := POST; path := "/feedback"; body_of := JsonBody data; headers := bearer token |}.

(** The server, as its callers see it: a reply to each request, or the
    rejection axios raises (an [HttpError] with the response's [data] for
    a non-2xx status, [None] when no response came). *)
Class Server := { respond : request -> js jsval }.

(** The body text on the wire. *)
Definition wire_body (b : body) : option string :=
  match b with
  | NoBody => None
  | JsonBody v => stringify v
  | FormBody ps => Some (serialize ps)
  end.

(** ** Lemmas *)

Lemma upper_hex_value (n : nat) : n < 16 -> Json.hex_value (upper_hex n) = Some n.
Proof. intros Hn. do 16 (destruct n as [|n]; [reflexivity|]). lia. Qed.

(** The characters the serialiser emits. *)
Definition url_char (c : ascii) : bool :=
  safe_byte (nat_of_ascii c) || Ascii.eqb c "+" || Ascii.eqb c "%".

Lemma upper_hex_url (n : nat) : n < 16 -> url_char (upper_hex n) = true.
Proof. intros Hn. do 16 (destruct n as [|n]; [reflexivity|]). lia. Qed.

Lemma nat_of_ascii_of_nat (b : nat) : b < 256 -> nat_of_ascii (ascii_of_nat b) = b.
Proof. apply nat_ascii_embedding. Qed.

Lemma safe_byte_not_plus_pct (b : nat) :
  safe_byte b = true -> b <> 43 /\ b <> 37 /\ b <> 32.
Proof. unfold safe_byte. intros H. repeat (apply orb_true_iff in H as [H|H]);
  repeat match goal with H : _ && _ = true |- _ => apply andb_prop in H as [? ?] end;
  repeat match goal with H : (_ =? _) = true |- _ => apply Nat.eqb_eq in H
                       | H : (_ <=? _) = true |- _ => apply Nat.leb_le in H end; lia.
Qed.

(** One serialised byte is decoded back, whatever follows it. *)
Lemma pct_decode_encode_byte (b : nat) (s : string) :
  b < 256 -> pct_decode (encode_byte b +:+ s) = b :: pct_decode s.
Proof.
  intros Hb. unfold encode_byte. destruct (safe_byte b) eqn:Hs.
  - destruct (safe_byte_not_plus_pct b Hs) as (H1 & H2 & _). simpl.
    assert (Hc : nat_of_ascii (ascii_of_nat b) = b) by (apply nat_of_ascii_of_nat; lia).
    destruct (Ascii.eqb (ascii_of_nat b) "+") eqn:Ep;
      [apply Ascii.eqb_eq in Ep; rewrite Ep in Hc; vm_compute in Hc; lia|].
    destruct (Ascii.eqb (ascii_of_nat b) "%") eqn:Eq;
      [apply Ascii.eqb_eq in Eq; rewrite Eq in Hc; vm_compute in Hc; lia|]. by rewrite Hc.
  - destruct (b =? 32) eqn:E32; [apply Nat.eqb_eq in E32; by subst|].
    pose proof (Nat.div_mod_eq b 16). pose proof (Nat.mod_upper_bound b 16).
    set (q := b / 16) in *. set (r := b mod 16) in *. simpl.
    rewrite !upper_hex_value by lia. f_equal. lia.
Qed.

Lemma pct_decode_encode_bytes (bs : list nat) (s : string) :
  Forall (fun b => b < 256) bs -> pct_decode (encode_bytes bs +:+ s) = bs ++ pct_decode s.
Proof.
  induction 1 as [|b bs Hb _ IH]; [done|]. simpl.
  by rewrite <- string_app_assoc, pct_decode_encode_byte, IH.
Qed.

(** The bytes [encode_string] serialises. *)
Fixpoint string_bytes (s : string) : list nat :=
  match s with
  | EmptyString => []
  | String c r => utf8_bytes c ++ string_bytes r
  end.

Lemma utf8_bytes_small (c : ascii) : Forall (fun b => b < 256) (utf8_bytes c).
Proof.
  pose proof (nat_ascii_bounded c). unfold utf8_bytes.
  pose proof (Nat.div_mod_eq (nat_of_ascii c) 64). pose proof (Nat.mod_upper_bound (nat_of_ascii c) 64 ltac:(discriminate)).
  destruct (_ <? 128); repeat (apply List.Forall_cons; [lia|]); apply List.Forall_nil.
Qed.

Lemma pct_decode_encode_string (s t : string) :
  pct_decode (encode_string s +:+ t) = string_bytes s ++ pct_decode t.
Proof.
  induction s as [|c s IH]; [done|]. simpl.
  by rewrite <- string_app_assoc, pct_decode_encode_bytes, IH, app_assoc by apply utf8_bytes_small.
Qed.

(** A character's bytes decode to the character, before any suffix. *)
Lemma utf8_decode_bytes (c : ascii) (bs : list nat) :
  utf8_decode (utf8_bytes c ++ bs) = (s ← utf8_decode bs ; Some (String c s)).
Proof.
  pose proof (nat_ascii_bounded c). unfold utf8_bytes.
  pose proof (Nat.div_mod_eq (nat_of_ascii c) 64).
  pose proof (Nat.mod_upper_bound (nat_of_ascii c) 64 ltac:(discriminate)).
  set (q := nat_of_ascii c / 64) in *. set (r := nat_of_ascii c mod 64) in *.
  destruct (nat_of_ascii c <? 128) eqn:Hn; cbn [utf8_decode app].
  - by rewrite Hn, ascii_nat_embedding.
  - apply Nat.ltb_ge in Hn.
    replace (192 + q <? 128) with false by (symmetry; apply Nat.ltb_ge; lia).
    replace ((192 <=? 192 + q) && (192 + q <? 196) && (128 <=? 128 + r) && (128 + r <? 192)) with true
      by (symmetry; repeat (apply andb_true_intro; split); (apply Nat.leb_le || apply Nat.ltb_lt); lia).
    replace ((192 + q - 192) * 64 + (128 + r - 128)) with (nat_of_ascii c) by lia.
    by rewrite ascii_nat_embedding.
Qed.

Lemma utf8_decode_string_bytes (s : string) : utf8_decode (string_bytes s) = Some s.
Proof. induction s as [|c s IH]; [done|]. simpl. by rewrite utf8_decode_bytes, IH. Qed.

Fixpoint all_chars (p : ascii -> bool) (s : string) : bool :=
  match s with
  | EmptyString => true
  | String c r => p c && all_chars p r
  end.

Lemma all_chars_app (p : ascii -> bool) (s t : string) :
  all_chars p (s +:+ t) = all_chars p s && all_chars p t.
Proof. induction s as [|c s IH]; simpl; [done|]. by rewrite IH, andb_assoc. Qed.

Lemma all_chars_has_char (p : ascii -> bool) (c : ascii) (s : string) :
  all_chars p s = true -> p c = false -> JsString.has_char c s = false.
Proof.
  induction s as [|d s IH]; simpl; [done|]. intros [Hd Hs]%andb_prop Hc.
  rewrite IH by done. destruct (Ascii.eqb_spec d c); [subst; congruence|done].
Qed.

Lemma has_char_app (c : ascii) (s t : string) :
  JsString.has_char c (s +:+ t) = JsString.has_char c s || JsString.has_char c t.
Proof. induction s as [|d s IH]; simpl; [done|]. by rewrite IH, orb_assoc. Qed.

Lemma encode_byte_url (b : nat) : b < 256 -> all_chars url_char (encode_byte b) = true.
Proof.
  intros Hb. unfold encode_byte. destruct (safe_byte b) eqn:Hs.
  - simpl. unfold url_char. by rewrite nat_of_ascii_of_nat, Hs.
  - destruct (b =? 32); [done|].
    pose proof (Nat.div_mod_eq b 16). pose proof (Nat.mod_upper_bound b 16 ltac:(discriminate)).
    set (q := b / 16) in *. set (r := b mod 16) in *. simpl.
    by rewrite !upper_hex_url by lia.
Qed.

Lemma encode_string_url (s : string) : all_chars url_char (encode_string s) = true.
Proof.
  induction s as [|c s IH]; [done|]. simpl. rewrite all_chars_app, IH, andb_true_r.
  induction (utf8_bytes_small c) as [|b bs Hb _ IHb]; [done|]. simpl.
  by rewrite all_chars_app, encode_byte_url, IHb.
Qed.

Lemma split_first_app (c : ascii) (a b : string) :
  JsString.has_char c a = false -> split_first c (a +:+ String c b) = (a, b).
Proof.
  induction a as [|d a IH]; simpl; [by rewrite Ascii.eqb_refl|].
  intros [Hd Ha]%orb_false_iff. by rewrite Hd, IH.
Qed.

Lemma pair_text_no_char (c : ascii) (kv : string * string) :
  url_char c = false -> Ascii.eqb c "=" = false -> JsString.has_char c (pair_text kv) = false.
Proof.
  intros Hu He. unfold pair_text.
  pose proof (all_chars_has_char url_char c _ (encode_string_url kv.1) Hu) as H1.
  pose proof (all_chars_has_char url_char c _ (encode_string_url kv.2) Hu) as H2.
  rewrite !has_char_app, H1, H2. cbn [JsString.has_char]. by rewrite Ascii.eqb_sym, He.
Qed.

Lemma parse_pair_text (kv : string * string) : parse_pair (pair_text kv) = Some kv.
Proof.
  destruct kv as [k v]. unfold parse_pair, pair_text. cbn [fst snd].
  change ("=" +:+ encode_string v) with (String "=" (encode_string v)).
  rewrite split_first_app by (apply (all_chars_has_char url_char); [apply encode_string_url|done]).
  rewrite <- (string_app_nil_r (encode_string k)), <- (string_app_nil_r (encode_string v)).
  rewrite !pct_decode_encode_string. cbn [pct_decode].
  by rewrite !app_nil_r, !utf8_decode_string_bytes.
Qed.

Lemma pair_text_truthy (kv : string * string) : JsString.truthy (pair_text kv) = true.
Proof. unfold pair_text. by destruct (encode_string kv.1). Qed.

Lemma parse_pair_texts (ps : list (string * string)) :
  mapO parse_pair (List.filter JsString.truthy (map pair_text ps)) = Some ps.
Proof.
  induction ps as [|kv ps IH]; [done|]. simpl.
  by rewrite pair_text_truthy; simpl; rewrite parse_pair_text, IH.
Qed.

(** ** Theorems *)

(** The server's urlencoded parser recovers every list of pairs from its
    serialisation, whatever characters the names and values hold. *)
Theorem form_roundtrip (ps : list (string * string)) : form_parse (serialize ps) = Some ps.
Proof.
  destruct ps as [|kv ps]; [done|]. unfold form_parse, serialize.
  rewrite JsString.split_join; [apply parse_pair_texts|done|].
  apply List.Forall_map, List.Forall_forall. intros kv' _. by apply pair_text_no_char.
Qed.

(** C11: The credentials of a login arrive as a form-encoded POST to
    [/auth/token], and the server reads back exactly the username and
    password that were typed. *)
Theorem login_credentials (u p : string) :
  exists r, login (JObj [("username", JStr u); ("password", JStr p)]) = Ok r /\
    method_of r = POST /\ path r = "/auth/token" /\
    headers r = [("Content-Type", "application/x-www-form-urlencoded")] /\
    option_map form_parse (wire_body (body_of r)) = Some (Some [("username", u); ("password", p)]).
Proof.
  eexists. split; [reflexivity|]. split_and!; try done.
  cbn [wire_body body_of option_map to_string]. by rewrite form_roundtrip.
Qed.

(** C24: The prediction request carries the survey's payload: the server
    parses the JSON text back to the very payload [handleSubmit] built,
    with the bearer token of the session. *)
Theorem predict_payload_received (u token : string) (f : Survey.survey_form) :
  exists t, wire_body (body_of (predictCareer (Survey.payload (JStr u) f) token)) = Some t /\
    Json.parse t = Ok (Survey.payload (JStr u) f) /\
    headers (predictCareer (Survey.payload (JStr u) f) token) = [("Authorization", "Bearer " +:+ token)].
Proof.
  cbn [wire_body body_of predictCareer headers bearer].
  destruct (stringify (Survey.payload (JStr u) f)) as [t|] eqn:Ht; [|by apply stringify_None in Ht].
  assert (Hw : wf (Survey.payload (JStr u) f) = true).
  { unfold Survey.payload, Survey.split_list. simpl. by rewrite !Survey.wf_strings. }
  exists t. split_and!; try done. rewrite (parse_stringify _ _ Hw Ht).
  unfold Survey.payload, Survey.split_list. cbn [jnorm flat_map fst snd].
  by rewrite !map_map.
Qed.

(** The base URL: the default without [VITE_API_URL], and a trailing
    slash of the configured base is not doubled. *)
Example api_urls :
  full_url None (predictCareer JNull "t") = "http://localhost:8000/predict-career-content-based" /\
  full_url (Some "") (signup JNull) = "http://localhost:8000/auth/signup" /\
  full_url (Some "https://api.example.org/") (sendFeedback JNull "t") = "https://api.example.org/feedback".
Proof. split_and!; reflexivity. Qed.

(** [getResults] puts the user id into the path unencoded: an id with
    [..] or [/] names another endpoint, and a numeric id is printed. *)
Example getResults_path_unencoded :
  full_url None (getResults (JStr "../feedback") "t") = "http://localhost:8000/results/../feedback" /\
  path (getResults (JNum (JsNumber.Dec 42 0)) "t") = "/results/42".
Proof. split; reflexivity. Qed.
End Api.
