(* ===== verification/Forum.v ===== *)
(** * The forum of src/src/Forum.jsx

    The component keeps the posts, the draft text and the author name.
    Its mount effect reads ["forumPosts"] and takes the author from the
    shared ["profile"] slot; [handlePost] prepends a post and writes the
    whole list back.  Neither parse is guarded by a [try], so the
    exceptions are values of the model.

    Theorems: a post is stored newest first and read back by the next
    visit; a blank draft changes nothing; the author is whoever last
    saved the shared profile, so a signup renames the next posts; a
    malformed stored value makes the page throw, where the specification
    treats unreadable storage as empty. *)

From S2P Require Import Prelude JsString JsNumber JsValue Json Storage History Random Auth.

Module Forum.
Import JsNumber JsValue Json Storage.
Local Open Scope js_scope.

Record forum_state := {
  posts : jsval;
  text : string;
  user : jsval
}.

(** [useState([])], [useState('')], [useState('')]. *)
Definition initial : forum_state := {| posts := JArr []; text := ""; user := JStr "" |}.

(** [[x, ...v]]: arrays spread their elements, strings their
    characters, anything else throws. *)
Definition spread (v : jsval) : js (list jsval) :=
  match v with
  | JArr l => Ok l
  | JStr s => Ok (map (fun c => JStr (String c EmptyString)) (String.list_ascii_of_string s))
  | _ => Throw TypeError
  end.

Definition set_text (t : string) (s : forum_state) : forum_state :=
  {| posts := posts s; text := t; user := user s |}.

Section WithStorage.
Context {S : Type} `{WebStorage S}.

(** [localStorage.getItem('profile') ? JSON.parse(...).username : 'Anonymous'] *)
Definition author (st : S) : js jsval :=
  match getItem "profile" st with
  | Some p => if JsString.truthy p then (v <- Json.parse p ;; get v "username") else Ok (JStr "Anonymous")
  | None => Ok (JStr "Anonymous")
  end.

(** The mount effect: [setPosts] first, then [setUser]. *)
Definition mount (st : S) : js forum_state :=
  ps <- read_json "forumPosts" "[]" st ;; u <- author st ;;
  Ok {| posts := ps; text := ""; user := u |}.

(** [handlePost], with the [toLocaleString] of the moment as input. *)
Definition handlePost (date : string) (s : forum_state) (st : S) : js (forum_state * S) :=
  if JsString.is_empty (JsString.trim (text s)) then Ok (s, st)
  else
    let newPost := JObj [("user", user s); ("text", JStr (text s)); ("date", JStr date)] in
    rest <- spread (posts s) ;;
    let updated := JArr (newPost :: rest) in
    Ok ({| posts := updated; text := ""; user := user s |}, write_json "forumPosts" updated st).
End WithStorage.

(** One post as rendered: author, date and text. *)
Definition render_post (p : jsval) : js (string * string * string) :=
  u <- get p "user" ;; u' <- History.react_text u ;;
  d <- get p "date" ;; d' <- History.react_text d ;;
  t <- get p "text" ;; t' <- History.react_text t ;; Ok (u', d', t').

(** [posts.length === 0 ? 'No posts yet' : posts.map(...)]; [None] is the
    empty message. *)
Definition view (s : forum_state) : js (option (list (string * string * string))) :=
  n <- get (posts s) "length" ;;
  if strict_eqb n (num_of_nat 0) then Ok None
  else l <- as_array (posts s) ;; rs <- mapM render_post l ;; Ok (Some rs).

(** The whole page: the heading, the draft in the textarea, and the
    posts or the empty message. *)
Definition page (s : forum_state) : js (string * string * option (list (string * string * string))) :=
  ps <- view s ;; Ok ("Community Forum", text s, ps).

(** ** Typing *)

(** The primitive values, which React renders as a child (as text, or as
    nothing) without an exception. *)
Inductive prim_ty : jsval -> Prop :=
| PT_undefined : prim_ty JUndefined
| PT_null : prim_ty JNull
| PT_bool (b : bool) : prim_ty (JBool b)
| PT_num (d : decimal) : prim_ty (JNum d)
| PT_str (s : string) : prim_ty (JStr s).

(** A post: an object whose author, date and text are primitive. *)
Inductive post_ty : jsval -> Prop :=
| PostT (fs : list (string * jsval)) :
    prim_ty (lookup_field "user" fs) -> prim_ty (lookup_field "date" fs) -> prim_ty (lookup_field "text" fs) ->
    post_ty (JObj fs).

(** A well-typed forum: an array of posts and a primitive author. *)
Inductive forum_ty : forum_state -> Prop :=
| ForumT (l : list jsval) (t : string) (u : jsval) :
    Forall post_ty l -> prim_ty u -> forum_ty {| posts := JArr l; text := t; user := u |}.

(** ** Lemmas *)

(** Canonical forms: a primitive renders. *)
Lemma prim_renders (v : jsval) : prim_ty v -> exists t, History.react_text v = Ok t.
Proof. by destruct 1; eexists. Qed.

Lemma post_renders (p : jsval) : post_ty p -> exists r, render_post p = Ok r.
Proof.
  destruct 1 as [fs Hu Hd Ht].
  destruct (prim_renders _ Hu) as [u Hu'], (prim_renders _ Hd) as [d Hd'], (prim_renders _ Ht) as [t Ht'].
  exists (u, d, t). unfold render_post. simpl. by rewrite Hu', Hd', Ht'.
Qed.

Lemma mapM_all_ok {A B} (f : A -> js B) (l : list A) :
  Forall (fun x => exists y, f x = Ok y) l -> exists ys, mapM f l = Ok ys.
Proof.
  induction 1 as [|x l [y Hy] _ [ys IH]]; [by exists []|]. exists (y :: ys). simpl. by rewrite Hy, IH.
Qed.

Section Lemmas.
Context {S : Type} `{WebStorageLaws S}.

Lemma author_write_ne (k : string) (v : jsval) (st : S) :
  k <> "profile" -> author (write_json k v st) = author st.
Proof. intros Hk. unfold author, write_json. by rewrite getItem_setItem_ne. Qed.

(** A written profile record gives its username as the author. *)
Lemma author_write_profile (fs : list (string * jsval)) (u : string) (st : S) :
  wf (JObj fs) = true -> lookup_field "username" fs = JStr u ->
  author (write_json "profile" (JObj fs) st) = Ok (JStr u).
Proof.
  intros Hw Hu. unfold author, write_json.
  rewrite getItem_setItem_eq.
  destruct (stringify (JObj fs)) as [t|] eqn:Ht; [|by apply stringify_None in Ht].
  pose proof (stringify_nonempty _ _ Ht) as Hne. destruct t as [|c t]; [simpl in Hne; lia|].
  cbn [JsString.truthy JsString.is_empty negb]. rewrite (parse_stringify _ _ Hw Ht), jnorm_obj.
  simpl in Hw. apply andb_prop in Hw as [Hk _]. simpl. by rewrite lookup_field_norm, Hu.
Qed.
End Lemmas.

(** ** Theorems *)

(** C21: A post on a readable forum is stored in front of the earlier ones,
    under the author of the profile slot, the draft is cleared, and the
    next visit reads the list back in JSON normal form. *)
Theorem post_then_reload {S : Type} `{WebStorageLaws S} (st : S) (l : list jsval) (u t date : string) :
  read_json "forumPosts" "[]" st = Ok (JArr l) -> wf (JArr l) = true -> author st = Ok (JStr u) ->
  JsString.is_empty (JsString.trim t) = false ->
  let newPost := JObj [("user", JStr u); ("text", JStr t); ("date", JStr date)] in
  exists s1 st1,
    (s0 <- mount st ;; handlePost date (set_text t s0) st) = Ok (s1, st1) /\
    posts s1 = JArr (newPost :: l) /\ text s1 = "" /\
    mount st1 = Ok {| posts := jnorm (JArr (newPost :: l)); text := ""; user := JStr u |}.
Proof.
  intros Hr Hw Ha Ht newPost. unfold mount at 1. rewrite Hr, Ha. cbn -[handlePost].
  unfold handlePost, set_text. cbn [text posts user].
  rewrite Ht. cbn [spread]. do 2 eexists. split_and!; [reflexivity|done|done|].
  unfold mount. rewrite read_write_json, author_write_ne, Ha by (done || (simpl in Hw |- *; by rewrite Hw)).
  done.
Qed.

(** C32: Signing up stores the new user's profile in the shared slot, and
    from then on every forum post is signed with that user's name,
    whoever is logged in. *)
Theorem signup_renames_author {S : Type} `{WebStorageLaws S}
    (login signup : string -> string -> js jsval) (draw : Random.rand * Random.rand) (s : Auth.auth_state) (st : S) (r : jsval) :
  Auth.isLogin (Auth.form s) = false ->
  signup (Auth.username (Auth.form s)) (Auth.password (Auth.form s)) = Ok r ->
  author (Auth.handleSubmit login signup draw s st).1.2 = Ok (JStr (Auth.username (Auth.form s))).
Proof.
  intros Hl Hs. unfold Auth.handleSubmit. rewrite Hl, Hs. cbn.
  unfold Auth.saveProfile, Auth.profile_record. by apply author_write_profile.
Qed.

(** C18: Type soundness of the forum page: a forum whose posts are
    objects with primitive author, date and text, and whose author is
    primitive, renders without an exception (progress), and posting,
    blank draft or not, never throws and leaves it well typed
    (preservation). *)
Theorem forum_well_typed (s : forum_state) :
  forum_ty s ->
  (exists v, view s = Ok v) /\
  forall {S : Type} `{WebStorage S} (date : string) (st : S),
    exists s' st', handlePost date s st = Ok (s', st') /\ forum_ty s'.
Proof.
  destruct 1 as [l t u Hl Hu]. split.
  - unfold view. simpl.
    destruct (mapM_all_ok render_post l) as [rs Hrs]; [by eapply Forall_impl; [exact Hl|]; apply post_renders|].
    rewrite Hrs. case_match; by eexists.
  - intros S HS date st. unfold handlePost. cbn [text posts user].
    destruct (JsString.is_empty _); [exists {| posts := JArr l; text := t; user := u |}, st; by split; [|constructor]|].
    simpl. do 2 eexists. split; [reflexivity|]. constructor; [|done].
    constructor; [|done]. constructor; simpl; [done | constructor | constructor].
Qed.

(** A store whose forum list is not JSON, one whose profile is [null],
    and one whose forum list is an object. *)
Definition demo_store (posts profile : string) : gmap string string :=
  <["forumPosts" := posts]> (<["profile" := profile]> ∅).

(** Unreadable storage is not treated as empty: a forum list that is
    not JSON makes the page throw a SyntaxError, a [null] profile a
    TypeError, and a list stored as an object renders and posts with a
    TypeError. *)
Example malformed_storage_throws :
  mount (demo_store "{" (json_text "{'username':'ann'}")) = Throw SyntaxError /\
  mount (demo_store "[]" "null") = Throw TypeError /\
  (s <- mount (demo_store "{}" (json_text "{'username':'ann'}")) ;; view s) = Throw TypeError /\
  (s <- mount (demo_store "{}" (json_text "{'username':'ann'}")) ;;
   handlePost "d" (set_text "hi" s) (demo_store "{}" (json_text "{'username':'ann'}"))) = Throw TypeError.
Proof. split_and!; vm_compute; reflexivity. Qed.

(** ** Witnesses *)

Lemma forum_well_typed_witness :
  (exists v, view {| posts := JArr [JObj [("user", JStr "bob"); ("text", JStr "hi"); ("date", JStr "d0")]];
                     text := "hello"; user := JStr "ann" |} = Ok v) /\
  exists s' st', handlePost "d1" {| posts := JArr [JObj [("user", JStr "bob"); ("text", JStr "hi"); ("date", JStr "d0")]];
                                   text := "hello"; user := JStr "ann" |} (∅ : gmap string string) = Ok (s', st') /\
                 forum_ty s'.
Proof.
  destruct (forum_well_typed {| posts := JArr [JObj [("user", JStr "bob"); ("text", JStr "hi"); ("date", JStr "d0")]];
                               text := "hello"; user := JStr "ann" |}) as [Hv Hp];
    [repeat constructor|].
  split; [exact Hv|]. apply Hp.
Defined.

Definition demo_forum : gmap string string :=
  Eval vm_compute in demo_store (json_text "[{'user':'bob','text':'hi','date':'d0'}]")
                                (json_text "{'username':'ann'}").

Lemma post_then_reload_witness :
  exists s1 st1,
    (s0 <- mount demo_forum ;; handlePost "d1" (set_text "hello" s0) demo_forum) = Ok (s1, st1) /\
    posts s1 = JArr [JObj [("user", JStr "ann"); ("text", JStr "hello"); ("date", JStr "d1")];
                     JObj [("user", JStr "bob"); ("text", JStr "hi"); ("date", JStr "d0")]] /\
    text s1 = "" /\
    mount st1 = Ok {| posts := jnorm (JArr [JObj [("user", JStr "ann"); ("text", JStr "hello"); ("date", JStr "d1")];
                                          JObj [("user", JStr "bob"); ("text", JStr "hi"); ("date", JStr "d0")]]);
                      text := ""; user := JStr "ann" |}.
Proof.
  apply (post_then_reload demo_forum [JObj [("user", JStr "bob"); ("text", JStr "hi"); ("date", JStr "d0")]]
           "ann" "hello" "d1"); vm_compute; reflexivity.
Defined.

Definition demo_bob : gmap string string :=
  Eval vm_compute in demo_store "[]" (json_text "{'username':'bob'}").

Lemma signup_renames_author_witness :
  author demo_bob = Ok (JStr "bob") /\
  author (Auth.handleSubmit Auth.demo_login Auth.demo_signup Auth.demo_draw (Auth.demo_auth false "") demo_bob).1.2
    = Ok (JStr "ann").
Proof.
  split; [reflexivity|].
  apply (signup_renames_author Auth.demo_login Auth.demo_signup Auth.demo_draw (Auth.demo_auth false "") demo_bob JNull);
    reflexivity.
Defined.
End Forum.
