(* ===== verification/HelpBot.v ===== *)
(** * The help chat of src/src/FloatingHelpButton.jsx

    The component holds [open], the [messages] shown and the [input]
    being typed.  [handleSend] appends the user's message at once and
    schedules the bot's reply with [setTimeout(..., 600)]; the reply is
    [getBotReply] of the input captured when the message was sent.  The
    model adds what the browser holds: a clock in milliseconds and the
    queue of pending reply timers, each with its due time and its
    captured text.  Time passing fires the due timers in order of due
    time, each appending through the functional update
    [setMessages(msgs => [...msgs, reply])].  The floating button is
    always rendered; the input, Send and the close button only inside
    [{open && ...}], so their events need the chat open.

    Theorems: [getBotReply] answers by the first keyword of its list that
    occurs in the lower-cased message; in every reachable state the
    bot's replies, in order, answer a prefix of the user's messages and
    the rest are pending; and 600 ms without a new message answer them
    all. *)

From S2P Require Import Prelude JsString.

Module HelpBot.
Local Open Scope js_scope.

(** ** [String.prototype.toLowerCase] and [includes] *)

(** Lower case of one code point below U+0100: [A-Z] and [À-Þ] but [×]. *)
Definition lower_char (c : ascii) : ascii :=
  let n := nat_of_ascii c in
  if ((65 <=? n) && (n <=? 90)) || ((192 <=? n) && (n <=? 222) && negb (n =? 215))
  then ascii_of_nat (n + 32) else c.

Fixpoint to_lower (s : string) : string :=
  match s with
  | EmptyString => EmptyString
  | String c r => String (lower_char c) (to_lower r)
  end.

Fixpoint starts_with (p s : string) : bool :=
  match p, s with
  | EmptyString, _ => true
  | String a p', String b s' => Ascii.eqb a b && starts_with p' s'
  | String _ _, EmptyString => false
  end.

(** [s.includes(p)] *)
Fixpoint includes (p s : string) : bool :=
  starts_with p s || match s with EmptyString => false | String _ s' => includes p s' end.

(** ** [getBotReply] *)

Definition getBotReply (userMsg : string) : string :=
  let msg := to_lower userMsg in
  if includes "survey" msg then "You can fill out the career survey to get personalized career recommendations."
  else if includes "profile" msg then "On the Profile page, you can edit your details and upload a profile picture."
  else if includes "badge" msg || includes "achievement" msg then
    "You earn badges for completing surveys, saving favorites, and uploading a profile picture!"
  else if includes "favorite" msg then "You can save favorite careers from your dashboard for quick access later."
  else if includes "dark" msg then "Use the sun/moon icon in the top bar to toggle dark mode."
  else if includes "dashboard" msg then "The dashboard shows your career recommendations and achievements."
  else if includes "help" msg || includes "feedback" msg then
    "Just type your question about the app, and I will do my best to help!"
  else if includes "reset" msg then "To reset your progress, clear your browser localStorage."
  else "Sorry, I am a simple project assistant. Please ask about surveys, profile, badges, favorites, or dashboard.".

(** ** State and handlers *)

Record message := { from : string; text : string }.

Record bot_state := {
  open : bool;
  messages : list message;
  input : string;
  clock : Z;
  pending : list (Z * string)
}.

Definition greeting : message :=
  {| from := "bot"; text := "Hi! I am your CareerPredict Assistant. How can I help you with this project?" |}.

Definition init : bot_state :=
  {| open := false; messages := [greeting]; input := ""; clock := 0%Z; pending := [] |}.

Definition reply_ms : Z := 600%Z.

Definition set_open (b : bool) (s : bot_state) : bot_state :=
  {| open := b; messages := messages s; input := input s; clock := clock s; pending := pending s |}.

Definition setInput (t : string) (s : bot_state) : bot_state :=
  {| open := open s; messages := messages s; input := t; clock := clock s; pending := pending s |}.

Definition user_msg (t : string) : message := {| from := "user"; text := t |}.
Definition bot_msg (t : string) : message := {| from := "bot"; text := t |}.

(** [handleSend] *)
Definition handleSend (s : bot_state) : bot_state :=
  if JsString.is_empty (JsString.trim (input s)) then s
  else {| open := open s; messages := messages s ++ [user_msg (input s)];
          input := ""; clock := clock s; pending := pending s ++ [((clock s + reply_ms)%Z, input s)] |}.

(** The timers due at [now], in order; the queue is sorted by due time
    (the invariant below), so they are a prefix of it. *)
Fixpoint fire_due (now : Z) (msgs : list message) (q : list (Z * string)) : list message * list (Z * string) :=
  match q with
  | [] => (msgs, [])
  | (d, t) :: q' =>
      if (d <=? now)%Z then fire_due now (msgs ++ [bot_msg (getBotReply t)]) q'
      else (msgs, q)
  end.

Inductive event :=
| Open                (** the floating button *)
| Close               (** the [×] button *)
| Change (t : string) (** [onChange] of the input *)
| Send                (** the Send button *)
| Key (k : string)    (** [onKeyDown] of the input *)
| Elapse (ms : Z).    (** time passes; due timers fire *)

Definition step (e : event) (s : bot_state) : option bot_state :=
  match e with
  | Open => Some (set_open true s)
  | Close => if open s then Some (set_open false s) else None
  | Change t => if open s then Some (setInput t s) else None
  | Send => if open s then Some (handleSend s) else None
  | Key k => if open s then Some (if String.eqb k "Enter" then handleSend s else s) else None
  | Elapse ms =>
      if (ms <? 0)%Z then None
      else let now := (clock s + ms)%Z in
           let '(msgs, q) := fire_due now (messages s) (pending s) in
           Some {| open := open s; messages := msgs; input := input s; clock := now; pending := q |}
  end.

Fixpoint run (es : list event) (s : bot_state) : option bot_state :=
  match es with
  | [] => Some s
  | e :: es' => match step e s with Some s' => run es' s' | None => None end
  end.

Inductive reachable : bot_state -> Prop :=
| reach_init : reachable init
| reach_step e s s' : reachable s -> step e s = Some s' -> reachable s'.

(** The texts of the user's messages and of the bot's replies. *)
Definition said (who : string) (ms : list message) : list string :=
  map text (List.filter (fun m => String.eqb (from m) who) ms).

(** ** The invariant *)

(** Every prefix of the conversation holds replies to the user's
    messages of that prefix, in order. *)
Definition order_ok (rest : list message) : Prop :=
  forall k, said "bot" (take k rest) `prefix_of` map getBotReply (said "user" (take k rest)).

(** Due times never decrease along the queue. *)
Fixpoint dues_sorted (q : list (Z * string)) : Prop :=
  match q with
  | [] => True
  | p :: q' => Forall (fun p' => (p.1 <= p'.1)%Z) q' /\ dues_sorted q'
  end.

Definition inv (s : bot_state) : Prop :=
  exists rest answered,
    messages s = greeting :: rest /\ order_ok rest /\
    said "user" rest = answered ++ map snd (pending s) /\
    said "bot" rest = map getBotReply answered /\
    Forall (fun p => clock s < p.1 <= clock s + reply_ms)%Z (pending s) /\ dues_sorted (pending s).

(** ** Lemmas *)

Lemma said_app (who : string) (l1 l2 : list message) : said who (l1 ++ l2) = said who l1 ++ said who l2.
Proof. unfold said. by rewrite List.filter_app, map_app. Qed.

Lemma said_user_msg (t : string) : said "user" [user_msg t] = [t] /\ said "bot" [user_msg t] = [].
Proof. done. Qed.

Lemma said_bot_msg (t : string) : said "user" [bot_msg t] = [] /\ said "bot" [bot_msg t] = [t].
Proof. done. Qed.

(** Appending one message keeps the order when the whole conversation
    afterwards is in order. *)
Lemma order_ok_snoc (rest : list message) (m : message) :
  order_ok rest ->
  said "bot" (rest ++ [m]) `prefix_of` map getBotReply (said "user" (rest ++ [m])) ->
  order_ok (rest ++ [m]).
Proof.
  intros Ho Hlast k. destruct (decide (k <= length rest)) as [Hk|Hk].
  - rewrite take_app_le by done. apply Ho.
  - rewrite take_ge by (rewrite length_app; simpl; lia). done.
Qed.

Lemma dues_sorted_snoc (q : list (Z * string)) (x : Z * string) :
  dues_sorted q -> Forall (fun p => (p.1 <= x.1)%Z) q -> dues_sorted (q ++ [x]).
Proof.
  induction q as [|p q IH]; simpl; [done|]. intros [Hp Hq] [Hpx Hqx]%Forall_cons.
  split; [|by apply IH]. apply Forall_app. split; [done|]. by apply Forall_singleton.
Qed.

(** Firing the due timers: the fired ones are a prefix of the queue, each
    appends the reply to its captured text, and the rest are not due. *)
Lemma fire_due_inv (now : Z) (rest : list message) (answered : list string) (q : list (Z * string)) :
  order_ok rest -> said "user" rest = answered ++ map snd q -> said "bot" rest = map getBotReply answered ->
  dues_sorted q ->
  exists rest' answered' fired,
    fire_due now (greeting :: rest) q = (greeting :: rest', drop (length fired) q) /\ q = fired ++ drop (length fired) q /\
    order_ok rest' /\ said "user" rest' = answered' ++ map snd (drop (length fired) q) /\
    said "bot" rest' = map getBotReply answered' /\ Forall (fun p => now < p.1)%Z (drop (length fired) q).
Proof.
  revert rest answered. induction q as [|[d t] q IH]; intros rest answered Ho Hu Hb Hs.
  - exists rest, answered, []. split_and!; simpl; rewrite ?app_nil_r in Hu |- *; done.
  - simpl in Hs. destruct Hs as [Hd Hs]. simpl. destruct (Z.leb_spec d now) as [Hle|Hgt].
    + destruct (IH (rest ++ [bot_msg (getBotReply t)]) (answered ++ [t])) as (rest' & answered' & fired & IHq);
        [| rewrite said_app, Hu, (proj1 (said_bot_msg _)), app_nil_r, <- app_assoc; done
         | rewrite said_app, Hb, (proj2 (said_bot_msg _)), map_app; done | done |].
      { apply order_ok_snoc; [done|]. rewrite !said_app, Hu, Hb, (proj1 (said_bot_msg _)), (proj2 (said_bot_msg _)).
        exists (map getBotReply (map snd q)). rewrite app_nil_r. simpl. by rewrite map_app, <- app_assoc. }
      exists rest', answered', ((d, t) :: fired). simpl. destruct IHq as (-> & Hq & IHq).
      split; [done|]. split; [f_equal; exact Hq | exact IHq].
    + exists rest, answered, []. simpl. split_and!; try done. constructor; [simpl; lia|].
      eapply Forall_impl; [apply Hd|]. simpl. lia.
Qed.

Lemma dues_sorted_app_r (l1 l2 : list (Z * string)) : dues_sorted (l1 ++ l2) -> dues_sorted l2.
Proof. induction l1 as [|p l1 IH]; simpl; [done|]. intros [_ H]. by apply IH. Qed.

Lemma handleSend_inv (s : bot_state) : inv s -> inv (handleSend s).
Proof.
  intros (rest & answered & Hm & Ho & Hu & Hb & Hf & Hs). unfold handleSend.
  destruct (JsString.is_empty _); [by exists rest, answered|].
  exists (rest ++ [user_msg (input s)]), answered. cbn [messages pending clock].
  rewrite Hm. split_and!; [done| | | | |].
  - apply order_ok_snoc; [done|]. rewrite !said_app, Hu, Hb, (proj1 (said_user_msg _)), (proj2 (said_user_msg _)).
    exists (map getBotReply (map snd (pending s) ++ [input s])). by rewrite app_nil_r, <- app_assoc, !map_app.
  - by rewrite said_app, Hu, (proj1 (said_user_msg _)), map_app, app_assoc.
  - by rewrite said_app, Hb, (proj2 (said_user_msg _)), app_nil_r.
  - apply Forall_app. split; [done|]. apply Forall_singleton. unfold reply_ms. simpl. lia.
  - apply dues_sorted_snoc; [done|]. eapply Forall_impl; [apply Hf|]. simpl. lia.
Qed.

Lemma step_inv (e : event) (s s' : bot_state) : inv s -> step e s = Some s' -> inv s'.
Proof.
  intros Hi Hstep. destruct e; simpl in Hstep; [| destruct (open s); [|done] .. |].
  1-3: injection Hstep as <-; exact Hi.
  - injection Hstep as <-. by apply handleSend_inv.
  - injection Hstep as <-. destruct (String.eqb k "Enter"); [by apply handleSend_inv | exact Hi].
  - destruct (Z.ltb_spec ms 0) as [Hneg|Hms]; [done|].
    destruct Hi as (rest & answered & Hm & Ho & Hu & Hb & Hf & Hs). rewrite Hm in Hstep.
    destruct (fire_due_inv (clock s + ms) rest answered (pending s) Ho Hu Hb Hs)
      as (rest' & answered' & fired & Hfire & Hq & Ho' & Hu' & Hb' & Hnow).
    rewrite Hfire in Hstep. injection Hstep as <-.
    exists rest', answered'. cbn [messages pending clock]. split_and!; try done.
    + apply Forall_and. split; [done|]. rewrite Hq, Forall_app in Hf. eapply Forall_impl; [apply Hf|].
      simpl. lia.
    + rewrite Hq in Hs. by eapply dues_sorted_app_r.
Qed.

Lemma bot_reachable_inv (s : bot_state) : reachable s -> inv s.
Proof.
  induction 1 as [|e s s' _ IH Hstep]; [|by eapply step_inv].
  exists [], []. split_and!; try done. intros k. by rewrite take_nil.
Qed.

(** ** Theorems *)

(** C19: In every reachable state the conversation is the greeting
    followed by messages in which every prefix holds replies to that
    prefix's user messages, in order; the bot has answered the first
    user messages, in order, and the others are exactly the pending
    timers, in the order they were sent. *)
Theorem bot_replies_in_order (s : bot_state) :
  reachable s ->
  exists rest answered,
    messages s = greeting :: rest /\ order_ok rest /\
    said "user" rest = answered ++ map snd (pending s) /\ said "bot" rest = map getBotReply answered.
Proof.
  intros Hr. destruct (bot_reachable_inv s Hr) as (rest & answered & Hm & Ho & Hu & Hb & _).
  by exists rest, answered.
Qed.

(** C20: From any reachable state, 600 ms without a new message fire all
    pending timers: nothing is pending and every user message has its
    reply. *)
Theorem quiet_answers_all (s s' : bot_state) :
  reachable s -> step (Elapse reply_ms) s = Some s' ->
  pending s' = [] /\
  exists rest, messages s' = greeting :: rest /\ said "bot" rest = map getBotReply (said "user" rest).
Proof.
  intros Hr Hstep. pose proof (step_inv _ _ _ (bot_reachable_inv s Hr) Hstep) as (rest & answered & Hm & _ & Hu & Hb & Hf & _).
  destruct (bot_reachable_inv s Hr) as (r0 & a0 & Hm0 & Ho0 & Hu0 & Hb0 & Hf0 & Hs0).
  simpl in Hstep. rewrite Hm0 in Hstep.
  destruct (fire_due_inv (clock s + reply_ms) r0 a0 (pending s) Ho0 Hu0 Hb0 Hs0)
    as (r1 & a1 & fired & Hfire & Hq & _ & _ & _ & Hnow).
  rewrite Hfire in Hstep. injection Hstep as <-. cbn [pending messages] in *.
  assert (Hnil : drop (length fired) (pending s) = []).
  { destruct (drop (length fired) (pending s)) as [|p q] eqn:Hd; [done|].
    rewrite Hq, Forall_app in Hf0. destruct Hf0 as [_ Hp%Forall_cons_1]. apply Forall_cons_1 in Hnow.
    simpl in *. lia. }
  rewrite Hnil in Hu |- *. split; [done|]. exists rest. rewrite app_nil_r in Hu. by rewrite Hm, Hu, Hb.
Qed.

(** [getBotReply] lower-cases the message and answers by the first
    keyword that occurs: a question on badges of the profile gets the
    profile answer, upper case does not matter, and a message with no
    keyword gets the fallback. *)
Example getBotReply_priority :
  getBotReply "How do I earn a BADGE on my Profile?" =
    "On the Profile page, you can edit your details and upload a profile picture." /\
  getBotReply "DARK MODE" = "Use the sun/moon icon in the top bar to toggle dark mode." /\
  getBotReply "hello" =
    "Sorry, I am a simple project assistant. Please ask about surveys, profile, badges, favorites, or dashboard.".
Proof. split_and!; vm_compute; reflexivity. Qed.

(** Every pending reply is due after the present moment and at most
    600 ms ahead, and the replies are due in the order they were sent. *)
Theorem reply_due_bounds (s : bot_state) :
  reachable s ->
  Forall (fun p => clock s < p.1 <= clock s + reply_ms)%Z (pending s) /\ dues_sorted (pending s).
Proof. intros Hr. by destruct (bot_reachable_inv s Hr) as (rest & answered & _ & _ & _ & _ & Hf & Hs). Qed.

(** ** Witnesses *)

(** Two questions sent 100 ms apart, answered in order after 600 ms. *)
Definition demo_events : list event :=
  [Open; Change "my survey?"; Key "Enter"; Elapse 100; Change "dark mode"; Send].

Definition demo_state : bot_state := Eval vm_compute in
  match run demo_events init with Some s => s | None => init end.

Lemma demo_reachable : reachable demo_state.
Proof.
  assert (H : forall es s s', reachable s -> run es s = Some s' -> reachable s').
  { induction es as [|e es IH]; intros s s' Hs; simpl; [by intros [= <-]|].
    destruct (step e s) eqn:He; [|done]. apply IH. by eapply reach_step. }
  apply (H demo_events init); [constructor | reflexivity].
Qed.

Lemma bot_replies_in_order_witness :
  exists rest answered,
    messages demo_state = greeting :: rest /\ order_ok rest /\
    said "user" rest = answered ++ map snd (pending demo_state) /\ said "bot" rest = map getBotReply answered.
Proof. apply bot_replies_in_order, demo_reachable. Defined.

Lemma quiet_answers_all_witness :
  exists s', step (Elapse reply_ms) demo_state = Some s' /\ pending s' = [] /\
  exists rest, messages s' = greeting :: rest /\ said "bot" rest = map getBotReply (said "user" rest).
Proof.
  eexists. split; [reflexivity|]. apply (quiet_answers_all demo_state); [apply demo_reachable | reflexivity].
Defined.

Lemma reply_due_bounds_witness :
  Forall (fun p => clock demo_state < p.1 <= clock demo_state + reply_ms)%Z (pending demo_state) /\
  dues_sorted (pending demo_state).
Proof. apply reply_due_bounds, demo_reachable. Defined.
End HelpBot.
