(* ===== verification/Compare.v ===== *)
(** * The career comparison of src/src/CareerCompare.jsx

    The component's state is the list [selected] of career titles; a
    click on a career's button toggles its title ([handleSelect]), and the
    table shows the careers of the fixed list [CAREER_DATA] whose title
    is selected, in the order of that list.  The education texts hold the
    apostrophe U+2019, which is outside the 8-bit strings of this
    development; it is kept as its three UTF-8 bytes, and no theorem
    depends on those texts.

    Theorems: [selected] never holds a title twice; the table depends
    only on the set of selected titles ([careers] respects
    [same_titles], a [Proper] instance used by setoid rewriting), so it
    follows [CAREER_DATA] whatever the click order; clicking a career
    twice restores the table. *)

From S2P Require Import Prelude.

Module Compare.

Record career := {
  title : string;
  skills : string;
  salary : string;
  outlook : string;
  education : string
}.

Definition CAREER_DATA : list career := [
  {| title := "Software Engineer"; skills := "Programming, Problem-solving, Teamwork";
     salary := "$80,000 - $150,000"; outlook := "High demand, strong growth";
     education := "Bachelor’s in CS or related" |};
  {| title := "Data Scientist"; skills := "Statistics, Machine Learning, Python";
     salary := "$90,000 - $160,000"; outlook := "Very high demand";
     education := "Bachelor’s/Master’s in Data Science" |}
].

(** [selected.includes(title)] *)
Definition includes (selected : list string) (t : string) : bool :=
  existsb (String.eqb t) selected.

(** [handleSelect(title)]: [setSelected(prev => ...)]. *)
Definition handleSelect (t : string) (prev : list string) : list string :=
  if includes prev t then List.filter (fun x => negb (String.eqb x t)) prev else prev ++ [t].

(** [CAREER_DATA.filter(c => selected.includes(c.title))] *)
Definition careers (selected : list string) : list career :=
  List.filter (fun c => includes selected (title c)) CAREER_DATA.

(** The table is rendered when [careers.length > 0]. *)
Definition table_shown (selected : list string) : bool := negb (Nat.eqb (length (careers selected)) 0).

(** The state after clicks on the given titles, from [useState([])]. *)
Definition clicks (ts : list string) : list string := fold_left (fun sel t => handleSelect t sel) ts [].

(** Two selections with the same titles. *)
Definition same_titles (l1 l2 : list string) : Prop := forall t, t ∈ l1 <-> t ∈ l2.

(** One career as a row of the table: title, skills, salary, outlook,
    education. *)
Definition row (c : career) : list string := [title c; skills c; salary c; outlook c; education c].

(** The render: one button per career of [CAREER_DATA], highlighted
    ([bg-blue-600]) when its title is selected, and the table of the
    selected careers when there is one. *)
Record compare_view := { buttons : list (string * bool); table : option (list (list string)) }.

Definition view (selected : list string) : compare_view :=
  {| buttons := map (fun c => (title c, includes selected (title c))) CAREER_DATA;
     table := if table_shown selected then Some (map row (careers selected)) else None |}.

(** ** Lemmas *)

Lemma includes_elem (l : list string) (t : string) : includes l t = true <-> t ∈ l.
Proof.
  unfold includes. rewrite existsb_exists, list_elem_of_In. split.
  - intros (x & Hx & ->%String.eqb_eq). done.
  - intros Ht. exists t. split; [done|]. apply String.eqb_refl.
Qed.

#[export] Instance same_titles_equiv : Equivalence same_titles.
Proof. split; repeat intro; unfold same_titles in *; naive_solver. Qed.

#[export] Instance careers_proper : Proper (same_titles ==> eq) careers.
Proof.
  intros l1 l2 Hl. unfold careers. apply List.filter_ext. intros c.
  apply Bool.eq_iff_eq_true. rewrite !includes_elem. apply Hl.
Qed.

#[export] Instance includes_proper : Proper (same_titles ==> eq ==> eq) includes.
Proof.
  intros l1 l2 Hl t ? <-. apply Bool.eq_iff_eq_true. rewrite !includes_elem. apply Hl.
Qed.

#[export] Instance view_proper : Proper (same_titles ==> eq) view.
Proof.
  intros l1 l2 Hl. unfold view, table_shown. rewrite (careers_proper l1 l2 Hl). f_equal.
  apply map_ext. intros c. f_equal. by apply includes_proper.
Qed.

(** The highlighted buttons of a list of careers are its selected ones. *)
Lemma highlighted_filter (sel : list string) (cs : list career) :
  map fst (List.filter snd (map (fun c => (title c, includes sel (title c))) cs)) =
  map title (List.filter (fun c => includes sel (title c)) cs).
Proof. induction cs as [|c cs IH]; [done|]. simpl. destruct (includes sel (title c)); simpl; by rewrite IH. Qed.

(** A click flips the membership of its title and keeps the others. *)
Lemma handleSelect_elem (t x : string) (l : list string) :
  x ∈ handleSelect t l <-> (x ∈ l /\ x <> t) \/ (x = t /\ t ∉ l).
Proof.
  unfold handleSelect. destruct (includes l t) eqn:Hi.
  - apply includes_elem in Hi. rewrite list_elem_of_In, List.filter_In, <- list_elem_of_In, negb_true_iff,
      String.eqb_neq. naive_solver.
  - assert (t ∉ l) by (intros Ht%includes_elem; congruence).
    rewrite elem_of_app, list_elem_of_singleton. naive_solver.
Qed.

Lemma handleSelect_NoDup (t : string) (l : list string) : NoDup l -> NoDup (handleSelect t l).
Proof.
  intros Hl. unfold handleSelect. destruct (includes l t) eqn:Hi.
  - apply NoDup_ListNoDup, List.NoDup_filter, NoDup_ListNoDup, Hl.
  - apply NoDup_app. split_and!; [done| |apply NoDup_singleton].
    intros x Hx ->%list_elem_of_singleton. apply includes_elem in Hx. congruence.
Qed.

Lemma handleSelect_twice (t : string) (l : list string) : same_titles (handleSelect t (handleSelect t l)) l.
Proof.
  intros x. rewrite handleSelect_elem.
  pose proof (handleSelect_elem t x l). pose proof (handleSelect_elem t t l).
  destruct (decide (x = t)) as [->|]; destruct (decide (t ∈ l)); naive_solver.
Qed.

Lemma clicks_snoc (ts : list string) (t : string) : clicks (ts ++ [t]) = handleSelect t (clicks ts).
Proof. unfold clicks. by rewrite fold_left_app. Qed.

(** A title is selected exactly when it was clicked an odd number of
    times. *)
Lemma clicks_elem (ts : list string) (x : string) :
  x ∈ clicks ts <-> Nat.odd (count_occ String.string_dec ts x) = true.
Proof.
  induction ts as [|t ts IH] using rev_ind; [by rewrite elem_of_nil|].
  rewrite clicks_snoc, handleSelect_elem, count_occ_app, IH. simpl.
  destruct (String.string_dec t x) as [->|Hne].
  - rewrite Nat.add_1_r, Nat.odd_succ, <- Nat.negb_odd. destruct (Nat.odd _); naive_solver.
  - rewrite Nat.add_0_r. naive_solver.
Qed.

(** ** Theorems *)

(** Whatever the clicks, [selected] never holds a title twice. *)
Theorem clicks_NoDup (ts : list string) : NoDup (clicks ts).
Proof.
  induction ts as [|t ts IH] using rev_ind; [constructor|].
  rewrite clicks_snoc. by apply handleSelect_NoDup.
Qed.

(** C22: The table depends only on how often each career was clicked, not
    on the order of the clicks: clicks that are a permutation of each
    other show the same careers, in the order of [CAREER_DATA]. *)
Theorem careers_click_order (ts1 ts2 : list string) :
  Permutation ts1 ts2 -> careers (clicks ts1) = careers (clicks ts2).
Proof.
  intros Hp. apply careers_proper. intros x. rewrite !clicks_elem.
  by rewrite (proj1 (Permutation_count_occ String.string_dec ts1 ts2) Hp x).
Qed.

(** The whole page depends only on how often each career was clicked:
    its buttons and its table are the same for clicks that are a
    permutation of each other, by setoid rewriting with [view_proper]. *)
Theorem view_click_order (ts1 ts2 : list string) :
  Permutation ts1 ts2 -> view (clicks ts1) = view (clicks ts2).
Proof.
  intros Hp. assert (Hs : same_titles (clicks ts1) (clicks ts2)).
  { intros x. rewrite !clicks_elem. by rewrite (proj1 (Permutation_count_occ String.string_dec ts1 ts2) Hp x). }
  by rewrite Hs.
Qed.

(** The highlighted buttons are the careers of the table, in the same
    order. *)
Theorem highlighted_are_table (sel : list string) :
  map fst (List.filter snd (buttons (view sel))) = map title (careers sel) /\
  (table (view sel) = None <-> careers sel = []).
Proof.
  split; [apply highlighted_filter|]. unfold view, table_shown. simpl.
  destruct (careers sel); simpl; split; done.
Qed.

(** A second click on a career removes it again: the table is the one
    before the two clicks. *)
Theorem select_twice_restores (ts : list string) (t : string) :
  careers (clicks (ts ++ [t; t])) = careers (clicks ts).
Proof.
  change (ts ++ [t; t]) with (ts ++ [t] ++ [t]). rewrite app_assoc, !clicks_snoc.
  by rewrite handleSelect_twice.
Qed.

(** Clicking Data Scientist and then Software Engineer shows Software
    Engineer first, and a title outside [CAREER_DATA] is selected without
    showing the table. *)
Example careers_follow_data_order :
  map title (careers (clicks ["Data Scientist"; "Software Engineer"])) = ["Software Engineer"; "Data Scientist"] /\
  clicks ["Nurse"] = ["Nurse"] /\ table_shown (clicks ["Nurse"]) = false.
Proof. split_and!; reflexivity. Qed.

(** ** Witnesses *)

Lemma careers_click_order_witness :
  careers (clicks ["Data Scientist"; "Software Engineer"]) = careers (clicks ["Software Engineer"; "Data Scientist"]).
Proof. apply careers_click_order. apply perm_swap. Defined.
End Compare.
