(* ===== verification/Feedback.v ===== *)
(** * The feedback form of src/src/FeedbackForm.jsx

    The form keeps the [suggestion] being typed and a message [msg].
    [handleSubmit] clears the message, awaits [sendFeedback] of [api.js]
    with the user id and the suggestion, and then thanks the user and
    clears the suggestion.  There is no [try]: when the request fails the
    rest of the handler is skipped and the promise rejects unhandled.
    The server is the [Api.Server] interface, so the theorems hold for
    every server.  App.jsx does not render this form (its import is
    commented out), so [sendFeedback] is never called by the app.

    Theorems: a submission posts [{user_id, feedback}] to [/feedback] with
    the bearer token; an accepted one thanks the user and clears the
    text; a failed one shows nothing and keeps the text, whatever the
    server said, where the specification surfaces remote errors. *)

From S2P Require Import Prelude JsString JsValue Json Api.

Module Feedback.
Import JsValue.
Local Open Scope js_scope.

Record feedback_state := { suggestion : string; msg : string }.

(** [useState('')], [useState('')] *)
Definition initial : feedback_state := {| suggestion := ""; msg := "" |}.

Definition thanks : string := "Thank you for your suggestion!".

(** [{ user_id: userId, feedback: suggestion }] *)
Definition feedback_body (userId : jsval) (s : feedback_state) : jsval :=
  JObj [("user_id", userId); ("feedback", JStr (suggestion s))].

Section WithServer.
Context `{Api.Server}.

(** [handleSubmit]: the new state, the request sent, and the rejection
    left unhandled when the request fails. *)
Definition handleSubmit (token : string) (userId : jsval) (s : feedback_state) :
    feedback_state * Api.request * option js_exn :=
  let req := Api.sendFeedback (feedback_body userId s) token in
  let s1 := {| suggestion := suggestion s; msg := "" |} in
  match Api.respond req with
  | Ok _ => ({| suggestion := ""; msg := thanks |}, req, None)
  | Throw e => (s1, req, Some e)
  end.
End WithServer.

(** ** Theorems *)

(** A submission posts the user id and the suggestion to [/feedback]
    with the session's bearer token, whatever the server answers. *)
Theorem feedback_request `{Api.Server} (token : string) (userId : jsval) (s : feedback_state) :
  let req := (handleSubmit token userId s).1.2 in
  Api.method_of req = Api.POST /\ Api.path req = "/feedback" /\
  Api.body_of req = Api.JsonBody (JObj [("user_id", userId); ("feedback", JStr (suggestion s))]) /\
  Api.headers req = [("Authorization", "Bearer " +:+ token)].
Proof. unfold handleSubmit. by destruct (Api.respond _). Qed.

(** An accepted suggestion is thanked and cleared; a rejected one
    leaves the message empty and the text in place, and the rejection
    (with the server's detail, if any) is not handled. *)
Theorem feedback_outcome `{Api.Server} (token : string) (userId : jsval) (s : feedback_state) :
  match Api.respond (Api.sendFeedback (feedback_body userId s) token) with
  | Ok _ => (handleSubmit token userId s).1.1 = {| suggestion := ""; msg := thanks |} /\
            (handleSubmit token userId s).2 = None
  | Throw e => (handleSubmit token userId s).1.1 = {| suggestion := suggestion s; msg := "" |} /\
               (handleSubmit token userId s).2 = Some e
  end.
Proof. unfold handleSubmit. by destruct (Api.respond _). Qed.

(** A server that rejects every request with a validation detail. *)
Definition rejecting : Api.Server :=
  {| Api.respond := fun _ => Throw (HttpError (Some (JObj [("detail", JStr "too short")]))) |}.

(** The server's detail is never shown: a rejected suggestion leaves
    the form silent, and an empty suggestion is sent as it is. *)
Example feedback_error_silent :
  (@handleSubmit rejecting "t" (JStr "ann") {| suggestion := "more badges"; msg := thanks |}).1.1 =
    {| suggestion := "more badges"; msg := "" |} /\
  Api.body_of (@handleSubmit rejecting "t" (JStr "ann") initial).1.2 =
    Api.JsonBody (JObj [("user_id", JStr "ann"); ("feedback", JStr "")]).
Proof. split; reflexivity. Qed.

(** ** The form as the browser runs it

    The handler is [async]: [setMsg('')] and the request run at once,
    [setMsg(...)] and [setSuggestion('')] when the request settles, on
    the state of that moment.  The button is never disabled, so several
    requests may be out; their continuations use no captured value, so
    the page only counts them. *)

Record fpage := { fstate : feedback_state; fout : nat }.

Inductive fevent :=
| FType (t : string)          (** the textarea's [onChange] *)
| FSubmit                     (** the form's submit *)
| FRespond (r : js jsval).    (** a request out settles *)

(** One event: the new page and the request sent, if any; [None] when no
    request is out to settle. *)
Definition fstep (token : string) (userId : jsval) (e : fevent) (p : fpage) :
    option (fpage * option Api.request) :=
  let s := fstate p in
  match e with
  | FType t => Some ({| fstate := {| suggestion := t; msg := msg s |}; fout := fout p |}, None)
  | FSubmit =>
      Some ({| fstate := {| suggestion := suggestion s; msg := "" |}; fout := S (fout p) |},
            Some (Api.sendFeedback (feedback_body userId s) token))
  | FRespond r =>
      match fout p with
      | O => None
      | S n =>
          match r with
          | Ok _ => Some ({| fstate := {| suggestion := ""; msg := thanks |}; fout := n |}, None)
          | Throw _ => Some ({| fstate := s; fout := n |}, None)
          end
      end
  end.

Fixpoint frun (token : string) (userId : jsval) (es : list fevent) (p : fpage) :
    option (fpage * list Api.request) :=
  match es with
  | [] => Some (p, [])
  | e :: es' =>
      match fstep token userId e p with
      | Some (p', q) =>
          match frun token userId es' p' with
          | Some (p'', qs) => Some (p'', option_list q ++ qs)
          | None => None
          end
      | None => None
      end
  end.

(** The render: the textarea's value, the button, the message. *)
Definition fview (s : feedback_state) : string * string * option string :=
  (suggestion s, "Send Suggestion", if JsString.truthy (msg s) then Some (msg s) else None).

(** Submitting and receiving the answer with nothing in between is
    [handleSubmit] with a server giving that answer. *)
Theorem fsubmit_respond (token : string) (userId : jsval) (s : feedback_state) (r : js jsval) :
  frun token userId [FSubmit; FRespond r] {| fstate := s; fout := 0 |} =
    let '(s', req, _) := @handleSubmit {| Api.respond := fun _ => r |} token userId s in
    Some ({| fstate := s'; fout := 0 |}, [req]).
Proof. unfold handleSubmit. simpl. by destruct r. Qed.

(** The text typed while a suggestion is being sent is erased when the
    server accepts it, and a second click meanwhile sends the suggestion
    twice: nothing disables the button while the request is out. *)
Theorem typed_while_sending_lost (token : string) (userId : jsval) (s : feedback_state) (t : string) (v : jsval) :
  frun token userId [FSubmit; FType t; FRespond (Ok v)] {| fstate := s; fout := 0 |} =
    Some ({| fstate := {| suggestion := ""; msg := thanks |}; fout := 0 |},
          [Api.sendFeedback (feedback_body userId s) token]) /\
  frun token userId [FSubmit; FSubmit] {| fstate := s; fout := 0 |} =
    Some ({| fstate := {| suggestion := suggestion s; msg := "" |}; fout := 2 |},
          [Api.sendFeedback (feedback_body userId s) token;
           Api.sendFeedback (feedback_body userId {| suggestion := suggestion s; msg := "" |}) token]).
Proof. split; reflexivity. Qed.
End Feedback.
