(* ===== verification/DetailModal.v ===== *)
(** * The career detail modal of src/src/CareerDetailModal.jsx

    Dashboard.jsx keeps [showDetail] ([null], or the career object last
    clicked) and renders [CareerDetailModal] while it is truthy.  The
    modal looks the career's name up in an object literal [details]; a
    missing entry falls back to the career's own [skills] and
    [description] and ['-'].  Property lookup on an object literal also
    finds the members of [Object.prototype] ([constructor], [toString],
    ...): those are functions, truthy, with no [skills] or [description],
    so such a name shows empty fields instead of the fallback.  Each
    field is rendered as a React child ([History.react_text]).

    Theorems: a listed career shows its entry; any other name that is not
    an [Object.prototype] member shows the fallback; the prototype
    members show blank fields; closing hides the modal. *)

From S2P Require Import Prelude JsNumber JsValue History.

Module DetailModal.
Import JsValue.
Local Open Scope js_scope.

Record info := { i_skills : jsval; i_salary : jsval; i_outlook : jsval; i_description : jsval }.

Definition details : list (string * info) := [
  ("Software Engineer",
   {| i_skills := JStr "Programming, Problem-solving, Teamwork"; i_salary := JStr "$80,000 - $150,000";
      i_outlook := JStr "High demand, strong growth";
      i_description := JStr "Designs, develops, and maintains software applications." |});
  ("Data Scientist",
   {| i_skills := JStr "Statistics, Machine Learning, Python"; i_salary := JStr "$90,000 - $160,000";
      i_outlook := JStr "Very high demand";
      i_description := JStr "Analyzes and interprets complex data to help organizations make decisions." |})
].

(** The members every object literal inherits from [Object.prototype]. *)
Definition prototype_keys : list string :=
  ["constructor"; "hasOwnProperty"; "isPrototypeOf"; "propertyIsEnumerable"; "toLocaleString";
   "toString"; "valueOf"; "__proto__"; "__defineGetter__"; "__defineSetter__";
   "__lookupGetter__"; "__lookupSetter__"].

(** What [details[k]] finds: an own entry, an inherited member, or
    [undefined]. *)
Inductive found := Own (i : info) | Inherited | Missing.

Fixpoint assoc (k : string) (l : list (string * info)) : option info :=
  match l with
  | [] => None
  | (k', i) :: l' => if String.eqb k k' then Some i else assoc k l'
  end.

Definition lookup_details (k : string) : found :=
  match assoc k details with
  | Some i => Own i
  | None => if existsb (String.eqb k) prototype_keys then Inherited else Missing
  end.

(** [details[career.career] || { skills: career.skills || '-', ... }]; an
    inherited member is truthy and has none of the four fields. *)
Definition career_info (career : jsval) : info :=
  match lookup_details (to_string (get_opt career "career")) with
  | Own i => i
  | Inherited => {| i_skills := JUndefined; i_salary := JUndefined; i_outlook := JUndefined;
                    i_description := JUndefined |}
  | Missing => {| i_skills := or_else (get_opt career "skills") (JStr "-"); i_salary := JStr "-";
                  i_outlook := JStr "-"; i_description := or_else (get_opt career "description") (JStr "-") |}
  end.

(** The rendered modal: title, description, skills, salary, outlook;
    [None] when [career] is falsy. *)
Definition modal (career : jsval) : js (option (list string)) :=
  if negb (truthy career) then Ok None
  else
    let i := career_info career in
    t <- History.react_text (get_opt career "career") ;;
    d <- History.react_text (i_description i) ;; sk <- History.react_text (i_skills i) ;;
    sa <- History.react_text (i_salary i) ;; o <- History.react_text (i_outlook i) ;;
    Ok (Some [t; d; sk; sa; o]).

(** [showDetail] of Dashboard.jsx: a click on a career sets it, the
    modal's close button resets it to [null]. *)
Inductive detail_event := ClickCareer (c : jsval) | CloseModal.

Definition detail_step (e : detail_event) (showDetail : jsval) : jsval :=
  match e with ClickCareer c => c | CloseModal => JNull end.

(** What the dashboard shows of the modal. *)
Definition shown (showDetail : jsval) : js (option (list string)) :=
  if truthy showDetail then modal showDetail else Ok None.

(** ** Lemmas *)

Lemma react_text_str (s : string) : History.react_text (JStr s) = Ok s.
Proof. done. Qed.

(** ** Theorems *)

(** A career whose name is neither listed nor a member of
    [Object.prototype] shows its own description and skills, or ['-'],
    and ['-'] for salary and outlook. *)
Theorem modal_fallback (name : string) (fs : list (string * jsval)) (d sk : string) :
  assoc name details = None -> existsb (String.eqb name) prototype_keys = false ->
  lookup_field "career" fs = JStr name ->
  History.react_text (or_else (lookup_field "description" fs) (JStr "-")) = Ok d ->
  History.react_text (or_else (lookup_field "skills" fs) (JStr "-")) = Ok sk ->
  modal (JObj fs) = Ok (Some [name; d; sk; "-"; "-"]).
Proof.
  intros Ha Hp Hc Hd Hs. unfold modal, career_info, lookup_details. cbn [truthy negb get_opt get try_catch].
  rewrite Hc. cbn [to_string]. rewrite Ha, Hp. cbn [i_description i_skills i_salary i_outlook].
  by rewrite react_text_str, Hd, Hs.
Qed.

(** C33: Every member of [Object.prototype] as a career name shows empty
    description, skills, salary and outlook, not the fallback. *)
Theorem modal_prototype_name (name : string) (fs : list (string * jsval)) :
  name ∈ prototype_keys -> lookup_field "career" fs = JStr name ->
  modal (JObj fs) = Ok (Some [name; ""; ""; ""; ""]).
Proof.
  intros Hk Hc. unfold modal, career_info, lookup_details. cbn [truthy negb get_opt get try_catch].
  rewrite Hc. cbn [to_string].
  assert (Hk' : existsb (String.eqb name) prototype_keys = true).
  { apply existsb_exists. apply list_elem_of_In in Hk. exists name. by rewrite String.eqb_refl. }
  assert (Ha : assoc name details = None).
  { unfold prototype_keys in Hk. repeat (rewrite elem_of_cons in Hk; destruct Hk as [->|Hk]; [done|]). by apply elem_of_nil in Hk. }
  by rewrite Ha, Hk'.
Qed.

(** The listed careers show their entry, whatever else the career
    object holds, and closing the modal hides it. *)
Example modal_listed_and_close :
  modal (JObj [("career", JStr "Data Scientist"); ("score", JNum (JsNumber.Dec 9 1))]) =
    Ok (Some ["Data Scientist"; "Analyzes and interprets complex data to help organizations make decisions.";
              "Statistics, Machine Learning, Python"; "$90,000 - $160,000"; "Very high demand"]) /\
  shown (detail_step CloseModal (detail_step (ClickCareer (JObj [("career", JStr "Nurse")])) JNull)) = Ok None.
Proof. split; reflexivity. Qed.

(** ** Witnesses *)

Lemma modal_fallback_witness :
  modal (JObj [("career", JStr "Nurse"); ("skills", JArr [JStr "care"; JStr "triage"])]) =
    Ok (Some ["Nurse"; "-"; "caretriage"; "-"; "-"]).
Proof. apply modal_fallback; reflexivity. Defined.

Lemma modal_prototype_name_witness :
  modal (JObj [("career", JStr "constructor")]) = Ok (Some ["constructor"; ""; ""; ""; ""]).
Proof. apply modal_prototype_name; [|reflexivity]. apply list_elem_of_In. simpl. tauto. Defined.
End DetailModal.
