(* ===== verification/AuthForm.v ===== *)
(** * The login / signup page as the browser runs it (src/src/Auth.jsx)

    [Auth] gives [handleSubmit] as one function of the server's answer.
    On the page the handler is [async]: it runs up to [await login(...)]
    or [await signup(...)] with the values of the render it closed over,
    the page keeps reacting to input while the request is out, and the
    rest of the handler runs when the answer arrives.  This file models
    the page as a step relation over the form state and the request in
    flight ([captured], the closure's values), with the browser's part:
    the value sanitisation of the inputs ([type="email"],
    [type="number"], the others), the [required] captcha input, which
    blocks submission while empty, and the submit button, disabled while
    [loading].

    Theorems: in every reachable state a request
    is in flight exactly when the page is loading, so a second
    submission is impossible while one is out; edits made while a signup
    is out do not reach the stored profile; and the captcha accepts any
    integer the number input accepts whose [parseInt] is the answer,
    such as [7e3].  The browser's constraint validation before
    [onSubmit] is modelled ([constraints_ok]): the step mismatch of a
    non-integer number and HTML's valid e-mail address; a number too
    large for a double ([1e400]) is taken as valid. *)

From S2P Require Import Prelude JsString JsNumber JsValue Json Storage Survey Random Auth.

Module AuthForm.
Import JsNumber JsValue Json Storage Auth.
Local Open Scope js_scope.

(** ** Value sanitisation of the inputs *)

(** [e] or [E], an optional sign and at least one digit, or nothing. *)
Definition exp_ok (r : string) : bool :=
  match r with
  | EmptyString => true
  | String e r' =>
      (Ascii.eqb e "e" || Ascii.eqb e "E") &&
      let r'' := match r' with String "-" t => t | String "+" t => t | _ => r' end in
      let '(ds, rest) := span_digits r'' in JsString.truthy ds && JsString.is_empty rest
  end.

(** HTML's valid floating-point number: [-]? (digits | digits? . digits)
    exponent?. *)
Definition valid_float (s : string) : bool :=
  let s1 := match s with String "-" r => r | _ => s end in
  let '(ip, r1) := span_digits s1 in
  match r1 with
  | String "." r2 => let '(fd, r3) := span_digits r2 in JsString.truthy fd && exp_ok r3
  | _ => JsString.truthy ip && exp_ok r1
  end.

Definition is_newline (c : ascii) : bool := Ascii.eqb c "010" || Ascii.eqb c "013".
Definition is_ascii_ws (c : ascii) : bool :=
  is_newline c || Ascii.eqb c "009" || Ascii.eqb c "012" || Ascii.eqb c " ".

Fixpoint strip_newlines (s : string) : string :=
  match s with
  | EmptyString => EmptyString
  | String c r => if is_newline c then strip_newlines r else String c (strip_newlines r)
  end.

Fixpoint strip_leading_ws (s : string) : string :=
  match s with
  | String c r => if is_ascii_ws c then strip_leading_ws r else s
  | EmptyString => EmptyString
  end.

Fixpoint strip_trailing_ws (s : string) : string :=
  match s with
  | EmptyString => EmptyString
  | String c r =>
      let r' := strip_trailing_ws r in
      if is_ascii_ws c && JsString.is_empty r' then EmptyString else String c r'
  end.

(** Strip leading and trailing ASCII whitespace. *)
Definition strip_ascii_ws (s : string) : string := strip_trailing_ws (strip_leading_ws s).

Inductive afield := FUsername | FPassword | FFullName | FEmail | FAge | FPhone.

(** [{!isLogin && <>...</>}]: the four profile inputs exist on signup only. *)
Definition field_shown (isLogin : bool) (k : afield) : bool :=
  match k with FUsername | FPassword => true | _ => negb isLogin end.

(** The [value] the handler reads after the user typed [typed]. *)
Definition input_value (k : afield) (typed : string) : string :=
  match k with
  | FEmail => strip_ascii_ws (strip_newlines typed)
  | FAge => if valid_float typed then typed else ""
  | _ => strip_newlines typed
  end.

(** The captcha input is [type="number"]. *)
Definition captcha_value (typed : string) : string := if valid_float typed then typed else "".

(** ** Constraint validation *)

(** The exponent of a valid floating-point number's tail ([""] or
    [e], a sign and digits). *)
Definition exp_value (r : string) : Z :=
  match r with
  | EmptyString => 0
  | String _ r' =>
      match r' with
      | String "-" t => - Z.of_N (digits_value t)
      | String "+" t => Z.of_N (digits_value t)
      | _ => Z.of_N (digits_value r')
      end
  end.

(** A valid floating-point number denotes an integer: its digits [ip fd]
    times [10 ^ (exp - |fd|)] are whole. *)
Definition step_integral (s : string) : bool :=
  let s1 := match s with String "-" r => r | _ => s end in
  let '(ip, r1) := span_digits s1 in
  let '(fd, r3) := match r1 with String "." r2 => span_digits r2 | _ => (EmptyString, r1) end in
  let k := (exp_value r3 - Z.of_nat (String.length fd))%Z in
  (0 <=? k)%Z || (Z.of_N (digits_value (ip +:+ fd)) mod 10 ^ (- k) =? 0)%Z.

(** A [type="number"] input with no [step], [min] or [max]: the step is
    1 from base 0, so a non-empty value suffers a step mismatch unless it
    is an integer. *)
Definition number_ok (v : string) : bool := JsString.is_empty v || step_integral v.

Definition is_alnum (c : ascii) : bool :=
  let n := N_of_ascii c in
  (((48 <=? n) && (n <=? 57)) || ((65 <=? n) && (n <=? 90)) || ((97 <=? n) && (n <=? 122)))%N.

Definition is_atext (c : ascii) : bool := is_alnum c || JsString.has_char c ".!#$%&'*+/=?^_`{|}~-".

Fixpoint all_chars (f : ascii -> bool) (s : string) : bool :=
  match s with EmptyString => true | String c s' => f c && all_chars f s' end.

(** A domain label: 1 to 63 letters, digits and hyphens, starting and
    ending with a letter or digit. *)
Definition label_ok (l : string) : bool :=
  match l, String.get (String.length l - 1) l with
  | String c _, Some d =>
      is_alnum c && is_alnum d && all_chars (fun c => is_alnum c || Ascii.eqb c "-") l &&
      (String.length l <=? 63)%nat
  | _, _ => false
  end.

(** HTML's valid e-mail address, [atext+ @ label (. label)*], or the
    empty value of an input that is not [required]. *)
Definition email_ok (v : string) : bool :=
  JsString.is_empty v ||
  match JsString.split "@" v with
  | [loc; dom] => JsString.truthy loc && all_chars is_atext loc && forallb label_ok (JsString.split "." dom)
  | _ => false
  end.

(** The constraints of the form's rendered inputs, which the browser
    checks before it fires [onSubmit]: the email and age on signup. *)
Definition fields_valid (f : auth_form) : bool :=
  if isLogin f then true else email_ok (email f) && number_ok (age f).

(** With the captcha input, rendered on login. *)
Definition constraints_ok (s : auth_state) : bool :=
  fields_valid (form s) && (if isLogin (form s) then number_ok (captchaInput s) else true).

(** The [onChange] setters. *)
Definition set_afield (k : afield) (v : string) (f : auth_form) : auth_form :=
  {| username := if k is FUsername then v else username f;
     password := if k is FPassword then v else password f;
     isLogin := isLogin f; error := error f; loading := loading f;
     fullName := if k is FFullName then v else fullName f;
     email := if k is FEmail then v else email f;
     age := if k is FAge then v else age f;
     phone := if k is FPhone then v else phone f |}.

(** ** The page *)

(** The values the [async] handler closed over when it was called. *)
Record captured := {
  c_login : bool;
  c_username : string;
  c_password : string;
  c_profile : jsval
}.

Record page := { auth : auth_state; inflight : option captured }.

Definition blank_form : auth_form :=
  {| username := ""; password := ""; isLogin := true; error := ""; loading := false;
     fullName := ""; email := ""; age := ""; phone := "" |}.

(** The first render, with the two draws of the [useState] initialiser. *)
Definition init (a b : Random.rand) : page :=
  {| auth := {| form := blank_form; captcha_of := draw_captcha a b;
                captchaInput := "" |};
     inflight := None |}.

Definition set_auth (s : auth_state) (p : page) : page := {| auth := s; inflight := inflight p |}.

Inductive ui_event :=
| Edit (k : afield) (typed : string)       (** the [onChange] of a field *)
| TypeCaptcha (typed : string)             (** the captcha input, on login *)
| ToggleMode                               (** [setIsLogin(!isLogin)] *)
| NewCaptcha (a b : Random.rand)          (** the captcha's refresh button *)
| Submit (a b : Random.rand)              (** the form's submit *)
| Respond (r : js jsval) (a b : Random.rand). (** the awaited request settles *)

Section Page.
Context {S : Type} `{WebStorage S}.

(** The handler up to its [await]: [setError('')], the captcha check and
    [setLoading(true)]. *)
Definition submit (a b : Random.rand) (s : auth_state) : auth_state * option captured :=
  let f0 := with_error "" (form s) in
  if isLogin (form s) && negb (captcha_ok s) then
    (regenerateCaptcha a b (set_form (with_error "Captcha incorrect. Please try again." f0) s), None)
  else
    (set_form (with_loading true f0) s,
     Some {| c_login := isLogin (form s); c_username := username (form s);
             c_password := password (form s); c_profile := profile_record (form s) |}).

(** The handler after its [await], on the state of the page at that
    moment; [isLogin] and the profile are the captured ones. *)
Definition finish (q : captured) (r : js jsval) (a b : Random.rand) (s : auth_state) (st : S) :
    auth_state * S * option jsval :=
  let f1 := form s in
  let '(f2, st2, tok) :=
    match (if c_login q then data <- r ;; t <- get data "access_token" ;; Ok (f1, st, Some t)
           else _ <- r ;; Ok (with_isLogin true f1, saveProfile (c_profile q) st, None)) with
    | Ok x => x
    | Throw e =>
        match Survey.detail_message e with Ok m => (with_error m f1, st, None) | Throw _ => (f1, st, None) end
    end in
  let s3 := set_form (with_loading false f2) s in
  ((if c_login q then regenerateCaptcha a b s3 else s3), st2, tok).

(** One event; [None] when the page offers no such event: an input or
    the captcha controls the current mode does not render, a submission while loading, with the
    required captcha empty or with an input the browser finds invalid, an answer with no request out. *)
Definition step (e : ui_event) (p : page) (st : S) : option (page * S * option jsval) :=
  let s := auth p in
  match e with
  | Edit k typed =>
      if field_shown (isLogin (form s)) k then
        Some (set_auth (set_form (set_afield k (input_value k typed) (form s)) s) p, st, None)
      else None
  | TypeCaptcha typed =>
      if isLogin (form s) then
        Some (set_auth {| form := form s; captcha_of := captcha_of s; captchaInput := captcha_value typed |} p,
              st, None)
      else None
  | ToggleMode => Some (set_auth (set_form (with_isLogin (negb (isLogin (form s))) (form s)) s) p, st, None)
  | NewCaptcha a b => if isLogin (form s) then Some (set_auth (regenerateCaptcha a b s) p, st, None) else None
  | Submit a b =>
      if loading (form s) || (isLogin (form s) && JsString.is_empty (captchaInput s)) || negb (constraints_ok s) then None
      else let '(s', q) := submit a b s in Some ({| auth := s'; inflight := q |}, st, None)
  | Respond r a b =>
      match inflight p with
      | Some q => let '(s', st', tok) := finish q r a b s st in Some ({| auth := s'; inflight := None |}, st', tok)
      | None => None
      end
  end.

Inductive reachable : page -> Prop :=
| reach_init a b : reachable (init a b)
| reach_step e p st p' st' tok : reachable p -> step e p st = Some (p', st', tok) -> reachable p'.

Fixpoint run (es : list ui_event) (p : page) (st : S) : option (page * S) :=
  match es with
  | [] => Some (p, st)
  | e :: es' => match step e p st with Some (p', st', _) => run es' p' st' | None => None end
  end.
End Page.

(** ** The render *)

(** The value an input shows. *)
Definition field_value (k : afield) (f : auth_form) : string :=
  match k with
  | FUsername => username f | FPassword => password f | FFullName => fullName f
  | FEmail => email f | FAge => age f | FPhone => phone f
  end.

(** What the page shows: the heading, the tagline, the subtitle, the
    inputs with their values, the captcha's operands and input, the
    error box, the submit button's label and [disabled], and the mode
    switch's label. *)
Record auth_view := {
  v_title : string;
  v_tagline : option string;
  v_subtitle : string;
  v_fields : list (afield * string);
  v_captcha : option (Z * Z * string);
  v_error : option string;
  v_button : string;
  v_disabled : bool;
  v_toggle : string
}.

(** The inputs in the order of the JSX, those of the current mode. *)
Definition fields_view (f : auth_form) : list (afield * string) :=
  map (fun k => (k, field_value k f))
      (filter (field_shown (isLogin f)) [FFullName; FEmail; FAge; FPhone; FUsername; FPassword]).

Definition subtitle (f : auth_form) : string :=
  if isLogin f then "Sign in to your account" else "Create a new account".

(** [{error && <div>{error}</div>}] *)
Definition error_box (f : auth_form) : option string :=
  if JsString.truthy (error f) then Some (error f) else None.

Definition button_label (f : auth_form) : string :=
  if loading f then (if isLogin f then "Logging in..." else "Signing up...")
  else (if isLogin f then "Login" else "Sign Up").

Definition toggle_label (f : auth_form) : string :=
  if isLogin f then "Need an account? Sign up" else "Have an account? Login".

(** The render of [Auth.jsx]. *)
Definition view (s : auth_state) : auth_view :=
  let f := form s in
  {| v_title := "CareerSync"; v_tagline := Some "Align Your Ambitions. Discover Your Path.";
     v_subtitle := subtitle f; v_fields := fields_view f;
     v_captcha := if isLogin f then Some (ca (captcha_of s), cb (captcha_of s), captchaInput s) else None;
     v_error := error_box f; v_button := button_label f; v_disabled := loading f;
     v_toggle := toggle_label f |}.

(** Typing into the inputs the page shows and switching mode, starting
    in mode [isLogin]: the events that never touch the request in flight
    nor the store. *)
Fixpoint inputs_ok (isLogin : bool) (es : list ui_event) : bool :=
  match es with
  | [] => true
  | Edit k _ :: es' => field_shown isLogin k && inputs_ok isLogin es'
  | ToggleMode :: es' => inputs_ok (negb isLogin) es'
  | _ => false
  end.

(** ** Lemmas *)

Section Lemmas.
Context {S : Type} `{WebStorage S}.

Lemma finish_loading (q : captured) (r : js jsval) (a b : Random.rand) (s : auth_state) (st : S) :
  loading (form (finish q r a b s st).1.1) = false.
Proof.
  unfold finish. destruct (match _ with Ok x => x | Throw e => _ end) as [[f2 st2] tok].
  by destruct (c_login q).
Qed.

Lemma submit_loading (a b : Random.rand) (s : auth_state) :
  loading (form s) = false ->
  (loading (form (submit a b s).1) = true <-> (submit a b s).2 <> None).
Proof.
  intros Hl. unfold submit. destruct (_ && _); simpl; [by rewrite Hl|]. done.
Qed.

(** Each handler keeps a captcha [getRandomInt] can draw. *)
Lemma submit_captcha_wf (a b : Random.rand) (s : auth_state) :
  captcha_wf (captcha_of s) -> captcha_wf (captcha_of (submit a b s).1).
Proof. intros Hc. unfold submit. case_match; [apply regenerate_wf | exact Hc]. Qed.

Lemma finish_captcha_wf (q : captured) (r : js jsval) (a b : Random.rand) (s : auth_state) (st : S) :
  captcha_wf (captcha_of s) -> captcha_wf (captcha_of (finish q r a b s st).1.1).
Proof.
  intros Hc. unfold finish. destruct (match _ with Ok x => x | Throw e => _ end) as [[f2 st2] tok].
  destruct (c_login q); [apply regenerate_wf | exact Hc].
Qed.

Lemma run_inputs (es : list ui_event) (p : page) (st : S) :
  inputs_ok (isLogin (form (auth p))) es = true ->
  exists p', run es p st = Some (p', st) /\ inflight p' = inflight p.
Proof.
  revert p. induction es as [|e es IH]; intros p Hes; [by exists p|].
  destruct e as [k typed| | | | |]; simpl in Hes; try done; [apply andb_prop in Hes as [Hk Hes]|];
    simpl; rewrite ?Hk;
    match goal with |- exists _, run _ ?p1 _ = _ /\ _ => destruct (IH p1 Hes) as (p' & Hr & Hi) end;
    by exists p'.
Qed.

Lemma run_app (es1 es2 : list ui_event) (p : page) (st : S) :
  run (es1 ++ es2) p st = match run es1 p st with Some (p', st') => run es2 p' st' | None => None end.
Proof.
  revert p st. induction es1 as [|e es1 IH]; intros p st; [done|]. simpl.
  destruct (step e p st) as [[[p' st'] ?]|]; [apply IH|done].
Qed.

Lemma run_reachable (es : list ui_event) (p : page) (st : S) (p' : page) (st' : S) :
  reachable p -> run es p st = Some (p', st') -> reachable p'.
Proof.
  revert p st. induction es as [|e es IH]; intros p st Hp; simpl; [by intros [= <- _]|].
  destruct (step e p st) as [[[p1 st1] tok]|] eqn:He; [|done].
  apply IH. by eapply reach_step.
Qed.

(** In a reachable page a request is out exactly while the page loads. *)
Lemma inflight_loading (p : page) : reachable p -> (inflight p <> None <-> loading (form (auth p)) = true).
Proof.
  induction 1 as [a b|e p0 st p1 st' tok _ IH Hstep]; [done|].
  destruct e; simpl in Hstep.
  - destruct (field_shown _ _); [injection Hstep as <- _ _; exact IH|done].
  - destruct (isLogin _); [injection Hstep as <- _ _; exact IH|done].
  - injection Hstep as <- _ _. exact IH.
  - destruct (isLogin _); [injection Hstep as <- _ _; exact IH|done].
  - destruct (loading _) eqn:Hl; [done|]. destruct (_ && _); [done|]. destruct (constraints_ok _); [|done].
    destruct (submit a b (auth p0)) as [s' q] eqn:Hsub. injection Hstep as <- _ _. simpl.
    pose proof (submit_loading a b (auth p0) Hl) as Hs. rewrite Hsub in Hs. simpl in Hs. by rewrite Hs.
  - destruct (inflight p0) as [q|]; [|done].
    destruct (finish q r a b (auth p0) st) as [[s' st2] tk] eqn:Hf. injection Hstep as <- _ _. simpl.
    pose proof (finish_loading q r a b (auth p0) st) as Hfl. rewrite Hf in Hfl. simpl in Hfl. by rewrite Hfl.
Qed.
(** In every reachable page the captcha is one [getRandomInt] can draw. *)
Lemma captcha_wf_reachable (p : page) : reachable p -> captcha_wf (captcha_of (auth p)).
Proof.
  induction 1 as [a b|e p0 st p1 st' tok _ IH Hstep]; [apply draw_captcha_wf|].
  destruct e; simpl in Hstep; repeat case_match; simplify_eq; simpl;
    try first [exact IH | apply draw_captcha_wf].
  all: match goal with
       | E : submit ?a ?b ?s = _ |- _ => pose proof (submit_captcha_wf a b s IH) as Hw; by rewrite E in Hw
       | E : finish ?q ?r ?a ?b ?s ?st = _ |- _ => pose proof (finish_captcha_wf q r a b s st IH) as Hw; by rewrite E in Hw
       end.
Qed.
End Lemmas.

(** ** Theorems *)

(** C13: A login request leaves the page only when the captcha answer
    typed reads, by [parseInt], as a number from 2 to 20: it is the
    answer of the captcha shown, and every captcha the page ever draws
    has operands from 1 to 10 whatever doubles [Math.random] returns. *)
Theorem login_needs_small_answer {S : Type} `{WebStorage S} (p p' : page) (st st' : S) (a b : Random.rand)
    (tok : option jsval) :
  reachable p -> step (Submit a b) p st = Some (p', st', tok) ->
  option_map c_login (inflight p') = Some true ->
  exists n, parseInt10 (captchaInput (auth p)) = Some n /\ n = answer (captcha_of (auth p)) /\ (2 <= n <= 20)%Z.
Proof.
  intros Hr Hs Hl. destruct (captcha_wf_reachable p Hr) as (Ha & Hb & Hn).
  simpl in Hs. destruct (_ || _); [done|].
  unfold submit in Hs. unfold captcha_ok in Hs.
  destruct (isLogin (form (auth p))) eqn:Hlog; simpl in Hs;
    [|injection Hs as <- _ _; by simpl in Hl].
  destruct (parseInt10 (captchaInput (auth p))) as [k|] eqn:Hk;
    [|simpl in Hs; injection Hs as <- _ _; by simpl in Hl].
  destruct (k =? answer (captcha_of (auth p)))%Z eqn:Hka;
    [apply Z.eqb_eq in Hka | simpl in Hs; injection Hs as <- _ _; by simpl in Hl].
  exists k. split_and!; [done | done | lia | lia].
Qed.

(** C31: No second submission while a request is out: in every reachable
    page with a request in flight the submit button is disabled, so the
    page offers no [Submit] at all. *)
Theorem no_overlapping_submit {S : Type} `{WebStorage S} (p : page) (st : S) (a b : Random.rand) :
  reachable p -> inflight p <> None -> step (Submit a b) p st = None.
Proof. intros Hr Hq. apply (inflight_loading p Hr) in Hq. simpl. by rewrite Hq. Qed.

(** Whatever is typed or toggled while a signup is out, an accepted
    signup stores the profile of the form as it was when submitted, and
    switches to login. *)
Theorem signup_profile_at_submit {S : Type} `{WebStorage S} (p : page) (st : S) (a b : Random.rand)
    (es : list ui_event) (v : jsval) :
  inflight p = None -> loading (form (auth p)) = false -> isLogin (form (auth p)) = false ->
  constraints_ok (auth p) = true -> inputs_ok false es = true ->
  exists p', run (Submit a b :: es ++ [Respond (Ok v) a b]) p st =
               Some (p', saveProfile (profile_record (form (auth p))) st) /\
             isLogin (form (auth p')) = true /\ inflight p' = None.
Proof.
  intros Hi Hl Hs Hc Hes. cbn [run]. unfold step at 1. rewrite Hl, Hs, Hc. simpl.
  unfold submit. rewrite Hs. simpl. rewrite run_app.
  destruct (run_inputs es {| auth := set_form (with_loading true (with_error "" (form (auth p)))) (auth p);
       inflight := Some {| c_login := false; c_username := username (form (auth p));
                           c_password := password (form (auth p)); c_profile := profile_record (form (auth p)) |} |} st ltac:(simpl; by rewrite Hs))
    as (p2 & -> & Hi2).
  simpl. rewrite Hi2. unfold finish. simpl. by eexists.
Qed.

(** Doubles [Math.random()] may return, drawing 1, 3 and 4. *)
Definition d1 : Random.rand := Random.eighth 0.
Definition d3 : Random.rand := Random.eighth 2.
Definition d4 : Random.rand := Random.eighth 3.

(** The captcha input is a number field: text such as [7 apples] reaches
    the handler as the empty string and the required field blocks the
    submission, and [7.9] is a step mismatch the browser blocks, but the
    integer [7e3], whose [parseInt] is 7, passes the captcha of 3 + 4 and
    sends the login. *)
Example captcha_number_prefix :
  captcha_value "7 apples" = "" /\
  run [TypeCaptcha "7 apples"; Submit d1 d1] (init d3 d4) (∅ : gmap string string) = None /\
  run [Edit FUsername "ann"; TypeCaptcha "7.9"; Submit d1 d1] (init d3 d4) (∅ : gmap string string) = None /\
  (exists p, run [TypeCaptcha "7e3"; Submit d1 d1] (init d3 d4) (∅ : gmap string string) = Some (p, ∅) /\
             inflight p <> None).
Proof. split_and!; try reflexivity; eexists; split; [reflexivity|done]. Qed.

(** The browser's checks: integers in any notation pass a number input,
    fractions do not; an e-mail address needs one [@] and a domain of
    labels. *)
Example constraint_cases :
  map number_ok ["7"; "7e3"; "70e-1"; "-0.0"; ""; "7.9"; "1e-1"] = [true; true; true; true; true; false; false] /\
  map email_ok ["a@x.org"; "a.b+c@x-1"; ""; "a@@x"; "a b@x"; "a@-x"; "@x"; "a@x."] =
    [true; true; true; false; false; false; false; false].
Proof. split; reflexivity. Qed.

(** The mode switch stays enabled while a request is out, and the
    button's label follows the current mode, not the request's: a
    signup sent and then switched to login reads [Logging in...] and
    shows the captcha while the signup is out. *)
Example progress_label_mismatch :
  exists p, run [ToggleMode; Edit FUsername "ann"; Submit d1 d1; ToggleMode] (init d3 d4) (∅ : gmap string string)
              = Some (p, ∅) /\
    option_map c_login (inflight p) = Some false /\ v_button (view (auth p)) = "Logging in..." /\
    v_captcha (view (auth p)) = Some (3, 4, "")%Z.
Proof. eexists. split; [reflexivity|]. split_and!; reflexivity. Qed.

(** ** Witnesses *)

(** The first render after typing the user name and the answer 7 of 3 + 4. *)
Definition demo_captcha_page : page := Eval vm_compute in
  match run [Edit FUsername "ann"; TypeCaptcha "7"] (init d3 d4) (∅ : gmap string string) with
  | Some (p, _) => p
  | None => init d3 d4
  end.

Definition demo_signup_page : page :=
  {| auth := {| form := {| username := "ann"; password := "pw"; isLogin := false; error := ""; loading := false;
                           fullName := "Ann"; email := "a@x.org"; age := "30"; phone := "" |};
                captcha_of := {| ca := 3; cb := 4; answer := 7 |}; captchaInput := "" |};
     inflight := None |}.

Lemma no_overlapping_submit_witness :
  exists p, run [ToggleMode; Edit FUsername "ann"; Submit d1 d1] (init d3 d4) (∅ : gmap string string) = Some (p, ∅) /\
            inflight p <> None /\ step (Submit d1 d1) p (∅ : gmap string string) = None.
Proof.
  eexists. split; [reflexivity|]. split; [done|]. apply no_overlapping_submit; [|done].
  apply (run_reachable [ToggleMode; Edit FUsername "ann"; Submit d1 d1] (init d3 d4) ∅ _ ∅); [apply reach_init|reflexivity].
Defined.

Lemma login_needs_small_answer_witness :
  exists n, parseInt10 (captchaInput (auth demo_captcha_page)) = Some n /\
            n = answer (captcha_of (auth demo_captcha_page)) /\ (2 <= n <= 20)%Z.
Proof.
  apply (login_needs_small_answer demo_captcha_page
           {| auth := set_form (with_loading true (with_error "" (form (auth demo_captcha_page))))
                        (auth demo_captcha_page);
              inflight := Some {| c_login := true; c_username := "ann"; c_password := "";
                                  c_profile := profile_record (form (auth demo_captcha_page)) |} |}
           (∅ : gmap string string) ∅ d1 d1 None); [|reflexivity|reflexivity].
  apply (run_reachable [Edit FUsername "ann"; TypeCaptcha "7"] (init d3 d4) ∅ _ ∅); [apply reach_init|reflexivity].
Defined.

Lemma signup_profile_at_submit_witness :
  exists p', run (Submit d1 d1 :: [Edit FFullName "Bob"; ToggleMode] ++ [Respond (Ok JNull) d1 d1])
               demo_signup_page (∅ : gmap string string) =
             Some (p', saveProfile (profile_record (form (auth demo_signup_page))) ∅) /\
             isLogin (form (auth p')) = true /\ inflight p' = None.
Proof. apply signup_profile_at_submit; reflexivity. Defined.
End AuthForm.
