(* ===== verification/AuthClean.v ===== *)
(** * The captcha-free login page (src/src/Auth_clean.jsx)

    [Auth_clean.jsx] is [Auth.jsx] without the captcha: the same nine
    state variables, the same [handleSubmit] minus the captcha check and
    the new draw in [finally], and the same form minus the captcha row,
    under the heading "Career Prediction".  Nothing imports it.  This
    file models its page as [AuthForm] models the other: the form state
    and the request in flight, the inputs' value sanitisation
    ([AuthForm.input_value]), the browser's check of the email and age
    inputs ([AuthForm.fields_valid]), the button disabled while
    [loading], and the render.

    Theorems: submitting and receiving the answer is [Auth.clean_handleSubmit];
    the captcha page simulates this page step for step once its captcha
    is out of the way (every event but the captcha's own and a rejected
    login); the two pages render the same form. *)

From S2P Require Import Prelude JsString JsNumber JsValue Json Storage Survey Random Auth AuthForm.

Module AuthClean.
Import JsNumber JsValue Json Storage Auth AuthForm.
Local Open Scope js_scope.

Record clean_page := { cform : auth_form; cinflight : option captured }.

(** [useState] initialisers. *)
Definition clean_init : clean_page := {| cform := blank_form; cinflight := None |}.

Inductive clean_event :=
| CEdit (k : afield) (typed : string)
| CToggle
| CSubmit
| CRespond (r : js jsval).

Section Page.
Context {S : Type} `{WebStorage S}.

(** [handleSubmit] up to its [await]: [setError('')], [setLoading(true)]. *)
Definition clean_submit (f : auth_form) : auth_form * captured :=
  (with_loading true (with_error "" f),
   {| c_login := isLogin f; c_username := username f; c_password := password f;
      c_profile := profile_record f |}).

(** [handleSubmit] after its [await], on the form of that moment. *)
Definition clean_finish (q : captured) (r : js jsval) (f1 : auth_form) (st : S) :
    auth_form * S * option jsval :=
  let '(f2, st2, tok) :=
    match (if c_login q then data <- r ;; t <- get data "access_token" ;; Ok (f1, st, Some t)
           else _ <- r ;; Ok (with_isLogin true f1, saveProfile (c_profile q) st, None)) with
    | Ok x => x
    | Throw e =>
        match Survey.detail_message e with Ok m => (with_error m f1, st, None) | Throw _ => (f1, st, None) end
    end in
  (with_loading false f2, st2, tok).

Definition clean_step (e : clean_event) (p : clean_page) (st : S) :
    option (clean_page * S * option jsval) :=
  let f := cform p in
  match e with
  | CEdit k typed =>
      if field_shown (isLogin f) k then
        Some ({| cform := set_afield k (input_value k typed) f; cinflight := cinflight p |}, st, None)
      else None
  | CToggle => Some ({| cform := with_isLogin (negb (isLogin f)) f; cinflight := cinflight p |}, st, None)
  | CSubmit =>
      if loading f || negb (fields_valid f) then None
      else let '(f', q) := clean_submit f in Some ({| cform := f'; cinflight := Some q |}, st, None)
  | CRespond r =>
      match cinflight p with
      | Some q => let '(f', st', tok) := clean_finish q r f st in Some ({| cform := f'; cinflight := None |}, st', tok)
      | None => None
      end
  end.
End Page.

(** The render of [Auth_clean.jsx]. *)
Definition clean_view (f : auth_form) : auth_view :=
  {| v_title := "Career Prediction"; v_tagline := None; v_subtitle := subtitle f; v_fields := fields_view f;
     v_captcha := None; v_error := error_box f; v_button := button_label f; v_disabled := loading f;
     v_toggle := toggle_label f |}.

(** ** The captcha page seen without its captcha *)

Definition erase (p : page) : clean_page := {| cform := form (auth p); cinflight := inflight p |}.

(** The events of this page; the captcha's own have none. *)
Definition erase_event (e : ui_event) : option clean_event :=
  match e with
  | Edit k typed => Some (CEdit k typed)
  | ToggleMode => Some CToggle
  | Submit _ _ => Some CSubmit
  | Respond r _ _ => Some (CRespond r)
  | TypeCaptcha _ | NewCaptcha _ _ => None
  end.

(** A login the captcha turns away. *)
Definition captcha_rejects (e : ui_event) (p : page) : bool :=
  match e with
  | Submit _ _ => isLogin (form (auth p)) && negb (captcha_ok (auth p))
  | _ => false
  end.

(** What the form shows apart from the heading and the captcha. *)
Definition form_part (v : auth_view) :=
  (v_subtitle v, v_fields v, v_error v, v_button v, v_disabled v, v_toggle v).

(** ** Lemmas *)

Section Lemmas.
Context {S : Type} `{WebStorage S}.

(** The captcha page's second half is this page's, plus a new draw after
    a login. *)
Lemma finish_clean (q : captured) (r : js jsval) (a b : Random.rand) (s : auth_state) (st : S) :
  finish q r a b s st =
    let '(f, st', tok) := clean_finish q r (form s) st in
    ((if c_login q then regenerateCaptcha a b (set_form f s) else set_form f s), st', tok).
Proof.
  unfold finish, clean_finish.
  destruct (match _ with Ok x => x | Throw e => _ end) as [[f2 st2] tok]. reflexivity.
Qed.

Lemma form_regenerate (a b : Random.rand) (s : auth_state) : form (regenerateCaptcha a b s) = form s.
Proof. done. Qed.
End Lemmas.

(** ** Theorems *)

(** C12: The captcha page refines this page: every step it takes on an
    event other than the captcha's own and a login the captcha turns
    away is the corresponding step of the captcha-free page, from the
    same form and request, with the same store and token; the captcha's
    own events change neither the form, the request nor the store. *)
Theorem captcha_page_simulates_clean {S : Type} `{WebStorage S} (e : ui_event) (p p' : page) (st st' : S)
    (tok : option jsval) :
  step e p st = Some (p', st', tok) -> captcha_rejects e p = false ->
  match erase_event e with
  | Some ce => clean_step ce (erase p) st = Some (erase p', st', tok)
  | None => erase p' = erase p /\ st' = st /\ tok = None
  end.
Proof.
  intros Hs Hr. destruct e as [k typed|typed| |a b|a b|r a b]; simpl in Hs, Hr |- *.
  - destruct (field_shown _ _); [by injection Hs as <- <- <-|done].
  - destruct (isLogin _); [by injection Hs as <- <- <-|done].
  - by injection Hs as <- <- <-.
  - destruct (isLogin _); [by injection Hs as <- <- <-|done].
  - unfold constraints_ok in Hs. destruct (loading (form (auth p))); [done|].
    destruct (isLogin (form (auth p)) && _); [done|]. destruct (fields_valid (form (auth p))); [|done].
    destruct (if isLogin (form (auth p)) then _ else _); [|done]. simpl.
    unfold submit in Hs. rewrite Hr in Hs. by injection Hs as <- <- <-.
  - destruct (inflight p) as [q|]; [|done]. rewrite finish_clean in Hs.
    destruct (clean_finish q r (form (auth p)) st) as [[f st2] t]. injection Hs as <- <- <-.
    by destruct (c_login q).
Qed.

(** Both pages render the same form, field for field, from the same
    form state: the captcha page only adds its heading, tagline and, on
    login, the captcha row. *)
Theorem same_form_rendered (s : auth_state) :
  form_part (view s) = form_part (clean_view (form s)) /\
  v_captcha (clean_view (form s)) = None /\
  (v_captcha (view s) = None <-> isLogin (form s) = false).
Proof. unfold view, clean_view, form_part. simpl. split_and!; [done|done|]. by destruct (isLogin (form s)). Qed.

(** Submitting and receiving the answer, with nothing in between, is
    [Auth.clean_handleSubmit] on the same form and the same answer. *)
Theorem clean_submit_respond {S : Type} `{WebStorage S}
    (login signup : string -> string -> js jsval) (p : clean_page) (st : S) :
  cinflight p = None -> loading (cform p) = false -> fields_valid (cform p) = true ->
  let r := if isLogin (cform p) then login (username (cform p)) (password (cform p))
           else signup (username (cform p)) (password (cform p)) in
  match clean_step CSubmit p st with
  | Some (p1, st1, _) => clean_step (CRespond r) p1 st1
  | None => None
  end =
  let '(f', st', tok) := Auth.clean_handleSubmit login signup (cform p) st in
  Some ({| cform := f'; cinflight := None |}, st', tok).
Proof.
  intros Hi Hl Hv r. simpl. rewrite Hl, Hv. simpl. subst r.
  unfold clean_finish, Auth.clean_handleSubmit. destruct (isLogin (cform p)); simpl;
    repeat (case_match; simpl); reflexivity.
Qed.

(** ** Witnesses *)

Lemma captcha_page_simulates_clean_witness :
  clean_step (CRespond (Ok JNull)) (erase {| auth := auth demo_signup_page; inflight := Some
      {| c_login := false; c_username := "ann"; c_password := "pw"; c_profile := JNull |} |}) (∅ : gmap string string) =
    Some ({| cform := with_loading false (with_isLogin true (form (auth demo_signup_page))); cinflight := None |},
          saveProfile JNull ∅, None).
Proof.
  apply (captcha_page_simulates_clean (Respond (Ok JNull) d1 d1)
           {| auth := auth demo_signup_page; inflight := Some
                {| c_login := false; c_username := "ann"; c_password := "pw"; c_profile := JNull |} |}
           {| auth := set_form (with_loading false (with_isLogin true (form (auth demo_signup_page))))
                        (auth demo_signup_page); inflight := None |});
    reflexivity.
Defined.

Lemma clean_submit_respond_witness :
  match clean_step CSubmit {| cform := form (auth demo_signup_page); cinflight := None |} (∅ : gmap string string) with
  | Some (p1, st1, _) => clean_step (CRespond (Ok JNull)) p1 st1
  | None => None
  end =
  let '(f', st', tok) := Auth.clean_handleSubmit Auth.demo_login Auth.demo_signup (form (auth demo_signup_page)) ∅ in
  Some ({| cform := f'; cinflight := None |}, st', tok).
Proof. apply (clean_submit_respond Auth.demo_login Auth.demo_signup); reflexivity. Defined.
End AuthClean.
