(* ===== verification/DashboardView.v ===== *)
(** * What the dashboard shows (src/src/Dashboard.jsx)

    [Dashboard] and [Favorites] model the dashboard's handlers and its
    loading effect; this file models the page around them: the component
    state ([checked], [copied], [favorites], [showDetail],
    [surveyCount]), the mount effect that fills [favorites] and
    [surveyCount] from the store, and the render: the avatar and the
    welcome line, the two counters, one row per suggested career (its
    name, the Top Match tag of the first, the shown score, the favourite
    star), the favourites list, the reasoning, the roadmap with the
    ticked steps struck through, the Share button's label, and the
    detail modal.  Every child is rendered as React renders a value
    ([History.react_text]).

    The dashboard, the badge engine and the history view each count the
    user's surveys from the same ["surveyHistory"] slot.  Theorems: on a
    readable store the three counts agree; the dashboard's effect has no
    [try], so any unreadable favourites slot crashes the dashboard, while
    the badge engine loses every badge and the history view is
    unaffected; a ticked roadmap step is struck through; a survey sent
    twice by a double click on the survey page ([SurveyPage]) counts as
    two surveys. *)

From S2P Require Import Prelude JsString JsNumber JsValue Json Storage Favorites Badges Survey SurveyPage History Dashboard DetailModal.

Module DashboardView.
Import JsNumber JsValue Json Storage.
Local Open Scope js_scope.

Record dash_state := {
  checked : list bool;
  copied : bool;
  favorites : list jsval;
  showDetail : jsval;
  surveyCount : nat
}.

(** The [useState] initialisers: [checked], [copied], [favorites] above
    the early return, [showDetail] and [surveyCount] below it. *)
Definition mount (result : jsval) : dash_state :=
  {| checked := Dashboard.initial_checked result; copied := false; favorites := [];
     showDetail := JNull; surveyCount := 0 |}.

Section WithStorage.
Context {S : Type} `{WebStorage S}.

(** The [useEffect] on [userId]: [setFavorites] and [setSurveyCount]. *)
Definition effect (userId : string) (st : S) (s : dash_state) : js dash_state :=
  r <- Favorites.load_dashboard userId st ;;
  Ok {| checked := checked s; copied := copied s; favorites := r.1; showDetail := showDetail s;
        surveyCount := r.2 |}.
End WithStorage.

(** One suggested career: name, Top Match, shown score, favourite. *)
Definition career_row (userId : string) (favs : list jsval) (i : nat) (c : jsval) :
    js (string * bool * string * bool) :=
  name <- get c "career" ;; n <- History.react_text name ;;
  sc <- Dashboard.score_shown c ;; sc' <- History.react_text sc ;;
  fav <- Favorites.isFav userId favs c ;;
  Ok (n, Nat.eqb i 0, sc', fav).

(** One roadmap step and whether it is struck through ([checked[i]]). *)
Definition roadmap_row (checked : list bool) (i : nat) (step : jsval) : js (string * bool) :=
  t <- History.react_text step ;; Ok (t, nth i checked false).

Fixpoint imapM {A B} (f : nat -> A -> js B) (i : nat) (l : list A) : js (list B) :=
  match l with
  | [] => Ok []
  | x :: l' => y <- f i x ;; ys <- imapM f (S i) l' ;; Ok (y :: ys)
  end.

Record dash_view := {
  v_avatar : string;
  v_welcome : string;
  v_surveys : nat;
  v_favorites : nat;
  v_careers : list (string * bool * string * bool);
  v_favlist : list string;
  v_reasoning : string;
  v_roadmap : list (string * bool);
  v_share : string;
  v_modal : option (list string)
}.

(** The render; [None] when there is no [result]. *)
Definition view (userId : string) (result : jsval) (s : dash_state) : js (option dash_view) :=
  if negb (truthy result) then Ok None
  else
    av <- Dashboard.avatar_initial (JStr userId) ;;
    w <- History.react_text (or_else (JStr userId) (JStr "User")) ;;
    careers <- get result "careers" ;; cs <- as_array careers ;;
    rows <- imapM (career_row userId (favorites s)) 0 cs ;;
    fl <- mapM (fun f => c <- get f "career" ;; History.react_text c) (favorites s) ;;
    reasoning <- get result "reasoning" ;; r <- History.react_text reasoning ;;
    roadmap <- get result "roadmap" ;; steps <- as_array roadmap ;;
    rm <- imapM (roadmap_row (checked s)) 0 steps ;;
    md <- DetailModal.shown (showDetail s) ;;
    Ok (Some {| v_avatar := av; v_welcome := w; v_surveys := surveyCount s;
                v_favorites := length (favorites s); v_careers := rows; v_favlist := fl;
                v_reasoning := r; v_roadmap := rm; v_share := if copied s then "Copied!" else "Share";
                v_modal := md |}).

(** ** Theorems *)

(** C34: On a store whose history and favourites are arrays of objects, the
    dashboard's "Surveys Taken", the badge engine's count and the number
    of rows of the history view are the same number. *)
Theorem dashboard_counts_agree {S : Type} `{WebStorageLaws S} (u : string) (result : jsval) (st : S)
    (l fl : list jsval) :
  read_json "surveyHistory" "[]" st = Ok (JArr l) -> Forall (fun h => readable h = true) l ->
  read_json "favorites" "[]" st = Ok (JArr fl) -> Forall (fun f => readable f = true) fl ->
  exists s, effect u st (mount result) = Ok s /\
    surveyCount s = Badges.survey_count u l /\ surveyCount s = length (History.load_history u st).
Proof.
  intros Hh Hl Hf Hfl. unfold effect, Favorites.load_dashboard.
  rewrite Hf. cbn -[arr_filter read_json]. rewrite arr_filter_readable by done. cbn -[arr_filter read_json].
  rewrite Hh. cbn -[arr_filter]. rewrite arr_filter_readable by done. cbn -[History.load_history].
  eexists. split; [reflexivity|]. cbn -[History.load_history].
  rewrite (History.load_history_readable u st l Hh Hl). done.
Qed.

(** A ticked roadmap step is struck through and the others are not: the
    row of step [i] is struck exactly when [checked[i]] is true. *)
Theorem roadmap_struck (checked : list bool) (steps : list string) :
  imapM (roadmap_row checked) 0 (map JStr steps) =
    Ok (imap (fun i t => (t, nth i checked false)) steps).
Proof.
  assert (H : forall k, imapM (roadmap_row checked) k (map JStr steps) =
                        Ok (imap (fun i t => (t, nth (k + i) checked false)) steps)).
  { induction steps as [|t steps IH]; intros k; [done|]. simpl. rewrite IH. simpl.
    rewrite Nat.add_0_r. do 2 f_equal. apply imap_ext. intros i x _. simpl. by rewrite Nat.add_succ_r. }
  by rewrite H.
Qed.

(** Counting records of a user in a history read back in normal form
    counts them in the history written. *)
Lemma count_elem_norm (u : string) (l : list jsval) :
  Forall (fun h => wf h = true /\ readable h = true) l ->
  length (List.filter (field_is_b "user_id" u) (map elem_norm l)) =
  length (List.filter (field_is_b "user_id" u) l).
Proof.
  induction 1 as [|x l [Hw Hx] _ IH]; [done|]. cbn [map List.filter].
  replace (elem_norm x) with (jnorm x) by (by destruct x).
  rewrite field_is_b_jnorm by done. destruct (field_is_b _ _ x); simpl; by rewrite IH.
Qed.

Lemma history_record_owned (u date : string) (f : Survey.survey_form) (careers : jsval) :
  field_is_b "user_id" u (Survey.history_record (JStr u) date f careers) = true.
Proof. simpl. by rewrite String.eqb_refl. Qed.

(** A survey sent twice by a double click counts as two on the
    dashboard: after both answers, "Surveys Taken" is the user's earlier
    count plus two. *)
Theorem double_submit_counts_twice {S : Type} `{WebStorageLaws S} (token u d1 d2 : string)
    (s : Survey.survey_state) (st : S) (data careers result : jsval) (l fl : list jsval) :
  Survey.validate (Survey.form s) = "" -> get data "careers" = Ok careers ->
  read_json "surveyHistory" "[]" st = Ok (JArr l) -> wf (JArr l) = true ->
  Forall (fun h => readable h = true) l -> wf careers = true ->
  read_json "favorites" "[]" st = Ok (JArr fl) -> Forall (fun f => readable f = true) fl ->
  exists p' st' ds,
    SurveyPage.srun token (JStr u)
      [SurveyPage.SSubmit; SurveyPage.SSubmit; SurveyPage.SRespond 0 (Ok data) d1;
       SurveyPage.SRespond 0 (Ok data) d2] {| SurveyPage.sstate := s; SurveyPage.outstanding := [] |} st
      = Some (p', st', [data; data]) /\
    effect u st' (mount result) = Ok ds /\ surveyCount ds = Badges.survey_count u l + 2.
Proof.
  intros Hv Hc Hr Hwl Hl Hwc Hf Hfl.
  destruct (SurveyPage.double_submit_store token u d1 d2 s st data careers l Hv Hc Hr Hwl Hwc)
    as (p' & st' & Hrun & Hh & _ & Hframe).
  exists p', st'.
  enough (exists ds, effect u st' (mount result) = Ok ds /\ surveyCount ds = Badges.survey_count u l + 2)
    as (ds & Hds & Hn) by (exists ds; split_and!; done).
  unfold effect, Favorites.load_dashboard.
  rewrite Hframe, Hf by discriminate. cbn -[arr_filter read_json].
  rewrite arr_filter_readable by done. cbn -[arr_filter read_json].
  rewrite Hh, jnorm_arr. cbn -[arr_filter elem_norm].
  assert (Hall : Forall (fun h => wf h = true /\ readable h = true)
                   (l ++ [Survey.history_record (JStr u) d1 (Survey.form s) careers;
                          Survey.history_record (JStr u) d2 (Survey.form s) careers])).
  { apply Forall_app. split.
    - simpl in Hwl. apply Forall_forall. intros x Hx. split; [|by apply (proj1 (Forall_forall _ _) Hl)].
      apply (proj1 (forallb_forall _ _) Hwl). by apply list_elem_of_In.
    - repeat constructor; by apply SurveyPage.wf_history_record. }
  rewrite arr_filter_readable.
  2: { done. }
  2: { apply Forall_forall. intros y (x & -> & Hx)%list_elem_of_fmap.
       apply readable_elem_norm. by apply (proj1 (Forall_forall _ _) Hall). }
  cbn -[List.filter elem_norm]. eexists. split; [reflexivity|]. cbn -[List.filter elem_norm].
  rewrite count_elem_norm by done. unfold Badges.survey_count.
  rewrite List.filter_app, length_app. cbn [List.filter]. rewrite !history_record_owned. simpl. lia.
Qed.

(** A store whose favourites slot is not JSON. *)
Definition demo_broken : gmap string string :=
  <["favorites" := "{"]> (<["surveyHistory" := json_text "[{'user_id':'ann'}]"]> ∅).

(** C38: A favourites slot that cannot be read is read three ways: the
    dashboard's effect, which has no [try], throws the parse error; the
    badge engine's one [try] block drops every badge, [first_survey]
    included; and the history view, which does not read that slot,
    still shows each of the user's surveys. *)
Theorem dashboard_effect_unguarded {S : Type} `{WebStorageLaws S} (u : string) (st : S) (l : list jsval)
    (e : js_exn) (s : dash_state) :
  read_json "favorites" "[]" st = Throw e ->
  read_json "surveyHistory" "[]" st = Ok (JArr l) -> Forall (fun h => readable h = true) l ->
  effect u st s = Throw e /\ Badges.getEarnedBadges u st = [] /\
  length (History.load_history u st) = Badges.survey_count u l.
Proof.
  intros Hf Hh Hl. split_and!.
  - unfold effect, Favorites.load_dashboard. by rewrite Hf.
  - unfold Badges.getEarnedBadges, Badges.earned_keys. by rewrite Hh, Hf.
  - by rewrite (History.load_history_readable u st l Hh Hl).
Qed.

(** ** Witnesses *)

Definition demo_store : gmap string string :=
  <["favorites" := json_text "[{'userId':'ann','career':'Nurse'}]"]>
    (<["surveyHistory" := json_text "[{'user_id':'ann'},{'user_id':'bob'},{'user_id':'ann'}]"]> ∅).

Lemma dashboard_counts_agree_witness :
  exists s, effect "ann" demo_store (mount JNull) = Ok s /\
    surveyCount s = Badges.survey_count "ann" [JObj [("user_id", JStr "ann")]; JObj [("user_id", JStr "bob")];
                                              JObj [("user_id", JStr "ann")]] /\
    surveyCount s = length (History.load_history "ann" demo_store).
Proof.
  apply (dashboard_counts_agree "ann" JNull demo_store _ [JObj [("userId", JStr "ann"); ("career", JStr "Nurse")]]);
    try (vm_compute; reflexivity); repeat constructor.
Defined.
Lemma dashboard_effect_unguarded_witness :
  effect "ann" demo_broken (mount JNull) = Throw SyntaxError /\ Badges.getEarnedBadges "ann" demo_broken = [] /\
  length (History.load_history "ann" demo_broken) = Badges.survey_count "ann" [JObj [("user_id", JStr "ann")]].
Proof.
  apply (dashboard_effect_unguarded "ann" demo_broken); [vm_compute; reflexivity | vm_compute; reflexivity |].
  repeat constructor.
Defined.
End DashboardView.
