(* ===== verification/AppShell.v ===== *)
(** * The application as App.jsx composes it (src/src/App.jsx)

    App renders one child per page: [Auth] on ['auth] (and on ['profile]
    while [userId] is empty), [SurveyForm] on ['survey]; it passes
    [handleSetToken] to Auth and [onResult] to SurveyForm.  The children
    share [localStorage] with App (the linked components write the keys
    ["profile"] and ["surveyHistory"], App the key ["token"]).  Each child
    keeps its state while it stays mounted; a page change unmounts it, and
    a later mount starts a fresh instance, with a new captcha for Auth.
    A request a child sent keeps running after the child unmounts: its
    continuation still writes the store and calls the App's callback with
    the token and user id of the render that sent it, while its state
    updates go to the unmounted instance and are lost.

    [shell] is the state of the whole page: App's state and the store
    ([Session]), the mounted Auth instance ([AuthForm.page]) with the
    login requests of unmounted instances, the mounted SurveyForm
    instance's state and the survey requests out, each with the token,
    the user id and the instance that sent it.  [shell_step] performs one
    event of one component and then mounts and unmounts the children as
    the new page requires ([remount]); it takes the two doubles
    [Math.random] returns when the step mounts an Auth instance.

    Theorems: every run of the composed page is a run of App's state
    machine (so the session theorems of [Session] hold of the whole
    application); App's count of survey requests out is the number of
    requests the survey forms sent and not yet settled, and the
    children are mounted exactly on their pages; a survey answer goes to
    whoever holds the page when it arrives: the history files it under
    the sender, while the dashboard of the current session, another
    user's or a logged-out one, shows its result. *)

From S2P Require Import Prelude JsString JsNumber Random JsValue Json Storage Survey SurveyPage Auth Session AuthForm.

Module AppShell.
Import JsValue Storage.
Local Open Scope js_scope.

(** A survey request out: the form it was built from, and the [token]
    and [userId] props of the SurveyForm instance [q_inst] that sent it. *)
Record sreq := { q_form : Survey.survey_form; q_token : string; q_user : jsval; q_inst : nat }.

Section Shell.
Context {S : Type} `{WebStorage S}.

Record shell := {
  world : Session.app * S;
  auth_page : option AuthForm.page;
  stale_logins : list AuthForm.captured;
  survey : option Survey.survey_state;
  survey_inst : nat;
  requests : list sreq
}.

(** Which Auth element App renders: the one of ['auth] ([Some true]), the
    one of ['profile] without a user ([Some false]), or none. *)
Definition auth_slot (a : Session.app) : option bool :=
  match Session.page a with
  | Session.PAuth => Some true
  | Session.PProfile => if truthy (Session.userId a) then None else Some false
  | _ => None
  end.

Definition survey_shown (a : Session.app) : bool := bool_decide (Session.page a = Session.PSurvey).

(** React's reconciliation after App's state changed from [a0]: a child
    whose element changed is unmounted (its login request out is kept as
    a stale one) and the new one mounted fresh. *)
Definition remount (a0 : Session.app) (d : Random.rand * Random.rand) (sh : shell) : shell :=
  let a1 := (world sh).1 in
  let '(ap, stale) :=
    if decide (auth_slot a0 = auth_slot a1) then (auth_page sh, stale_logins sh)
    else ((if auth_slot a1 is Some _ then Some (AuthForm.init d.1 d.2) else None),
          stale_logins sh ++ match auth_page sh with Some p => option_list (AuthForm.inflight p) | None => [] end) in
  let '(sv, inst) :=
    if Bool.eqb (survey_shown a0) (survey_shown a1) then (survey sh, survey_inst sh)
    else if survey_shown a1 then (Some Survey.initial_state, Datatypes.S (survey_inst sh))
    else (None, survey_inst sh) in
  {| world := world sh; auth_page := ap; stale_logins := stale; survey := sv; survey_inst := inst;
     requests := requests sh |}.

(** [handleSetToken] called, or not, by an Auth continuation.  App keeps
    the token as a string; an [access_token] that is not one is outside
    the model. *)
Definition deliver (tok : option jsval) (w : Session.app * S) : option (Session.app * S) :=
  match tok with
  | None => Some w
  | Some (JStr t) => Session.step (Session.Login t) w
  | Some _ => None
  end.

(** The events of App's own controls and timers; the others are the
    children's callbacks. *)
Definition app_event_ok (e : Session.event) : bool :=
  match e with
  | Session.Login _ | Session.SubmitSurvey | Session.SurveyResult _ | Session.SurveyFail => false
  | _ => true
  end.

Inductive shell_event :=
| AuthUI (e : AuthForm.ui_event)                       (** an event of the mounted Auth *)
| StaleLogin (i : nat) (r : js jsval)                  (** a request of an unmounted Auth settles *)
| SurveyChange (n : Survey.field) (v : string)         (** an input of the mounted SurveyForm *)
| SurveySubmit                                         (** its submit *)
| SurveyAnswer (i : nat) (r : js jsval) (date : string) (** the [i]-th survey request settles *)
| AppUI (e : Session.event).                           (** App's own clicks and timers *)

Definition with_world (w : Session.app * S) (sh : shell) : shell :=
  {| world := w; auth_page := auth_page sh; stale_logins := stale_logins sh; survey := survey sh;
     survey_inst := survey_inst sh; requests := requests sh |}.

Definition with_auth (w : Session.app * S) (ap : option AuthForm.page) (stale : list AuthForm.captured)
    (sh : shell) : shell :=
  {| world := w; auth_page := ap; stale_logins := stale; survey := survey sh;
     survey_inst := survey_inst sh; requests := requests sh |}.

Definition with_survey (w : Session.app * S) (sv : option Survey.survey_state) (rs : list sreq)
    (sh : shell) : shell :=
  {| world := w; auth_page := auth_page sh; stale_logins := stale_logins sh; survey := sv;
     survey_inst := survey_inst sh; requests := rs |}.

(** One event of the composed page, then the reconciliation. *)
Definition shell_step (d : Random.rand * Random.rand) (e : shell_event) (sh : shell) : option shell :=
  let '(a, st) := world sh in
  match e with
  | AuthUI ue =>
      match auth_page sh with
      | Some p =>
          match AuthForm.step ue p st with
          | Some (p', st', tok) =>
              match deliver tok (a, st') with
              | Some w' => Some (remount a d (with_auth w' (Some p') (stale_logins sh) sh))
              | None => None
              end
          | None => None
          end
      | None => None
      end
  | StaleLogin i r =>
      match nth_error (stale_logins sh) i with
      | Some q =>
          let '(_, st', tok) := AuthForm.finish q r d.1 d.2 (AuthForm.auth (AuthForm.init d.1 d.2)) st in
          match deliver tok (a, st') with
          | Some w' => Some (remount a d (with_auth w' (auth_page sh) (delete i (stale_logins sh)) sh))
          | None => None
          end
      | None => None
      end
  | SurveyChange n v =>
      match survey sh with
      | Some s => if Session.loading a then None
                  else Some (remount a d (with_survey (a, st) (Some (Survey.handleChange n v s)) (requests sh) sh))
      | None => None
      end
  | SurveySubmit =>
      match survey sh with
      | Some s =>
          if Session.loading a then None
          else
            let '(s', q) := SurveyPage.ssubmit s in
            match q with
            | None => Some (remount a d (with_survey (a, st) (Some s') (requests sh) sh))
            | Some f =>
                match Session.step Session.SubmitSurvey (a, st) with
                | Some w' =>
                    Some (remount a d (with_survey w' (Some s')
                            (requests sh ++ [{| q_form := f; q_token := Session.token a;
                                                q_user := Session.userId a; q_inst := survey_inst sh |}]) sh))
                | None => None
                end
            end
      | None => None
      end
  | SurveyAnswer i r date =>
      match nth_error (requests sh) i with
      | Some q =>
          let live := match survey sh with Some _ => Nat.eqb (q_inst q) (survey_inst sh) | None => false end in
          let s := match survey sh with Some s => s | None => Survey.initial_state end in
          let '(s', st', calls) := SurveyPage.sfinish (q_token q) (q_user q) (q_form q) r date s st in
          let ev := match calls with data :: _ => Session.SurveyResult data | [] => Session.SurveyFail end in
          match Session.step ev (a, st') with
          | Some w' =>
              Some (remount a d (with_survey w' (if live then Some s' else survey sh) (delete i (requests sh)) sh))
          | None => None
          end
      | None => None
      end
  | AppUI ae =>
      if app_event_ok ae then
        match Session.step ae (a, st) with
        | Some w' => Some (remount a d (with_world w' sh))
        | None => None
        end
      else None
  end.

(** The first render: App's mount, and the child its page shows. *)
Definition shell_init (st : S) (t0 : Z) (d : Random.rand * Random.rand) : shell :=
  let w := Session.init st t0 in
  {| world := w;
     auth_page := if auth_slot w.1 is Some _ then Some (AuthForm.init d.1 d.2) else None;
     stale_logins := [];
     survey := if survey_shown w.1 then Some Survey.initial_state else None;
     survey_inst := 0;
     requests := [] |}.

Inductive reachable : shell -> Prop :=
| sreach_init (st : S) (t0 : Z) (d : Random.rand * Random.rand) : reachable (shell_init st t0 d)
| sreach_step (d : Random.rand * Random.rand) (e : shell_event) (sh sh' : shell) :
    reachable sh -> shell_step d e sh = Some sh' -> reachable sh'.

Fixpoint shell_run (evs : list (Random.rand * Random.rand * shell_event)) (sh : shell) : option shell :=
  match evs with
  | [] => Some sh
  | (d, e) :: evs' => match shell_step d e sh with Some sh' => shell_run evs' sh' | None => None end
  end.
End Shell.

(** ** The shared store *)

Section Store.
Context {S : Type} `{WebStorage S}.

(** A store [st'] that differs from [st] at most by one write to a key
    other than ["token"]. *)
Definition writes_other (st st' : S) : Prop :=
  st' = st \/ exists k v, k <> "token" /\ st' = setItem k v st.

Lemma writes_other_refl (st : S) : writes_other st st.
Proof. by left. Qed.

Lemma finish_store (q : AuthForm.captured) (r : js jsval) (a b : Random.rand) (s : Auth.auth_state) (st : S) :
  writes_other st (AuthForm.finish q r a b s st).1.2.
Proof.
  unfold AuthForm.finish, Auth.saveProfile, write_json.
  unfold writes_other. repeat case_match; simplify_eq/=; first [by left | right; eexists _, _; split; [| reflexivity]; discriminate].
Qed.

Lemma auth_step_store (e : AuthForm.ui_event) (p p' : AuthForm.page) (st st' : S) (tok : option jsval) :
  AuthForm.step e p st = Some (p', st', tok) -> writes_other st st'.
Proof.
  unfold AuthForm.step. destruct e; repeat case_match; intros; simplify_eq; try apply writes_other_refl.
  match goal with E : AuthForm.finish ?q ?r ?a ?b ?s st = _ |- _ =>
    pose proof (finish_store q r a b s st) as Hw; rewrite E in Hw; exact Hw end.
Qed.

Lemma finish_store_eq (q : AuthForm.captured) (r : js jsval) (a b : Random.rand) (s s' : Auth.auth_state)
    (st st' : S) (tok : option jsval) :
  AuthForm.finish q r a b s st = (s', st', tok) -> writes_other st st'.
Proof. intros E. pose proof (finish_store q r a b s st) as Hw. by rewrite E in Hw. Qed.

Lemma sfinish_store (tok : string) (uid : jsval) (f : Survey.survey_form) (r : js jsval) (date : string)
    (s : Survey.survey_state) (st : S) :
  writes_other st (SurveyPage.sfinish tok uid f r date s st).1.2.
Proof.
  unfold SurveyPage.sfinish, Survey.submit_try, write_json.
  unfold writes_other. repeat case_match; simplify_eq/=; first [by left | right; eexists _, _; split; [| reflexivity]; discriminate].
Qed.
Lemma sfinish_store_eq (tok : string) (uid : jsval) (f : Survey.survey_form) (r : js jsval) (date : string)
    (s s' : Survey.survey_state) (st st' : S) (calls : list jsval) :
  SurveyPage.sfinish tok uid f r date s st = (s', st', calls) -> writes_other st st'.
Proof. intros E. pose proof (sfinish_store tok uid f r date s st) as Hw. by rewrite E in Hw. Qed.
End Store.

(** ** App's runs *)

Section Refinement.
Context {S : Type} `{WebStorage S}.

Lemma world_remount (a0 : Session.app) (d : Random.rand * Random.rand) (sh : @shell S) :
  world (remount a0 d sh) = world sh.
Proof. unfold remount. by repeat case_match. Qed.

Lemma session_writes (a : Session.app) (st st' : S) :
  Session.reachable (a, st) -> writes_other st st' -> Session.reachable (a, st').
Proof. intros Hr [->|(k & v & Hk & ->)]; [done | by apply Session.reach_write]. Qed.

Lemma deliver_reachable (tok : option jsval) (w w' : Session.app * S) :
  Session.reachable w -> deliver tok w = Some w' -> Session.reachable w'.
Proof.
  intros Hr. destruct tok as [v|]; simpl; [|by intros [= <-]].
  destruct v; try done. intros Hs. by eapply Session.reach_step.
Qed.
(** App's count of requests out: a submit adds one, a settling removes
    one, nothing else changes it. *)
Definition out_after (e : Session.event) (n : nat) : nat :=
  match e with
  | Session.SubmitSurvey => Datatypes.S n
  | Session.SurveyResult _ | Session.SurveyFail => Nat.pred n
  | _ => n
  end.

Lemma surveysOut_commit (old : string) (a : Session.app) :
  Session.surveysOut (Session.commit old a) = Session.surveysOut a.
Proof. unfold Session.commit, Session.token_effects. by repeat case_match. Qed.

Lemma surveysOut_handle (e : Session.event) (a : Session.app) (st : S) :
  Session.surveysOut (Session.handle e a st).1 =
    match e with Session.SubmitSurvey => Datatypes.S (Session.surveysOut a) | _ => Session.surveysOut a end.
Proof. by destruct e. Qed.

Lemma step_surveysOut (e : Session.event) (a a' : Session.app) (st st' : S) :
  Session.step e (a, st) = Some (a', st') -> Session.surveysOut a' = out_after e (Session.surveysOut a).
Proof.
  unfold Session.step. destruct e; repeat case_match; intros; simplify_eq;
    rewrite ?surveysOut_commit; simpl in *; simplify_eq; rewrite ?surveysOut_commit; try done;
    match goal with
    | H : Session.surveysOut a = _ |- _ => by rewrite H
    | H : Session.handle ?e a st = (?a0, _) |- _ =>
        pose proof (surveysOut_handle e a st) as Hh; rewrite H in Hh; simpl in Hh; by rewrite Hh
    | H : _ = (?a0, _) |- Session.surveysOut ?a0 = _ =>
        unfold Session.handleSetToken, Session.handleLogout, Session.expire in H; by simplify_eq
    end.
Qed.

Lemma step_out (e : Session.event) (w w' : Session.app * S) :
  Session.step e w = Some w' -> Session.surveysOut w'.1 = out_after e (Session.surveysOut w.1).
Proof. destruct w, w'. apply step_surveysOut. Qed.

Lemma deliver_out (tok : option jsval) (w w' : Session.app * S) :
  deliver tok w = Some w' -> Session.surveysOut w'.1 = Session.surveysOut w.1.
Proof. destruct tok as [[]|]; simpl; try done; [apply step_out | by intros [= <-]]. Qed.

Definition mounted {A} (o : option A) : bool := if o is Some _ then true else false.

(** The children are mounted exactly where App's page renders them. *)
Definition mounts_ok (sh : @shell S) : Prop :=
  mounted (auth_page sh) = mounted (auth_slot (world sh).1) /\ mounted (survey sh) = survey_shown (world sh).1.

Lemma remount_mounts (a0 : Session.app) (d : Random.rand * Random.rand) (sh : @shell S) :
  mounted (auth_page sh) = mounted (auth_slot a0) -> mounted (survey sh) = survey_shown a0 ->
  mounts_ok (remount a0 d sh).
Proof.
  intros Ha Hs. unfold remount, mounts_ok. cbn [world auth_page survey].
  destruct (decide (auth_slot a0 = auth_slot (world sh).1)) as [E|E];
    destruct (survey_shown a0) eqn:E0, (survey_shown (world sh).1) eqn:E1; simpl;
    split; try congruence; by repeat case_match.
Qed.

Lemma requests_remount (a0 : Session.app) (d : Random.rand * Random.rand) (sh : @shell S) :
  requests (remount a0 d sh) = requests sh.
Proof. unfold remount. by repeat case_match. Qed.

Lemma surveysOut_effects (a : Session.app) : Session.surveysOut (Session.token_effects a) = Session.surveysOut a.
Proof. unfold Session.token_effects. by case_match. Qed.

Lemma length_delete_nth {A} (l : list A) (i : nat) (x : A) :
  nth_error l i = Some x -> length (delete i l) = length l - 1.
Proof.
  revert i. induction l as [|y l IH]; intros [|i] Hx; simpl in *; try done; [lia|].
  rewrite (IH i Hx). destruct l; [by destruct i|]. simpl. lia.
Qed.

Lemma out_after_app (e : Session.event) (n : nat) : app_event_ok e = true -> out_after e n = n.
Proof. by destruct e. Qed.

(** The shell's invariant: the mounts follow the page, and App counts
    exactly the survey requests out. *)
Lemma shell_ok_reachable (sh : @shell S) :
  reachable sh -> mounts_ok sh /\ Session.surveysOut (world sh).1 = length (requests sh).
Proof.
  induction 1 as [st t0 d|d e [[a st] ap stale sv inst rs] sh' _ [[IHa IHs] IHc] Hs].
  - unfold shell_init, mounts_ok. cbn [world auth_page survey requests fst].
    split; [split; by repeat case_match | apply surveysOut_effects].
  - unfold mounts_ok in IHa, IHs. cbn [world auth_page survey requests fst] in IHa, IHs, IHc.
    unfold shell_step in Hs. cbn [world auth_page stale_logins survey survey_inst requests] in Hs.
    destruct e; repeat case_match; simplify_eq; (split; [apply remount_mounts; cbn; by rewrite ?IHa, ?IHs|]);
      rewrite world_remount, requests_remount; cbn [world requests with_world with_auth with_survey].
    all: repeat match goal with
         | H : deliver _ _ = Some _ |- _ => apply deliver_out in H; simpl in H
         | H : Session.step _ _ = Some _ |- _ => apply step_out in H; simpl in H
         end.
    all: try congruence.
    all: repeat match goal with
         | H : nth_error _ _ = Some _ |- _ => rewrite (length_delete_nth _ _ _ H); clear H
         | H : app_event_ok ?e = true, H' : context [out_after ?e ?n] |- _ => rewrite (out_after_app e n H) in H'
         end.
    all: rewrite ?length_app; simpl in *; lia.
Qed.

(** ** Theorems *)

(** C15: Every run of the composed page is a run of App's state machine:
    the world of a reachable page is a reachable [Session] state, the
    children's writes to the shared store being writes to keys other
    than ["token"]; so the session theorems hold of the whole app. *)
Theorem shell_refines_session (sh : @shell S) : reachable sh -> Session.reachable (world sh).
Proof.
  induction 1 as [st t0 d|d e [[a st] ap stale sv inst rs] sh' _ IH Hs]; [apply Session.reach_init|].
  cbn [world] in IH. unfold shell_step in Hs. cbn [world auth_page stale_logins survey survey_inst requests] in Hs.
  destruct e; repeat case_match; simplify_eq; rewrite ?world_remount; cbn [world with_world with_auth with_survey];
    eauto using Session.reach_step, deliver_reachable, session_writes, auth_step_store, finish_store_eq,
      sfinish_store_eq.
Qed.
End Refinement.

Section Answers.
Context {S : Type} `{WebStorageLaws S}.

(** A reachable page with a survey request out has App count one. *)
Lemma out_positive (sh : @shell S) (i : nat) (q : sreq) :
  reachable sh -> nth_error (requests sh) i = Some q ->
  exists n, Session.surveysOut (world sh).1 = Datatypes.S n.
Proof.
  intros Hr Hq. destruct (shell_ok_reachable sh Hr) as [_ ->].
  destruct (requests sh) as [|x l]; [by destruct i|]. by exists (length l).
Qed.

(** A settled survey request: the history gains the sender's record, and
    App, whatever its page and session, runs [onResult] with the answer. *)
Lemma answer_world (sh : @shell S) (d : Random.rand * Random.rand) (i : nat) (q : sreq)
    (data careers : jsval) (date : string) (l : list jsval) :
  reachable sh -> nth_error (requests sh) i = Some q ->
  read_json "surveyHistory" "[]" (world sh).2 = Ok (JArr l) -> get data "careers" = Ok careers ->
  exists n sh', shell_step d (SurveyAnswer i (Ok data) date) sh = Some sh' /\
    world sh' = (Session.onResult data (Session.set_surveysOut n (world sh).1),
                 write_json "surveyHistory"
                   (JArr (l ++ [Survey.history_record (q_user q) date (q_form q) careers])) (world sh).2).
Proof.
  intros Hr Hq Hl Hc. destruct (out_positive sh i q Hr Hq) as [n Hn].
  destruct sh as [[a st] ap stale sv inst rs]. cbn in Hq, Hl, Hn.
  unfold shell_step. cbn [world auth_page stale_logins survey survey_inst requests]. rewrite Hq.
  rewrite (SurveyPage.sfinish_ok _ _ _ _ _ _ _ _ l Hc Hl). cbn. rewrite Hn.
  exists n. eexists. split; [reflexivity|]. rewrite world_remount. cbn.
  by rewrite Session.commit_same.
Qed.

(** C16: A survey answer goes to whoever holds the page when it arrives,
    not to the user who sent it: the history files the record under the
    sender ([q_user]), while App, logged in as anyone or no one, raises
    the overlay, and when its 1200 ms timer is the next to fire, shows
    the answer on the dashboard of the current session, keeping its
    token and user id. *)
Theorem answer_reaches_current_user (sh : @shell S) (d : Random.rand * Random.rand) (i : nat) (q : sreq)
    (data careers : jsval) (date : string) (l : list jsval) :
  reachable sh -> nth_error (requests sh) i = Some q ->
  read_json "surveyHistory" "[]" (world sh).2 = Ok (JArr l) -> get data "careers" = Ok careers ->
  Forall (fun y => (Session.clock (world sh).1 + Session.loading_ms < Session.due y)%Z) (Session.timers (world sh).1) ->
  exists sh' sh'', shell_step d (SurveyAnswer i (Ok data) date) sh = Some sh' /\
    shell_step d (AppUI Session.Fire) sh' = Some sh'' /\
    (world sh'').2 = write_json "surveyHistory"
                       (JArr (l ++ [Survey.history_record (q_user q) date (q_form q) careers])) (world sh).2 /\
    Session.page (world sh'').1 = Session.PDashboard /\ Session.result (world sh'').1 = data /\
    Session.token (world sh'').1 = Session.token (world sh).1 /\
    Session.userId (world sh'').1 = Session.userId (world sh).1.
Proof.
  intros Hr Hq Hl Hc Hts. destruct (answer_world sh d i q data careers date l Hr Hq Hl Hc) as (n & sh' & Hs & Hw).
  destruct (Session.answer_fire_dashboard data (Session.set_surveysOut n (world sh).1)
              (write_json "surveyHistory" (JArr (l ++ [Survey.history_record (q_user q) date (q_form q) careers]))
                 (world sh).2) Hts) as (a' & Hf & Hp & Hres & Ht & Hu & _).
  exists sh'. eexists. split; [exact Hs|]. unfold shell_step at 1. rewrite Hw. cbn [app_event_ok]. rewrite Hf.
  split; [reflexivity|]. rewrite world_remount. cbn [world with_world fst snd]. by split_and!.
Qed.

(** C17: An answer that arrives after a logout is still handled: the
    history gains the record of the user who sent the survey, and the
    logged-out page raises the loading overlay with a 1200 ms timer that
    will show the dashboard with the answer. *)
Theorem answer_after_logout (sh : @shell S) (d : Random.rand * Random.rand) (i : nat) (q : sreq)
    (data careers : jsval) (date : string) (l : list jsval) :
  reachable sh -> Session.token (world sh).1 = "" -> nth_error (requests sh) i = Some q ->
  read_json "surveyHistory" "[]" (world sh).2 = Ok (JArr l) -> get data "careers" = Ok careers ->
  exists sh', shell_step d (SurveyAnswer i (Ok data) date) sh = Some sh' /\
    (world sh').2 = write_json "surveyHistory"
                      (JArr (l ++ [Survey.history_record (q_user q) date (q_form q) careers])) (world sh).2 /\
    Session.token (world sh').1 = "" /\ Session.loading (world sh').1 = true /\
    In {| Session.due := Session.clock (world sh).1 + Session.loading_ms; Session.kind := Session.TLoading data |}
       (Session.timers (world sh').1).
Proof.
  intros Hr Ht Hq Hl Hc. destruct (answer_world sh d i q data careers date l Hr Hq Hl Hc) as (n & sh' & Hs & Hw).
  exists sh'. split; [exact Hs|]. rewrite Hw. cbn. split_and!; [done | done | done |].
  apply in_or_app. right. by left.
Qed.
End Answers.

(** ** Runs *)

Lemma shell_run_reachable {S : Type} `{WebStorage S} (evs : list (Random.rand * Random.rand * shell_event))
    (sh sh' : @shell S) :
  reachable sh -> shell_run evs sh = Some sh' -> reachable sh'.
Proof.
  revert sh. induction evs as [|[dd e] evs IH]; intros sh Hr; simpl; [by intros [= <-]|].
  destruct (shell_step dd e sh) as [sh1|] eqn:Hs; [|done]. apply IH. by eapply sreach_step.
Qed.

(** ** Examples *)

Definition store0 : gmap string string := ∅.
Definition dd : Random.rand * Random.rand := (AuthForm.d3, AuthForm.d4).

(** Mount on an empty store (the Auth page, captcha 3 + 4), sign in as
    [ann], fill in and send the survey, and log out before the answer. *)
Definition demo_events : list (Random.rand * Random.rand * shell_event) :=
  map (fun e => (dd, e))
    [AuthUI (AuthForm.Edit AuthForm.FUsername "ann"); AuthUI (AuthForm.Edit AuthForm.FPassword "pw");
     AuthUI (AuthForm.TypeCaptcha "7"); AuthUI (AuthForm.Submit AuthForm.d1 AuthForm.d1);
     AuthUI (AuthForm.Respond (Ok (JObj [("access_token", JStr Session.demo_token)])) AuthForm.d1 AuthForm.d1);
     SurveyChange Survey.FSkills "python"; SurveyChange Survey.FEducation "PhD";
     SurveyChange Survey.FInterests "data"; SurveyChange Survey.FPersonality "curious";
     SurveyChange Survey.FGoals "research"; SurveySubmit; AppUI Session.Logout].

Definition demo_out : @shell (gmap string string) := Eval vm_compute in
  match shell_run demo_events (shell_init store0 0 dd) with Some sh => sh | None => shell_init store0 0 dd end.

Definition demo_req : sreq := Eval vm_compute in
  match requests demo_out with q :: _ => q | [] => {| q_form := Survey.initial_form; q_token := "";
                                                          q_user := JNull; q_inst := 0 |} end.

Definition demo_data : jsval := JObj [("careers", JArr [JObj [("career", JStr "Data Scientist")]])].

Lemma demo_out_reachable : reachable demo_out.
Proof. apply (shell_run_reachable demo_events (shell_init store0 0 dd)); [apply sreach_init | reflexivity]. Qed.

(** The run signs in, sends the survey as [ann] and logs out with the
    request still out; its answer and the 1200 ms timer then show the
    dashboard with the answer to the logged-out page, and the history
    holds [ann]'s record. *)
Example late_answer_dashboard :
  Session.token (world demo_out).1 = "" /\ Session.page (world demo_out).1 = Session.PAuth /\
  q_user demo_req = JStr "ann" /\
  match shell_run [(dd, SurveyAnswer 0 (Ok demo_data) "d"); (dd, AppUI Session.Fire)] demo_out with
  | Some sh =>
      Session.page (world sh).1 = Session.PDashboard /\ Session.token (world sh).1 = "" /\
      Session.result (world sh).1 = demo_data /\ auth_page sh = None /\
      read_json "surveyHistory" "[]" (world sh).2 =
        Ok (JArr [Json.jnorm (Survey.history_record (JStr "ann") "d" (q_form demo_req)
                                (JArr [JObj [("career", JStr "Data Scientist")]]))])
  | None => False
  end.
Proof. vm_compute. split_and!; reflexivity. Qed.

(** A token for [bob]: its payload is [{"sub":"bob"}]. *)
Definition bob_token : string := "eyJhbGciOiJIUzI1NiJ9.eyJzdWIiOiJib2IifQ.sig".

(** [ann] sends the survey and logs out; [bob] signs in on the new Auth
    page before the answer arrives: [bob]'s dashboard then shows [ann]'s
    careers, while the history files them under [ann]. *)
Example result_crosses_users :
  match shell_run
          (map (fun e => (dd, e))
             [AuthUI (AuthForm.Edit AuthForm.FUsername "bob"); AuthUI (AuthForm.TypeCaptcha "7");
              AuthUI (AuthForm.Submit AuthForm.d1 AuthForm.d1);
              AuthUI (AuthForm.Respond (Ok (JObj [("access_token", JStr bob_token)])) AuthForm.d1 AuthForm.d1);
              SurveyAnswer 0 (Ok demo_data) "d"; AppUI Session.Fire])
          demo_out with
  | Some sh =>
      Session.userId (world sh).1 = JStr "bob" /\ Session.token (world sh).1 = bob_token /\
      Session.page (world sh).1 = Session.PDashboard /\ Session.result (world sh).1 = demo_data /\
      q_user demo_req = JStr "ann"
  | None => False
  end.
Proof. vm_compute. split_and!; reflexivity. Qed.

(** ** Witnesses *)

Lemma shell_refines_session_witness : Session.reachable (world demo_out).
Proof. apply shell_refines_session, demo_out_reachable. Defined.

(** [bob] signs in on the Auth page while [ann]'s request is out. *)
Definition demo_bob : @shell (gmap string string) := Eval vm_compute in
  match shell_run
          (map (fun e => (dd, e))
             [AuthUI (AuthForm.Edit AuthForm.FUsername "bob"); AuthUI (AuthForm.TypeCaptcha "7");
              AuthUI (AuthForm.Submit AuthForm.d1 AuthForm.d1);
              AuthUI (AuthForm.Respond (Ok (JObj [("access_token", JStr bob_token)])) AuthForm.d1 AuthForm.d1)])
          demo_out with
  | Some sh => sh | None => demo_out
  end.

Lemma demo_bob_reachable : reachable demo_bob.
Proof.
  apply (shell_run_reachable
           (map (fun e => (dd, e))
              [AuthUI (AuthForm.Edit AuthForm.FUsername "bob"); AuthUI (AuthForm.TypeCaptcha "7");
               AuthUI (AuthForm.Submit AuthForm.d1 AuthForm.d1);
               AuthUI (AuthForm.Respond (Ok (JObj [("access_token", JStr bob_token)])) AuthForm.d1 AuthForm.d1)])
           demo_out); [apply demo_out_reachable | reflexivity].
Qed.

Lemma answer_reaches_current_user_witness :
  Session.userId (world demo_bob).1 = JStr "bob" /\ q_user demo_req = JStr "ann" /\
  exists sh' sh'', shell_step dd (SurveyAnswer 0 (Ok demo_data) "d") demo_bob = Some sh' /\
    shell_step dd (AppUI Session.Fire) sh' = Some sh'' /\
    (world sh'').2 = write_json "surveyHistory"
                       (JArr ([] ++ [Survey.history_record (q_user demo_req) "d" (q_form demo_req)
                                       (JArr [JObj [("career", JStr "Data Scientist")]])])) (world demo_bob).2 /\
    Session.page (world sh'').1 = Session.PDashboard /\ Session.result (world sh'').1 = demo_data /\
    Session.token (world sh'').1 = Session.token (world demo_bob).1 /\
    Session.userId (world sh'').1 = Session.userId (world demo_bob).1.
Proof.
  split_and!; [reflexivity | reflexivity |].
  apply (answer_reaches_current_user demo_bob dd 0 demo_req demo_data);
    [apply demo_bob_reachable | reflexivity | reflexivity | reflexivity | vm_compute; repeat constructor].
Defined.

Lemma answer_after_logout_witness :
  exists sh', shell_step dd (SurveyAnswer 0 (Ok demo_data) "d") demo_out = Some sh' /\
    (world sh').2 = write_json "surveyHistory"
                      (JArr ([] ++ [Survey.history_record (q_user demo_req) "d" (q_form demo_req)
                                      (JArr [JObj [("career", JStr "Data Scientist")]])])) (world demo_out).2 /\
    Session.token (world sh').1 = "" /\ Session.loading (world sh').1 = true /\
    In {| Session.due := Session.clock (world demo_out).1 + Session.loading_ms;
          Session.kind := Session.TLoading demo_data |} (Session.timers (world sh').1).
Proof.
  apply (answer_after_logout demo_out dd 0 demo_req demo_data); [apply demo_out_reachable | reflexivity..].
Defined.
End AppShell.
